(** * HidDescCTC: the HID report descriptor compiler of [HidDescriptor.hpp]

    A shallow embedding of [hid::detail::compile] and of the helpers it is
    built from (the integer codec, the encoding maps, [findEncoding] and
    [hid::error::ErrorWriter]), followed by the properties proved on it.

    Conventions of the embedding:
    - a [char] of the source is its byte value as a [Z] in [0, 256); every
      comparison [compile] makes is against an ASCII constant or between two
      bytes, so the signedness of [char] is not observable there (the [int]
      that [strFindChr] is given is [#] in the program, and is taken from
      0..127 where the function is specified on its own);
    - [uint32_t] values are [Z] with the reduction modulo [2^32] written out;
      [int32_t], [int16_t] and [int8_t] conversions are the two's complement
      ones, and so is the negation of an [int32_t]: at [-2^31], where the
      language defines no result, it is the wrap-around of compiled code
      (the result the language defines is stated apart, see
      [absVal_defined]);
    - [size_t] values (cursor, token lengths, counters, positions) are [nat]:
      none of them can exceed the source length, so they never wrap;
    - a writer is the list of the bytes passed to [write], in order;
    - a character pointer into the source is an index into the byte list, a
      C string of a table is a Rocq [string], and an [Encoding] pointer into a
      map is the list of the entries from there to [endOfMap]. *)

From Stdlib Require Import ZArith List String Ascii Bool Arith Lia.
Import ListNotations.
Open Scope Z_scope.

(** ** Characters and strings *)

Definition ch (a : ascii) : Z := Z.of_nat (nat_of_ascii a).

Definition bytes_of (s : string) : list Z := map ch (list_ascii_of_string s).

(** ** namespace hid::error *)

Inductive EMessage : Set :=
  | E_NO_ERROR
  | E_Internal_error
  | E_Unexpected_token
  | E_Number_overflow
  | E_Parameter_value_out_of_range
  | E_Unexpected_end_of_source
  | E_Expected_valid_parameter_name_here
  | E_Invalid_item_name
  | E_Missing_argument
  | E_Missing_named_UsagePage
  | E_Missing_UsagePage
  | E_Missing_Usage_for_Collection
  | E_This_item_has_no_arguments
  | E_Unexpected_item_name_character
  | E_Invalid_argument_name
  | E_Argument_value_out_of_range
  | E_Argument_index_out_of_range
  | E_Unexpected_argument_name_character
  | E_Unexpected_unit_name_character
  | E_Invalid_unit_system_name
  | E_Invalid_unit_name
  | E_Invalid_unit_exponent
  | E_Unexpected_EndCollection
  | E_Unexpected_DelimiterClose
  | E_Unexpected_Delimiter_value
  | E_Missing_EndCollection
  | E_Missing_DelimiterClose
  | E_Missing_ReportSize
  | E_Missing_ReportCount
  | E_Invalid_hex_value
  | E_Invalid_numeric_value
  | E_Negative_numbers_are_not_allowed_in_this_context.

Scheme Equality for EMessage.

Record Info : Set := mkInfo {
  character : nat;
  line : nat;
  column : nat;
  message : EMessage
}.

(** [Info::Info()] *)
Definition Info_default : Info := mkInfo 0 0 0 E_NO_ERROR.

Definition is_utf8_lead (c : Z) : bool := negb (Z.land c 0xC0 =? 0x80).

(** The body of the [for] loop of [ErrorWriter::at], run [k] times from
    index [n]. *)
Fixpoint at_loop (source : list Z) (k n : nat) (error : Info) : Info :=
  match k with
  | O => error
  | S k' =>
    let c := nth n source 0 in
    let error :=
      if is_utf8_lead c
      then mkInfo (S (character error)) (line error) (column error) (message error)
      else error in
    let error :=
      if c =? ch "010" then
        mkInfo (character error) (S (line error)) 1%nat (message error)
      else if negb (c =? ch "013") then
        if is_utf8_lead c
        then mkInfo (character error) (line error) (S (column error)) (message error)
        else error
      else error in
    at_loop source k' (S n) error
  end.

(** [ErrorWriter::at]: the new content of the referenced [Info] and the
    returned [bool]. *)
Definition ErrorWriter_at (source : list Z) (error : Info) (pos : nat)
    (msg : EMessage) : Info * bool :=
  let error := mkInfo 0 (line error) (column error) (message error) in
  let error := mkInfo (character error) 1 (column error) (message error) in
  let error := mkInfo (character error) (line error) 1 (message error) in
  let error := mkInfo (character error) (line error) (column error) msg in
  (at_loop source pos 0 error, false).

(** ** namespace hid::detail *)

(** [struct Token]: [start] is the offset of the first byte in the source. *)
Module Token.
Record Token : Set := mk {
  start : nat;
  length : nat
}.
End Token.
Abbreviation Token := Token.Token.

Definition toLower (val : Z) : Z :=
  if (ch "A" <=? val) && (val <=? ch "Z") then val - ch "A" + ch "a" else val.

Definition toUpper (val : Z) : Z :=
  if (ch "a" <=? val) && (val <=? ch "z") then val - ch "a" + ch "A" else val.

(** [strFindChr]: position of the first [c] in [str], or [-1].  [str] is
    the text in front of the terminating NUL, its bytes held as 0..255; the
    source compares a [char] with the [int] [c], which is this comparison
    for [c] in 0..127 whether [char] is signed or not (the program passes
    [#] only). *)
Fixpoint strFindChr_from (str : list Z) (c : Z) (res : Z) : Z :=
  match str with
  | [] => -1
  | x :: str' => if x =? c then res else strFindChr_from str' c (res + 1)
  end.

Definition strFindChr (str : list Z) (c : Z) : Z := strFindChr_from str c 0.

(** [equals] on two C strings *)
Fixpoint equals_str (str1 str2 : list Z) : bool :=
  match str1, str2 with
  | [], [] => true
  | [], _ :: _ => false
  | _ :: _, [] => false
  | x :: str1', y :: str2' => if x =? y then equals_str str1' str2' else false
  end.

(** [startWidthIN]: [str] is the source from the token start on.  The C
    function computes a [size_t] match length and returns it as a [bool]. *)
Fixpoint startWidthIN_len (prefix : list Z) (len : nat) (str : list Z)
    (n res : nat) : nat :=
  match prefix with
  | [] => res
  | p :: prefix' =>
    if (toUpper p =? toUpper (hd 0 str)) && (n <? len)%nat
    then startWidthIN_len prefix' len (tl str) (S n) (S res)
    else if (len <=? n)%nat then res else 0%nat
  end.

Definition startWidthIN (prefix : list Z) (len : nat) (str : list Z) : bool :=
  negb (startWidthIN_len prefix len str 0 0 =? 0)%nat.

(** [equals] on a token and a C string: [left] holds the bytes of the
    token.  When the loop stops on a mismatch the final comparison is the
    one that failed. *)
Fixpoint equals (left right : list Z) : bool :=
  match left, right with
  | [], [] => true
  | [], _ :: _ => false
  | _ :: _, [] => false
  | l :: left', r :: right' =>
    if l =? r then equals left' right' else l =? r
  end.

(** [equalsI] on a token and a C string *)
Fixpoint equalsI (left right : list Z) : bool :=
  match left, right with
  | [], [] => true
  | [], _ :: _ => false
  | _ :: _, [] => false
  | l :: left', r :: right' =>
    if toUpper l =? toUpper r then equalsI left' right'
    else toUpper l =? toUpper r
  end.

Definition isComment (val : Z) : bool :=
  (val =? ch "#") || (val =? ch ";").

Definition isWhitespace (val : Z) : bool :=
  (val =? ch " ") || (val =? ch "009") || (val =? ch "010") ||
  (val =? ch "011") || (val =? ch "012") || (val =? ch "013").

Definition isAlpha (val : Z) : bool :=
  ((ch "a" <=? val) && (val <=? ch "z")) || ((ch "A" <=? val) && (val <=? ch "Z")).

Definition isDigit (val : Z) : bool :=
  (ch "0" <=? val) && (val <=? ch "9").

Definition isHexDigit (val : Z) : bool :=
  isDigit val || ((ch "a" <=? val) && (val <=? ch "f")) ||
  ((ch "A" <=? val) && (val <=? ch "F")).

Definition isItemChar (val : Z) : bool :=
  (val =? ch "_") || isAlpha val.

Definition isArgChar (val : Z) : bool :=
  (val =? ch "_") || isAlpha val || isDigit val.

(** A [Param] of a [Source] and the result of [Source::find]. *)
Record Param : Set := mkParam {
  param_name : string;
  param_value : Z
}.

Record ParamMatch : Set := mkParamMatch {
  pm_value : Z;
  valid : bool
}.

(** [Source::find]: the parameters are searched from the last one added. *)
Fixpoint find_from_last (token : list Z) (rparams : list Param) : ParamMatch :=
  match rparams with
  | [] => mkParamMatch 0 false
  | p :: rest =>
    if equals token (bytes_of (param_name p))
    then mkParamMatch (param_value p) true
    else find_from_last token rest
  end.

Definition Source_find (params : list Param) (token : list Z) : ParamMatch :=
  find_from_last token (rev params).

(** *** Fixed-width integers *)

Definition u32 (z : Z) : Z := z mod 2 ^ 32.
Definition i32 (z : Z) : Z := (z + 2 ^ 31) mod 2 ^ 32 - 2 ^ 31.
Definition i16 (z : Z) : Z := (z + 2 ^ 15) mod 2 ^ 16 - 2 ^ 15.
Definition i8 (z : Z) : Z := (z + 2 ^ 7) mod 2 ^ 8 - 2 ^ 7.

(** [~x] on a [uint32_t] *)
Definition not32 (x : Z) : Z := Z.lxor (u32 x) 0xFFFFFFFF.

(** *** Integer codec *)

(** [encodedSize(uint32_t)] *)
Definition encodedSize_u32 (val : Z) : nat :=
  if val >? 0xFFFF then 4%nat
  else if val >? 0xFF then 2%nat
  else 1%nat.

(** [(val < 0) ? -val - 1 : val] on [int32_t]; the negation and the
    subtraction are reduced to 32 bits.  This is the result of the language
    for every [val] but [-2^31], where [-val] does not fit [int32_t] and the
    language defines none: there it is the result of compiled code, which
    wraps around (see [absVal_defined]). *)
Definition absVal_i32 (val : Z) : Z :=
  if val <? 0 then i32 (i32 (- val) - 1) else val.

(** [encodedSize(int32_t)] *)
Definition encodedSize_i32 (val : Z) : nat :=
  let absVal := absVal_i32 val in
  if absVal >? 0x7FFF then 4%nat
  else if absVal >? 0x7F then 2%nat
  else 1%nat.

Definition encodedSizeValue (val : nat) : Z :=
  match val with
  | 4%nat => 3
  | 2%nat => 2
  | 1%nat => 1
  | _ => 0
  end.

(** [Writer::write] of a writer that keeps what it is given. *)
Definition write (out : list Z) (val : Z) : list Z := out ++ [val mod 256].

(** [encodeValue]: the writer after the call and the returned length. *)
Definition encodeValue (out : list Z) (val : Z) (len : nat) : list Z * nat :=
  let out := write out (Z.land val 0xFF) in
  let out :=
    if (1 <? len)%nat then
      let out := write out (Z.land (Z.shiftr val 8) 0xFF) in
      if (2 <? len)%nat then
        let out := write out (Z.land (Z.shiftr val 16) 0xFF) in
        write out (Z.land (Z.shiftr val 24) 0xFF)
      else out
    else out in
  (out, len).

Definition encodeUnsigned (out : list Z) (val : Z) : list Z * nat :=
  encodeValue out val (encodedSize_u32 val).

Definition encodeSigned (out : list Z) (val : Z) : list Z * nat :=
  let absVal := absVal_i32 val in
  if absVal >? 0x7FFF then encodeValue out (u32 val) 4
  else if absVal >? 0x7F then encodeValue out (u32 (i16 val)) 2
  else encodeValue out (u32 (i8 val)) 1.

(** *** Usage types and encodings *)

Definition UT_NONE : Z := 0.
Definition UT_LC : Z := Z.shiftl 1 0.
Definition UT_OOC : Z := Z.shiftl 1 1.
Definition UT_MC : Z := Z.shiftl 1 2.
Definition UT_OSC : Z := Z.shiftl 1 3.
Definition UT_RTC : Z := Z.shiftl 1 4.
Definition UT_SEL : Z := Z.shiftl 1 5.
Definition UT_SV : Z := Z.shiftl 1 6.
Definition UT_SF : Z := Z.shiftl 1 7.
Definition UT_DV : Z := Z.shiftl 1 8.
Definition UT_DF : Z := Z.shiftl 1 9.
Definition UT_NARY : Z := Z.shiftl 1 10.
Definition UT_CA : Z := Z.shiftl 1 11.
Definition UT_CL : Z := Z.shiftl 1 12.
Definition UT_CP : Z := Z.shiftl 1 13.
Definition UT_US : Z := Z.shiftl 1 14.
Definition UT_UM : Z := Z.shiftl 1 15.
Definition UT_BB : Z := Z.shiftl 1 16.

Local Infix ".|" := Z.lor (at level 50, left associativity).

(** Identities of the encoding maps.  The source compares [Encoding::arg]
    pointers against these arrays by address; here every array has a tag. *)
Inductive TableId : Set :=
  | numArg
  | signedNumArg
  | clearArg
  | usageArg
  | endCol
  | colArgMap
  | inputArgMap
  | outputFeatureArgMap
  | unitExpMap
  | unitMap
  | unitSystemMap
  | delimMap
  | genDeskMap
  | simCtrlMap
  | vrCtrlMap
  | sportCtrlMap
  | gameCtrlMap
  | genDevCtrlMap
  | keyboardMap
  | ledMap
  | buttonMap
  | ordinalMap
  | telDevMap
  | consumerMap
  | digitizersMap
  | hapticsMap
  | pidMap
  | unicodeMap
  | eyeHeadMap
  | auxDisplayMap
  | sensorMap
  | medInstMap
  | brailleMap
  | lightMap
  | monitorMap
  | monitorEnumMap
  | vesaCtrlMap
  | pwrDevMap
  | barcodeMap
  | weightDevMap
  | msrMap
  | cameraCtrlMap
  | arcadeMap
  | fidoMap
  | usagePageMap
  | itemMap.

Scheme Equality for TableId.

(** [struct Encoding]; a [NULL] [arg] is [None]. *)
Module Encoding.
Record Encoding : Set := mk {
  name : string;
  value : Z;
  type : Z;
  arg : option TableId
}.
End Encoding.
Abbreviation Encoding := Encoding.Encoding.

(** The two-argument and the two three-argument constructors of
    [Encoding]. *)
Definition enc (n : string) (v : Z) : Encoding := Encoding.mk n v UT_NONE None.
Definition encA (n : string) (v : Z) (a : TableId) : Encoding :=
  Encoding.mk n v UT_NONE (Some a).
Definition encT (n : string) (v : Z) (t : Z) : Encoding := Encoding.mk n v t None.

Definition numArg_tbl : list Encoding := [].

Definition signedNumArg_tbl : list Encoding := [].

Definition clearArg_tbl : list Encoding := [].

Definition usageArg_tbl : list Encoding := [].

Definition endCol_tbl : list Encoding := [].

Definition colArgMap_tbl : list Encoding := [
  enc  "Physical"      0x00;
  enc  "Application"   0x01;
  enc  "Logical"       0x02;
  enc  "Report"        0x03;
  enc  "NamedArray"    0x04;
  enc  "UsageSwitch"   0x05;
  enc  "UsageModifier" 0x06
].

Definition inputArgMap_tbl : list Encoding := [
  encA "Data"  0x001 clearArg;
  enc  "Cnst"  0x001;
  encA "Ary"   0x002 clearArg;
  enc  "Var"   0x002;
  encA "Abs"   0x004 clearArg;
  enc  "Rel"   0x004;
  encA "NWarp" 0x008 clearArg;
  enc  "Warp"  0x008;
  encA "Lin"   0x010 clearArg;
  enc  "NLin"  0x010;
  encA "Prf"   0x020 clearArg;
  enc  "NPrf"  0x020;
  encA "NNull" 0x040 clearArg;
  enc  "Null"  0x040;
  encA "Bit"   0x100 clearArg;
  enc  "Buf"   0x100
].

Definition outputFeatureArgMap_tbl : list Encoding := [
  encA "Data"  0x001 clearArg;
  enc  "Cnst"  0x001;
  encA "Ary"   0x002 clearArg;
  enc  "Var"   0x002;
  encA "Abs"   0x004 clearArg;
  enc  "Rel"   0x004;
  encA "NWarp" 0x008 clearArg;
  enc  "Warp"  0x008;
  encA "Lin"   0x010 clearArg;
  enc  "NLin"  0x010;
  encA "Prf"   0x020 clearArg;
  enc  "NPrf"  0x020;
  encA "NNull" 0x040 clearArg;
  enc  "Null"  0x040;
  encA "NVol"  0x080 clearArg;
  enc  "Vol"   0x080;
  encA "Bit"   0x100 clearArg;
  enc  "Buf"   0x100
].

Definition unitExpMap_tbl : list Encoding := [
  enc  "0"  0x0;
  enc  "1"  0x1;
  enc  "2"  0x2;
  enc  "3"  0x3;
  enc  "4"  0x4;
  enc  "5"  0x5;
  enc  "6"  0x6;
  enc  "7"  0x7;
  enc  "-8" 0x8;
  enc  "-7" 0x9;
  enc  "-6" 0xA;
  enc  "-5" 0xB;
  enc  "-4" 0xC;
  enc  "-3" 0xD;
  enc  "-2" 0xE;
  enc  "-1" 0xF
].

Definition unitMap_tbl : list Encoding := [
  encA "Length"   1 unitExpMap;
  encA "Mass"     2 unitExpMap;
  encA "Time"     3 unitExpMap;
  encA "Temp"     4 unitExpMap;
  encA "Current"  5 unitExpMap;
  encA "Luminous" 6 unitExpMap
].

Definition unitSystemMap_tbl : list Encoding := [
  encA "None"   0x00 unitMap;
  encA "SiLin"  0x01 unitMap;
  encA "SiRot"  0x02 unitMap;
  encA "EngLin" 0x03 unitMap;
  encA "EngRot" 0x04 unitMap
].

Definition delimMap_tbl : list Encoding := [
  enc  "Close" 0x00;
  enc  "Open"  0x01
].

Definition genDeskMap_tbl : list Encoding := [
  encT "Pointer"                               0x01 UT_CP;
  encT "Mouse"                                 0x02 UT_CA;
  encT "Joystick"                              0x04 UT_CA;
  encT "Gamepad"                               0x05 UT_CA;
  encT "Keyboard"                              0x06 UT_CA;
  encT "Keypad"                                0x07 UT_CA;
  encT "MultiAxisController"                   0x08 UT_CA;
  encT "TabletPcSystemControls"                0x09 UT_CA;
  encT "WaterCoolingDevice"                    0x0A UT_CA;
  encT "ComputerChassisDevice"                 0x0B UT_CA;
  encT "WirelessRadioControls"                 0x0C UT_CA;
  encT "PortableDeviceControl"                 0x0D UT_CA;
  encT "SystemMultiAxisController"             0x0E UT_CA;
  encT "SpatialController"                     0x0F UT_CA;
  encT "AssistiveControl"                      0x10 UT_CA;
  encT "DeviceDock"                            0x11 UT_CA;
  encT "DockableDevice"                        0x12 UT_CA;
  encT "X"                                     0x30 UT_DV;
  encT "Y"                                     0x31 UT_DV;
  encT "Z"                                     0x32 UT_DV;
  encT "Rx"                                    0x33 UT_DV;
  encT "Ry"                                    0x34 UT_DV;
  encT "Rz"                                    0x35 UT_DV;
  encT "Slider"                                0x36 UT_DV;
  encT "Dial"                                  0x37 UT_DV;
  encT "Wheel"                                 0x38 UT_DV;
  encT "HatSwitch"                             0x39 UT_DV;
  encT "CountedBuffer"                         0x3A UT_CL;
  encT "ByteCount"                             0x3B UT_DV;
  encT "MotionWakeup"                          0x3C (UT_OSC .| UT_DF);
  encT "Start"                                 0x3D UT_OOC;
  encT "Select"                                0x3E UT_OOC;
  encT "Vx"                                    0x40 UT_DV;
  encT "Vy"                                    0x41 UT_DV;
  encT "Vz"                                    0x42 UT_DV;
  encT "Vbrx"                                  0x43 UT_DV;
  encT "Vbry"                                  0x44 UT_DV;
  encT "Vbrz"                                  0x45 UT_DV;
  encT "Vno"                                   0x46 UT_DV;
  encT "FeatureNotification"                   0x47 (UT_DV .| UT_DF);
  encT "ResolutionMultiplier"                  0x48 UT_DV;
  encT "Qx"                                    0x49 UT_DV;
  encT "Qy"                                    0x4A UT_DV;
  encT "Qz"                                    0x4B UT_DV;
  encT "Qw"                                    0x4C UT_DV;
  encT "SystemControl"                         0x80 UT_CA;
  encT "SystemPowerDown"                       0x81 UT_OSC;
  encT "SystemSleep"                           0x82 UT_OSC;
  encT "SystemWakeUp"                          0x83 UT_OSC;
  encT "SystemContextMenu"                     0x84 UT_OSC;
  encT "SystemMainMenu"                        0x85 UT_OSC;
  encT "SystemAppMenu"                         0x86 UT_OSC;
  encT "SystemMenuHelp"                        0x87 UT_OSC;
  encT "SystemMenuExit"                        0x88 UT_OSC;
  encT "SystemMenuSelect"                      0x89 UT_OSC;
  encT "SystemMenuRight"                       0x8A UT_RTC;
  encT "SystemMenuLeft"                        0x8B UT_RTC;
  encT "SystemMenuUp"                          0x8C UT_RTC;
  encT "SystemMenuDown"                        0x8D UT_RTC;
  encT "SystemColdRestart"                     0x8E UT_OSC;
  encT "SystemWarmRestart"                     0x8F UT_OSC;
  encT "DpadUp"                                0x90 UT_OOC;
  encT "DpadDown"                              0x91 UT_OOC;
  encT "DpadRight"                             0x92 UT_OOC;
  encT "DpadLeft"                              0x93 UT_OOC;
  encT "IndexTrigger"                          0x94 (UT_MC .| UT_DV);
  encT "PalmTrigger"                           0x95 (UT_MC .| UT_DV);
  encT "Thumbstick"                            0x96 UT_CP;
  encT "SystemFunctionShift"                   0x97 UT_MC;
  encT "SystemFunctionShiftLock"               0x98 UT_OOC;
  encT "SystemFunctionShiftLockIndicator"      0x99 UT_DV;
  encT "SystemDismissNotification"             0x9A UT_OSC;
  encT "SystemDoNotDisturb"                    0x9B UT_OOC;
  encT "SystemDock"                            0xA0 UT_OSC;
  encT "SystemUndock"                          0xA1 UT_OSC;
  encT "SystemSetup"                           0xA2 UT_OSC;
  encT "SystemBreak"                           0xA3 UT_OSC;
  encT "SystemDebuggerBreak"                   0xA4 UT_OSC;
  encT "ApplicationBreak"                      0xA5 UT_OSC;
  encT "ApplicationDebuggerBreak"              0xA6 UT_OSC;
  encT "SystemSpeakerMute"                     0xA7 UT_OSC;
  encT "SystemHibernate"                       0xA8 UT_OSC;
  encT "SystemDisplayInvert"                   0xB0 UT_OSC;
  encT "SystemDisplayInternal"                 0xB1 UT_OSC;
  encT "SystemDisplayExternal"                 0xB2 UT_OSC;
  encT "SystemDisplayBoth"                     0xB3 UT_OSC;
  encT "SystemDisplayDual"                     0xB4 UT_OSC;
  encT "SystemDisplayToggleIntExtMode"         0xB5 UT_OSC;
  encT "SystemDisplaySwapPrimarySecondary"     0xB6 UT_OSC;
  encT "SystemDisplayToggleLcdAutoscale"       0xB7 UT_OSC;
  encT "SensorZone"                            0xC0 UT_CL;
  encT "Rpm"                                   0xC1 UT_DV;
  encT "CoolantLevel"                          0xC2 UT_DV;
  encT "CoolantCriticalLevel"                  0xC3 UT_SV;
  encT "CoolantPump"                           0xC4 UT_US;
  encT "ChassisEnclosure"                      0xC5 UT_CL;
  encT "WirelessRadioButton"                   0xC6 UT_OOC;
  encT "WirelessRadioLed"                      0xC7 UT_OOC;
  encT "WirelessRadioSliderSwitch"             0xC8 UT_OOC;
  encT "SystemDisplayRotationLockButton"       0xC9 UT_OOC;
  encT "SystemDisplayRotationLockSliderSwitch" 0xCA UT_OOC;
  encT "ControlEnable"                         0xCB UT_DF;
  encT "DockableDeviceUniqueId"                0xD0 UT_DV;
  encT "DockableDeviceVendorId"                0xD1 UT_DV;
  encT "DockableDevicePrimaryUsagePage"        0xD2 UT_DV;
  encT "DockableDevicePrimaryUsageId"          0xD3 UT_DV;
  encT "DockableDeviceDockingState"            0xD4 UT_DF;
  encT "DockableDeviceDisplayOcclusion"        0xD5 UT_CL;
  encT "DockableDeviceObjectType"              0xD6 UT_DV
].

Definition simCtrlMap_tbl : list Encoding := [
  encT "FlighSimulationDevice"       0x01 UT_CA;
  encT "AutomobileSimulationDevice"  0x02 UT_CA;
  encT "TankSimulationDevice"        0x03 UT_CA;
  encT "SpaceshipSimulationDevice"   0x04 UT_CA;
  encT "SubmarineSimulationDevice"   0x05 UT_CA;
  encT "SailingSimulationDevice"     0x06 UT_CA;
  encT "MotorcycleSimiulationDevice" 0x07 UT_CA;
  encT "SportsSimulationDevice"      0x08 UT_CA;
  encT "AirplaneSimulationDevice"    0x09 UT_CA;
  encT "HelicopterSimulationDevice"  0x0A UT_CA;
  encT "MagicCarpetSimulationDevice" 0x0B UT_CA;
  encT "BicycleSimulationDevice"     0x0C UT_CA;
  encT "FlightControlStick"          0x20 UT_CA;
  encT "FlightStick"                 0x21 UT_CA;
  encT "CyclicControl"               0x22 UT_CP;
  encT "CyclicTrim"                  0x23 UT_CP;
  encT "FlightYoke"                  0x24 UT_CA;
  encT "TrackControl"                0x25 UT_CP;
  encT "Aileron"                     0xB0 UT_DV;
  encT "AileronTrim"                 0xB1 UT_DV;
  encT "AntiTorqueControl"           0xB2 UT_DV;
  encT "AutopilotEnable"             0xB3 UT_OOC;
  encT "ChaffRelease"                0xB4 UT_OSC;
  encT "CollectiveControl"           0xB5 UT_DV;
  encT "DiveBrake"                   0xB6 UT_DV;
  encT "ElectronicCountermeasures"   0xB7 UT_OOC;
  encT "Elevator"                    0xB8 UT_DV;
  encT "ElevatorTrim"                0xB9 UT_DV;
  encT "Rudder"                      0xBA UT_DV;
  encT "Throttle"                    0xBB UT_DV;
  encT "FlightCommunications"        0xBC UT_OOC;
  encT "FlareRelease"                0xBD UT_OSC;
  encT "LandingGear"                 0xBE UT_OOC;
  encT "ToeBrake"                    0xBF UT_DV;
  encT "Trigger"                     0xC0 UT_MC;
  encT "WeaponsArm"                  0xC1 UT_OOC;
  encT "WeaponsSelect"               0xC2 UT_OSC;
  encT "WingFlaps"                   0xC3 UT_DV;
  encT "Accelerator"                 0xC4 UT_DV;
  encT "Brake"                       0xC5 UT_DV;
  encT "Clutch"                      0xC6 UT_DV;
  encT "Shifter"                     0xC7 UT_DV;
  encT "Steering"                    0xC8 UT_DV;
  encT "TurretDirection"             0xC9 UT_DV;
  encT "BarrelElevation"             0xCA UT_DV;
  encT "DivePlane"                   0xCB UT_DV;
  encT "Ballast"                     0xCC UT_DV;
  encT "BicycleCrank"                0xCD UT_DV;
  encT "HandleBars"                  0xCE UT_DV;
  encT "FrontBrake"                  0xCF UT_DV;
  encT "RearBrake"                   0xD0 UT_DV
].

Definition vrCtrlMap_tbl : list Encoding := [
  encT "Belt"               0x01 UT_CA;
  encT "BodySuit"           0x02 UT_CA;
  encT "Flexor"             0x03 UT_CP;
  encT "Grove"              0x04 UT_CA;
  encT "HeadTracker"        0x05 UT_CP;
  encT "HeadMountedDisplay" 0x06 UT_CA;
  encT "HandTracker"        0x07 UT_CA;
  encT "Oculometer"         0x08 UT_CA;
  encT "Vest"               0x09 UT_CA;
  encT "AnimatronicDevice"  0x0A UT_CA;
  encT "StereoEnable"       0x20 UT_OOC;
  encT "DisplayEnable"      0x21 UT_OOC
].

Definition sportCtrlMap_tbl : list Encoding := [
  encT "BaseballBat"        0x01 UT_CA;
  encT "GolfBat"            0x02 UT_CA;
  encT "RowingMachine"      0x03 UT_CA;
  encT "Treadmill"          0x04 UT_CA;
  encT "Oar"                0x30 UT_DV;
  encT "Slope"              0x31 UT_DV;
  encT "Rate"               0x32 UT_DV;
  encT "StickSpeed"         0x33 UT_DV;
  encT "StickFaceAngle"     0x34 UT_DV;
  encT "StickHeelToe"       0x35 UT_DV;
  encT "StickFollowThrough" 0x36 UT_DV;
  encT "StickTempo"         0x37 UT_DV;
  encT "StickType"          0x38 UT_NARY;
  encT "StickHeight"        0x39 UT_DV;
  encT "Putter"             0x50 UT_SEL;
  encT "Iron1"              0x51 UT_SEL;
  encT "Iron2"              0x52 UT_SEL;
  encT "Iron3"              0x53 UT_SEL;
  encT "Iron4"              0x54 UT_SEL;
  encT "Iron5"              0x55 UT_SEL;
  encT "Iron6"              0x56 UT_SEL;
  encT "Iron7"              0x57 UT_SEL;
  encT "Iron8"              0x58 UT_SEL;
  encT "Iron9"              0x59 UT_SEL;
  encT "Iron10"             0x5A UT_SEL;
  encT "Iron11"             0x5B UT_SEL;
  encT "SandWedge"          0x5C UT_SEL;
  encT "LoftWedge"          0x5D UT_SEL;
  encT "PowerWedge"         0x5E UT_SEL;
  encT "Wood1"              0x5F UT_SEL;
  encT "Wood3"              0x60 UT_SEL;
  encT "Wood5"              0x61 UT_SEL;
  encT "Wood7"              0x62 UT_SEL;
  encT "Wood9"              0x63 UT_SEL
].

Definition gameCtrlMap_tbl : list Encoding := [
  encT "3dGameController"     0x01 UT_CA;
  encT "PinballDevice"        0x02 UT_CA;
  encT "GunDevice"            0x03 UT_CA;
  encT "PointOfView"          0x20 UT_CP;
  encT "TurnRightLeft"        0x21 UT_DV;
  encT "PitchForwardBackward" 0x22 UT_DV;
  encT "RollRightLeft"        0x23 UT_DV;
  encT "MoveRightLeft"        0x24 UT_DV;
  encT "MoveForwardBackward"  0x25 UT_DV;
  encT "MoveUpDown"           0x26 UT_DV;
  encT "LeanRightLeft"        0x27 UT_DV;
  encT "LeanForwardBackward"  0x28 UT_DV;
  encT "HeightOfPov"          0x29 UT_DV;
  encT "Flipper"              0x2A UT_MC;
  encT "SecondaryFlipper"     0x2B UT_MC;
  encT "Bump"                 0x2C UT_MC;
  encT "NewGame"              0x2D UT_OSC;
  encT "ShootBall"            0x2E UT_OSC;
  encT "Player"               0x2F UT_OSC;
  encT "GunBolt"              0x30 UT_OOC;
  encT "GunClip"              0x31 UT_OOC;
  encT "GunSelector"          0x32 UT_NARY;
  encT "GunSingleShot"        0x33 UT_SEL;
  encT "GunBurst"             0x34 UT_SEL;
  encT "GunAutomatic"         0x35 UT_SEL;
  encT "GunSafety"            0x36 UT_OOC;
  encT "GamepadFireJump"      0x37 UT_CL;
  encT "GamepadTrigger"       0x39 UT_CL;
  encT "FormFittingGamepad"   0x3A UT_SF
].

Definition genDevCtrlMap_tbl : list Encoding := [
  encT "BackgroundNonuserControls"    0x06 UT_CA;
  encT "BatteryStrength"              0x20 UT_DV;
  encT "WirelessChannel"              0x21 UT_DV;
  encT "WirelessId"                   0x22 UT_DV;
  encT "DiscoverWirelessControl"      0x23 UT_OSC;
  encT "SecurityCodeCharacterEntered" 0x24 UT_OSC;
  encT "SecurityCodeCharacterErased"  0x25 UT_OSC;
  encT "SecurityCodeCleared"          0x26 UT_OSC;
  encT "SequenceId"                   0x27 UT_DV;
  encT "SequenceIdReset"              0x28 UT_DF;
  encT "RfSignalStrength"             0x29 UT_DV;
  encT "SofwareVersion"               0x2A UT_CL;
  encT "ProtocolVersion"              0x2B UT_CL;
  encT "HardwareVersion"              0x2C UT_CL;
  encT "Major"                        0x2D UT_SV;
  encT "Minor"                        0x2E UT_SV;
  encT "Revision"                     0x2F UT_SV;
  encT "Handedness"                   0x30 UT_NARY;
  encT "EitherHand"                   0x31 UT_SEL;
  encT "LeftHand"                     0x32 UT_SEL;
  encT "RightHand"                    0x33 UT_SEL;
  encT "BothHands"                    0x34 UT_SEL;
  encT "GripPoseOffset"               0x40 UT_CP;
  encT "PointerPoseOffset"            0x41 UT_CP
].

Definition keyboardMap_tbl : list Encoding := [
  encT "NoEventIndicated"            0x00 UT_SEL;
  encT "KeyboardErrorRollOver"       0x01 UT_SEL;
  encT "KeyboardPostFail"            0x02 UT_SEL;
  encT "KeyboardErrorUndefined"      0x03 UT_SEL;
  encT "KeyboardA"                   0x04 UT_SEL;
  encT "KeyboardB"                   0x05 UT_SEL;
  encT "KeyboardC"                   0x06 UT_SEL;
  encT "KeyboardD"                   0x07 UT_SEL;
  encT "KeyboardE"                   0x08 UT_SEL;
  encT "KeyboardF"                   0x09 UT_SEL;
  encT "KeyboardG"                   0x0A UT_SEL;
  encT "KeyboardH"                   0x0B UT_SEL;
  encT "KeyboardI"                   0x0C UT_SEL;
  encT "KeyboardJ"                   0x0D UT_SEL;
  encT "KeyboardK"                   0x0E UT_SEL;
  encT "KeyboardL"                   0x0F UT_SEL;
  encT "KeyboardM"                   0x10 UT_SEL;
  encT "KeyboardN"                   0x11 UT_SEL;
  encT "KeyboardO"                   0x12 UT_SEL;
  encT "KeyboardP"                   0x13 UT_SEL;
  encT "KeyboardQ"                   0x14 UT_SEL;
  encT "KeyboardR"                   0x15 UT_SEL;
  encT "KeyboardS"                   0x16 UT_SEL;
  encT "KeyboardT"                   0x17 UT_SEL;
  encT "KeyboardU"                   0x18 UT_SEL;
  encT "KeyboardV"                   0x19 UT_SEL;
  encT "KeyboardW"                   0x1A UT_SEL;
  encT "KeyboardX"                   0x1B UT_SEL;
  encT "KeyboardY"                   0x1C UT_SEL;
  encT "KeyboardZ"                   0x1D UT_SEL;
  encT "Keyboard1"                   0x1E UT_SEL;
  encT "Keyboard2"                   0x1F UT_SEL;
  encT "Keyboard3"                   0x20 UT_SEL;
  encT "Keyboard4"                   0x21 UT_SEL;
  encT "Keyboard5"                   0x22 UT_SEL;
  encT "Keyboard6"                   0x23 UT_SEL;
  encT "Keyboard7"                   0x24 UT_SEL;
  encT "Keyboard8"                   0x25 UT_SEL;
  encT "Keyboard9"                   0x26 UT_SEL;
  encT "Keyboard0"                   0x27 UT_SEL;
  encT "KeyboardEnter"               0x28 UT_SEL;
  encT "KeyboardEscape"              0x29 UT_SEL;
  encT "KeyboardDelete"              0x2A UT_SEL;
  encT "KeyboardTab"                 0x2B UT_SEL;
  encT "KeyboardSpacebar"            0x2C UT_SEL;
  encT "KeyboardMinus"               0x2D UT_SEL;
  encT "KeyboardEqual"               0x2E UT_SEL;
  encT "KeyboardCurlyBracketOpen"    0x2F UT_SEL;
  encT "KeyboardCurlyBracketClose"   0x30 UT_SEL;
  encT "KeyboardBackslash"           0x31 UT_SEL;
  encT "KeyboardNonUsHash"           0x32 UT_SEL;
  encT "KeyboardColon"               0x33 UT_SEL;
  encT "KeyboardApostrophe"          0x34 UT_SEL;
  encT "KeyboardGraveAccentAndTilde" 0x35 UT_SEL;
  encT "KeyboardComma"               0x36 UT_SEL;
  encT "KeyboardPoint"               0x37 UT_SEL;
  encT "KeyboardSlash"               0x38 UT_SEL;
  encT "KeyboardCapsLock"            0x39 UT_SEL;
  encT "KeyboardF1"                  0x3A UT_SEL;
  encT "KeyboardF2"                  0x3B UT_SEL;
  encT "KeyboardF3"                  0x3C UT_SEL;
  encT "KeyboardF4"                  0x3D UT_SEL;
  encT "KeyboardF5"                  0x3E UT_SEL;
  encT "KeyboardF6"                  0x3F UT_SEL;
  encT "KeyboardF7"                  0x40 UT_SEL;
  encT "KeyboardF8"                  0x41 UT_SEL;
  encT "KeyboardF9"                  0x42 UT_SEL;
  encT "KeyboardF10"                 0x43 UT_SEL;
  encT "KeyboardF11"                 0x44 UT_SEL;
  encT "KeyboardF12"                 0x45 UT_SEL;
  encT "KeyboardPrintScreen"         0x46 UT_SEL;
  encT "KeyboardScrollLock"          0x47 UT_SEL;
  encT "KeyboardPause"               0x48 UT_SEL;
  encT "KeyboardInsert"              0x49 UT_SEL;
  encT "KeyboardHome"                0x4A UT_SEL;
  encT "KeyboardPageUp"              0x4B UT_SEL;
  encT "KeyboardDeleteForward"       0x4C UT_SEL;
  encT "KeyboardEnd"                 0x4D UT_SEL;
  encT "KeyboardPageDown"            0x4E UT_SEL;
  encT "KeyboardRightArrow"          0x4F UT_SEL;
  encT "KeyboardLeftArrow"           0x50 UT_SEL;
  encT "KeyboardDownArrow"           0x51 UT_SEL;
  encT "KeyboardUpArrow"             0x52 UT_SEL;
  encT "KeypadNumLockAndClear"       0x53 UT_SEL;
  encT "KeypadDivide"                0x54 UT_SEL;
  encT "KeypadMultiply"              0x55 UT_SEL;
  encT "KeypadMinus"                 0x56 UT_SEL;
  encT "KeypadPlus"                  0x57 UT_SEL;
  encT "KeypadEnter"                 0x58 UT_SEL;
  encT "Keypad1"                     0x59 UT_SEL;
  encT "Keypad2"                     0x5A UT_SEL;
  encT "Keypad3"                     0x5B UT_SEL;
  encT "Keypad4"                     0x5C UT_SEL;
  encT "Keypad5"                     0x5D UT_SEL;
  encT "Keypad6"                     0x5E UT_SEL;
  encT "Keypad7"                     0x5F UT_SEL;
  encT "Keypad8"                     0x60 UT_SEL;
  encT "Keypad9"                     0x61 UT_SEL;
  encT "Keypad0"                     0x62 UT_SEL;
  encT "KeypadPoint"                 0x63 UT_SEL;
  encT "KeyboardNonUsBackslash"      0x64 UT_SEL;
  encT "KeyboardApplication"         0x65 UT_SEL;
  encT "KeyboardPower"               0x66 UT_SEL;
  encT "KeyboardEqual"               0x67 UT_SEL;
  encT "KeyboardF13"                 0x68 UT_SEL;
  encT "KeyboardF14"                 0x69 UT_SEL;
  encT "KeyboardF15"                 0x6A UT_SEL;
  encT "KeyboardF16"                 0x6B UT_SEL;
  encT "KeyboardF17"                 0x6C UT_SEL;
  encT "KeyboardF18"                 0x6D UT_SEL;
  encT "KeyboardF19"                 0x6E UT_SEL;
  encT "KeyboardF20"                 0x6F UT_SEL;
  encT "KeyboardF21"                 0x70 UT_SEL;
  encT "KeyboardF22"                 0x71 UT_SEL;
  encT "KeyboardF23"                 0x72 UT_SEL;
  encT "KeyboardF24"                 0x73 UT_SEL;
  encT "KeyboardExecute"             0x74 UT_SEL;
  encT "KeyboardHelp"                0x75 UT_SEL;
  encT "KeyboardMenu"                0x76 UT_SEL;
  encT "KeyboardSelect"              0x77 UT_SEL;
  encT "KeyboardStop"                0x78 UT_SEL;
  encT "KeyboardAgain"               0x79 UT_SEL;
  encT "KeyboardUndo"                0x7A UT_SEL;
  encT "KeyboardCut"                 0x7B UT_SEL;
  encT "KeyboardCopy"                0x7C UT_SEL;
  encT "KeyboardPaste"               0x7D UT_SEL;
  encT "KeyboardFind"                0x7E UT_SEL;
  encT "KeyboardMute"                0x7F UT_SEL;
  encT "KeyboardVolumeUp"            0x80 UT_SEL;
  encT "KeyboardVolumeDown"          0x81 UT_SEL;
  encT "KeyboardLockingCapsLock"     0x82 UT_SEL;
  encT "KeyboardLockingNumLock"      0x83 UT_SEL;
  encT "KeyboardLockingScrollLock"   0x84 UT_SEL;
  encT "KeypadComma"                 0x85 UT_SEL;
  encT "KeypadEqual"                 0x86 UT_SEL;
  encT "KeyboardInternational1"      0x87 UT_SEL;
  encT "KeyboardInternational2"      0x88 UT_SEL;
  encT "KeyboardInternational3"      0x89 UT_SEL;
  encT "KeyboardInternational4"      0x8A UT_SEL;
  encT "KeyboardInternational5"      0x8B UT_SEL;
  encT "KeyboardInternational6"      0x8C UT_SEL;
  encT "KeyboardInternational7"      0x8D UT_SEL;
  encT "KeyboardInternational8"      0x8E UT_SEL;
  encT "KeyboardInternational9"      0x8F UT_SEL;
  encT "KeyboardLang1"               0x90 UT_SEL;
  encT "KeyboardLang2"               0x91 UT_SEL;
  encT "KeyboardLang3"               0x92 UT_SEL;
  encT "KeyboardLang4"               0x93 UT_SEL;
  encT "KeyboardLang5"               0x94 UT_SEL;
  encT "KeyboardLang6"               0x95 UT_SEL;
  encT "KeyboardLang7"               0x96 UT_SEL;
  encT "KeyboardLang8"               0x97 UT_SEL;
  encT "KeyboardLang9"               0x98 UT_SEL;
  encT "KeyboardAlternateErase"      0x99 UT_SEL;
  encT "KeyboardSysReqAttention"     0x9A UT_SEL;
  encT "KeyboardCancel"              0x9B UT_SEL;
  encT "KeyboardClear"               0x9C UT_SEL;
  encT "KeyboardPrior"               0x9D UT_SEL;
  encT "KeyboardReturn"              0x9E UT_SEL;
  encT "KeyboardSeparator"           0x9F UT_SEL;
  encT "KeyboardOut"                 0xA0 UT_SEL;
  encT "KeyboardOper"                0xA1 UT_SEL;
  encT "KeyboardClearAgain"          0xA2 UT_SEL;
  encT "KeyboardCrSelProps"          0xA3 UT_SEL;
  encT "KeyboardExSel"               0xA4 UT_SEL;
  encT "Keypad00"                    0xB0 UT_SEL;
  encT "Keypad000"                   0xB1 UT_SEL;
  encT "ThausendsSeparator"          0xB2 UT_SEL;
  encT "DecimalSeparator"            0xB3 UT_SEL;
  encT "CurrencyUnit"                0xB4 UT_SEL;
  encT "CurrencySubUnit"             0xB5 UT_SEL;
  encT "KeypadBracketOpen"           0xB6 UT_SEL;
  encT "KeypadBracketClose"          0xB7 UT_SEL;
  encT "KeypadCurlyBracketOpen"      0xB8 UT_SEL;
  encT "KeypadCurlyBracketClose"     0xB9 UT_SEL;
  encT "KeypadTab"                   0xBA UT_SEL;
  encT "KeypadBackspace"             0xBB UT_SEL;
  encT "KeypadA"                     0xBC UT_SEL;
  encT "KeypadB"                     0xBD UT_SEL;
  encT "KeypadC"                     0xBE UT_SEL;
  encT "KeypadD"                     0xBF UT_SEL;
  encT "KeypadE"                     0xC0 UT_SEL;
  encT "KeypadF"                     0xC1 UT_SEL;
  encT "KeypadXor"                   0xC2 UT_SEL;
  encT "KeypadCircumflex"            0xC3 UT_SEL;
  encT "KeypadPercent"               0xC4 UT_SEL;
  encT "KeypadLessThan"              0xC5 UT_SEL;
  encT "KeypadGreaterThan"           0xC6 UT_SEL;
  encT "KeypadAmpersand"             0xC7 UT_SEL;
  encT "KeypadDoubleAmpersand"       0xC8 UT_SEL;
  encT "KeypadVerticalBar"           0xC9 UT_SEL;
  encT "KeypadDoubleVerticalBar"     0xCA UT_SEL;
  encT "KeypadColon"                 0xCB UT_SEL;
  encT "KeypadHash"                  0xCC UT_SEL;
  encT "KeypadSpace"                 0xCD UT_SEL;
  encT "KeypadAtSign"                0xCE UT_SEL;
  encT "KeypadExclamationMark"       0xCF UT_SEL;
  encT "KeypadMemoryStore"           0xD0 UT_SEL;
  encT "KeypadMemoryRecall"          0xD1 UT_SEL;
  encT "KeypadMemoryClear"           0xD2 UT_SEL;
  encT "KeypadMemoryAdd"             0xD3 UT_SEL;
  encT "KeypadMemorySubtract"        0xD4 UT_SEL;
  encT "KeypadMemoryMultiply"        0xD5 UT_SEL;
  encT "KeypadMemoryDivide"          0xD6 UT_SEL;
  encT "KeypadPlusMinus"             0xD7 UT_SEL;
  encT "KeypadClear"                 0xD8 UT_SEL;
  encT "KeypadClearEntry"            0xD9 UT_SEL;
  encT "KeypadBinary"                0xDA UT_SEL;
  encT "KeypadOctal"                 0xDB UT_SEL;
  encT "KeypadDecimal"               0xDC UT_SEL;
  encT "KeypadHexadecimal"           0xDD UT_SEL;
  encT "KeyboardLeftControl"         0xE0 UT_DV;
  encT "KeyboardLeftShift"           0xE1 UT_DV;
  encT "KeyboardLeftAlt"             0xE2 UT_DV;
  encT "KeyboardLeftGui"             0xE3 UT_DV;
  encT "KeyboardRightControl"        0xE4 UT_DV;
  encT "KeyboardRightShift"          0xE5 UT_DV;
  encT "KeyboardRightAlt"            0xE6 UT_DV;
  encT "KeyboardRightGui"            0xE7 UT_DV
].

Definition ledMap_tbl : list Encoding := [
  encT "NumLock"                 0x01 UT_OOC;
  encT "CapsLock"                0x02 UT_OOC;
  encT "ScrollLock"              0x03 UT_OOC;
  encT "Compose"                 0x04 UT_OOC;
  encT "Kana"                    0x05 UT_OOC;
  encT "Power"                   0x06 UT_OOC;
  encT "Shift"                   0x07 UT_OOC;
  encT "DoNotDisturb"            0x08 UT_OOC;
  encT "Mute"                    0x09 UT_OOC;
  encT "ToneEnable"              0x0A UT_OOC;
  encT "HighCutFilter"           0x0B UT_OOC;
  encT "LowCutFitler"            0x0C UT_OOC;
  encT "EqualizerEnable"         0x0D UT_OOC;
  encT "SoundFieldOn"            0x0E UT_OOC;
  encT "SurroundOn"              0x0F UT_OOC;
  encT "Repeat"                  0x10 UT_OOC;
  encT "Stereo"                  0x11 UT_OOC;
  encT "SamplingRateDetect"      0x12 UT_OOC;
  encT "Spinning"                0x13 UT_OOC;
  encT "Cav"                     0x14 UT_OOC;
  encT "Clv"                     0x15 UT_OOC;
  encT "RecordingFormatDetect"   0x16 UT_OOC;
  encT "OffHook"                 0x17 UT_OOC;
  encT "Ring"                    0x18 UT_OOC;
  encT "MessageWaiting"          0x19 UT_OOC;
  encT "DataMode"                0x1A UT_OOC;
  encT "BatteryOperation"        0x1B UT_OOC;
  encT "BatteryOk"               0x1C UT_OOC;
  encT "BatteryLow"              0x1D UT_OOC;
  encT "Speaker"                 0x1E UT_OOC;
  encT "HeadSet"                 0x1F UT_OOC;
  encT "Hold"                    0x20 UT_OOC;
  encT "Microphone"              0x21 UT_OOC;
  encT "Coverage"                0x22 UT_OOC;
  encT "NightMode"               0x23 UT_OOC;
  encT "SendCalls"               0x24 UT_OOC;
  encT "CallPickup"              0x25 UT_OOC;
  encT "Conference"              0x26 UT_OOC;
  encT "Standby"                 0x27 UT_OOC;
  encT "CameraOn"                0x28 UT_OOC;
  encT "CameraOff"               0x29 UT_OOC;
  encT "OnLine"                  0x2A UT_OOC;
  encT "OffLine"                 0x2B UT_OOC;
  encT "Busy"                    0x2C UT_OOC;
  encT "Ready"                   0x2D UT_OOC;
  encT "PaperOut"                0x2E UT_OOC;
  encT "PaperJam"                0x2F UT_OOC;
  encT "Remote"                  0x30 UT_OOC;
  encT "Forward"                 0x31 UT_OOC;
  encT "Reverse"                 0x32 UT_OOC;
  encT "Stop"                    0x33 UT_OOC;
  encT "Rewind"                  0x34 UT_OOC;
  encT "FastForward"             0x35 UT_OOC;
  encT "Play"                    0x36 UT_OOC;
  encT "Pause"                   0x37 UT_OOC;
  encT "Record"                  0x38 UT_OOC;
  encT "Error"                   0x39 UT_OOC;
  encT "UsageSelectedIndicator"  0x3A UT_US;
  encT "UsageInUseIndicator"     0x3B UT_US;
  encT "UsageMultiModeIndicator" 0x3C UT_UM;
  encT "IndicatorOn"             0x3D UT_SEL;
  encT "IndicatorFlash"          0x3E UT_SEL;
  encT "IndicatorSlowBlink"      0x3F UT_SEL;
  encT "IndicatorFastBlink"      0x40 UT_SEL;
  encT "IndicatorOff"            0x41 UT_SEL;
  encT "FlashOnTime"             0x42 UT_DV;
  encT "SlowBlinkOnTime"         0x43 UT_DV;
  encT "SlowBlinkOffTime"        0x44 UT_DV;
  encT "FastBlinkOnTime"         0x45 UT_DV;
  encT "FastBlinkOffTime"        0x46 UT_DV;
  encT "UsageIndicatorColor"     0x47 UT_UM;
  encT "IndicatorRed"            0x48 UT_SEL;
  encT "IndicatorGreen"          0x49 UT_SEL;
  encT "IndicatorAmber"          0x4A UT_SEL;
  encT "GenericIndicator"        0x4B UT_OOC;
  encT "SystemSyspend"           0x4C UT_OOC;
  encT "ExternalPowerConnected"  0x4D UT_OOC;
  encT "IndicatorBlue"           0x4E UT_SEL;
  encT "IndicatorOrange"         0x4F UT_SEL;
  encT "GoodStatus"              0x50 UT_OOC;
  encT "WarningStatus"           0x51 UT_OOC;
  encT "RgbLed"                  0x52 UT_CL;
  encT "RedLedChannel"           0x53 UT_DV;
  encT "BlueLedChannel"          0x54 UT_DV;
  encT "GreenLedChannel"         0x55 UT_DV;
  encT "LedIntensity"            0x56 UT_DV;
  encT "PlayerIndicator"         0x60 UT_NARY;
  encT "Player1"                 0x61 UT_SEL;
  encT "Player2"                 0x62 UT_SEL;
  encT "Player3"                 0x63 UT_SEL;
  encT "Player4"                 0x64 UT_SEL;
  encT "Player5"                 0x65 UT_SEL;
  encT "Player6"                 0x66 UT_SEL;
  encT "Player7"                 0x67 UT_SEL;
  encT "Player8"                 0x68 UT_SEL
].

Definition buttonMap_tbl : list Encoding := [
  encT "NoButtonPressed" 0x00 (UT_SEL .| UT_OOC .| UT_MC .| UT_OSC);
  encT "Button#"         0x01 (UT_SEL .| UT_OOC .| UT_MC .| UT_OSC);
  encT "Button#"         0xFFFF (UT_SEL .| UT_OOC .| UT_MC .| UT_OSC)
].

Definition ordinalMap_tbl : list Encoding := [
  encT "Instance#" 0x01 UT_UM;
  encT "Instance#" 0xFFFF UT_UM
].

Definition telDevMap_tbl : list Encoding := [
  encT "Phone"                    0x01 UT_CA;
  encT "AnsweringMachine"         0x02 UT_CA;
  encT "MessageControls"          0x03 UT_CL;
  encT "Handset"                  0x04 UT_CL;
  encT "Headset"                  0x05 UT_CL;
  encT "TelephonyKeyPad"          0x06 UT_NARY;
  encT "ProgrammableButton"       0x07 UT_NARY;
  encT "HookSwitch"               0x20 UT_OOC;
  encT "Flash"                    0x21 UT_MC;
  encT "Feature"                  0x22 UT_OSC;
  encT "Hold"                     0x23 UT_OOC;
  encT "Radial"                   0x24 UT_OSC;
  encT "Transfer"                 0x25 UT_OSC;
  encT "Drop"                     0x26 UT_OSC;
  encT "Park"                     0x27 UT_OOC;
  encT "ForwardCalls"             0x28 UT_OOC;
  encT "AlternateFunction"        0x29 UT_MC;
  encT "Line"                     0x2A (UT_OSC .| UT_NARY);
  encT "SpeakerPhone"             0x2B UT_OOC;
  encT "Conference"               0x2C UT_OOC;
  encT "RingEnable"               0x2D UT_OOC;
  encT "RingSelect"               0x2E UT_OSC;
  encT "PhoneMute"                0x2F UT_OOC;
  encT "CallerId"                 0x30 UT_MC;
  encT "Send"                     0x31 UT_OOC;
  encT "SpeedDial"                0x50 UT_OSC;
  encT "StoreNumber"              0x51 UT_OSC;
  encT "RecallNumber"             0x52 UT_OSC;
  encT "PhoneDirectory"           0x53 UT_OOC;
  encT "VoiceMail"                0x70 UT_OOC;
  encT "ScreenCalls"              0x71 UT_OOC;
  encT "DoNotDisturb"             0x72 UT_OOC;
  encT "Message"                  0x73 UT_OSC;
  encT "AnswerOnOff"              0x74 UT_OOC;
  encT "InsideDialTone"           0x90 UT_MC;
  encT "OutsideDialTone"          0x91 UT_MC;
  encT "InsideRingTone"           0x92 UT_MC;
  encT "OutsideRingTone"          0x93 UT_MC;
  encT "PriorityRingTone"         0x94 UT_MC;
  encT "InsideRingback"           0x95 UT_MC;
  encT "PriorityRingback"         0x96 UT_MC;
  encT "LineBusyTone"             0x97 UT_MC;
  encT "ReorderTone"              0x98 UT_MC;
  encT "CallWaitingTone"          0x99 UT_MC;
  encT "ConfirmationTone1"        0x9A UT_MC;
  encT "ConfirmationTone2"        0x9B UT_MC;
  encT "TonesOff"                 0x9C UT_OOC;
  encT "OutsideRingback"          0x9D UT_MC;
  encT "Ringer"                   0x9E UT_OOC;
  encT "PhoneKey0"                0xB0 UT_SEL;
  encT "PhoneKey1"                0xB1 UT_SEL;
  encT "PhoneKey2"                0xB2 UT_SEL;
  encT "PhoneKey3"                0xB3 UT_SEL;
  encT "PhoneKey4"                0xB4 UT_SEL;
  encT "PhoneKey5"                0xB5 UT_SEL;
  encT "PhoneKey6"                0xB6 UT_SEL;
  encT "PhoneKey7"                0xB7 UT_SEL;
  encT "PhoneKey8"                0xB8 UT_SEL;
  encT "PhoneKey9"                0xB9 UT_SEL;
  encT "PhoneKeyStar"             0xBA UT_SEL;
  encT "PhoneKeyPound"            0xBB UT_SEL;
  encT "PhoneKeyA"                0xBC UT_SEL;
  encT "PhoneKeyB"                0xBD UT_SEL;
  encT "PhoneKeyC"                0xBE UT_SEL;
  encT "PhoneKeyD"                0xBF UT_SEL;
  encT "PhoneCallHistoryKey"      0xC0 UT_SEL;
  encT "PhoneCallerIdKey"         0xC1 UT_SEL;
  encT "PhoneSettingsKey"         0xC2 UT_SEL;
  encT "HostControl"              0xF0 UT_OOC;
  encT "HostAvailable"            0xF1 UT_OOC;
  encT "HostCallActive"           0xF2 UT_OOC;
  encT "ActivateHandsetAudio"     0xF3 UT_OOC;
  encT "RingType"                 0xF4 UT_NARY;
  encT "RediablePhoneNumber"      0xF5 UT_OOC;
  encT "StopRingTone"             0xF8 UT_SEL;
  encT "PstnRingTone"             0xF9 UT_SEL;
  encT "HostRingTone"             0xFA UT_SEL;
  encT "AlertSoundError"          0xFB UT_SEL;
  encT "AlertSoundConfirm"        0xFC UT_SEL;
  encT "AlertSoundNotification"   0xFD UT_SEL;
  encT "SilentRing"               0xFE UT_SEL;
  encT "EmailMessageWaiting"      0x108 UT_OOC;
  encT "VoicemailMessageWaiting"  0x109 UT_OOC;
  encT "HostHold"                 0x10A UT_OOC;
  encT "IncomingCallHistoryCount" 0x110 UT_DV;
  encT "OutgoingCallHistoryCount" 0x111 UT_DV;
  encT "IncomingCallHistory"      0x112 UT_CL;
  encT "OutgoingCallHistory"      0x113 UT_CL;
  encT "PhoneLocale"              0x114 UT_DV;
  encT "PhoneTimeSecond"          0x140 UT_DV;
  encT "PhoneTimeMinute"          0x141 UT_DV;
  encT "PhoneTimeHour"            0x142 UT_DV;
  encT "PhoneTimeDay"             0x143 UT_DV;
  encT "PhoneTimeMonth"           0x144 UT_DV;
  encT "PhoneTimeYear"            0x145 UT_DV;
  encT "HandsetNickname"          0x146 UT_DV;
  encT "AddressBookId"            0x147 UT_DV;
  encT "CallDuration"             0x14A UT_DV;
  encT "DualModePhone"            0x14B UT_CA
].

Definition consumerMap_tbl : list Encoding := [
  encT "ConsumerControl"                        0x01 UT_CA;
  encT "NumericKeyPad"                          0x02 UT_NARY;
  encT "ProgrammableButtons"                    0x03 UT_NARY;
  encT "Microphone"                             0x04 UT_CA;
  encT "Headphone"                              0x05 UT_CA;
  encT "GraphicEqualizer"                       0x06 UT_CA;
  encT "Plus10"                                 0x20 UT_OSC;
  encT "Plus100"                                0x21 UT_OSC;
  encT "AmPm"                                   0x22 UT_OSC;
  encT "Power"                                  0x30 UT_OOC;
  encT "Reset"                                  0x31 UT_OSC;
  encT "Sleep"                                  0x32 UT_OSC;
  encT "SleepAfter"                             0x33 UT_OSC;
  encT "SleepMode"                              0x34 UT_RTC;
  encT "Illumination"                           0x35 UT_OOC;
  encT "FunctionButtons"                        0x36 UT_NARY;
  encT "Menu"                                   0x40 UT_OOC;
  encT "MenuPick"                               0x41 UT_OSC;
  encT "MenuUp"                                 0x42 UT_OSC;
  encT "MenuDown"                               0x43 UT_OSC;
  encT "MenuLeft"                               0x44 UT_OSC;
  encT "MenuRight"                              0x45 UT_OSC;
  encT "MenuEscape"                             0x46 UT_OSC;
  encT "MenuValueIncrease"                      0x47 UT_OSC;
  encT "MenuValueDecrease"                      0x48 UT_OSC;
  encT "DataOnScreen"                           0x60 UT_OOC;
  encT "ClosedCaption"                          0x61 UT_OOC;
  encT "ClosedCaptionSelect"                    0x62 UT_OSC;
  encT "VcrTv"                                  0x63 UT_OOC;
  encT "BroadcastMode"                          0x64 UT_OSC;
  encT "Snapshot"                               0x65 UT_OSC;
  encT "Still"                                  0x66 UT_OSC;
  encT "PictureInPictureToggle"                 0x67 UT_OSC;
  encT "PictureInPictureSwap"                   0x68 UT_OSC;
  encT "RedMenuButton"                          0x69 UT_MC;
  encT "GreenMenuButton"                        0x6A UT_MC;
  encT "BlueMenuButton"                         0x6B UT_MC;
  encT "YellowMenuButton"                       0x6C UT_MC;
  encT "Aspect"                                 0x6D UT_OSC;
  encT "Mode3dSelect"                           0x6E UT_OSC;
  encT "DisplayBrightnessIncrement"             0x6F UT_RTC;
  encT "DisplayBrightnessDecrement"             0x70 UT_RTC;
  encT "DisplayBrightness"                      0x71 UT_LC;
  encT "DisplayBacklightToggle"                 0x72 UT_OOC;
  encT "DisplaySetBrightnessToMinimum"          0x73 UT_OSC;
  encT "DisplaySetBrightnessToMaximum"          0x74 UT_OSC;
  encT "DisplaySetAutoBrightness"               0x75 UT_OOC;
  encT "CameraAccessEnabled"                    0x76 UT_OOC;
  encT "CameraAccessDisabled"                   0x77 UT_OOC;
  encT "CameraAccessToggle"                     0x78 UT_OOC;
  encT "KeyboardBrightnessIncrement"            0x79 UT_OSC;
  encT "KeyboardBrightnessDecrement"            0x7A UT_OSC;
  encT "KeyboardBacklightSetLevel"              0x7B UT_LC;
  encT "KeyboardBacklightOoc"                   0x7C UT_OOC;
  encT "KeyboardBacklightSetMinimum"            0x7D UT_OSC;
  encT "KeyboardBacklightSetMaximum"            0x7E UT_OSC;
  encT "KeyboardBacklightAuto"                  0x7F UT_OOC;
  encT "Selection"                              0x80 UT_NARY;
  encT "AssignSelection"                        0x81 UT_OSC;
  encT "ModeStep"                               0x82 UT_OSC;
  encT "RecallLast"                             0x83 UT_OSC;
  encT "EnterChannel"                           0x84 UT_OSC;
  encT "OrderMovie"                             0x85 UT_OSC;
  encT "Channel"                                0x86 UT_LC;
  encT "MediaSelection"                         0x87 UT_NARY;
  encT "MediaSelectComputer"                    0x88 UT_SEL;
  encT "MediaSelectTv"                          0x89 UT_SEL;
  encT "MediaSelectWww"                         0x8A UT_SEL;
  encT "MediaSelectDvd"                         0x8B UT_SEL;
  encT "MediaSelectTelephone"                   0x8C UT_SEL;
  encT "MediaSelectProgramGuide"                0x8D UT_SEL;
  encT "MediaSelectVideoPhone"                  0x8E UT_SEL;
  encT "MediaSelectGames"                       0x8F UT_SEL;
  encT "MediaSelectMessages"                    0x90 UT_SEL;
  encT "MediaSelectCd"                          0x91 UT_SEL;
  encT "MediaSelectVcr"                         0x92 UT_SEL;
  encT "MediaSelectTuner"                       0x93 UT_SEL;
  encT "Quit"                                   0x94 UT_OSC;
  encT "Help"                                   0x95 UT_OOC;
  encT "MediaSelectTape"                        0x96 UT_SEL;
  encT "MediaSelectCable"                       0x97 UT_SEL;
  encT "MediaSelectSatellite"                   0x98 UT_SEL;
  encT "MediaSelectSecurity"                    0x99 UT_SEL;
  encT "MediaSelectHome"                        0x9A UT_SEL;
  encT "MediaSelectCall"                        0x9B UT_SEL;
  encT "ChannelIncrement"                       0x9C UT_OSC;
  encT "ChannelDecrement"                       0x9D UT_OSC;
  encT "MediaSelectSap"                         0x9E UT_SEL;
  encT "VcrPlus"                                0xA0 UT_OSC;
  encT "Once"                                   0xA1 UT_OSC;
  encT "Daily"                                  0xA2 UT_OSC;
  encT "Weekly"                                 0xA3 UT_OSC;
  encT "Monthly"                                0xA4 UT_OSC;
  encT "Play"                                   0xB0 UT_OOC;
  encT "Pause"                                  0xB1 UT_OOC;
  encT "Record"                                 0xB2 UT_OOC;
  encT "FastForward"                            0xB3 UT_OOC;
  encT "Rewind"                                 0xB4 UT_OOC;
  encT "ScanNextTrack"                          0xB5 UT_OSC;
  encT "ScanPreviousTrack"                      0xB6 UT_OSC;
  encT "Stop"                                   0xB7 UT_OSC;
  encT "Eject"                                  0xB8 UT_OSC;
  encT "RandomPlay"                             0xB9 UT_OOC;
  encT "SelectDisc"                             0xBA UT_NARY;
  encT "EnterDisc"                              0xBB UT_MC;
  encT "Repeat"                                 0xBC UT_OSC;
  encT "Tracking"                               0xBD UT_LC;
  encT "TrackNormal"                            0xBE UT_OSC;
  encT "SlowTracking"                           0xBF UT_LC;
  encT "FrameForward"                           0xC0 UT_RTC;
  encT "FrameBack"                              0xC1 UT_RTC;
  encT "Mark"                                   0xC2 UT_OSC;
  encT "ClearMark"                              0xC3 UT_OSC;
  encT "RepeatFromMark"                         0xC4 UT_OOC;
  encT "ReturnToMark"                           0xC5 UT_OSC;
  encT "SearchMarkForward"                      0xC6 UT_OSC;
  encT "SearchMarkBackwards"                    0xC7 UT_OSC;
  encT "CounterReset"                           0xC8 UT_OSC;
  encT "ShowCounter"                            0xC9 UT_OSC;
  encT "TrackingIncrement"                      0xCA UT_RTC;
  encT "TrackingDecrement"                      0xCB UT_RTC;
  encT "StopEject"                              0xCC UT_OSC;
  encT "PlayPause"                              0xCD UT_OSC;
  encT "PlaySkip"                               0xCE UT_OSC;
  encT "VoiceCommand"                           0xCF UT_OSC;
  encT "InvokeCaptureInterface"                 0xD0 UT_SEL;
  encT "StartOrStopGameRecording"               0xD1 UT_SEL;
  encT "HistoricalGameCapture"                  0xD2 UT_SEL;
  encT "CaptureGameScreenshot"                  0xD3 UT_SEL;
  encT "ShowOrHideRecordingIndicator"           0xD4 UT_SEL;
  encT "StartOrStopMicrophoneCapture"           0xD5 UT_SEL;
  encT "StartOrStopCameraCapture"               0xD6 UT_SEL;
  encT "StartOrStopGameBroadcast"               0xD7 UT_SEL;
  encT "Volume"                                 0xE0 UT_LC;
  encT "Balance"                                0xE1 UT_LC;
  encT "Mute"                                   0xE2 UT_OOC;
  encT "Bass"                                   0xE3 UT_LC;
  encT "Treble"                                 0xE4 UT_LC;
  encT "BassBoost"                              0xE5 UT_OOC;
  encT "SurroundMode"                           0xE6 UT_OSC;
  encT "Loudness"                               0xE7 UT_OOC;
  encT "Mpx"                                    0xE8 UT_OOC;
  encT "VolumeIncrement"                        0xE9 UT_RTC;
  encT "VolumeDecrement"                        0xEA UT_RTC;
  encT "SpeedSelect"                            0xF0 UT_OSC;
  encT "PlaybackSpeed"                          0xF1 UT_NARY;
  encT "StandardPlay"                           0xF2 UT_SEL;
  encT "LongPlay"                               0xF3 UT_SEL;
  encT "ExtendedPlay"                           0xF4 UT_SEL;
  encT "Slow"                                   0xF5 UT_OSC;
  encT "FanEnable"                              0x100 UT_OOC;
  encT "FanSpeed"                               0x101 UT_LC;
  encT "LightEnable"                            0x102 UT_OOC;
  encT "LightIlluminationLevel"                 0x103 UT_LC;
  encT "ClimateControlEnable"                   0x104 UT_OOC;
  encT "RoomTemperature"                        0x105 UT_LC;
  encT "SecurityEnalbe"                         0x106 UT_OOC;
  encT "FireAlarm"                              0x107 UT_OSC;
  encT "PoliceAlarm"                            0x108 UT_OSC;
  encT "Proximity"                              0x109 UT_LC;
  encT "Motion"                                 0x10A UT_OSC;
  encT "DuressAlarm"                            0x10B UT_OSC;
  encT "HoldupAlarm"                            0x10C UT_OSC;
  encT "MedicalAlarm"                           0x10D UT_OSC;
  encT "BalanceRight"                           0x150 UT_RTC;
  encT "BalanceLeft"                            0x151 UT_RTC;
  encT "BassIncrement"                          0x152 UT_RTC;
  encT "BassDecrement"                          0x153 UT_RTC;
  encT "TrebleIncrement"                        0x154 UT_RTC;
  encT "TrebleDecrement"                        0x155 UT_RTC;
  encT "SpeakerSystem"                          0x160 UT_CL;
  encT "ChannelLeft"                            0x161 UT_CL;
  encT "ChannelRight"                           0x162 UT_CL;
  encT "ChannelCenter"                          0x163 UT_CL;
  encT "ChannelFront"                           0x164 UT_CL;
  encT "ChannelCenterFront"                     0x165 UT_CL;
  encT "ChannelSide"                            0x166 UT_CL;
  encT "ChannelSurround"                        0x167 UT_CL;
  encT "ChannelLowFrequencyEnhancement"         0x168 UT_CL;
  encT "ChannelTop"                             0x169 UT_CL;
  encT "ChannelUnknown"                         0x16A UT_CL;
  encT "SubChannel"                             0x170 UT_LC;
  encT "SubChannelIncrement"                    0x171 UT_OSC;
  encT "SubChannelDecrement"                    0x172 UT_OSC;
  encT "AlternateAudioIncrement"                0x173 UT_OSC;
  encT "AlternateAudioDecrement"                0x174 UT_OSC;
  encT "ApplicationLaunchButtons"               0x180 UT_NARY;
  encT "AlLaunchButtonConfigurationTool"        0x181 UT_SEL;
  encT "AlProgrammableButtonConfiguration"      0x182 UT_SEL;
  encT "AlConsumerControlConfiguration"         0x183 UT_SEL;
  encT "AlWordProcessor"                        0x184 UT_SEL;
  encT "AlTextEditor"                           0x185 UT_SEL;
  encT "AlSpreadsheet"                          0x186 UT_SEL;
  encT "AlGraphicsEditor"                       0x187 UT_SEL;
  encT "AlPresentationApp"                      0x188 UT_SEL;
  encT "AlDatabaseApp"                          0x189 UT_SEL;
  encT "AlEmailReader"                          0x18A UT_SEL;
  encT "AlNewsreader"                           0x18B UT_SEL;
  encT "AlVoicemail"                            0x18C UT_SEL;
  encT "AlContactsAddressBook"                  0x18D UT_SEL;
  encT "AlCalenderSchedule"                     0x18E UT_SEL;
  encT "AlTaskProjectManager"                   0x18F UT_SEL;
  encT "AlLogJournalTimecard"                   0x190 UT_SEL;
  encT "AlCheckbookFinance"                     0x191 UT_SEL;
  encT "AlCalculator"                           0x192 UT_SEL;
  encT "AlAvCapturePlayback"                    0x193 UT_SEL;
  encT "AlLocalMachineBrowser"                  0x194 UT_SEL;
  encT "AlLanWanBrowser"                        0x195 UT_SEL;
  encT "AlInternetBrowser"                      0x196 UT_SEL;
  encT "AlRemoteNetworkingIspConnect"           0x197 UT_SEL;
  encT "AlNetworkConference"                    0x198 UT_SEL;
  encT "AlNetworkChat"                          0x199 UT_SEL;
  encT "AlTelephonyDialer"                      0x19A UT_SEL;
  encT "AlLogon"                                0x19B UT_SEL;
  encT "AlLogoff"                               0x19C UT_SEL;
  encT "AlLogonLogoff"                          0x19D UT_SEL;
  encT "AlTerminalLockScreensaver"              0x19E UT_SEL;
  encT "AlControlPanel"                         0x19F UT_SEL;
  encT "AlCommandLineProcessorRun"              0x1A0 UT_SEL;
  encT "AlProcessTaskManager"                   0x1A1 UT_SEL;
  encT "AlSelectTaskApplication"                0x1A2 UT_SEL;
  encT "AlNextTaskApplication"                  0x1A3 UT_SEL;
  encT "AlPreviousTaskApplication"              0x1A4 UT_SEL;
  encT "AlPreemptiveHaltTaskApplication"        0x1A5 UT_SEL;
  encT "AlIntegratedHelpCenter"                 0x1A6 UT_SEL;
  encT "AlDocuments"                            0x1A7 UT_SEL;
  encT "AlThesaurus"                            0x1A8 UT_SEL;
  encT "AlDictionary"                           0x1A9 UT_SEL;
  encT "AlDesktop"                              0x1AA UT_SEL;
  encT "AlSpellCheck"                           0x1AB UT_SEL;
  encT "AlGrammarCheck"                         0x1AC UT_SEL;
  encT "AlWirelessStatus"                       0x1AD UT_SEL;
  encT "AlKeyboardLayout"                       0x1AE UT_SEL;
  encT "AlVirusProtection"                      0x1AF UT_SEL;
  encT "AlEncryption"                           0x1B0 UT_SEL;
  encT "AlScreenSaver"                          0x1B1 UT_SEL;
  encT "AlAlarms"                               0x1B2 UT_SEL;
  encT "AlClock"                                0x1B3 UT_SEL;
  encT "AlFileBrowser"                          0x1B4 UT_SEL;
  encT "AlPowerStatus"                          0x1B5 UT_SEL;
  encT "AlImageBrowser"                         0x1B6 UT_SEL;
  encT "AlAudioBrowser"                         0x1B7 UT_SEL;
  encT "AlMovieBrowser"                         0x1B8 UT_SEL;
  encT "AlDigitalRightsManager"                 0x1B9 UT_SEL;
  encT "AlDigitalWallet"                        0x1BA UT_SEL;
  encT "AlInstantMessaging"                     0x1BC UT_SEL;
  encT "AlOemFeatureTipsTutorialBrowser"        0x1BD UT_SEL;
  encT "AlOemHelp"                              0x1BE UT_SEL;
  encT "AlOnlineCommunity"                      0x1BF UT_SEL;
  encT "AlEntertainmentContentBrowser"          0x1C0 UT_SEL;
  encT "AlOnlineShoppingBrowser"                0x1C1 UT_SEL;
  encT "AlSmartCardInformationHelp"             0x1C2 UT_SEL;
  encT "AlMarketMonitorFinanceBrowser"          0x1C3 UT_SEL;
  encT "AlCustomizedCorporateNewsBrowser"       0x1C4 UT_SEL;
  encT "AlOnlineActivityBrowser"                0x1C5 UT_SEL;
  encT "AlResearchSearchBrowser"                0x1C6 UT_SEL;
  encT "AlAudioPlayer"                          0x1C7 UT_SEL;
  encT "AlMessageStatus"                        0x1C8 UT_SEL;
  encT "AlContactSync"                          0x1C9 UT_SEL;
  encT "AlNavigation"                           0x1CA UT_SEL;
  encT "AlContextAwareDesktopAssistant"         0x1CB UT_SEL;
  encT "GenericGuiApplicationControls"          0x200 UT_NARY;
  encT "AcNew"                                  0x201 UT_SEL;
  encT "AcOpen"                                 0x202 UT_SEL;
  encT "AcClose"                                0x203 UT_SEL;
  encT "AcExit"                                 0x204 UT_SEL;
  encT "AcMaximize"                             0x205 UT_SEL;
  encT "AcMinimize"                             0x206 UT_SEL;
  encT "AcSave"                                 0x207 UT_SEL;
  encT "AcPrint"                                0x208 UT_SEL;
  encT "AcProperties"                           0x209 UT_SEL;
  encT "AcUndo"                                 0x21A UT_SEL;
  encT "AcCopy"                                 0x21B UT_SEL;
  encT "AcCut"                                  0x21C UT_SEL;
  encT "AcPaste"                                0x21D UT_SEL;
  encT "AcSelectAll"                            0x21E UT_SEL;
  encT "AcFind"                                 0x21F UT_SEL;
  encT "AcFindAndReplace"                       0x220 UT_SEL;
  encT "AcSearch"                               0x221 UT_SEL;
  encT "AcGoTo"                                 0x222 UT_SEL;
  encT "AcHome"                                 0x223 UT_SEL;
  encT "AcBack"                                 0x224 UT_SEL;
  encT "AcForward"                              0x225 UT_SEL;
  encT "AcStop"                                 0x226 UT_SEL;
  encT "AcRefresh"                              0x227 UT_SEL;
  encT "AcPreviousLink"                         0x228 UT_SEL;
  encT "AcNextLink"                             0x229 UT_SEL;
  encT "AcBookmarks"                            0x22A UT_SEL;
  encT "AcHistory"                              0x22B UT_SEL;
  encT "AcSubscriptions"                        0x22C UT_SEL;
  encT "AcZoomIn"                               0x22D UT_SEL;
  encT "AcZoomOut"                              0x22E UT_SEL;
  encT "AcZoom"                                 0x22F UT_LC;
  encT "AcFullScreenView"                       0x230 UT_SEL;
  encT "AcNormalView"                           0x231 UT_SEL;
  encT "AcViewToggle"                           0x232 UT_SEL;
  encT "AcScrollUp"                             0x233 UT_SEL;
  encT "AcScrollDown"                           0x234 UT_SEL;
  encT "AcScroll"                               0x235 UT_LC;
  encT "AcPanLeft"                              0x236 UT_SEL;
  encT "AcPanRight"                             0x237 UT_SEL;
  encT "AcPan"                                  0x238 UT_LC;
  encT "AcNewWindow"                            0x239 UT_SEL;
  encT "AcTileHorizontally"                     0x23A UT_SEL;
  encT "AcTileVertically"                       0x23B UT_SEL;
  encT "AcFormat"                               0x23C UT_SEL;
  encT "AcEdit"                                 0x23D UT_SEL;
  encT "AcBold"                                 0x23E UT_SEL;
  encT "AcItalics"                              0x23F UT_SEL;
  encT "AcUnderline"                            0x240 UT_SEL;
  encT "AcStrikethrough"                        0x241 UT_SEL;
  encT "AcSubscript"                            0x242 UT_SEL;
  encT "AcSuperscript"                          0x243 UT_SEL;
  encT "AcAllCaps"                              0x244 UT_SEL;
  encT "AcRemote"                               0x245 UT_SEL;
  encT "AcResize"                               0x246 UT_SEL;
  encT "AcFlipHorizontal"                       0x247 UT_SEL;
  encT "AcFlipVertical"                         0x248 UT_SEL;
  encT "AcMirrorHorizontal"                     0x249 UT_SEL;
  encT "AcMirrorVertical"                       0x24A UT_SEL;
  encT "AcFontSelect"                           0x24B UT_SEL;
  encT "AcFontColor"                            0x24C UT_SEL;
  encT "AcFontSize"                             0x24D UT_SEL;
  encT "AcJustifyLeft"                          0x24E UT_SEL;
  encT "AcJustifyCenterH"                       0x24F UT_SEL;
  encT "AcJustifyRight"                         0x250 UT_SEL;
  encT "AcJustifyBlockH"                        0x251 UT_SEL;
  encT "AcJustifyTop"                           0x252 UT_SEL;
  encT "AcJustifyCenterV"                       0x253 UT_SEL;
  encT "AcJustifyBottom"                        0x254 UT_SEL;
  encT "AcJustifyBlockV"                        0x255 UT_SEL;
  encT "AcIndentDecrease"                       0x256 UT_SEL;
  encT "AcIndentIncrease"                       0x257 UT_SEL;
  encT "AcNumberedList"                         0x258 UT_SEL;
  encT "AcRestartNumbering"                     0x259 UT_SEL;
  encT "AcBulletedList"                         0x25A UT_SEL;
  encT "AcPromote"                              0x25B UT_SEL;
  encT "AcDemote"                               0x25C UT_SEL;
  encT "AcYes"                                  0x25D UT_SEL;
  encT "AcNo"                                   0x25E UT_SEL;
  encT "AcCancel"                               0x25F UT_SEL;
  encT "AcCatalog"                              0x260 UT_SEL;
  encT "AcBuyCheckout"                          0x261 UT_SEL;
  encT "AcAddToChart"                           0x262 UT_SEL;
  encT "AcExpand"                               0x263 UT_SEL;
  encT "AcExpandAll"                            0x264 UT_SEL;
  encT "AcCollapse"                             0x265 UT_SEL;
  encT "AcCollapseAll"                          0x266 UT_SEL;
  encT "AcPrintPreview"                         0x267 UT_SEL;
  encT "AcPasteSpecial"                         0x268 UT_SEL;
  encT "AcInsertMode"                           0x269 UT_SEL;
  encT "AcDelete"                               0x26A UT_SEL;
  encT "AcLock"                                 0x26B UT_SEL;
  encT "AcUnlock"                               0x26C UT_SEL;
  encT "AcProtect"                              0x26D UT_SEL;
  encT "AcUnprotect"                            0x26E UT_SEL;
  encT "AcAttachComment"                        0x26F UT_SEL;
  encT "AcDeleteComment"                        0x270 UT_SEL;
  encT "AcViewComment"                          0x271 UT_SEL;
  encT "AcSelectWord"                           0x272 UT_SEL;
  encT "AcSelectSentence"                       0x273 UT_SEL;
  encT "AcSelectPragraph"                       0x274 UT_SEL;
  encT "AcSelectColumn"                         0x275 UT_SEL;
  encT "AcSelectRow"                            0x276 UT_SEL;
  encT "AcSelectTable"                          0x277 UT_SEL;
  encT "AcSelectObject"                         0x278 UT_SEL;
  encT "AcRedoRepeat"                           0x279 UT_SEL;
  encT "AcSort"                                 0x27A UT_SEL;
  encT "AcSortAscending"                        0x27B UT_SEL;
  encT "AcSortDescending"                       0x27C UT_SEL;
  encT "AcFilter"                               0x27D UT_SEL;
  encT "AcSetClock"                             0x27E UT_SEL;
  encT "AcViewClock"                            0x27F UT_SEL;
  encT "AcSelectTimeZone"                       0x280 UT_SEL;
  encT "AcEditTimeZones"                        0x281 UT_SEL;
  encT "AcSetAlarm"                             0x282 UT_SEL;
  encT "AcClearAlarm"                           0x283 UT_SEL;
  encT "AcSnoozeAlarm"                          0x284 UT_SEL;
  encT "AcResetAlarm"                           0x285 UT_SEL;
  encT "AcSynchronize"                          0x286 UT_SEL;
  encT "AcSendReceive"                          0x287 UT_SEL;
  encT "AcSendTo"                               0x288 UT_SEL;
  encT "AcReply"                                0x289 UT_SEL;
  encT "AcReplyAll"                             0x28A UT_SEL;
  encT "AcForwardMsg"                           0x28B UT_SEL;
  encT "AcSend"                                 0x28C UT_SEL;
  encT "AcAttachFile"                           0x28D UT_SEL;
  encT "AcUpload"                               0x28E UT_SEL;
  encT "AcDownload"                             0x28F UT_SEL;
  encT "AcSetBoarders"                          0x290 UT_SEL;
  encT "AcInsertRow"                            0x291 UT_SEL;
  encT "AcInsertColumn"                         0x292 UT_SEL;
  encT "AcInsertFile"                           0x293 UT_SEL;
  encT "AcInsertPicture"                        0x294 UT_SEL;
  encT "AcInsertObject"                         0x295 UT_SEL;
  encT "AcInsertSymbol"                         0x296 UT_SEL;
  encT "AcSaveAndClose"                         0x297 UT_SEL;
  encT "AcRename"                               0x298 UT_SEL;
  encT "AcMerge"                                0x299 UT_SEL;
  encT "AcSplit"                                0x29A UT_SEL;
  encT "AcDistributeHorizontally"               0x29B UT_SEL;
  encT "AcDistributeVertically"                 0x29C UT_SEL;
  encT "AcNextKeyboardLayoutSelect"             0x29D UT_SEL;
  encT "AcNavigateGuidance"                     0x29E UT_SEL;
  encT "AcDesktopShowAllWindows"                0x29F UT_SEL;
  encT "AcSoftKeyLeft"                          0x2A0 UT_SEL;
  encT "AcSoftKeyRight"                         0x2A1 UT_SEL;
  encT "AcDesktopShowAllApplications"           0x2A2 UT_SEL;
  encT "AcIdleKeepAlive"                        0x2B0 UT_SEL;
  encT "ExtendedKeyboardAttributesCollection"   0x2C0 UT_CL;
  encT "KeyboardFormFactor"                     0x2C1 UT_SV;
  encT "KeyboardKeyType"                        0x2C2 UT_SV;
  encT "KeyboardPhysicalLayout"                 0x2C3 UT_SV;
  encT "VendorSpecificKeyboardPhysicalLayout"   0x2C4 UT_SV;
  encT "KeyboardIetfLanguageTagIndex"           0x2C5 UT_SV;
  encT "ImplementedKeyboardInputAssistControls" 0x2C6 UT_SV;
  encT "KeyboardInputAssistPrevious"            0x2C7 UT_SEL;
  encT "KeyboardInputAssistNext"                0x2C8 UT_SEL;
  encT "KeyboardInputAssistPreviousGroup"       0x2C9 UT_SEL;
  encT "KeyboardInputAssistNextGroup"           0x2CA UT_SEL;
  encT "KeyboardInputAssistAccept"              0x2CB UT_SEL;
  encT "KeyboardInputAssistCancel"              0x2CC UT_SEL;
  encT "PrivacyScreenToggle"                    0x2D0 UT_OOC;
  encT "PrivacyScreenLevelDecrement"            0x2D1 UT_RTC;
  encT "PrivacyScreenLevelIncrement"            0x2D2 UT_RTC;
  encT "PrivacyScreenLevelMinimum"              0x2D3 UT_OSC;
  encT "PrivacyScreenLevelMaximum"              0x2D4 UT_OSC;
  encT "ContactEdited"                          0x500 UT_OOC;
  encT "ContactAdded"                           0x501 UT_OOC;
  encT "ContactRecordedActive"                  0x502 UT_OOC;
  encT "ContactIndex"                           0x503 UT_DV;
  encT "ContactNickname"                        0x504 UT_DV;
  encT "ContactFirstName"                       0x505 UT_DV;
  encT "ContactLastName"                        0x506 UT_DV;
  encT "ContactFullName"                        0x507 UT_DV;
  encT "ContactPhoneNumberPersonal"             0x508 UT_DV;
  encT "ContactPhoneNumberBusiness"             0x509 UT_DV;
  encT "ContactPhoneNumberMobile"               0x50A UT_DV;
  encT "ContactPhoneNumberPager"                0x50B UT_DV;
  encT "ContactPhoneNumberFax"                  0x50C UT_DV;
  encT "ContactPhoneNumberOther"                0x50D UT_DV;
  encT "ContactEmailPersonal"                   0x50E UT_DV;
  encT "ContactEmailBusiness"                   0x50F UT_DV;
  encT "ContactEmailOther"                      0x510 UT_DV;
  encT "ContactEmailMain"                       0x511 UT_DV;
  encT "ContactSpeedDialNumber"                 0x512 UT_DV;
  encT "ContactStatusFlag"                      0x513 UT_DV;
  encT "ContactMisc"                            0x514 UT_DV
].

Definition digitizersMap_tbl : list Encoding := [
  encT "Digitizer"                                 0x01 UT_CA;
  encT "Pen"                                       0x02 UT_CA;
  encT "LightPen"                                  0x03 UT_CA;
  encT "TouchScreen"                               0x04 UT_CA;
  encT "TouchPad"                                  0x05 UT_CA;
  encT "Whiteboard"                                0x06 UT_CA;
  encT "CoordinateMeasuringMachine"                0x07 UT_CA;
  encT "Digitizer3d"                               0x08 UT_CA;
  encT "StereoPlotter"                             0x09 UT_CA;
  encT "ArticulatedArm"                            0x0A UT_CA;
  encT "Armature"                                  0x0B UT_CA;
  encT "MultiplePointDigitizer"                    0x0C UT_CA;
  encT "FreeSpaceWand"                             0x0D UT_CA;
  encT "DeviceConfiguration"                       0x0E UT_CA;
  encT "CapacitiveHeatMapDigitizer"                0x0F UT_CA;
  encT "Stylus"                                    0x20 (UT_CA .| UT_CL);
  encT "Puck"                                      0x21 UT_CL;
  encT "Finger"                                    0x22 UT_CL;
  encT "DeviceSettings"                            0x23 UT_CL;
  encT "CharacterGesture"                          0x24 UT_CL;
  encT "TipPressure"                               0x30 UT_DV;
  encT "BarrelPressure"                            0x31 UT_DV;
  encT "InRange"                                   0x32 UT_MC;
  encT "Touch"                                     0x33 UT_MC;
  encT "Untouch"                                   0x34 UT_OSC;
  encT "Tap"                                       0x35 UT_OSC;
  encT "Quality"                                   0x36 UT_DV;
  encT "DataValid"                                 0x37 UT_MC;
  encT "TransducerIndex"                           0x38 UT_DV;
  encT "TabletFunctionKeys"                        0x39 UT_CL;
  encT "ProgramChangeKeys"                         0x3A UT_CL;
  encT "BatteryStrength"                           0x3B UT_DV;
  encT "Invert"                                    0x3C UT_MC;
  encT "XTilt"                                     0x3D UT_DV;
  encT "YTilt"                                     0x3E UT_DV;
  encT "Azimuth"                                   0x3F UT_DV;
  encT "Altitude"                                  0x40 UT_DV;
  encT "Twist"                                     0x41 UT_DV;
  encT "TipSwitch"                                 0x42 UT_MC;
  encT "SecondaryTipSwitch"                        0x43 UT_MC;
  encT "BarrelSwitch"                              0x44 UT_MC;
  encT "Eraser"                                    0x45 UT_MC;
  encT "TabletPick"                                0x46 UT_MC;
  encT "TouchValid"                                0x47 UT_MC;
  encT "Width"                                     0x48 UT_DV;
  encT "Height"                                    0x49 UT_DV;
  encT "ContactIdentifier"                         0x51 UT_DV;
  encT "DeviceMode"                                0x52 UT_DV;
  encT "DeviceIdentifier"                          0x53 (UT_DV .| UT_SV);
  encT "ContactCount"                              0x54 UT_DV;
  encT "ContactCountMaximum"                       0x55 UT_SV;
  encT "ScanTime"                                  0x56 UT_DV;
  encT "SurfaceSwitch"                             0x57 UT_DF;
  encT "ButtonSwitch"                              0x58 UT_DF;
  encT "PadType"                                   0x59 UT_SF;
  encT "SecondaryBarrelSwitch"                     0x5A UT_MC;
  encT "TransducerSerialNumber"                    0x5B UT_SV;
  encT "PreferredColor"                            0x5C UT_DV;
  encT "PreferredColorIsLocked"                    0x5D UT_MC;
  encT "PreferredLineWidth"                        0x5E UT_DV;
  encT "PreferredLineWidthIsLocked"                0x5F UT_MC;
  encT "LatencyMode"                               0x60 UT_DF;
  encT "GestureCharacterQuality"                   0x61 UT_DV;
  encT "CharacterGestureDataLength"                0x62 UT_DV;
  encT "CharacterGestureData"                      0x63 UT_DV;
  encT "GestureCharacterEncoding"                  0x64 UT_NARY;
  encT "Utf8CharacterGestureEncoding"              0x65 UT_SEL;
  encT "Utf16LittleEndianCharacterGestureEncoding" 0x66 UT_SEL;
  encT "Utf16BigEndianCharacterGestureEncoding"    0x67 UT_SEL;
  encT "Utf32LittleEndianCharacterGestureEncoding" 0x68 UT_SEL;
  encT "Utf32BigEndianCharacterGestureEncoding"    0x69 UT_SEL;
  encT "CapacitiveHeatMapProtocolVendorId"         0x6A UT_SV;
  encT "CapacitiveHeatMapProtocolVersion"          0x6B UT_SV;
  encT "CapacitiveHeatMapFrameData"                0x6C UT_DV;
  encT "GestureCharacterEnable"                    0x6D UT_DF;
  encT "PreferredLineStyle"                        0x70 UT_NARY;
  encT "PreferredLineStyleIsLocked"                0x71 UT_MC;
  encT "Ink"                                       0x72 UT_SEL;
  encT "Pencil"                                    0x73 UT_SEL;
  encT "Highlighter"                               0x74 UT_SEL;
  encT "ChiselMarker"                              0x75 UT_SEL;
  encT "Brush"                                     0x76 UT_SEL;
  encT "NoPreference"                              0x77 UT_SEL;
  encT "DigitizerDiagnostic"                       0x80 UT_CL;
  encT "DigitizerError"                            0x81 UT_NARY;
  encT "ErrNormalStatus"                           0x82 UT_SEL;
  encT "ErrTransducersExceeded"                    0x83 UT_SEL;
  encT "ErrFullTransFeaturesUnavailable"           0x84 UT_SEL;
  encT "ErrChargeLow"                              0x85 UT_SEL;
  encT "TransducerSoftwareInfo"                    0x90 UT_CL;
  encT "TransducerVendorId"                        0x91 UT_SV;
  encT "TransducerProductId"                       0x92 UT_SV;
  encT "DeviceSupportedProtocols"                  0x93 (UT_NARY .| UT_CL);
  encT "TransducerSupportedProtocols"              0x94 (UT_NARY .| UT_CL);
  encT "NoProtocol"                                0x95 UT_SEL;
  encT "WacomAesProtocol"                          0x96 UT_SEL;
  encT "UsiProtocol"                               0x97 UT_SEL;
  encT "MicrosoftPenProtocol"                      0x98 UT_SEL;
  encT "SupportedReportRates"                      0xA0 (UT_SV .| UT_CL);
  encT "ReportRate"                                0xA1 UT_DV;
  encT "TransducerConnected"                       0xA2 UT_SF;
  encT "SwitchDisabled"                            0xA3 UT_SEL;
  encT "SwitchUnimplemented"                       0xA4 UT_SEL;
  encT "TransducerSwitches"                        0xA5 UT_SEL
].

Definition hapticsMap_tbl : list Encoding := [
  encT "SimpleHapticController"       0x01 (UT_CA .| UT_CL);
  encT "WaveformList"                 0x10 UT_NARY;
  encT "DurationList"                 0x11 UT_NARY;
  encT "AutoTrigger"                  0x20 UT_DV;
  encT "ManualTrigger"                0x21 UT_DV;
  encT "AutoTriggerAssociatedControl" 0x22 UT_SV;
  encT "Intensity"                    0x23 UT_DV;
  encT "RepeatCount"                  0x24 UT_DV;
  encT "RetriggerPeriod"              0x25 UT_DV;
  encT "WaveformVendorPage"           0x26 UT_SV;
  encT "WaveformVendorId"             0x27 UT_SV;
  encT "WaveformCutoffTime"           0x28 UT_SV;
  encT "WaveformNone"                 0x1001 UT_SV;
  encT "WaveformStop"                 0x1002 UT_SV;
  encT "WaveformClick"                0x1003 UT_SV;
  encT "WaveformBuzzContinuous"       0x1004 UT_SV;
  encT "WaveformRumbleContinuous"     0x1005 UT_SV;
  encT "WaveformPress"                0x1006 UT_SV;
  encT "WaveformRelease"              0x1007 UT_SV
].

Definition pidMap_tbl : list Encoding := [
  encT "PhysicalInterfaceDevice"      0x01 UT_CA;
  encT "Normal"                       0x20 UT_DV;
  encT "SetEffectReport"              0x21 (UT_CL .| UT_LC .| UT_SV);
  encT "EffectBlockIndex"             0x22 UT_DV;
  encT "ParameterBlockOffset"         0x23 UT_DV;
  encT "RomFlag"                      0x24 UT_DV;
  encT "EffectType"                   0x25 UT_NARY;
  encT "EtConstantForce"              0x26 UT_SEL;
  encT "EtRamp"                       0x27 UT_SEL;
  encT "EtCustomForceData"            0x28 UT_SEL;
  encT "EtSquare"                     0x30 UT_SEL;
  encT "EtSine"                       0x31 UT_SEL;
  encT "EtTriangle"                   0x32 UT_SEL;
  encT "EtSawtoothUp"                 0x33 UT_SEL;
  encT "EtSawtoothDown"               0x34 UT_SEL;
  encT "EtSpring"                     0x40 UT_SEL;
  encT "EtDamper"                     0x41 UT_SEL;
  encT "EtInertia"                    0x42 UT_SEL;
  encT "EtFriction"                   0x43 UT_SEL;
  encT "Duration"                     0x50 UT_DV;
  encT "SamplePeriod"                 0x51 UT_DV;
  encT "Gain"                         0x52 UT_DV;
  encT "TriggerButton"                0x53 UT_DV;
  encT "TriggerRepeatInterval"        0x54 UT_DV;
  encT "AxesEnable"                   0x55 UT_US;
  encT "DirectionEnable"              0x56 UT_DF;
  encT "Direction"                    0x57 (UT_CL .| UT_DV);
  encT "TypeSpecificBlockOffset"      0x58 UT_CL;
  encT "BlockType"                    0x59 UT_NARY;
  encT "SetEnvelopeReport"            0x5A (UT_CL .| UT_LC .| UT_SV);
  encT "AttackLevel"                  0x5B UT_DV;
  encT "AttackTime"                   0x5C UT_DV;
  encT "FadeLevel"                    0x5D UT_DV;
  encT "FadeTime"                     0x5E UT_DV;
  encT "SetConditionReport"           0x5F (UT_CL .| UT_LC .| UT_SV);
  encT "CpOffset"                     0x60 UT_DV;
  encT "PositiveCoefficient"          0x61 UT_DV;
  encT "NegativeCoefficient"          0x62 UT_DV;
  encT "PositiveSaturation"           0x63 UT_DV;
  encT "NegativeSaturation"           0x64 UT_DV;
  encT "DeadBand"                     0x65 UT_DV;
  encT "DownloadForceSample"          0x66 UT_CL;
  encT "IsochCustomForceEnable"       0x67 UT_DF;
  encT "CustomForceDataReport"        0x68 UT_CL;
  encT "CustomForceData"              0x69 UT_DV;
  encT "CustomForceVendorDefinedData" 0x6A UT_DV;
  encT "SetCustomForceReport"         0x6B (UT_CL .| UT_LC .| UT_SV);
  encT "CustomForceDataOffset"        0x6C UT_DV;
  encT "SampleCount"                  0x6D UT_DV;
  encT "SetPeriodicReport"            0x6E (UT_CL .| UT_LC .| UT_SV);
  encT "Offset"                       0x6F UT_DV;
  encT "Magnitude"                    0x70 UT_DV;
  encT "Phase"                        0x71 UT_DV;
  encT "Period"                       0x72 UT_DV;
  encT "SetConstantForceReport"       0x73 (UT_CL .| UT_LC .| UT_SV);
  encT "SetRampForceReport"           0x74 (UT_CL .| UT_LC .| UT_SV);
  encT "RampStart"                    0x75 UT_DV;
  encT "RampEnd"                      0x76 UT_DV;
  encT "EffectOperationReport"        0x77 UT_CL;
  encT "EffectOperation"              0x78 UT_NARY;
  encT "OpEffectStart"                0x79 UT_SEL;
  encT "OpEffectStartSolo"            0x7A UT_SEL;
  encT "OpEffectStop"                 0x7B UT_SEL;
  encT "LoopCount"                    0x7C UT_DV;
  encT "DeviceGainReport"             0x7D UT_CL;
  encT "DeviceGain"                   0x7E UT_DV;
  encT "PidPoolReport"                0x7F UT_CL;
  encT "RamPoolSize"                  0x80 UT_DV;
  encT "RomPoolSize"                  0x81 UT_SV;
  encT "RomEffectBlockCount"          0x82 UT_SV;
  encT "SimultaneousEffectsMax"       0x83 UT_SV;
  encT "PoolAlignment"                0x84 UT_SV;
  encT "PidPoolMoveReport"            0x85 UT_CL;
  encT "MoveSource"                   0x86 UT_DV;
  encT "MoveDestination"              0x87 UT_DV;
  encT "MoveLength"                   0x88 UT_DV;
  encT "PidBlockLoadReport"           0x89 UT_CL;
  encT "BlockLoadStatus"              0x8B UT_NARY;
  encT "BlockLoadSuccess"             0x8C UT_SEL;
  encT "BlockLoadFull"                0x8D UT_SEL;
  encT "BlockLoadError"               0x8E UT_SEL;
  encT "BlockHandle"                  0x8F UT_DV;
  encT "PidBlockFreeReport"           0x90 UT_CL;
  encT "TypeSpecificBlockHandle"      0x91 UT_CL;
  encT "PidStateReport"               0x92 UT_CL;
  encT "EffectPlaying"                0x94 UT_DF;
  encT "PidDeviceControlReport"       0x95 UT_CL;
  encT "PidDeviceControl"             0x96 UT_NARY;
  encT "DcEnableActuators"            0x97 UT_SEL;
  encT "DcDisableActuators"           0x98 UT_SEL;
  encT "DcStopAllEffects"             0x99 UT_SEL;
  encT "DcDeviceReset"                0x9A UT_SEL;
  encT "DcDevicePause"                0x9B UT_SEL;
  encT "DcDeviceContinue"             0x9C UT_SEL;
  encT "DevicePaused"                 0x9F UT_DF;
  encT "ActuatorsEnabled"             0xA0 UT_DF;
  encT "SafetySwitch"                 0xA4 UT_DF;
  encT "ActuatorOverrideSwitch"       0xA5 UT_DF;
  encT "ActuatorPower"                0xA6 UT_OOC;
  encT "StartDelay"                   0xA7 UT_DV;
  encT "ParameterBlockSize"           0xA8 UT_CL;
  encT "DeviceManagedPool"            0xA9 UT_SF;
  encT "SharedParameterBlocks"        0xAA UT_SF;
  encT "CreateNewEffectReport"        0xAB UT_CL;
  encT "RamPoolAvailable"             0xAC UT_DV
].

Definition unicodeMap_tbl : list Encoding := [
  enc  "Ucs#" 0x0000;
  enc  "Ucs#" 0xFFFF
].

Definition eyeHeadMap_tbl : list Encoding := [
  encT "EyeTracker"               0x01 UT_CA;
  encT "HeadTracker"              0x02 UT_CA;
  encT "TrackingData"             0x10 UT_CP;
  encT "Capabilities"             0x11 UT_CL;
  encT "Configuration"            0x12 UT_CL;
  encT "Status"                   0x13 UT_CL;
  encT "Control"                  0x14 UT_CL;
  encT "SensorTimestamp"          0x20 UT_DV;
  encT "PositionX"                0x21 UT_DV;
  encT "PositionY"                0x22 UT_DV;
  encT "PositionZ"                0x23 UT_DV;
  encT "GazePoint"                0x24 UT_CP;
  encT "LeftEyePosition"          0x25 UT_CP;
  encT "RightEyePosition"         0x26 UT_CP;
  encT "HeadPosition"             0x27 UT_CP;
  encT "HeadDirectionPoint"       0x28 UT_CP;
  encT "RotationAboutXAxis"       0x29 UT_DV;
  encT "RotationAboutYAxis"       0x2A UT_DV;
  encT "RotationAboutZAxis"       0x2B UT_DV;
  encT "TrackerQuality"           0x100 UT_SV;
  encT "MinimumTrackingDistance"  0x101 UT_SV;
  encT "OptimumTrackingDistance"  0x102 UT_SV;
  encT "MaximumTrackingDistance"  0x103 UT_SV;
  encT "MaximumScreenPlaneWidth"  0x104 UT_SV;
  encT "MaximumScreenPlaneHeight" 0x105 UT_SV;
  encT "DisplayManufacturerId"    0x200 UT_SV;
  encT "DisplayProductId"         0x201 UT_SV;
  encT "DisplaySerialNumber"      0x202 UT_SV;
  encT "DisplayManufacturerDate"  0x203 UT_SV;
  encT "CalibratedScreenWidth"    0x204 UT_SV;
  encT "CalibratedScreenHeight"   0x205 UT_SV;
  encT "SamplingFrequency"        0x300 UT_DV;
  encT "ConfigurationStatus"      0x301 UT_DV;
  encT "DeviceModeRequest"        0x400 UT_DV
].

Definition auxDisplayMap_tbl : list Encoding := [
  encT "AlphanumericDisplay"        0x01 UT_CA;
  encT "AuxiliaryDisplay"           0x02 UT_CA;
  encT "DisplayAttributesReport"    0x20 UT_CL;
  encT "AsciiCharacterSet"          0x21 UT_SF;
  encT "DataReadBack"               0x22 UT_SF;
  encT "FontReadBack"               0x23 UT_SF;
  encT "DisplayControlReport"       0x24 UT_CL;
  encT "ClearDisplay"               0x25 UT_DF;
  encT "DisplayEnable"              0x26 UT_DF;
  encT "ScreenSaverDelay"           0x27 (UT_SV .| UT_DV);
  encT "ScreenSaverEnable"          0x28 UT_DF;
  encT "VerticalScroll"             0x29 (UT_SF .| UT_DF);
  encT "HorizontalScroll"           0x2A (UT_SF .| UT_DF);
  encT "CharacterReport"            0x2B UT_CL;
  encT "DisplayData"                0x2C UT_DV;
  encT "DisplayStatus"              0x2D UT_CL;
  encT "StatNotReady"               0x2E UT_SEL;
  encT "StatReady"                  0x2F UT_SEL;
  encT "ErrNotALoadableCharacter"   0x30 UT_SEL;
  encT "ErrFontDataCannotBeRead"    0x31 UT_SEL;
  encT "CursorPositionReport"       0x32 UT_SEL;
  encT "Row"                        0x33 UT_DV;
  encT "Column"                     0x34 UT_DV;
  encT "Rows"                       0x35 UT_SV;
  encT "Columns"                    0x36 UT_SV;
  encT "CursorPixelPosition"        0x37 UT_SF;
  encT "CursorMode"                 0x38 UT_DF;
  encT "CursorEnable"               0x39 UT_DF;
  encT "CursorBlink"                0x3A UT_DF;
  encT "FontReport"                 0x3B UT_CL;
  encT "FontData"                   0x3C UT_BB;
  encT "CharacterWidth"             0x3D UT_SV;
  encT "CharacterHeight"            0x3E UT_SV;
  encT "CharacterSpacingHorizontal" 0x3F UT_SV;
  encT "CharacterSpacingVertical"   0x40 UT_SV;
  encT "UnicodeCharacterSet"        0x41 UT_SF;
  encT "Font7Segment"               0x42 UT_SF;
  encT "DirectMap7Segment"          0x43 UT_SF;
  encT "Font14Segment"              0x44 UT_SF;
  encT "DirectMap14Segment"         0x45 UT_SF;
  encT "DisplayBrightness"          0x46 UT_DV;
  encT "DisplayContrast"            0x47 UT_DV;
  encT "CharacterAttribute"         0x48 UT_CL;
  encT "AtributeReadback"           0x49 UT_SF;
  encT "AttributeData"              0x4A UT_DV;
  encT "CharAttrEnhance"            0x4B UT_OOC;
  encT "CharAttrUnderline"          0x4C UT_OOC;
  encT "CharAttrBlink"              0x4D UT_OOC;
  encT "BitmapSizeX"                0x80 UT_SV;
  encT "BitmapSizeY"                0x81 UT_SV;
  encT "MaxBlitSize"                0x82 UT_SV;
  encT "BitDepthFormat"             0x83 UT_SV;
  encT "DisplayOrientation"         0x84 UT_DV;
  encT "PaletteReport"              0x85 UT_CL;
  encT "PaletteDataSize"            0x86 UT_SV;
  encT "PaletteDataOffset"          0x87 UT_SV;
  encT "PaletteData"                0x88 UT_BB;
  encT "BlitReport"                 0x8A UT_CL;
  encT "BlitRectangleX1"            0x8B UT_SV;
  encT "BlitRectangleY1"            0x8C UT_SV;
  encT "BlitRectangleX2"            0x8D UT_SV;
  encT "BlitRectangleY2"            0x8E UT_SV;
  encT "BlitData"                   0x8F UT_BB;
  encT "SoftButton"                 0x90 UT_CL;
  encT "SoftButtonId"               0x91 UT_SV;
  encT "SoftButtonSide"             0x92 UT_SV;
  encT "SoftButtonOffset1"          0x93 UT_SV;
  encT "SoftButtonOffset2"          0x94 UT_SV;
  encT "SoftButtonReport"           0x95 UT_SV;
  encT "SoftKeys"                   0xC2 UT_SV;
  encT "DisplayDataExtensions"      0xCC UT_SF;
  encT "CharacterMapping"           0xCF UT_SV;
  encT "UnicodeEquivalent"          0xDD UT_SV;
  encT "CharacterPageMapping"       0xDF UT_SV;
  encT "RequestReport"              0xFF UT_DV
].

Definition sensorMap_tbl : list Encoding := [
  encT "Sensor"                                         0x01 (UT_CA .| UT_CP);
  encT "Biometric"                                      0x10 (UT_CA .| UT_CP);
  encT "BiometricHumanPresence"                         0x11 (UT_CA .| UT_CP);
  encT "BiometricHumanProximity"                        0x12 (UT_CA .| UT_CP);
  encT "BiometricHumanTouch"                            0x13 (UT_CA .| UT_CP);
  encT "BiometricBloodPressure"                         0x14 (UT_CA .| UT_CP);
  encT "BiometricBodyTemperature"                       0x15 (UT_CA .| UT_CP);
  encT "BiometricHeartRate"                             0x16 (UT_CA .| UT_CP);
  encT "BiometricHeartRateVariability"                  0x17 (UT_CA .| UT_CP);
  encT "BiometricPeripheralOxygenSaturation"            0x18 (UT_CA .| UT_CP);
  encT "BiometricRespiratoryRate"                       0x19 (UT_CA .| UT_CP);
  encT "Electrical"                                     0x20 (UT_CA .| UT_CP);
  encT "ElectricalCapacitance"                          0x21 (UT_CA .| UT_CP);
  encT "ElectricalCurrent"                              0x22 (UT_CA .| UT_CP);
  encT "ElectricalPower"                                0x23 (UT_CA .| UT_CP);
  encT "ElectricalInductance"                           0x24 (UT_CA .| UT_CP);
  encT "ElectricalResistance"                           0x25 (UT_CA .| UT_CP);
  encT "ElectricalVoltage"                              0x26 (UT_CA .| UT_CP);
  encT "ElectricalPotentiometer"                        0x27 (UT_CA .| UT_CP);
  encT "ElectricalFrequency"                            0x28 (UT_CA .| UT_CP);
  encT "ElectricalPeriod"                               0x29 (UT_CA .| UT_CP);
  encT "Environmental"                                  0x30 (UT_CA .| UT_CP);
  encT "EnvironmentalAtmosphericPressure"               0x31 (UT_CA .| UT_CP);
  encT "EnvironmentalHumidity"                          0x32 (UT_CA .| UT_CP);
  encT "EnvironmentalTemperature"                       0x33 (UT_CA .| UT_CP);
  encT "EnvironmentalWindDirection"                     0x34 (UT_CA .| UT_CP);
  encT "EnvironmentalWindSpeed"                         0x35 (UT_CA .| UT_CP);
  encT "EnvironmentalAirQuality"                        0x36 (UT_CA .| UT_CP);
  encT "EnvironmentalHeatIndex"                         0x37 (UT_CA .| UT_CP);
  encT "EnvironmentalSurfaceTemperature"                0x38 (UT_CA .| UT_CP);
  encT "EnvironmentalVolatileOrganicCompounds"          0x39 (UT_CA .| UT_CP);
  encT "EnvironmentalObjectPresence"                    0x3A (UT_CA .| UT_CP);
  encT "EnvironmentalObjectProximity"                   0x3B (UT_CA .| UT_CP);
  encT "Light"                                          0x40 (UT_CA .| UT_CP);
  encT "LightAmbientLight"                              0x41 (UT_CA .| UT_CP);
  encT "LightConsumerInfrared"                          0x42 (UT_CA .| UT_CP);
  encT "LightInfraredLight"                             0x43 (UT_CA .| UT_CP);
  encT "LightVisibleLight"                              0x44 (UT_CA .| UT_CP);
  encT "LightUltravioletLight"                          0x45 (UT_CA .| UT_CP);
  encT "Location"                                       0x50 (UT_CA .| UT_CP);
  encT "LocationBroadcast"                              0x51 (UT_CA .| UT_CP);
  encT "LocationDeadReckoning"                          0x52 (UT_CA .| UT_CP);
  encT "LocationGps"                                    0x53 (UT_CA .| UT_CP);
  encT "LocationLookup"                                 0x54 (UT_CA .| UT_CP);
  encT "LocationOther"                                  0x55 (UT_CA .| UT_CP);
  encT "LocationStatic"                                 0x56 (UT_CA .| UT_CP);
  encT "LocationTriangulation"                          0x57 (UT_CA .| UT_CP);
  encT "Mechanical"                                     0x60 (UT_CA .| UT_CP);
  encT "MechanicalBooleanSwitch"                        0x61 (UT_CA .| UT_CP);
  encT "MechanicalBooleanSwitchArray"                   0x62 (UT_CA .| UT_CP);
  encT "MechanicalMultivalueSwitch"                     0x63 (UT_CA .| UT_CP);
  encT "MechanicalForce"                                0x64 (UT_CA .| UT_CP);
  encT "MechanicalPressure"                             0x65 (UT_CA .| UT_CP);
  encT "MechanicalStrain"                               0x66 (UT_CA .| UT_CP);
  encT "MechanicalWeight"                               0x67 (UT_CA .| UT_CP);
  encT "MechanicalHapticVibrator"                       0x68 (UT_CA .| UT_CP);
  encT "MechanicalHallEffectSwitch"                     0x69 (UT_CA .| UT_CP);
  encT "Motion"                                         0x70 (UT_CA .| UT_CP);
  encT "MotionAccelerometer1d"                          0x71 (UT_CA .| UT_CP);
  encT "MotionAccelerometer2d"                          0x72 (UT_CA .| UT_CP);
  encT "MotionAccelerometer3d"                          0x73 (UT_CA .| UT_CP);
  encT "MotionGyrometer1d"                              0x74 (UT_CA .| UT_CP);
  encT "MotionGyrometer2d"                              0x75 (UT_CA .| UT_CP);
  encT "MotionGyrometer3d"                              0x76 (UT_CA .| UT_CP);
  encT "MotionMotionDetector"                           0x77 (UT_CA .| UT_CP);
  encT "MotionSpeedometer"                              0x78 (UT_CA .| UT_CP);
  encT "MotionAccelerometer"                            0x79 (UT_CA .| UT_CP);
  encT "MotionGyrometer"                                0x7A (UT_CA .| UT_CP);
  encT "MotionGraviyVector"                             0x7B (UT_CA .| UT_CP);
  encT "MotionLinearAccelerometer"                      0x7C (UT_CA .| UT_CP);
  encT "Orientation"                                    0x80 (UT_CA .| UT_CP);
  encT "OrientationCompass1d"                           0x81 (UT_CA .| UT_CP);
  encT "OrientationCompass2d"                           0x82 (UT_CA .| UT_CP);
  encT "OrientationCompass3d"                           0x83 (UT_CA .| UT_CP);
  encT "OrientationInclinometer1d"                      0x84 (UT_CA .| UT_CP);
  encT "OrientationInclinometer2d"                      0x85 (UT_CA .| UT_CP);
  encT "OrientationInclinometer3d"                      0x86 (UT_CA .| UT_CP);
  encT "OrientationDistance1d"                          0x87 (UT_CA .| UT_CP);
  encT "OrientationDistance2d"                          0x88 (UT_CA .| UT_CP);
  encT "OrientationDistance3d"                          0x89 (UT_CA .| UT_CP);
  encT "OrientationDeviceOrientation"                   0x8A (UT_CA .| UT_CP);
  encT "OrientationCompass"                             0x8B (UT_CA .| UT_CP);
  encT "OrientationInclinometer"                        0x8C (UT_CA .| UT_CP);
  encT "OrientationDistance"                            0x8D (UT_CA .| UT_CP);
  encT "OrientationRelativeOrientation"                 0x8E (UT_CA .| UT_CP);
  encT "OrientationSimpleOrientation"                   0x8F (UT_CA .| UT_CP);
  encT "Scanner"                                        0x90 (UT_CA .| UT_CP);
  encT "ScannerBarcode"                                 0x91 (UT_CA .| UT_CP);
  encT "ScannerRfid"                                    0x92 (UT_CA .| UT_CP);
  encT "ScannerNfc"                                     0x93 (UT_CA .| UT_CP);
  encT "Time"                                           0xA0 (UT_CA .| UT_CP);
  encT "TimeAlarmTimer"                                 0xA1 (UT_CA .| UT_CP);
  encT "TimeRealTimeClock"                              0xA2 (UT_CA .| UT_CP);
  encT "PersonalActivity"                               0xB0 (UT_CA .| UT_CP);
  encT "PersonalActivityActivityDetection"              0xB1 (UT_CA .| UT_CP);
  encT "PersonalActivityDevicePosition"                 0xB2 (UT_CA .| UT_CP);
  encT "PersonalActivityPedometer"                      0xB3 (UT_CA .| UT_CP);
  encT "PersonalActivityStepDetection"                  0xB4 (UT_CA .| UT_CP);
  encT "OrientationExtended"                            0xC0 (UT_CA .| UT_CP);
  encT "OrientationExtendedGeomagneticOrientation"      0xC1 (UT_CA .| UT_CP);
  encT "OrientationExtendedMagnetometer"                0xC2 (UT_CA .| UT_CP);
  encT "Gesture"                                        0xD0 (UT_CA .| UT_CP);
  encT "GestureChassisFlipGesture"                      0xD1 (UT_CA .| UT_CP);
  encT "GestureHingeFoldGesture"                        0xD2 (UT_CA .| UT_CP);
  encT "Other"                                          0xE0 (UT_CA .| UT_CP);
  encT "OtherCustom"                                    0xE1 (UT_CA .| UT_CP);
  encT "OtherGeneric"                                   0xE2 (UT_CA .| UT_CP);
  encT "OtherGenericEnumerator"                         0xE3 (UT_CA .| UT_CP);
  encT "OtherHingeAngle"                                0xE4 (UT_CA .| UT_CP);
  encT "VendorReserved1"                                0xF0 (UT_CA .| UT_CP);
  encT "VendorReserved2"                                0xF1 (UT_CA .| UT_CP);
  encT "VendorReserved3"                                0xF2 (UT_CA .| UT_CP);
  encT "VendorReserved4"                                0xF3 (UT_CA .| UT_CP);
  encT "VendorReserved5"                                0xF4 (UT_CA .| UT_CP);
  encT "VendorReserved6"                                0xF5 (UT_CA .| UT_CP);
  encT "VendorReserved7"                                0xF6 (UT_CA .| UT_CP);
  encT "VendorReserved8"                                0xF7 (UT_CA .| UT_CP);
  encT "VendorReserved9"                                0xF8 (UT_CA .| UT_CP);
  encT "VendorReserved10"                               0xF9 (UT_CA .| UT_CP);
  encT "VendorReserved11"                               0xFA (UT_CA .| UT_CP);
  encT "VendorReserved12"                               0xFB (UT_CA .| UT_CP);
  encT "VendorReserved13"                               0xFC (UT_CA .| UT_CP);
  encT "VendorReserved14"                               0xFD (UT_CA .| UT_CP);
  encT "VendorReserved15"                               0xFE (UT_CA .| UT_CP);
  encT "VendorReserved16"                               0xFF (UT_CA .| UT_CP);
  encT "Event"                                          0x200 UT_DV;
  encT "EventSensorState"                               0x201 UT_NARY;
  encT "EventSensorEvent"                               0x202 UT_NARY;
  encT "Property"                                       0x300 UT_DV;
  encT "PropertyFriendlyName"                           0x301 UT_SV;
  encT "PropertyPersistentUniqueId"                     0x302 UT_DV;
  encT "PropertySensorStatus"                           0x303 UT_DV;
  encT "PropertyMinimumReportInterval"                  0x304 UT_SV;
  encT "PropertySensorManufacturer"                     0x305 UT_SV;
  encT "PropertySensorModel"                            0x306 UT_SV;
  encT "PropertySensorSerialNumber"                     0x307 UT_SV;
  encT "PropertySensorDescription"                      0x308 UT_SV;
  encT "PropertySensorConnectionType"                   0x309 UT_NARY;
  encT "PropertySensorDevicePath"                       0x30A UT_DV;
  encT "PropertyHardwareRevision"                       0x30B UT_SV;
  encT "PropertyFirmwareVersion"                        0x30C UT_SV;
  encT "PropertyReleaseDate"                            0x30D UT_SV;
  encT "PropertyReportInterval"                         0x30E UT_DV;
  encT "PropertyChangeSensitivityAbsolute"              0x30F UT_DV;
  encT "PropertyChangeSensitivityPercentOfRange"        0x310 UT_DV;
  encT "PropertyChangeSensitivityPercentRelative"       0x311 UT_DV;
  encT "PropertyAccuracy"                               0x312 UT_DV;
  encT "PropertyResolution"                             0x313 UT_DV;
  encT "PropertyMaximum"                                0x314 UT_DV;
  encT "PropertyMinimum"                                0x315 UT_DV;
  encT "PropertyReportingState"                         0x316 UT_NARY;
  encT "PropertySamplingRate"                           0x317 UT_DV;
  encT "PropertyResponseCurve"                          0x318 UT_DV;
  encT "PropertyPowerState"                             0x319 UT_NARY;
  encT "PropertyMaximumFifoEvents"                      0x31A UT_SV;
  encT "PropertyReportLatency"                          0x31B UT_DV;
  encT "PropertyFlushFifoEvents"                        0x31C UT_DF;
  encT "PropertyMaximumPowerConsumption"                0x31D UT_DV;
  encT "PropertyIsPrimary"                              0x31E UT_DF;
  encT "DataFieldLocation"                              0x400 UT_DV;
  encT "DataFieldAltitudeAntennaSeaLevel"               0x402 UT_SV;
  encT "DataFieldDifferentialReferenceStationId"        0x403 UT_SV;
  encT "DataFieldAltitudeEllipsoidError"                0x404 UT_SV;
  encT "DataFieldAltitudeEllipsoid"                     0x405 UT_SV;
  encT "DataFieldAltitudeSeaLevelError"                 0x406 UT_SV;
  encT "DataFieldAltitudeSeaLevel"                      0x407 UT_SV;
  encT "DataFieldDifferentialGpsDataAge"                0x408 UT_SV;
  encT "DataFieldErrorRadius"                           0x409 UT_SV;
  encT "DataFieldFixQuality"                            0x40A UT_NARY;
  encT "DataFieldFixType"                               0x40B UT_NARY;
  encT "DataFieldGeoidalSeparation"                     0x40C UT_SV;
  encT "DataFieldGpsOperationMode"                      0x40D UT_NARY;
  encT "DataFieldGpsSelectionMode"                      0x40E UT_NARY;
  encT "DataFieldGpsStatus"                             0x40F UT_NARY;
  encT "DataFieldPositionDilutionOfPrecision"           0x410 UT_SV;
  encT "DataFieldHorizontalDilutionOfPrecision"         0x411 UT_SV;
  encT "DataFieldVerticalDilutionOfPrecision"           0x412 UT_SV;
  encT "DataFieldLatitude"                              0x413 UT_SV;
  encT "DataFieldLongitude"                             0x414 UT_SV;
  encT "DataFieldTrueHeading"                           0x415 UT_SV;
  encT "DataFieldMagneticHeading"                       0x416 UT_SV;
  encT "DataFieldMagneticVariation"                     0x417 UT_SV;
  encT "DataFieldSpeed"                                 0x418 UT_SV;
  encT "DataFieldSatellitesInView"                      0x419 UT_SV;
  encT "DataFieldSatellitesInViewAzimuth"               0x41A UT_SV;
  encT "DataFieldSatellitesInViewElevation"             0x41B UT_SV;
  encT "DataFieldSatellitesInViewIds"                   0x41C UT_SV;
  encT "DataFieldSatellitesInViewPrns"                  0x41D UT_SV;
  encT "DataFieldSatellitesInViewSnRatio"               0x41E UT_SV;
  encT "DataFieldSatellitesUsedCount"                   0x41F UT_SV;
  encT "DataFieldSatellitesUsedPrns"                    0x420 UT_SV;
  encT "DataFieldNmeaSentence"                          0x421 UT_SV;
  encT "DataFieldAddressLine1"                          0x422 UT_SV;
  encT "DataFieldAddressLine2"                          0x423 UT_SV;
  encT "DataFieldCity"                                  0x424 UT_SV;
  encT "DataFieldStateOrProvince"                       0x425 UT_SV;
  encT "DataFieldCountryOrRegion"                       0x426 UT_SV;
  encT "DataFieldPostalCode"                            0x427 UT_SV;
  encT "PropertyLocation"                               0x42A UT_DV;
  encT "PropertyLocationDesiredAccuracy"                0x42B UT_NARY;
  encT "DataFieldEnvironmental"                         0x430 UT_SV;
  encT "DataFieldAtmosphericPressure"                   0x431 UT_SV;
  encT "DataFieldRelativeHumidity"                      0x433 UT_SV;
  encT "DataFieldTemperature"                           0x434 UT_SV;
  encT "DataFieldWindDirection"                         0x435 UT_SV;
  encT "DataFieldWindSpeed"                             0x436 UT_SV;
  encT "DataFieldAirQualityIndex"                       0x437 UT_SV;
  encT "DataFieldEquivalentCo2"                         0x438 UT_SV;
  encT "DataFieldVolatileOrganicCompoundConcentration"  0x439 UT_SV;
  encT "DataFieldObjectPresence"                        0x43A UT_SF;
  encT "DataFieldObjectProximityRange"                  0x43B UT_SV;
  encT "DataFieldObjectProximityOutOfRange"             0x43C UT_SF;
  encT "PropertyEnvironmental"                          0x440 UT_SV;
  encT "PropertyReferencePressure"                      0x441 UT_SV;
  encT "DataFieldMotion"                                0x450 UT_DV;
  encT "DataFieldMotionState"                           0x451 UT_SF;
  encT "DataFieldAcceleration"                          0x452 UT_SV;
  encT "DataFieldAccelerationAxisX"                     0x453 UT_SV;
  encT "DataFieldAccelerationAxisY"                     0x454 UT_SV;
  encT "DataFieldAccelerationAxisZ"                     0x455 UT_SV;
  encT "DataFieldAngularVelocity"                       0x456 UT_SV;
  encT "DataFieldAngularVelocityAboutXAxis"             0x457 UT_SV;
  encT "DataFieldAngularVelocityAboutYAxis"             0x458 UT_SV;
  encT "DataFieldAngularVelocityAboutZAxis"             0x459 UT_SV;
  encT "DataFieldAngularPosition"                       0x45A UT_SV;
  encT "DataFieldAngularPositionAboutXAxis"             0x45B UT_SV;
  encT "DataFieldAngularPositionAboutYAxis"             0x45C UT_SV;
  encT "DataFieldAngularPositionAboutZAxis"             0x45D UT_SV;
  encT "DataFieldMotionSpeed"                           0x45E UT_SV;
  encT "DataFieldMotionIntensity"                       0x45F UT_SV;
  encT "DataFieldOrientation"                           0x470 UT_DV;
  encT "DataFieldHeading"                               0x471 UT_SV;
  encT "DataFieldHeadingXAxis"                          0x472 UT_SV;
  encT "DataFieldHeadingYAxis"                          0x473 UT_SV;
  encT "DataFieldHeadingZAxis"                          0x474 UT_SV;
  encT "DataFieldHeadingCompensatedMagneticNorth"       0x475 UT_SV;
  encT "DataFieldHeadingCompensatedTrueNorth"           0x476 UT_SV;
  encT "DataFieldHeadingMagneticNorth"                  0x477 UT_SV;
  encT "DataFieldHeadingTrueNorth"                      0x478 UT_SV;
  encT "DataFieldDistance"                              0x479 UT_SV;
  encT "DataFieldDistanceXAxis"                         0x47A UT_SV;
  encT "DataFieldDistanceYAxis"                         0x47B UT_SV;
  encT "DataFieldDistanceZAxis"                         0x47C UT_SV;
  encT "DataFieldDistanceOutOfRange"                    0x47D UT_SF;
  encT "DataFieldTilt"                                  0x47E UT_SV;
  encT "DataFieldTiltXAxis"                             0x47F UT_SV;
  encT "DataFieldTiltYAxis"                             0x480 UT_SV;
  encT "DataFieldTiltZAxis"                             0x481 UT_SV;
  encT "DataFieldRotationMatrix"                        0x482 UT_SV;
  encT "DataFieldQuaternion"                            0x483 UT_SV;
  encT "DataFieldMagneticFlux"                          0x484 UT_SV;
  encT "DataFieldMagneticFluxXAxis"                     0x485 UT_SV;
  encT "DataFieldMagneticFluxYAxis"                     0x486 UT_SV;
  encT "DataFieldMagneticFluxZAxis"                     0x487 UT_SV;
  encT "DataFieldMagnetometerAccuracy"                  0x488 UT_NARY;
  encT "DataFieldSimpleOrientationDirection"            0x489 UT_NARY;
  encT "DataFieldMechanical"                            0x490 UT_DV;
  encT "DataFieldBooleanSwitchState"                    0x491 UT_SF;
  encT "DataFieldBooleanSwitchArrayStates"              0x492 UT_SV;
  encT "DataFieldMultivalueSwitchValue"                 0x493 UT_SV;
  encT "DataFieldField"                                 0x494 UT_SV;
  encT "DataFieldAbsolutePressure"                      0x495 UT_SV;
  encT "DataFieldGaugePressure"                         0x496 UT_SV;
  encT "DataFieldStrain"                                0x497 UT_SV;
  encT "DataFieldWeight"                                0x498 UT_SV;
  encT "PropertyMechanical"                             0x4A0 UT_DV;
  encT "PropertyVibrationState"                         0x4A1 UT_DF;
  encT "PropertyForwardVibrationSpeed"                  0x4A2 UT_DV;
  encT "PropertyBackwardVibrationSpeed"                 0x4A3 UT_DV;
  encT "DataFieldBiometric"                             0x4B0 UT_DV;
  encT "DataFieldHumanPresence"                         0x4B1 UT_SF;
  encT "DataFieldHumanProximityRange"                   0x4B2 UT_SV;
  encT "DataFieldHumanProximityOutOfRange"              0x4B3 UT_SF;
  encT "DataFieldHumanTouchState"                       0x4B4 UT_SF;
  encT "DataFieldBloodPressure"                         0x4B5 UT_SV;
  encT "DataFieldBloodPressureDiastolic"                0x4B6 UT_SV;
  encT "DataFieldBloodPressureSystolic"                 0x4B7 UT_SV;
  encT "DataFieldHeartRate"                             0x4B8 UT_SV;
  encT "DataFieldRestingHeartRate"                      0x4B9 UT_SV;
  encT "DataFieldHeartbeatInterval"                     0x4BA UT_SV;
  encT "DataFieldRespiratoryRate"                       0x4BB UT_SV;
  encT "DataFieldSpo2"                                  0x4BC UT_SV;
  encT "DataFieldLight"                                 0x4D0 UT_DV;
  encT "DataFieldIlluminance"                           0x4D1 UT_SV;
  encT "DataFieldColorTemperature"                      0x4D2 UT_SV;
  encT "DataFieldChromaticity"                          0x4D3 UT_SV;
  encT "DataFieldChromaticityX"                         0x4D4 UT_SV;
  encT "DataFieldChromaticityY"                         0x4D5 UT_SV;
  encT "DataFieldConsumerIrSentenceReceive"             0x4D6 UT_SV;
  encT "DataFieldInfraredLight"                         0x4D7 UT_SV;
  encT "DataFieldRedLight"                              0x4D8 UT_SV;
  encT "DataFieldGreenLight"                            0x4D9 UT_SV;
  encT "DataFieldBlueLight"                             0x4DA UT_SV;
  encT "DataFieldUltravioletALight"                     0x4DB UT_SV;
  encT "DataFieldUltravioletBLight"                     0x4DC UT_SV;
  encT "DataFieldUltravioletIndex"                      0x4DD UT_SV;
  encT "DataFieldNearInfraredLight"                     0x4DE UT_SV;
  encT "PropertyLight"                                  0x4DF UT_DV;
  encT "PropertyConsumerIrSentenceSend"                 0x4E0 UT_DV;
  encT "PropertyAutoBrightnessPreferred"                0x4E2 UT_DF;
  encT "PropertyAutoColorPreferred"                     0x4E3 UT_DF;
  encT "DataFieldScanner"                               0x4F0 UT_DV;
  encT "DataFieldRfidTag40Bit"                          0x4F1 UT_SV;
  encT "DataFieldNfcSentenceReceive"                    0x4F2 UT_SV;
  encT "PropertyScanner"                                0x4F8 UT_DV;
  encT "PropertyNfcSentenceSend"                        0x4F9 UT_SV;
  encT "DataFieldElectrical"                            0x500 UT_SV;
  encT "DataFieldCapacitance"                           0x501 UT_SV;
  encT "DataFieldCurrent"                               0x502 UT_SV;
  encT "DataFieldElectricalPower"                       0x503 UT_SV;
  encT "DataFieldInductance"                            0x504 UT_SV;
  encT "DataFieldResistance"                            0x505 UT_SV;
  encT "DataFieldVoltage"                               0x506 UT_SV;
  encT "DataFieldFrequency"                             0x507 UT_SV;
  encT "DataFieldPeriod"                                0x508 UT_SV;
  encT "DataFieldPercentOfRange"                        0x509 UT_SV;
  encT "DataFieldTime"                                  0x520 UT_DV;
  encT "DataFieldYear"                                  0x521 UT_SV;
  encT "DataFieldMonth"                                 0x522 UT_SV;
  encT "DataFieldDay"                                   0x523 UT_SV;
  encT "DataFieldDayOfWeek"                             0x524 UT_NARY;
  encT "DataFieldHour"                                  0x525 UT_SV;
  encT "DataFieldMinute"                                0x526 UT_SV;
  encT "DataFieldSecond"                                0x527 UT_SV;
  encT "DataFieldMillisecond"                           0x528 UT_SV;
  encT "DataFieldTimestamp"                             0x529 UT_SV;
  encT "DataFieldJulianDayOfYear"                       0x52A UT_SV;
  encT "DataFieldTimeSinceSystemBoot"                   0x52B UT_SV;
  encT "PropertyTime"                                   0x530 UT_DV;
  encT "PropertyTimeZoneOffsetFromUtc"                  0x531 UT_DV;
  encT "PropertyTimeZoneName"                           0x532 UT_DV;
  encT "PropertyDaylightSavingsTimeObserved"            0x533 UT_DF;
  encT "PropertyTimeTrimAdjustment"                     0x534 UT_DV;
  encT "PropertyArmAlarm"                               0x535 UT_DF;
  encT "DataFieldCustom"                                0x540 UT_DV;
  encT "DataFieldCustomUsage"                           0x541 UT_SV;
  encT "DataFieldCustomBooleanArray"                    0x542 UT_SV;
  encT "DataFieldCustomValue"                           0x543 UT_SV;
  encT "DataFieldCustomValue1"                          0x544 UT_SV;
  encT "DataFieldCustomValue2"                          0x545 UT_SV;
  encT "DataFieldCustomValue3"                          0x546 UT_SV;
  encT "DataFieldCustomValue4"                          0x547 UT_SV;
  encT "DataFieldCustomValue5"                          0x548 UT_SV;
  encT "DataFieldCustomValue6"                          0x549 UT_SV;
  encT "DataFieldCustomValue7"                          0x54A UT_SV;
  encT "DataFieldCustomValue8"                          0x54B UT_SV;
  encT "DataFieldCustomValue9"                          0x54C UT_SV;
  encT "DataFieldCustomValue10"                         0x54D UT_SV;
  encT "DataFieldCustomValue11"                         0x54E UT_SV;
  encT "DataFieldCustomValue12"                         0x54F UT_SV;
  encT "DataFieldCustomValue13"                         0x550 UT_SV;
  encT "DataFieldCustomValue14"                         0x551 UT_SV;
  encT "DataFieldCustomValue15"                         0x552 UT_SV;
  encT "DataFieldCustomValue16"                         0x553 UT_SV;
  encT "DataFieldCustomValue17"                         0x554 UT_SV;
  encT "DataFieldCustomValue18"                         0x555 UT_SV;
  encT "DataFieldCustomValue19"                         0x556 UT_SV;
  encT "DataFieldCustomValue20"                         0x557 UT_SV;
  encT "DataFieldCustomValue21"                         0x558 UT_SV;
  encT "DataFieldCustomValue22"                         0x559 UT_SV;
  encT "DataFieldCustomValue23"                         0x55A UT_SV;
  encT "DataFieldCustomValue24"                         0x55B UT_SV;
  encT "DataFieldCustomValue25"                         0x55C UT_SV;
  encT "DataFieldCustomValue26"                         0x55D UT_SV;
  encT "DataFieldCustomValue27"                         0x55E UT_SV;
  encT "DataFieldCustomValue28"                         0x55F UT_SV;
  encT "DataFieldGeneric"                               0x560 UT_DV;
  encT "DataFieldGenericGuidOrPropertykey"              0x561 UT_SV;
  encT "DataFieldGenericCategoryGuid"                   0x562 UT_SV;
  encT "DataFieldGenericTypeGuid"                       0x563 UT_SV;
  encT "DataFieldGenericEventPropertykey"               0x564 UT_SV;
  encT "DataFieldGenericPropertyPropertykey"            0x565 UT_SV;
  encT "DataFieldGenericDataFieldPropertykey"           0x566 UT_SV;
  encT "DataFieldGenericEvent"                          0x567 UT_SV;
  encT "DataFieldGenericProperty"                       0x568 UT_SV;
  encT "DataFieldGenericDataField"                      0x569 UT_SV;
  encT "DataFieldEnumeratorTableRowIndex"               0x56A UT_SV;
  encT "DataFieldEnumeratorTableRowCount"               0x56B UT_SV;
  encT "DataFieldGenericGuidOrPropertykeyKind"          0x56C UT_NARY;
  encT "DataFieldGenericGuid"                           0x56D UT_SV;
  encT "DataFieldGenericPropertykey"                    0x56E UT_SV;
  encT "DataFieldGenericTopLevelCollectionId"           0x56F UT_SV;
  encT "DataFieldGenericReportId"                       0x570 UT_SV;
  encT "DataFieldGenericReportItemPositionIndex"        0x571 UT_SV;
  encT "DataFieldGenericFirmwareVartype"                0x572 UT_NARY;
  encT "DataFieldGenericUnitOfMessure"                  0x573 UT_NARY;
  encT "DataFieldGenericUnitExponent"                   0x574 UT_NARY;
  encT "DataFieldGenericReportSize"                     0x575 UT_SV;
  encT "DataFieldGenericReportCount"                    0x576 UT_SV;
  encT "PropertyGeneric"                                0x580 UT_DV;
  encT "PropertyEnumeratorTableRowIndex"                0x581 UT_DV;
  encT "PropertyEnumeratorTableRowCount"                0x582 UT_SV;
  encT "DataFieldPersonalActivity"                      0x590 UT_DV;
  encT "DataFieldActivityType"                          0x591 UT_NARY;
  encT "DataFieldActivityState"                         0x592 UT_NARY;
  encT "DataFieldDevicePosition"                        0x593 UT_NARY;
  encT "DataFieldStepCount"                             0x594 UT_SV;
  encT "DataFieldStepCountReset"                        0x595 UT_DF;
  encT "DataFieldStepDuration"                          0x596 UT_SV;
  encT "DataFieldStepType"                              0x597 UT_NARY;
  encT "PropertyMinimumActivityDetectionInterval"       0x5A0 UT_DV;
  encT "PropertySupportedActivityTypes"                 0x5A1 UT_NARY;
  encT "PropertySubscribedActivityTypes"                0x5A2 UT_NARY;
  encT "PropertySupportedStepTypes"                     0x5A3 UT_NARY;
  encT "PropertySubscribedStepTypes"                    0x5A4 UT_NARY;
  encT "PropertyFloorHeight"                            0x5A5 UT_DV;
  encT "DataFieldCustomTypeId"                          0x5B0 UT_SV;
  encT "PropertyCustom"                                 0x5C0 UT_DV;
  encT "PropertyCustomValue1"                           0x5C1 UT_DV;
  encT "PropertyCustomValue2"                           0x5C2 UT_DV;
  encT "PropertyCustomValue3"                           0x5C3 UT_DV;
  encT "PropertyCustomValue4"                           0x5C4 UT_DV;
  encT "PropertyCustomValue5"                           0x5C5 UT_DV;
  encT "PropertyCustomValue6"                           0x5C6 UT_DV;
  encT "PropertyCustomValue7"                           0x5C7 UT_DV;
  encT "PropertyCustomValue8"                           0x5C8 UT_DV;
  encT "PropertyCustomValue9"                           0x5C9 UT_DV;
  encT "PropertyCustomValue10"                          0x5CA UT_DV;
  encT "PropertyCustomValue11"                          0x5CB UT_DV;
  encT "PropertyCustomValue12"                          0x5CC UT_DV;
  encT "PropertyCustomValue13"                          0x5CD UT_DV;
  encT "PropertyCustomValue14"                          0x5CE UT_DV;
  encT "PropertyCustomValue15"                          0x5CF UT_DV;
  encT "PropertyCustomValue16"                          0x5D0 UT_DV;
  encT "DataFieldHinge"                                 0x5E0 (UT_SV .| UT_DV);
  encT "DataFieldHingeAngle"                            0x5E1 (UT_SV .| UT_DV);
  encT "DataFieldGestureSensor"                         0x5F0 UT_DV;
  encT "DataFieldGestureState"                          0x5F1 UT_NARY;
  encT "DataFieldHingeFoldInitialAngle"                 0x5F2 UT_SV;
  encT "DataFieldHingeFoldFinalAngle"                   0x5F3 UT_SV;
  encT "DataFieldHingeFoldContributionPanel"            0x5F4 UT_NARY;
  encT "DataFieldHingeFoldType"                         0x5F5 UT_NARY;
  encT "SensorStateUndefined"                           0x800 UT_SEL;
  encT "SensorStateReady"                               0x801 UT_SEL;
  encT "SensorStateNotAvailable"                        0x802 UT_SEL;
  encT "SensorStateNoData"                              0x803 UT_SEL;
  encT "SensorStateInitializing"                        0x804 UT_SEL;
  encT "SensorStateAccessDenied"                        0x805 UT_SEL;
  encT "SensorStateError"                               0x806 UT_SEL;
  encT "SensorEventUnknown"                             0x810 UT_SEL;
  encT "SensorEventStateChanged"                        0x811 UT_SEL;
  encT "SensorEventPropertyChanged"                     0x812 UT_SEL;
  encT "SensorEventDataUploaded"                        0x813 UT_SEL;
  encT "SensorEventPollResponse"                        0x814 UT_SEL;
  encT "SensorEventChangeSensitivity"                   0x815 UT_SEL;
  encT "SensorEventRangeMaximumReached"                 0x816 UT_SEL;
  encT "SensorEventRangeMinimumReached"                 0x817 UT_SEL;
  encT "SensorEventHighThresholdCrossUpward"            0x818 UT_SEL;
  encT "SensorEventHighThresholdCrossDownward"          0x819 UT_SEL;
  encT "SensorEventLowThresholdCrossUpward"             0x81A UT_SEL;
  encT "SensorEventLowThresholdCrossDownward"           0x81B UT_SEL;
  encT "SensorEventZeroThresholdCrossUpward"            0x81C UT_SEL;
  encT "SensorEventZeroThresholdCrossDownward"          0x81D UT_SEL;
  encT "SensorEventPeriodExceeded"                      0x81E UT_SEL;
  encT "SensorEventFrequencyExceeded"                   0x81F UT_SEL;
  encT "SensorEventComplexTrigger"                      0x820 UT_SEL;
  encT "ConnectionTypePcIntegrated"                     0x830 UT_SEL;
  encT "ConnectionTypePcAttached"                       0x831 UT_SEL;
  encT "ConnectionTypePcExternal"                       0x832 UT_SEL;
  encT "ReportingStateReportNoEvents"                   0x840 UT_SEL;
  encT "ReportingStateReportAllEvents"                  0x841 UT_SEL;
  encT "ReportingStateReportThresholdEvents"            0x842 UT_SEL;
  encT "ReportingStateWakeOnNoEvents"                   0x843 UT_SEL;
  encT "ReportingStateWakeOnAllEvents"                  0x844 UT_SEL;
  encT "ReportingStateWakeOnThresholdEvents"            0x845 UT_SEL;
  encT "PowerStateUndefined"                            0x850 UT_SEL;
  encT "PowerStateD0FullPower"                          0x851 UT_SEL;
  encT "PowerStateD1LowPower"                           0x852 UT_SEL;
  encT "PowerStateD2StandbyPowerWithWakeup"             0x853 UT_SEL;
  encT "PowerStateD3SleepWithWakeup"                    0x854 UT_SEL;
  encT "PowerStateD4PowerOff"                           0x855 UT_SEL;
  encT "FixQualityNoFix"                                0x870 UT_SEL;
  encT "FixQualityGps"                                  0x871 UT_SEL;
  encT "FixQualityDgps"                                 0x872 UT_SEL;
  encT "FixTypeNoFix"                                   0x880 UT_SEL;
  encT "FixTypeGpsSpsModeFixValid"                      0x881 UT_SEL;
  encT "FixTypeDgpsSpsModeFixValid"                     0x882 UT_SEL;
  encT "FixTypeGpsPpsModeFixValid"                      0x883 UT_SEL;
  encT "FixTypeRealTimeKinematic"                       0x884 UT_SEL;
  encT "FixTypeFloatRtk"                                0x885 UT_SEL;
  encT "FixTypeEstimatedDeadReckoned"                   0x886 UT_SEL;
  encT "FixTypeManualInputMode"                         0x887 UT_SEL;
  encT "FixTypeSimulatorMode"                           0x888 UT_SEL;
  encT "GpsOperationModeManual"                         0x890 UT_SEL;
  encT "GpsOperationModeAutomatic"                      0x891 UT_SEL;
  encT "GpsSelectionModeAutonomous"                     0x8A0 UT_SEL;
  encT "GpsSelectionModeDgps"                           0x8A1 UT_SEL;
  encT "GpsSelectionModeEstimatedDeadReckoned"          0x8A2 UT_SEL;
  encT "GpsSelectionModeManualInput"                    0x8A3 UT_SEL;
  encT "GpsSelectionModeSimulator"                      0x8A4 UT_SEL;
  encT "GpsSelectionModeDataNotValid"                   0x8A5 UT_SEL;
  encT "GpsStatusDataValid"                             0x8B0 UT_SEL;
  encT "GpsStatusDataNotValid"                          0x8B1 UT_SEL;
  encT "AccuracyDefault"                                0x860 UT_SEL;
  encT "AccuracyHigh"                                   0x861 UT_SEL;
  encT "AccuracyMedium"                                 0x862 UT_SEL;
  encT "AccuracyLow"                                    0x863 UT_SEL;
  encT "DayOfWeekSunday"                                0x8C0 UT_SEL;
  encT "DayOfWeekMonday"                                0x8C1 UT_SEL;
  encT "DayOfWeekTuesday"                               0x8C2 UT_SEL;
  encT "DayOfWeekWednesday"                             0x8C3 UT_SEL;
  encT "DayOfWeekThursday"                              0x8C4 UT_SEL;
  encT "DayOfWeekFriday"                                0x8C5 UT_SEL;
  encT "DayOfWeekSaturday"                              0x8C6 UT_SEL;
  encT "KindCategory"                                   0x8D0 UT_SEL;
  encT "KindType"                                       0x8D1 UT_SEL;
  encT "KindEvent"                                      0x8D2 UT_SEL;
  encT "KindProperty"                                   0x8D3 UT_SEL;
  encT "KindDataField"                                  0x8D4 UT_SEL;
  encT "MagnetometerAccuracyLow"                        0x8E0 UT_SEL;
  encT "MagnetometerAccuracyMedium"                     0x8E1 UT_SEL;
  encT "MagnetometerAccuracyHigh"                       0x8E2 UT_SEL;
  encT "SimpleOrientationDirectionNotRotated"           0x8F0 UT_SEL;
  encT "SimpleOrientationDirectionRotated90DegreesCcw"  0x8F1 UT_SEL;
  encT "SimpleOrientationDirectionRotated180DegreesCcw" 0x8F2 UT_SEL;
  encT "SimpleOrientationDirectionRotated270DegreesCcw" 0x8F3 UT_SEL;
  encT "SimpleOrientationDirectionFaceUp"               0x8F4 UT_SEL;
  encT "SimpleOrientationDirectionFaceDown"             0x8F5 UT_SEL;
  encT "VtNull"                                         0x900 UT_SEL;
  encT "VtBool"                                         0x901 UT_SEL;
  encT "VtUi1"                                          0x902 UT_SEL;
  encT "VtI1"                                           0x903 UT_SEL;
  encT "VtUi2"                                          0x904 UT_SEL;
  encT "VtI2"                                           0x905 UT_SEL;
  encT "VtUi4"                                          0x906 UT_SEL;
  encT "VtI4"                                           0x907 UT_SEL;
  encT "VtUi8"                                          0x908 UT_SEL;
  encT "VtI8"                                           0x909 UT_SEL;
  encT "VtR4"                                           0x90A UT_SEL;
  encT "VtR8"                                           0x90B UT_SEL;
  encT "VtWstr"                                         0x90C UT_SEL;
  encT "VtStr"                                          0x90D UT_SEL;
  encT "VtClsid"                                        0x90E UT_SEL;
  encT "VtVectorVtUi1"                                  0x90F UT_SEL;
  encT "VtF16E0"                                        0x910 UT_SEL;
  encT "VtF16E1"                                        0x911 UT_SEL;
  encT "VtF16E2"                                        0x912 UT_SEL;
  encT "VtF16E3"                                        0x913 UT_SEL;
  encT "VtF16E4"                                        0x914 UT_SEL;
  encT "VtF16E5"                                        0x915 UT_SEL;
  encT "VtF16E6"                                        0x916 UT_SEL;
  encT "VtF16E7"                                        0x917 UT_SEL;
  encT "VtF16E8"                                        0x918 UT_SEL;
  encT "VtF16E9"                                        0x919 UT_SEL;
  encT "VtF16EA"                                        0x91A UT_SEL;
  encT "VtF16EB"                                        0x91B UT_SEL;
  encT "VtF16EC"                                        0x91C UT_SEL;
  encT "VtF16ED"                                        0x91D UT_SEL;
  encT "VtF16EE"                                        0x91E UT_SEL;
  encT "VtF16EF"                                        0x91F UT_SEL;
  encT "VtF32E0"                                        0x920 UT_SEL;
  encT "VtF32E1"                                        0x921 UT_SEL;
  encT "VtF32E2"                                        0x922 UT_SEL;
  encT "VtF32E3"                                        0x923 UT_SEL;
  encT "VtF32E4"                                        0x924 UT_SEL;
  encT "VtF32E5"                                        0x925 UT_SEL;
  encT "VtF32E6"                                        0x926 UT_SEL;
  encT "VtF32E7"                                        0x927 UT_SEL;
  encT "VtF32E8"                                        0x928 UT_SEL;
  encT "VtF32E9"                                        0x929 UT_SEL;
  encT "VtF32EA"                                        0x92A UT_SEL;
  encT "VtF32EB"                                        0x92B UT_SEL;
  encT "VtF32EC"                                        0x92C UT_SEL;
  encT "VtF32ED"                                        0x92D UT_SEL;
  encT "VtF32EE"                                        0x92E UT_SEL;
  encT "VtF32EF"                                        0x92F UT_SEL;
  encT "ActivityTypeUnknown"                            0x930 UT_SEL;
  encT "ActivityTypeStationary"                         0x931 UT_SEL;
  encT "ActivityTypeFidgeting"                          0x932 UT_SEL;
  encT "ActivityTypeWalking"                            0x933 UT_SEL;
  encT "ActivityTypeRunning"                            0x934 UT_SEL;
  encT "ActivityTypeInVehicle"                          0x935 UT_SEL;
  encT "ActivityTypeBiking"                             0x936 UT_SEL;
  encT "ActivityTypeIdle"                               0x937 UT_SEL;
  encT "UnitNotSpecified"                               0x940 UT_SEL;
  encT "UnitLux"                                        0x941 UT_SEL;
  encT "UnitDegreesKelvin"                              0x942 UT_SEL;
  encT "UnitDegreesCelsius"                             0x943 UT_SEL;
  encT "UnitPascal"                                     0x944 UT_SEL;
  encT "UnitNewton"                                     0x945 UT_SEL;
  encT "UnitMetersPerSecond"                            0x946 UT_SEL;
  encT "UnitKilogram"                                   0x947 UT_SEL;
  encT "UnitMeter"                                      0x948 UT_SEL;
  encT "UnitMetersPerSecondSquared"                     0x949 UT_SEL;
  encT "UnitFarad"                                      0x94A UT_SEL;
  encT "UnitAmpere"                                     0x94B UT_SEL;
  encT "UnitWatt"                                       0x94C UT_SEL;
  encT "UnitHenry"                                      0x94D UT_SEL;
  encT "UnitOhm"                                        0x94E UT_SEL;
  encT "UnitVolt"                                       0x94F UT_SEL;
  encT "UnitHerz"                                       0x950 UT_SEL;
  encT "UnitBar"                                        0x951 UT_SEL;
  encT "UnitDegreesAntiClockwise"                       0x952 UT_SEL;
  encT "UnitDegreesClockwise"                           0x953 UT_SEL;
  encT "UnitDegrees"                                    0x954 UT_SEL;
  encT "UnitDegreesPerSecond"                           0x955 UT_SEL;
  encT "UnitDegreesPerSecondSquared"                    0x956 UT_SEL;
  encT "UnitKnot"                                       0x957 UT_SEL;
  encT "UnitPercent"                                    0x958 UT_SEL;
  encT "UnitSecond"                                     0x959 UT_SEL;
  encT "UnitMillisecond"                                0x95A UT_SEL;
  encT "UnitG"                                          0x95B UT_SEL;
  encT "UnitBytes"                                      0x95C UT_SEL;
  encT "UnitMilligauss"                                 0x95D UT_SEL;
  encT "UnitBits"                                       0x95E UT_SEL;
  encT "ActivityStateNoStateChange"                     0x960 UT_SEL;
  encT "ActivityStateStartActivity"                     0x961 UT_SEL;
  encT "ActivityStateEndActivity"                       0x962 UT_SEL;
  encT "Exponent0"                                      0x970 UT_SEL;
  encT "Exponent1"                                      0x971 UT_SEL;
  encT "Exponent2"                                      0x972 UT_SEL;
  encT "Exponent3"                                      0x973 UT_SEL;
  encT "Exponent4"                                      0x974 UT_SEL;
  encT "Exponent5"                                      0x975 UT_SEL;
  encT "Exponent6"                                      0x976 UT_SEL;
  encT "Exponent7"                                      0x977 UT_SEL;
  encT "Exponent8"                                      0x978 UT_SEL;
  encT "Exponent9"                                      0x979 UT_SEL;
  encT "ExponentA"                                      0x97A UT_SEL;
  encT "ExponentB"                                      0x97B UT_SEL;
  encT "ExponentC"                                      0x97C UT_SEL;
  encT "ExponentD"                                      0x97D UT_SEL;
  encT "ExponentE"                                      0x97E UT_SEL;
  encT "ExponentF"                                      0x97F UT_SEL;
  encT "DevicePositionUnknown"                          0x980 UT_SEL;
  encT "DevicePositionUnchanged"                        0x981 UT_SEL;
  encT "DevicePositionOnDesk"                           0x982 UT_SEL;
  encT "DevicePositionInHand"                           0x983 UT_SEL;
  encT "DevicePositionMovingInBag"                      0x984 UT_SEL;
  encT "DevicePositionStationaryInBag"                  0x985 UT_SEL;
  encT "StepTypeUnknown"                                0x990 UT_SEL;
  encT "StepTypeRunning"                                0x991 UT_SEL;
  encT "StepTypeWalking"                                0x992 UT_SEL;
  encT "GestureStateUnknown"                            0x9A0 UT_SEL;
  encT "GestureStateStarted"                            0x9A1 UT_SEL;
  encT "GestureStateCompleted"                          0x9A2 UT_SEL;
  encT "GestureStateCancelled"                          0x9A3 UT_SEL;
  encT "HingeFoldContributionPanelUnknown"              0x9B0 UT_SEL;
  encT "HingeFoldContributionPanelPanel1"               0x9B1 UT_SEL;
  encT "HingeFoldContributionPanelPanel2"               0x9B2 UT_SEL;
  encT "HingeFoldContributionPanelBoth"                 0x9B3 UT_SEL;
  encT "HingeFoldTypeUnknown"                           0x9B4 UT_SEL;
  encT "HingeFoldTypeIncreasing"                        0x9B5 UT_SEL;
  encT "HingeFoldTypeDecreasing"                        0x9B6 UT_SEL;
  encT "ModifierChangeSensitivityAbsolute"              0x1000 UT_US;
  encT "ModifierMaximum"                                0x2000 UT_US;
  encT "ModifierMinimum"                                0x3000 UT_US;
  encT "ModifierAccuracy"                               0x4000 UT_US;
  encT "ModifierResolution"                             0x5000 UT_US;
  encT "ModifierThresholdHigh"                          0x6000 UT_US;
  encT "ModifierThresholdLow"                           0x7000 UT_US;
  encT "ModifierCalibrationOffset"                      0x8000 UT_US;
  encT "ModifierCalibrationMultiplier"                  0x9000 UT_US;
  encT "ModifierReportInterval"                         0xA000 UT_US;
  encT "ModifierFrequencyMax"                           0xB000 UT_US;
  encT "ModifierPeriodMax"                              0xC000 UT_US;
  encT "ModifierChangeSensitivityPercentOfRange"        0xD000 UT_US;
  encT "ModifierChangeSensitivityPercentRelative"       0xE000 UT_US;
  encT "ModifierVendorReserved"                         0xF000 UT_US
].

Definition medInstMap_tbl : list Encoding := [
  encT "MedicalUlrasound"          0x01 UT_CA;
  encT "VcrAcquisition"            0x20 UT_OOC;
  encT "FreezeThaw"                0x21 UT_OOC;
  encT "ClipStore"                 0x22 UT_OSC;
  encT "Update"                    0x23 UT_OSC;
  encT "Next"                      0x24 UT_OSC;
  encT "Save"                      0x25 UT_OSC;
  encT "Print"                     0x26 UT_OSC;
  encT "MicrophoneEnable"          0x27 UT_OSC;
  encT "Cine"                      0x40 UT_LC;
  encT "TransmitPower"             0x41 UT_LC;
  encT "Volume"                    0x42 UT_LC;
  encT "Focus"                     0x43 UT_LC;
  encT "Depth"                     0x44 UT_LC;
  encT "SoftStepPrimary"           0x60 UT_LC;
  encT "SoftStepSecondary"         0x61 UT_LC;
  encT "DepthGainCompensation"     0x70 UT_LC;
  encT "ZoomSelect"                0x80 UT_OSC;
  encT "ZoomAdjust"                0x81 UT_LC;
  encT "SpectralDopplerModeSelect" 0x82 UT_OSC;
  encT "SpectralDopplerAdjust"     0x83 UT_LC;
  encT "ColorDopplerModeSelect"    0x84 UT_OSC;
  encT "ColorDopplerAdjust"        0x85 UT_LC;
  encT "MotionModeSelect"          0x86 UT_OSC;
  encT "MotionModeAdjust"          0x87 UT_LC;
  encT "Mode2dSelect"              0x88 UT_OSC;
  encT "Mode2dAdjust"              0x89 UT_LC;
  encT "SoftControlSelect"         0xA0 UT_OSC;
  encT "SoftControlAdjust"         0xA1 UT_LC
].

Definition brailleMap_tbl : list Encoding := [
  encT "BrailleDisplay"            0x01 UT_CA;
  encT "BrailleRow"                0x02 UT_NARY;
  encT "Dot8BrailleCell"           0x03 UT_DV;
  encT "Dot6BrailleCell"           0x04 UT_DV;
  encT "NumberOfBrailleCells"      0x05 UT_DV;
  encT "ScreenReaderControl"       0x06 UT_NARY;
  encT "ScreenReaderIdentifier"    0x07 UT_DV;
  encT "RouterSet1"                0xFA UT_NARY;
  encT "RouterSet2"                0xFB UT_NARY;
  encT "RouterSet3"                0xFC UT_NARY;
  encT "RouterKey"                 0x100 UT_SEL;
  encT "RowRouterKey"              0x101 UT_SEL;
  encT "BrailleButtons"            0x200 UT_NARY;
  encT "BrailleKeyboardDot1"       0x201 UT_SEL;
  encT "BrailleKeyboardDot2"       0x202 UT_SEL;
  encT "BrailleKeyboardDot3"       0x203 UT_SEL;
  encT "BrailleKeyboardDot4"       0x204 UT_SEL;
  encT "BrailleKeyboardDot5"       0x205 UT_SEL;
  encT "BrailleKeyboardDot6"       0x206 UT_SEL;
  encT "BrailleKeyboardDot7"       0x207 UT_SEL;
  encT "BrailleKeyboardDot8"       0x208 UT_SEL;
  encT "BrailleKeyboardSpace"      0x209 UT_SEL;
  encT "BrailleKeyboardLeftSpace"  0x20A UT_SEL;
  encT "BrailleKeyboardRightSpace" 0x20B UT_SEL;
  encT "BrailleFaceConrols"        0x20C UT_NARY;
  encT "BrailleLeftControls"       0x20D UT_NARY;
  encT "BrailleRightControls"      0x20E UT_NARY;
  encT "BrailleTopControls"        0x20F UT_NARY;
  encT "BrailleJoystickCenter"     0x210 UT_SEL;
  encT "BrailleJoystickUp"         0x211 UT_SEL;
  encT "BrailleJoystickDown"       0x212 UT_SEL;
  encT "BrailleJoystickLeft"       0x213 UT_SEL;
  encT "BrailleJoystickRight"      0x214 UT_SEL;
  encT "BrailleDPadCenter"         0x215 UT_SEL;
  encT "BrailleDPadUp"             0x216 UT_SEL;
  encT "BrailleDPadDown"           0x217 UT_SEL;
  encT "BrailleDPadLeft"           0x218 UT_SEL;
  encT "BrailleDPadRight"          0x219 UT_SEL;
  encT "BraillePanLeft"            0x21A UT_SEL;
  encT "BraillePanRight"           0x21B UT_SEL;
  encT "BrailleRockerUp"           0x21C UT_SEL;
  encT "BrailleRockerDown"         0x21D UT_SEL;
  encT "BrailleRockerPress"        0x21E UT_SEL
].

Definition lightMap_tbl : list Encoding := [
  encT "LampArray"                       0x01 UT_CA;
  encT "LampArrayAttributesReport"       0x02 UT_CL;
  encT "LampCount"                       0x03 (UT_SV .| UT_DV);
  encT "BoundingBoxWidthInMicrometers"   0x04 UT_SV;
  encT "BoundingBoxHeightInMicrometers"  0x05 UT_SV;
  encT "BoundingBoxDepthInMicrometers"   0x06 UT_SV;
  encT "LampArrayKind"                   0x07 UT_SV;
  encT "MinUpdateIntervalInMicroseconds" 0x08 UT_SV;
  encT "LampAtributesRequestReport"      0x20 UT_CL;
  encT "LampId"                          0x21 (UT_SV .| UT_DV);
  encT "LampAtributesResponseReport"     0x22 UT_CL;
  encT "PositionXInMicrometers"          0x23 UT_DV;
  encT "PositionYInMicrometers"          0x24 UT_DV;
  encT "PositionZInMicrometers"          0x25 UT_DV;
  encT "LampPurposes"                    0x26 UT_DV;
  encT "UpdateLatencyInMicroseconds"     0x27 UT_DV;
  encT "RedLevelCount"                   0x28 UT_DV;
  encT "GreenLevelCount"                 0x29 UT_DV;
  encT "BlueLevelCount"                  0x2A UT_DV;
  encT "IntensityLevelCount"             0x2B UT_DV;
  encT "IsProgrammable"                  0x2C UT_DV;
  encT "InputBinding"                    0x2D UT_DV;
  encT "LampMultiUpdateReport"           0x50 UT_CL;
  encT "RedUpdateChannel"                0x51 UT_DV;
  encT "GreenUpdateChannel"              0x52 UT_DV;
  encT "BlueUpdateChannel"               0x53 UT_DV;
  encT "IntensityUpdateChannel"          0x54 UT_DV;
  encT "LampUpdateFlags"                 0x55 UT_DV;
  encT "LampRangeUpdateReport"           0x60 UT_CL;
  encT "LampIdStart"                     0x61 UT_DV;
  encT "LampIdEnd"                       0x62 UT_DV;
  encT "LampArrayControlReport"          0x70 UT_CL;
  encT "AutonomousMode"                  0x71 UT_DV
].

Definition monitorMap_tbl : list Encoding := [
  enc  "MonitorControl"  0x01;
  enc  "EdidInformation" 0x02;
  enc  "VdifInformation" 0x03;
  enc  "VesaVersion"     0x04
].

Definition monitorEnumMap_tbl : list Encoding := [
  enc  "Enum#" 0x00;
  enc  "Enum#" 0x3E
].

Definition vesaCtrlMap_tbl : list Encoding := [
  enc  "Brightness"                        0x10;
  enc  "Contrast"                          0x12;
  enc  "RedVideoGain"                      0x16;
  enc  "GreenVideoGain"                    0x18;
  enc  "BlueVideoGain"                     0x1A;
  enc  "Focus"                             0x1C;
  enc  "HorizontalPosition"                0x20;
  enc  "HorizontalSize"                    0x22;
  enc  "HorizontalPincushion"              0x24;
  enc  "HorizontalPincushionBalance"       0x26;
  enc  "HorizontalMisconvergence"          0x28;
  enc  "HorizontalLinearity"               0x2A;
  enc  "HorizontalLinearityBalance"        0x2C;
  enc  "VerticalPosition"                  0x30;
  enc  "VerticalSize"                      0x32;
  enc  "VerticalPincushion"                0x34;
  enc  "VerticalPincushionBalance"         0x36;
  enc  "VerticalMisconvergence"            0x38;
  enc  "VerticalLinearity"                 0x3A;
  enc  "VerticalLinearityBalance"          0x3C;
  enc  "ParallelogramDistortionKeyBalance" 0x40;
  enc  "TrapezoidalDistortionKey"          0x42;
  enc  "TiltRotation"                      0x44;
  enc  "TopCornerDistortionControl"        0x46;
  enc  "TopCornerDistortionBalance"        0x48;
  enc  "BottomCornerDistortionControl"     0x4A;
  enc  "BottomCornerDistortionBalance"     0x4C;
  enc  "HorizontalMoire"                   0x56;
  enc  "VerticalMoire"                     0x58;
  enc  "RedVideoBlackLevel"                0x6C;
  enc  "GreenVideoBlackLevel"              0x6E;
  enc  "BlueVideoBlackLevel"               0x70;
  enc  "InputLevelSelect"                  0x5E;
  enc  "InputSourceSelect"                 0x60;
  enc  "OnScreenDisplay"                   0xCA;
  enc  "StereoMode"                        0xD4;
  enc  "AutoSizeCenter"                    0xA2;
  enc  "PolarityHorizontalSynchronization" 0xA4;
  enc  "PolarityVerticalSynchronization"   0xA6;
  enc  "SynchronizationType"               0xA8;
  enc  "ScreenOrientation"                 0xAA;
  enc  "HorizontalFrequency"               0xAC;
  enc  "VerticalFrequency"                 0xAE;
  enc  "Degauss"                           0x01;
  enc  "Settings"                          0xB0
].

Definition pwrDevMap_tbl : list Encoding := [
  encT "IName"               0x01 UT_SV;
  encT "PresentStatus"       0x02 UT_CL;
  encT "ChangedStatus"       0x03 UT_CL;
  encT "Ups"                 0x04 UT_CA;
  encT "PowerSupply"         0x05 UT_CA;
  encT "BatterySystem"       0x10 UT_CP;
  encT "BatterySystemId"     0x11 UT_SV;
  encT "Battery"             0x12 UT_CP;
  encT "BatteryId"           0x13 UT_SV;
  encT "Charger"             0x14 UT_CP;
  encT "ChargerId"           0x15 UT_SV;
  encT "PowerConverer"       0x16 UT_CP;
  encT "PowerConvererId"     0x17 UT_SV;
  encT "OutletSystem"        0x18 UT_CP;
  encT "OutletSystemId"      0x19 UT_SV;
  encT "Input"               0x1A UT_CP;
  encT "InputId"             0x1B UT_SV;
  encT "Output"              0x1C UT_CP;
  encT "OutputId"            0x1D UT_SV;
  encT "Flow"                0x1E UT_CP;
  encT "FlowId"              0x1F UT_SV;
  encT "Outlet"              0x20 UT_CP;
  encT "OutletId"            0x21 UT_SV;
  encT "Gang"                0x22 (UT_CL .| UT_CP);
  encT "GangId"              0x23 UT_SV;
  encT "PowerSummary"        0x24 (UT_CL .| UT_CP);
  encT "PowerSummaryId"      0x25 UT_SV;
  encT "Voltage"             0x30 UT_DV;
  encT "Current"             0x31 UT_DV;
  encT "Frequency"           0x32 UT_DV;
  encT "ApparentPower"       0x33 UT_DV;
  encT "ActivePower"         0x34 UT_DV;
  encT "PercentLoad"         0x35 UT_DV;
  encT "Temperature"         0x36 UT_DV;
  encT "Humidity"            0x37 UT_DV;
  encT "BadCount"            0x38 UT_DV;
  encT "ConfigVoltage"       0x40 (UT_SV .| UT_DV);
  encT "ConfigCurrent"       0x41 (UT_SV .| UT_DV);
  encT "ConfigFrequency"     0x42 (UT_SV .| UT_DV);
  encT "ConfigApparentPower" 0x43 (UT_SV .| UT_DV);
  encT "ConfigActivePower"   0x44 (UT_SV .| UT_DV);
  encT "ConfigPercentLoad"   0x45 (UT_SV .| UT_DV);
  encT "ConfigTemperature"   0x46 (UT_SV .| UT_DV);
  encT "ConfigHumidity"      0x47 (UT_SV .| UT_DV);
  encT "SwitchOnControl"     0x50 UT_DV;
  encT "SwitchOffControl"    0x51 UT_DV;
  encT "ToggleControl"       0x52 UT_DV;
  encT "LowVoltageTransfer"  0x53 UT_DV;
  encT "HighVoltageTransfer" 0x54 UT_DV;
  encT "DelayBeforeReboot"   0x55 UT_DV;
  encT "DelayBeforeStartup"  0x56 UT_DV;
  encT "DelayBeforeShutdown" 0x57 UT_DV;
  encT "Test"                0x58 UT_DV;
  encT "ModuleReset"         0x59 UT_DV;
  encT "AudibleAlarmControl" 0x5A UT_DV;
  encT "Present"             0x60 UT_DF;
  encT "Good"                0x61 UT_DF;
  encT "InternalFailure"     0x62 UT_DF;
  encT "VoltageOutOfRange"   0x63 UT_DF;
  encT "FrequencyOutOfRange" 0x64 UT_DF;
  encT "Overload"            0x65 UT_DF;
  encT "OverCharged"         0x66 UT_DF;
  encT "OverTemperature"     0x67 UT_DF;
  encT "ShutdownRequested"   0x68 UT_DF;
  encT "ShutdownImminent"    0x69 UT_DF;
  encT "SwitchOnOff"         0x6B UT_DF;
  encT "Switchable"          0x6C UT_DF;
  encT "Used"                0x6D UT_DF;
  encT "Boost"               0x6E UT_DF;
  encT "Buck"                0x6F UT_DF;
  encT "Initialized"         0x70 UT_DF;
  encT "Tested"              0x71 UT_DF;
  encT "AwaitingPower"       0x72 UT_DF;
  encT "CommunicationLost"   0x73 UT_DF;
  encT "IManufacturer"       0xFD UT_SV;
  encT "IProduct"            0xFE UT_SV;
  encT "ISerialNumber"       0xFF UT_SV
].

Definition barcodeMap_tbl : list Encoding := [
  encT "BarCodeBadgeReader"                         0x01 UT_CA;
  encT "BarCodeScanner"                             0x02 UT_CA;
  encT "DumbBarCodeScanner"                         0x03 UT_CA;
  encT "CordlessScannerBase"                        0x04 UT_CA;
  encT "BarCodeScannerCradle"                       0x05 UT_CA;
  encT "AttributeReport"                            0x10 UT_CL;
  encT "SettingsReport"                             0x11 UT_CL;
  encT "ScannedDataReport"                          0x12 UT_CL;
  encT "RawScannedDataReport"                       0x13 UT_CL;
  encT "TriggerReport"                              0x14 UT_CL;
  encT "StatusReport"                               0x15 UT_CL;
  encT "UpsEanControlReport"                        0x16 UT_CL;
  encT "Ean23LabelControlReport"                    0x17 UT_CL;
  encT "Code39ControlReport"                        0x18 UT_CL;
  encT "Interleaved2Of5ControlReport"               0x19 UT_CL;
  encT "Standard2Of5ConrolReport"                   0x1A UT_CL;
  encT "MsiPlesseyControlReport"                    0x1B UT_CL;
  encT "CodabarControlReport"                       0x1C UT_CL;
  encT "Code128ControlReport"                       0x1D UT_CL;
  encT "Misc2dConrolReport"                         0x1E UT_CL;
  encT "Control2dReport"                            0x1F UT_CL;
  encT "AimingPoinerMode"                           0x30 UT_SF;
  encT "BarCodePresentSensor"                       0x31 UT_SF;
  encT "Class1aLaser"                               0x32 UT_SF;
  encT "Class2Laser"                                0x33 UT_SF;
  encT "HeaterPresent"                              0x34 UT_SF;
  encT "ContactScanner"                             0x35 UT_SF;
  encT "ElectronicArticleSurveillanceNotification"  0x36 UT_SF;
  encT "ConstantElectronicArticleSurveillance"      0x37 UT_SF;
  encT "ErrorIndication"                            0x38 UT_SF;
  encT "FixedBeeper"                                0x39 UT_SF;
  encT "GoodDecoderIndication"                      0x3A UT_SF;
  encT "HandsFreeScanning"                          0x3B UT_SF;
  encT "IntrinsicallySafe"                          0x3C UT_SF;
  encT "KlasseEinsLaser"                            0x3D UT_SF;
  encT "LongRangeScanner"                           0x3E UT_SF;
  encT "MirrorSpeedControl"                         0x3F UT_SF;
  encT "NotOnFileIndication"                        0x40 UT_SF;
  encT "ProgrammableBeeper"                         0x41 UT_SF;
  encT "Triggerless"                                0x42 UT_SF;
  encT "Wand"                                       0x43 UT_SF;
  encT "WaterResistant"                             0x44 UT_SF;
  encT "MultiRangeScanner"                          0x45 UT_SF;
  encT "ProximitySensor"                            0x46 UT_SF;
  encT "FragmentDecoder"                            0x4D UT_DF;
  encT "ScannerReadConfidence"                      0x4E UT_DV;
  encT "DataPrefix"                                 0x4F UT_NARY;
  encT "PrefixAimi"                                 0x50 UT_SEL;
  encT "PrefixNone"                                 0x51 UT_SEL;
  encT "PrefixProprietary"                          0x52 UT_SEL;
  encT "ActiveTime"                                 0x55 UT_DV;
  encT "AimingLaserPattern"                         0x56 UT_DF;
  encT "BarCodePresent"                             0x57 UT_OOC;
  encT "BeeperState"                                0x58 UT_OOC;
  encT "LaserOnTime"                                0x59 UT_DV;
  encT "LaserState"                                 0x5A UT_OOC;
  encT "LockoutTime"                                0x5B UT_DV;
  encT "MotorState"                                 0x5C UT_OOC;
  encT "MotorTimeout"                               0x5D UT_DV;
  encT "PowerOnResetScanner"                        0x5E UT_DF;
  encT "PreventReadOfBarcodes"                      0x5F UT_DF;
  encT "InitiateBarcodeRead"                        0x60 UT_DF;
  encT "TriggerState"                               0x61 UT_OOC;
  encT "TriggerMode"                                0x62 UT_NARY;
  encT "TriggerModeBlinkingLaserOn"                 0x63 UT_SEL;
  encT "TriggerModeContinuousLaserOn"               0x64 UT_SEL;
  encT "TriggerModeLaserOnWhilePulled"              0x65 UT_SEL;
  encT "TriggerModeLaserStaysOnAfterTriggerRelease" 0x66 UT_SEL;
  encT "CommitParametersToNvm"                      0x6D UT_DF;
  encT "ParameterScanning"                          0x6E UT_DF;
  encT "ParametersChanged"                          0x6F UT_OOC;
  encT "SetParameterDefaultValues"                  0x70 UT_DF;
  encT "ScannerInCradle"                            0x75 UT_OOC;
  encT "ScannerInRange"                             0x76 UT_OOC;
  encT "AimDuration"                                0x7A UT_DV;
  encT "GoodReadLampDuration"                       0x7B UT_DV;
  encT "GoodReadLampIntensity"                      0x7C UT_DV;
  encT "GoodReadLed"                                0x7D UT_DF;
  encT "GoodReadToneFrequency"                      0x7E UT_DV;
  encT "GoodReadToneLength"                         0x7F UT_DV;
  encT "GoodReadToneVolume"                         0x80 UT_DV;
  encT "NoReadMessage"                              0x82 UT_DF;
  encT "NotOnFileVolume"                            0x83 UT_DV;
  encT "PowerupBeep"                                0x84 UT_DF;
  encT "SoundErrorBeep"                             0x85 UT_DF;
  encT "SoundGoodReadBeep"                          0x86 UT_DF;
  encT "SoundNotOnFileBeep"                         0x87 UT_DF;
  encT "GoodReadWhenToWrite"                        0x88 UT_NARY;
  encT "GrwtiAfterDecode"                           0x89 UT_SEL;
  encT "GrwtiBeepLampAferTransmit"                  0x8A UT_SEL;
  encT "GrwtiNoBeepLampUseAtAll"                    0x8B UT_SEL;
  encT "BooklandEan"                                0x91 UT_DF;
  encT "ConvertEan8To13Type"                        0x92 UT_DF;
  encT "ConvertUpcAToEan13"                         0x93 UT_DF;
  encT "ConvertUpcEToA"                             0x94 UT_DF;
  encT "Ean13"                                      0x95 UT_DF;
  encT "Ean8"                                       0x96 UT_DF;
  encT "Ean99128Mandatory"                          0x97 UT_DF;
  encT "Ean99P5128Optional"                         0x98 UT_DF;
  encT "UpcEan"                                     0x9A UT_DF;
  encT "UpcEanCouponCode"                           0x9B UT_DF;
  encT "UpcEanPeriodicals"                          0x9C UT_DV;
  encT "UpcA"                                       0x9D UT_DF;
  encT "UpcAWith128Mandatory"                       0x9E UT_DF;
  encT "UpcAWith128Optional"                        0x9F UT_DF;
  encT "UpcAWithP5Optional"                         0xA0 UT_DF;
  encT "UpcE"                                       0xA1 UT_DF;
  encT "UpcE1"                                      0xA2 UT_DF;
  encT "Periodical"                                 0xA9 UT_NARY;
  encT "PeriodicalAutoDiscriminatePlus2"            0xAA UT_SEL;
  encT "PeriodicalOnlyDecodeWidthPlus2"             0xAB UT_SEL;
  encT "PeriodicalIgnorePlus2"                      0xAC UT_SEL;
  encT "PeriodicalAutoDiscriminatePlus5"            0xAD UT_SEL;
  encT "PeriodicalOnlyDecodeWidthPlus5"             0xAE UT_SEL;
  encT "PeriodicalIgnorePlus5"                      0xAF UT_SEL;
  encT "Check"                                      0xB0 UT_NARY;
  encT "CheckDisablePrice"                          0xB1 UT_SEL;
  encT "CheckEnable4DigitPrice"                     0xB2 UT_SEL;
  encT "CheckEnable5DigitPrice"                     0xB3 UT_SEL;
  encT "CheckEnableEuropean4DigitPrice"             0xB4 UT_SEL;
  encT "CheckEnableEuropean5DigitPrice"             0xB5 UT_SEL;
  encT "EanTwoLabel"                                0xB7 UT_DF;
  encT "EanThreeLabel"                              0xB8 UT_DF;
  encT "Ean8FlagDigit1"                             0xB9 UT_DV;
  encT "Ean8FlagDigit2"                             0xBA UT_DV;
  encT "Ean8FlagDigit3"                             0xBB UT_DV;
  encT "Ean13FlagDigit1"                            0xBC UT_DV;
  encT "Ean13FlagDigit2"                            0xBD UT_DV;
  encT "Ean13FlagDigit3"                            0xBE UT_DV;
  encT "AddEan23LabelDefinition"                    0xBF UT_DF;
  encT "ClearAllEan23LabelDefinitions"              0xC0 UT_DF;
  encT "Codabar"                                    0xC3 UT_DF;
  encT "Code128"                                    0xC4 UT_DF;
  encT "Code39"                                     0xC7 UT_DF;
  encT "Code93"                                     0xC8 UT_DF;
  encT "FullAsciiConversion"                        0xC9 UT_DF;
  encT "Interleaved2Of5"                            0xCA UT_DF;
  encT "ItalianPharmacyCode"                        0xCB UT_DF;
  encT "MsiPlessey"                                 0xCC UT_DF;
  encT "Standard2Of5Iata"                           0xCD UT_DF;
  encT "Standard2Of5"                               0xCE UT_DF;
  encT "TransmitStartStop"                          0xD3 UT_DF;
  encT "TriOptic"                                   0xD4 UT_DF;
  encT "UccEan128"                                  0xD5 UT_DF;
  encT "CheckDigit"                                 0xD6 UT_NARY;
  encT "CheckDigitDisable"                          0xD7 UT_SEL;
  encT "CheckDigitEnableInerleaved2Of5Opcc"         0xD8 UT_SEL;
  encT "CheckDigitEnableInterleaved2Of5Uss"         0xD9 UT_SEL;
  encT "CheckDigitEnableStandard2Of5Opcc"           0xDA UT_SEL;
  encT "CheckDigitEnableStandard2Of5Uss"            0xDB UT_SEL;
  encT "CheckDigitEnableOneMsiPlessey"              0xDC UT_SEL;
  encT "CheckDigitEnableTwoMsiPlessey"              0xDD UT_SEL;
  encT "CheckDigitCodabarEnable"                    0xDE UT_SEL;
  encT "CheckDigitCode39Enable"                     0xDF UT_SEL;
  encT "TransmitCheckDigit"                         0xF0 UT_NARY;
  encT "DisableCheckDigitTransmit"                  0xF1 UT_SEL;
  encT "EnableCheckDigitTransmit"                   0xF2 UT_SEL;
  encT "SymbologyIdentifier1"                       0xFB UT_DV;
  encT "SymbologyIdentifier2"                       0xFC UT_DV;
  encT "SymbologyIdentifier3"                       0xFD UT_DV;
  encT "DecodedData"                                0xFE UT_DV;
  encT "DecodedDataContinued"                       0xFF UT_DF;
  encT "BarSpaceData"                               0x100 UT_DV;
  encT "ScannerDataAccuracy"                        0x101 UT_DV;
  encT "RawDataPolarity"                            0x102 UT_NARY;
  encT "PolarityInvertedBarCode"                    0x103 UT_SEL;
  encT "PolarityNormalBarCode"                      0x104 UT_SEL;
  encT "MinimumLengthToDecode"                      0x106 UT_DV;
  encT "MaximumLengthToDecode"                      0x107 UT_DV;
  encT "FirstDiscreteLengthToDecode"                0x108 UT_DV;
  encT "SecondDiscreteLengthToDecode"               0x109 UT_DV;
  encT "DataLengthMethod"                           0x10A UT_NARY;
  encT "DlMethodReadAny"                            0x10B UT_SEL;
  encT "DlMethodCheckInRange"                       0x10C UT_SEL;
  encT "DlMethodCheckForDiscrete"                   0x10D UT_SEL;
  encT "AztecCode"                                  0x110 UT_DF;
  encT "Bc412"                                      0x111 UT_DF;
  encT "ChannelCode"                                0x112 UT_DF;
  encT "Code16"                                     0x113 UT_DF;
  encT "Code32"                                     0x114 UT_DF;
  encT "Code49"                                     0x115 UT_DF;
  encT "CodeOne"                                    0x116 UT_DF;
  encT "ColorCode"                                  0x117 UT_DF;
  encT "DataMatrix"                                 0x118 UT_DF;
  encT "MaxiCode"                                   0x119 UT_DF;
  encT "MicroPdf"                                   0x11A UT_DF;
  encT "Pdf417"                                     0x11B UT_DF;
  encT "PosiCode"                                   0x11C UT_DF;
  encT "QrCode"                                     0x11D UT_DF;
  encT "SuperCode"                                  0x11E UT_DF;
  encT "UltraCode"                                  0x11F UT_DF;
  encT "Usd5SlugCode"                               0x120 UT_DF;
  encT "VeriCode"                                   0x121 UT_DF
].

Definition weightDevMap_tbl : list Encoding := [
  encT "WeighingDevice"                  0x01 UT_CA;
  encT "ScaleDevice"                     0x20 UT_CL;
  encT "ScaleClass"                      0x21 UT_CL;
  encT "ScaleClassIMetric"               0x22 UT_SEL;
  encT "ScaleClassIiMetric"              0x23 UT_SEL;
  encT "ScaleClassIiiMetric"             0x24 UT_SEL;
  encT "ScaleClassIiilMetric"            0x25 UT_SEL;
  encT "ScaleClassIvMetric"              0x26 UT_SEL;
  encT "ScaleClassIiiEnglish"            0x27 UT_SEL;
  encT "ScaleClassIiilEnglish"           0x28 UT_SEL;
  encT "ScaleClassIvEnglish"             0x29 UT_SEL;
  encT "ScaleClassGeneric"               0x2A UT_SEL;
  encT "ScaleAttributeReport"            0x30 UT_CL;
  encT "ScaleControlReport"              0x31 UT_CL;
  encT "ScaleDataReport"                 0x32 UT_CL;
  encT "ScaleStatusReport"               0x33 UT_CL;
  encT "ScaleWeightLimitReport"          0x34 UT_CL;
  encT "ScaleStatisticsReport"           0x35 UT_CL;
  encT "DataWeight"                      0x40 UT_DV;
  encT "DataScaling"                     0x41 UT_DV;
  encT "WeightUnit"                      0x50 UT_CL;
  encT "WeightUnitMilligram"             0x51 UT_SEL;
  encT "WeightUnitGram"                  0x52 UT_SEL;
  encT "WeightUnitKilogram"              0x53 UT_SEL;
  encT "WeightUnitCarats"                0x54 UT_SEL;
  encT "WeightUnitTaels"                 0x55 UT_SEL;
  encT "WeightUnitGrains"                0x56 UT_SEL;
  encT "WeightUnitPennyweights"          0x57 UT_SEL;
  encT "WeightUnitMetricTon"             0x58 UT_SEL;
  encT "WeightUnitAvoirTon"              0x59 UT_SEL;
  encT "WeightUnitTroyOunce"             0x5A UT_SEL;
  encT "WeightUnitOunce"                 0x5B UT_SEL;
  encT "WeightUnitPound"                 0x5C UT_SEL;
  encT "CalibrationCount"                0x60 UT_DV;
  encT "ReZeroCount"                     0x61 UT_DV;
  encT "ScaleStatus"                     0x70 UT_CL;
  encT "ScaleStatusFault"                0x71 UT_SEL;
  encT "ScaleStatusStableAtCenterOfZero" 0x72 UT_SEL;
  encT "ScaleStatusInMotion"             0x73 UT_SEL;
  encT "ScaleStatusWeightStable"         0x74 UT_SEL;
  encT "ScaleStatusUnderZero"            0x75 UT_SEL;
  encT "ScaleStatusOverWeightLimit"      0x76 UT_SEL;
  encT "ScaleStatusRequiresCalibration"  0x77 UT_SEL;
  encT "ScaleStatusRequiresRezeroing"    0x78 UT_SEL;
  encT "ZeroScale"                       0x80 UT_OOC;
  encT "EnforcedZeroReturn"              0x81 UT_OOC
].

Definition msrMap_tbl : list Encoding := [
  encT "MsrDeviceReadOnly" 0x01 UT_CA;
  encT "Track1Length"      0x11 (UT_SF .| UT_DF .| UT_SEL);
  encT "Track2Length"      0x12 (UT_SF .| UT_DF .| UT_SEL);
  encT "Track3Length"      0x13 (UT_SF .| UT_DF .| UT_SEL);
  encT "TrackJisLength"    0x14 (UT_SF .| UT_DF .| UT_SEL);
  encT "TrackData"         0x20 (UT_SF .| UT_DF .| UT_SEL);
  encT "Track1Data"        0x21 (UT_SF .| UT_DF .| UT_SEL);
  encT "Track2Data"        0x22 (UT_SF .| UT_DF .| UT_SEL);
  encT "Track3Data"        0x23 (UT_SF .| UT_DF .| UT_SEL);
  encT "TrackJisData"      0x24 (UT_SF .| UT_DF .| UT_SEL)
].

Definition cameraCtrlMap_tbl : list Encoding := [
  encT "CameraAutoFocus" 0x20 UT_OSC;
  encT "CameraShutter"   0x21 UT_OSC
].

Definition arcadeMap_tbl : list Encoding := [
  encT "GeneralPurposeIoCard"             0x01 UT_CA;
  encT "CoinDoor"                         0x02 UT_CA;
  encT "WatchdogTimer"                    0x03 UT_CA;
  encT "GeneralPurposeAnalogInputState"   0x30 UT_DV;
  encT "GeneralPurposeDigitalInputState"  0x31 UT_DV;
  encT "GeneralPurposeOpticalInputState"  0x32 UT_DV;
  encT "GeneralPurposeDigitalOutputState" 0x33 UT_DV;
  encT "NumberOfCoinDoors"                0x34 UT_DV;
  encT "CoinDrawerDropCount"              0x35 UT_DV;
  encT "CoinDrawerDropStart"              0x36 UT_OOC;
  encT "CoinDrawerDropService"            0x37 UT_OOC;
  encT "CoinDrawerDropTilt"               0x38 UT_OOC;
  encT "CoinDoorTest"                     0x39 UT_OOC;
  encT "CoinDoorLockout"                  0x40 UT_OOC;
  encT "WatchdogTimeout"                  0x41 UT_DV;
  encT "WatchdogAction"                   0x42 UT_NARY;
  encT "WatchdogReboot"                   0x43 UT_SEL;
  encT "WatchdogRestart"                  0x44 UT_SEL;
  encT "AlarmInput"                       0x45 UT_DV;
  encT "CoinDoorCounter"                  0x46 UT_OOC;
  encT "IoDirectionMapping"               0x47 UT_DV;
  encT "SetIoDirection"                   0x48 UT_OOC;
  encT "ExtendedOpticalInputState"        0x49 UT_DV;
  encT "PinPadInputState"                 0x4A UT_DV;
  encT "PinPadStatus"                     0x4B UT_DV;
  encT "PinPadOutput"                     0x4C UT_OOC;
  encT "PinPadCommand"                    0x4D UT_DV
].

Definition fidoMap_tbl : list Encoding := [
  encT "U2fAuthenticatorDevice" 0x01 UT_CA;
  encT "InputReportData"        0x20 UT_DV;
  encT "OutputReportData"       0x21 UT_DV
].

Definition usagePageMap_tbl : list Encoding := [
  encA "GenericDesktop"              0x01 genDeskMap;
  encA "SimulationControls"          0x02 simCtrlMap;
  encA "VrControls"                  0x03 vrCtrlMap;
  encA "SportControls"               0x04 sportCtrlMap;
  encA "GameControls"                0x05 gameCtrlMap;
  encA "GenericDeviceControls"       0x06 genDevCtrlMap;
  encA "Keyboard"                    0x07 keyboardMap;
  encA "Led"                         0x08 ledMap;
  encA "Button"                      0x09 buttonMap;
  encA "Ordinal"                     0x0A ordinalMap;
  encA "TelephonyDevice"             0x0B telDevMap;
  encA "Consumer"                    0x0C consumerMap;
  encA "Digitizers"                  0x0D digitizersMap;
  encA "Haptics"                     0x0E hapticsMap;
  encA "Pid"                         0x0F pidMap;
  encA "Unicode"                     0x10 unicodeMap;
  encA "EyeAndHeadTrackers"          0x12 eyeHeadMap;
  encA "AuxiliaryDisplay"            0x14 auxDisplayMap;
  encA "Sensors"                     0x20 sensorMap;
  encA "MediacalInstrument"          0x40 medInstMap;
  encA "BrailleDisplay"              0x41 brailleMap;
  encA "LightingAndIllumination"     0x59 lightMap;
  encA "Monitor"                     0x80 monitorMap;
  encA "MonitorEnumeratedValues"     0x81 monitorEnumMap;
  encA "VesaVirtualControls"         0x82 vesaCtrlMap;
  encA "Power"                       0x84 pwrDevMap;
  encA "BarCodeScanner"              0x8C barcodeMap;
  encA "WeighingDevices"             0x8D weightDevMap;
  encA "MagneticStripeReaderDevices" 0x8E msrMap;
  encA "CameraControl"               0x90 cameraCtrlMap;
  encA "Arcade"                      0x91 arcadeMap;
  enc  "GamingDevice"                0x92;
  encA "FidoAlliance"                0xF1D0 fidoMap
].

Definition itemMap_tbl : list Encoding := [
  encA "Input"             0x80 inputArgMap;
  encA "Output"            0x90 outputFeatureArgMap;
  encA "Feature"           0xB0 outputFeatureArgMap;
  encA "Collection"        0xA0 colArgMap;
  encA "EndCollection"     0xC0 endCol;
  encA "UsagePage"         0x04 usagePageMap;
  encA "LogicalMinimum"    0x14 signedNumArg;
  encA "LogicalMaximum"    0x24 signedNumArg;
  encA "PhysicalMinimum"   0x34 signedNumArg;
  encA "PhysicalMaximum"   0x44 signedNumArg;
  encA "UnitExponent"      0x54 unitExpMap;
  encA "Unit"              0x64 unitSystemMap;
  encA "ReportSize"        0x74 numArg;
  encA "ReportId"          0x84 numArg;
  encA "ReportCount"       0x94 numArg;
  enc  "Push"              0xA4;
  enc  "Pop"               0xB4;
  encA "Usage"             0x08 usageArg;
  encA "UsageMinimum"      0x18 usageArg;
  encA "UsageMaximum"      0x28 usageArg;
  encA "DesignatorIndex"   0x38 numArg;
  encA "DesignatorMinimum" 0x48 numArg;
  encA "DesignatorMaximum" 0x58 numArg;
  encA "StringIndex"       0x78 numArg;
  encA "StringMinimum"     0x88 numArg;
  encA "StringMaximum"     0x98 numArg;
  encA "Delimiter"         0xA8 delimMap
].

(** The array behind a map pointer; every array ends with [endOfMap], which
    is the end of the list here. *)
Definition entries (t : TableId) : list Encoding :=
  match t with
  | numArg => numArg_tbl
  | signedNumArg => signedNumArg_tbl
  | clearArg => clearArg_tbl
  | usageArg => usageArg_tbl
  | endCol => endCol_tbl
  | colArgMap => colArgMap_tbl
  | inputArgMap => inputArgMap_tbl
  | outputFeatureArgMap => outputFeatureArgMap_tbl
  | unitExpMap => unitExpMap_tbl
  | unitMap => unitMap_tbl
  | unitSystemMap => unitSystemMap_tbl
  | delimMap => delimMap_tbl
  | genDeskMap => genDeskMap_tbl
  | simCtrlMap => simCtrlMap_tbl
  | vrCtrlMap => vrCtrlMap_tbl
  | sportCtrlMap => sportCtrlMap_tbl
  | gameCtrlMap => gameCtrlMap_tbl
  | genDevCtrlMap => genDevCtrlMap_tbl
  | keyboardMap => keyboardMap_tbl
  | ledMap => ledMap_tbl
  | buttonMap => buttonMap_tbl
  | ordinalMap => ordinalMap_tbl
  | telDevMap => telDevMap_tbl
  | consumerMap => consumerMap_tbl
  | digitizersMap => digitizersMap_tbl
  | hapticsMap => hapticsMap_tbl
  | pidMap => pidMap_tbl
  | unicodeMap => unicodeMap_tbl
  | eyeHeadMap => eyeHeadMap_tbl
  | auxDisplayMap => auxDisplayMap_tbl
  | sensorMap => sensorMap_tbl
  | medInstMap => medInstMap_tbl
  | brailleMap => brailleMap_tbl
  | lightMap => lightMap_tbl
  | monitorMap => monitorMap_tbl
  | monitorEnumMap => monitorEnumMap_tbl
  | vesaCtrlMap => vesaCtrlMap_tbl
  | pwrDevMap => pwrDevMap_tbl
  | barcodeMap => barcodeMap_tbl
  | weightDevMap => weightDevMap_tbl
  | msrMap => msrMap_tbl
  | cameraCtrlMap => cameraCtrlMap_tbl
  | arcadeMap => arcadeMap_tbl
  | fidoMap => fidoMap_tbl
  | usagePageMap => usagePageMap_tbl
  | itemMap => itemMap_tbl
  end.

(** ** [findEncoding] *)

(** The bytes a token spans. *)
Definition token_bytes (code : list Z) (token : Token) : list Z :=
  firstn (Token.length token) (skipn (Token.start token) code).

(** The digit loop of [findEncoding]: [k] more bytes of the token are
    read from offset [n] of the token on. *)
Fixpoint index_number (code : list Z) (token : Token) (k n : nat) (num : Z)
    : Z + EMessage :=
  match k with
  | O => inl num
  | S k' =>
    let c := nth (Token.start token + n) code 0 in
    if negb (isDigit c) then inr E_Unexpected_argument_name_character
    else
      let oldNum := num in
      let num := u32 (num * 10 + c - ch "0") in
      if oldNum >? num then inr E_Argument_index_out_of_range
      else index_number code token k' (S n) num
  end.

(** The [while] loop of [findEncoding]; [map] is the rest of the array
    and [i] the number of entries passed.  An indexed entry that is the last
    one before [endOfMap] makes the C code compare its name with a null
    pointer; no map of the source is built like that, and the model reports
    it like any other malformed pair. *)
Fixpoint findEncoding_from (code : list Z) (token : Token)
    (map : list Encoding) (i : nat) (res : Encoding) (error : EMessage)
    : option Encoding * EMessage :=
  match map with
  | [] => (None, error)
  | m :: map' =>
    let mname := bytes_of (Encoding.name m) in
    if equalsI (token_bytes code token) mname then (Some m, E_NO_ERROR)
    else
      let idx := strFindChr mname (ch "#") in
      if (i <? 3)%nat && (0 <=? idx) then
        if negb (nth (Z.to_nat (idx + 1)) mname 0 =? 0)
           || negb (match map' with
                    | [] => false
                    | m1 :: _ => equals_str mname (bytes_of (Encoding.name m1))
                    end)
        then (None, E_Internal_error)
        else if (Token.length token <=? Z.to_nat idx)%nat
                || negb (startWidthIN mname (Z.to_nat idx)
                           (skipn (Token.start token) code))
        then (None, E_Invalid_argument_name)
        else
          match index_number code token (Token.length token - Z.to_nat idx)
                  (Z.to_nat idx) 0 with
          | inr e => (None, e)
          | inl num =>
            if (num <? Encoding.value m)
               || (num >? match map' with
                          | [] => 0
                          | m1 :: _ => Encoding.value m1
                          end)
            then (None, E_Argument_index_out_of_range)
            else if negb (num =? 0)
                    && (nth (Token.start token + Z.to_nat idx) code 0 =? ch "0")
            then (None, E_Invalid_argument_name)
            else (Some (Encoding.mk (Encoding.name m) num (Encoding.type res)
                          (Encoding.arg res)), E_NO_ERROR)
          end
      else findEncoding_from code token map' (S i) res error
  end.

(** [findEncoding]: the returned pointer ([None] for [NULL]) and the content
    of [error] after the call. *)
Definition findEncoding (code : list Z) (token : Token) (map : list Encoding)
    (res : Encoding) (error : EMessage) : option Encoding * EMessage :=
  if (Token.length token =? 0)%nat then (None, error)
  else findEncoding_from code token map 0 res error.

(** [endOfMap], also the value of a default-constructed [Encoding]. *)
Definition endOfMap : Encoding := Encoding.mk "" 0 UT_NONE None.

(** ** The local variables of [compile]

    [ptr] is always [source.data() + n], so the cursor is [n] alone.  [dynMap]
    is the scratch entry [findEncoding] fills in for an indexed name and
    [subError] the error it reports; both are written right before every
    use, so [findEncoding] returns them instead.  [out] is the caller's
    writer. *)
Record State : Set := mkState {
  colLevel : Z;
  delimLevel : Z;
  usageAtLevel : Z;
  reportSizes : nat;
  reportCounts : nat;
  tItem : Token;
  tArg : Token;
  hasUsagePage : bool;
  hasArg : bool;
  multiArg : bool;
  negLit : bool;
  encMap : option Encoding;
  usagePage : option Encoding;
  encUnit : option Encoding;
  flags : Z;
  item : Z;
  arg : Z;
  lit : Z;
  n : nat;
  out : list Z
}.

Definition set_colLevel (v : Z) (st : State) : State :=
  mkState v (delimLevel st) (usageAtLevel st) (reportSizes st) (reportCounts st) (tItem st) (tArg st) (hasUsagePage st) (hasArg st) (multiArg st) (negLit st) (encMap st) (usagePage st) (encUnit st) (flags st) (item st) (arg st) (lit st) (n st) (out st).
Definition set_delimLevel (v : Z) (st : State) : State :=
  mkState (colLevel st) v (usageAtLevel st) (reportSizes st) (reportCounts st) (tItem st) (tArg st) (hasUsagePage st) (hasArg st) (multiArg st) (negLit st) (encMap st) (usagePage st) (encUnit st) (flags st) (item st) (arg st) (lit st) (n st) (out st).
Definition set_usageAtLevel (v : Z) (st : State) : State :=
  mkState (colLevel st) (delimLevel st) v (reportSizes st) (reportCounts st) (tItem st) (tArg st) (hasUsagePage st) (hasArg st) (multiArg st) (negLit st) (encMap st) (usagePage st) (encUnit st) (flags st) (item st) (arg st) (lit st) (n st) (out st).
Definition set_reportSizes (v : nat) (st : State) : State :=
  mkState (colLevel st) (delimLevel st) (usageAtLevel st) v (reportCounts st) (tItem st) (tArg st) (hasUsagePage st) (hasArg st) (multiArg st) (negLit st) (encMap st) (usagePage st) (encUnit st) (flags st) (item st) (arg st) (lit st) (n st) (out st).
Definition set_reportCounts (v : nat) (st : State) : State :=
  mkState (colLevel st) (delimLevel st) (usageAtLevel st) (reportSizes st) v (tItem st) (tArg st) (hasUsagePage st) (hasArg st) (multiArg st) (negLit st) (encMap st) (usagePage st) (encUnit st) (flags st) (item st) (arg st) (lit st) (n st) (out st).
Definition set_tItem (v : Token) (st : State) : State :=
  mkState (colLevel st) (delimLevel st) (usageAtLevel st) (reportSizes st) (reportCounts st) v (tArg st) (hasUsagePage st) (hasArg st) (multiArg st) (negLit st) (encMap st) (usagePage st) (encUnit st) (flags st) (item st) (arg st) (lit st) (n st) (out st).
Definition set_tArg (v : Token) (st : State) : State :=
  mkState (colLevel st) (delimLevel st) (usageAtLevel st) (reportSizes st) (reportCounts st) (tItem st) v (hasUsagePage st) (hasArg st) (multiArg st) (negLit st) (encMap st) (usagePage st) (encUnit st) (flags st) (item st) (arg st) (lit st) (n st) (out st).
Definition set_hasUsagePage (v : bool) (st : State) : State :=
  mkState (colLevel st) (delimLevel st) (usageAtLevel st) (reportSizes st) (reportCounts st) (tItem st) (tArg st) v (hasArg st) (multiArg st) (negLit st) (encMap st) (usagePage st) (encUnit st) (flags st) (item st) (arg st) (lit st) (n st) (out st).
Definition set_hasArg (v : bool) (st : State) : State :=
  mkState (colLevel st) (delimLevel st) (usageAtLevel st) (reportSizes st) (reportCounts st) (tItem st) (tArg st) (hasUsagePage st) v (multiArg st) (negLit st) (encMap st) (usagePage st) (encUnit st) (flags st) (item st) (arg st) (lit st) (n st) (out st).
Definition set_multiArg (v : bool) (st : State) : State :=
  mkState (colLevel st) (delimLevel st) (usageAtLevel st) (reportSizes st) (reportCounts st) (tItem st) (tArg st) (hasUsagePage st) (hasArg st) v (negLit st) (encMap st) (usagePage st) (encUnit st) (flags st) (item st) (arg st) (lit st) (n st) (out st).
Definition set_negLit (v : bool) (st : State) : State :=
  mkState (colLevel st) (delimLevel st) (usageAtLevel st) (reportSizes st) (reportCounts st) (tItem st) (tArg st) (hasUsagePage st) (hasArg st) (multiArg st) v (encMap st) (usagePage st) (encUnit st) (flags st) (item st) (arg st) (lit st) (n st) (out st).
Definition set_encMap (v : option Encoding) (st : State) : State :=
  mkState (colLevel st) (delimLevel st) (usageAtLevel st) (reportSizes st) (reportCounts st) (tItem st) (tArg st) (hasUsagePage st) (hasArg st) (multiArg st) (negLit st) v (usagePage st) (encUnit st) (flags st) (item st) (arg st) (lit st) (n st) (out st).
Definition set_usagePage (v : option Encoding) (st : State) : State :=
  mkState (colLevel st) (delimLevel st) (usageAtLevel st) (reportSizes st) (reportCounts st) (tItem st) (tArg st) (hasUsagePage st) (hasArg st) (multiArg st) (negLit st) (encMap st) v (encUnit st) (flags st) (item st) (arg st) (lit st) (n st) (out st).
Definition set_encUnit (v : option Encoding) (st : State) : State :=
  mkState (colLevel st) (delimLevel st) (usageAtLevel st) (reportSizes st) (reportCounts st) (tItem st) (tArg st) (hasUsagePage st) (hasArg st) (multiArg st) (negLit st) (encMap st) (usagePage st) v (flags st) (item st) (arg st) (lit st) (n st) (out st).
Definition set_flags (v : Z) (st : State) : State :=
  mkState (colLevel st) (delimLevel st) (usageAtLevel st) (reportSizes st) (reportCounts st) (tItem st) (tArg st) (hasUsagePage st) (hasArg st) (multiArg st) (negLit st) (encMap st) (usagePage st) (encUnit st) v (item st) (arg st) (lit st) (n st) (out st).
Definition set_item (v : Z) (st : State) : State :=
  mkState (colLevel st) (delimLevel st) (usageAtLevel st) (reportSizes st) (reportCounts st) (tItem st) (tArg st) (hasUsagePage st) (hasArg st) (multiArg st) (negLit st) (encMap st) (usagePage st) (encUnit st) (flags st) v (arg st) (lit st) (n st) (out st).
Definition set_arg (v : Z) (st : State) : State :=
  mkState (colLevel st) (delimLevel st) (usageAtLevel st) (reportSizes st) (reportCounts st) (tItem st) (tArg st) (hasUsagePage st) (hasArg st) (multiArg st) (negLit st) (encMap st) (usagePage st) (encUnit st) (flags st) (item st) v (lit st) (n st) (out st).
Definition set_lit (v : Z) (st : State) : State :=
  mkState (colLevel st) (delimLevel st) (usageAtLevel st) (reportSizes st) (reportCounts st) (tItem st) (tArg st) (hasUsagePage st) (hasArg st) (multiArg st) (negLit st) (encMap st) (usagePage st) (encUnit st) (flags st) (item st) (arg st) v (n st) (out st).
Definition set_n (v : nat) (st : State) : State :=
  mkState (colLevel st) (delimLevel st) (usageAtLevel st) (reportSizes st) (reportCounts st) (tItem st) (tArg st) (hasUsagePage st) (hasArg st) (multiArg st) (negLit st) (encMap st) (usagePage st) (encUnit st) (flags st) (item st) (arg st) (lit st) v (out st).
Definition set_out (v : list Z) (st : State) : State :=
  mkState (colLevel st) (delimLevel st) (usageAtLevel st) (reportSizes st) (reportCounts st) (tItem st) (tArg st) (hasUsagePage st) (hasArg st) (multiArg st) (negLit st) (encMap st) (usagePage st) (encUnit st) (flags st) (item st) (arg st) (lit st) (n st) v.

(** ** [compile] *)

(** [enum State] of [compile] *)
Definition HID_START : Z := 0x000.
Definition HID_WITHIN_COMMENT : Z := 0x001.
Definition HID_WITHIN_ITEM : Z := 0x002.
Definition HID_WITHIN_ARG_LIST : Z := 0x004.
Definition HID_WITHIN_ARG : Z := 0x008.
Definition HID_WITHIN_PARAM : Z := 0x010.
Definition HID_WITHIN_HEX_LIT : Z := 0x020.
Definition HID_WITHIN_NUM_LIT : Z := 0x040.
Definition HID_WITHIN_UNIT_SYS : Z := 0x080.
Definition HID_WITHIN_UNIT_DESC : Z := 0x100.
Definition HID_WITHIN_UNIT : Z := 0x200.
Definition HID_WITHIN_UNIT_EXP : Z := 0x400.

(** [_HID_WITHIN(x)] *)
Definition within (x : Z) (flags : Z) : bool := negb (Z.land flags x =? 0).

(** [flags &= ~x] and [flags |= x] *)
Definition clear (x : Z) (flags : Z) : Z := Z.land flags (not32 x).
Definition raise (x : Z) (flags : Z) : Z := Z.lor flags x.

(** [e->arg == t] for a non-null [e]. *)
Definition arg_is (e : Encoding) (t : TableId) : bool :=
  match Encoding.arg e with
  | Some a => TableId_beq a t
  | None => false
  end.

(** [encMap->arg == t].  [compile] dereferences [encMap] and [encUnit] only
    inside an argument list, after it has assigned them; for a null pointer
    the model answers as for [endOfMap]. *)
Definition deref (e : option Encoding) : Encoding :=
  match e with
  | Some e => e
  | None => endOfMap
  end.

(** The array an [arg] pointer designates. *)
Definition table_of (a : option TableId) : list Encoding :=
  match a with
  | Some t => entries t
  | None => []
  end.

(** What one pass through the body of the scan loop ends with:
    [return errorMsg.at(pos, msg)], a [continue], or the [n++; ptr++] at the
    bottom of the loop.  No branch writes to [out] before it returns an
    error, so the failing pass leaves the writer as it found it. *)
Inductive Outcome : Set :=
  | Fail (pos : nat) (msg : EMessage)
  | Continue (st : State)
  | Next (st : State).

Section Compile.

(** [source.data()] with its [source.size()] bytes, and [source.find]
    applied to the bytes of a token. *)
Variable code : list Z.
Variable find : list Z -> ParamMatch.

Definition len : nat := List.length code.

(** [source.data()[i]] *)
Definition byte (i : nat) : Z := nth i code 0.

(** [while ((n + 1) < len && isWhitespace(ptr[1])) { n++; ptr++; }] with a
    bound [k] on the number of rounds; [len] rounds are never used up. *)
Fixpoint skipWhitespaces (k : nat) (n : nat) : nat :=
  match k with
  | O => n
  | S k' =>
    if (n + 1 <? len)%nat && isWhitespace (byte (n + 1))
    then skipWhitespaces k' (S n)
    else n
  end.

(** The whitespace skip at the end of an item or unit system name: the
    blanks that follow and then one opening parenthesis are passed. *)
Definition skipToParenthesis (n : nat) : nat :=
  let n := skipWhitespaces len n in
  if (n + 1 <? len)%nat && (byte (n + 1) =? ch "(") then S n else n.

(** The Collection / EndCollection / Usage bookkeeping done when an item
    name is resolved inside the scan loop. *)
Definition itemResolved (st : State) (e : Encoding) : State + EMessage :=
  if arg_is e colArgMap then
    if negb (usageAtLevel st =? colLevel st) then inr E_Missing_Usage_for_Collection
    else inl (set_colLevel (colLevel st + 1) st)
  else if arg_is e endCol then
    if colLevel st <=? 0 then inr E_Unexpected_EndCollection
    else if (reportSizes st <? reportCounts st)%nat then inr E_Missing_ReportSize
    else if (reportCounts st <? reportSizes st)%nat then inr E_Missing_ReportCount
    else inl (set_usageAtLevel (usageAtLevel st - 1)
               (set_colLevel (colLevel st - 1) st))
  else if equalsI (token_bytes code (tItem st)) (bytes_of "Usage") then
    inl (set_usageAtLevel (colLevel st) st)
  else inl st.

(** [encMap->arg != NULL && (encMap->arg->name != NULL || encMap->arg == usageArg)] *)
Definition needsArgument (e : Encoding) : bool :=
  match Encoding.arg e with
  | None => false
  | Some a =>
    negb (match entries a with [] => true | _ :: _ => false end)
    || TableId_beq a usageArg
  end.

(** [flags == HID_START] *)
Definition step_start (st : State) : Outcome :=
  let c := byte (n st) in
  if isItemChar c then
    Next (set_tItem (Token.mk (n st) 1) (set_flags HID_WITHIN_ITEM st))
  else if c =? ch "{" then
    Next (set_tArg (Token.mk (n st + 1) 0) (set_flags HID_WITHIN_PARAM st))
  else if (c =? ch "0") && (n st + 1 <? len)%nat && (byte (n st + 1) =? ch "x") then
    let st := set_flags HID_WITHIN_HEX_LIT st in
    if (len <=? n st + 2)%nat then Fail (n st + 2) E_Unexpected_end_of_source
    else if negb (isHexDigit (byte (n st + 2))) then Fail (n st + 2) E_Invalid_hex_value
    else Next (set_n (n st + 1) (set_lit 0 st))
  else if isDigit c then
    Continue (set_lit 0 (set_flags HID_WITHIN_NUM_LIT st))
  else if c =? ch "-" then
    Fail (n st) E_Negative_numbers_are_not_allowed_in_this_context
  else if isComment c then
    Next (set_flags HID_WITHIN_COMMENT st)
  else if negb (isWhitespace c) then
    Fail (n st) E_Unexpected_token
  else Next st.

(** [_HID_WITHIN(COMMENT)] *)
Definition step_comment (st : State) : Outcome :=
  let c := byte (n st) in
  if (c =? ch "013") || (c =? ch "010") then Next (set_flags HID_START st)
  else Next st.

(** [_HID_WITHIN(PARAM)] *)
Definition step_param (st : State) : Outcome :=
  let c := byte (n st) in
  if c =? ch "}" then
    let st := set_flags (clear HID_WITHIN_PARAM (flags st)) st in
    let param := find (token_bytes code (tArg st)) in
    if negb (valid param) then Fail (n st) E_Expected_valid_parameter_name_here
    else if within HID_WITHIN_ARG_LIST (flags st) then
      if if arg_is (deref (encMap st)) signedNumArg
         then (pm_value param <? - 0x80000000) || (pm_value param >? 0x7FFFFFFF)
         else (pm_value param <? 0) || (pm_value param >? 0xFFFFFFFF)
      then Fail (n st) E_Parameter_value_out_of_range
      else
        let st := set_arg (Z.lor (arg st) (u32 (pm_value param))) st in
        Next (set_hasArg true st)
    else if pm_value param <? 0 then
      Fail (n st) E_Negative_numbers_are_not_allowed_in_this_context
    else if pm_value param >? 0xFFFFFFFF then
      Fail (n st) E_Parameter_value_out_of_range
    else Next (set_out (fst (encodeUnsigned (out st) (u32 (pm_value param)))) st)
  else
    Next (set_tArg (Token.mk (Token.start (tArg st)) (S (Token.length (tArg st)))) st).

(** [_HID_WITHIN(ITEM)] *)
Definition step_item (st : State) : Outcome :=
  let c := byte (n st) in
  if isItemChar c then
    Next (set_tItem (Token.mk (Token.start (tItem st)) (S (Token.length (tItem st)))) st)
  else if isWhitespace c || (c =? ch "(") then
    let st := if isWhitespace c then set_n (skipToParenthesis (n st)) st else st in
    let st := set_flags (clear HID_WITHIN_ITEM (flags st)) st in
    match findEncoding code (tItem st) itemMap_tbl endOfMap E_Invalid_item_name with
    | (None, subError) => Fail (n st) subError
    | (Some e, _) =>
      let st := set_encMap (Some e) st in
      match itemResolved st e with
      | inr msg => Fail (n st) msg
      | inl st =>
        if byte (n st) =? ch "(" then
          let st := set_flags (raise HID_WITHIN_ARG_LIST (flags st)) st in
          match Encoding.arg e with
          | None => Fail (n st) E_This_item_has_no_arguments
          | Some a =>
            let st :=
              if TableId_beq a unitSystemMap
              then set_flags (raise HID_WITHIN_UNIT_SYS (flags st)) st
              else st in
            let st := set_item (Encoding.value e) st in
            let st := set_arg 0 st in
            let st := set_hasArg false st in
            Next (set_multiArg (TableId_beq a inputArgMap
                                || TableId_beq a outputFeatureArgMap) st)
          end
        else if needsArgument e then Fail (n st) E_Missing_argument
        else Next (set_out (fst (encodeUnsigned (out st) (Encoding.value e))) st)
      end
    end
  else Fail (n st) E_Unexpected_item_name_character.

(** [offset = 4 * encUnit->value]; the nibble of [arg] at [offset] is
    replaced by [code4]. *)
Definition setUnitNibble (encUnit : Encoding) (code4 : Z) (arg : Z) : Z :=
  let offset := u32 (4 * Encoding.value encUnit) in
  let arg := Z.land arg (not32 (Z.shiftl 0xF offset)) in
  Z.lor arg (u32 (Z.shiftl code4 offset)).

(** [_HID_WITHIN(ARG)] and [_HID_WITHIN(UNIT_DESC)] *)
Definition step_unit_desc (st : State) : Outcome :=
  let c := byte (n st) in
  if within HID_WITHIN_UNIT (flags st) then
    if isAlpha c then
      Next (set_tArg (Token.mk (Token.start (tArg st)) (S (Token.length (tArg st)))) st)
    else if isWhitespace c || (c =? ch ")") || (c =? ch "^") then
      let st := set_flags (clear HID_WITHIN_UNIT (flags st)) st in
      match findEncoding code (tArg st) (table_of (Encoding.arg (deref (encMap st))))
              endOfMap E_Invalid_unit_name with
      | (None, subError) => Fail (n st) subError
      | (Some u, _) =>
        let st := set_encUnit (Some u) st in
        if c =? ch "^" then
          let st := set_flags (raise HID_WITHIN_UNIT_EXP (flags st)) st in
          Next (set_tArg (Token.mk (n st + 1) 0) st)
        else
          Continue (set_arg (setUnitNibble u 1 (arg st)) st)
      end
    else Fail (n st) E_Unexpected_unit_name_character
  else if within HID_WITHIN_UNIT_EXP (flags st) then
    if c =? ch "-" then
      if (0 <? Token.length (tArg st))%nat then Fail (n st) E_Invalid_unit_exponent
      else Next (set_tArg (Token.mk (Token.start (tArg st)) (S (Token.length (tArg st)))) st)
    else if isDigit c then
      Next (set_tArg (Token.mk (Token.start (tArg st)) (S (Token.length (tArg st)))) st)
    else
      let st := set_flags (clear HID_WITHIN_UNIT_EXP (flags st)) st in
      match findEncoding code (tArg st) (table_of (Encoding.arg (deref (encUnit st))))
              endOfMap E_Invalid_unit_exponent with
      | (None, subError) => Fail (n st) subError
      | (Some encUnitExp, _) =>
        let st := set_arg (setUnitNibble (deref (encUnit st))
                             (Encoding.value encUnitExp) (arg st)) st in
        Continue (set_flags (raise HID_WITHIN_UNIT_DESC (flags st)) st)
      end
  else if isAlpha c then
    let st := set_flags (raise HID_WITHIN_UNIT (flags st)) st in
    Next (set_tArg (Token.mk (n st) 1) st)
  else if c =? ch ")" then
    Next (set_flags (clear (Z.lor (Z.lor HID_WITHIN_ARG HID_WITHIN_UNIT_SYS)
                              HID_WITHIN_UNIT_DESC) (flags st)) st)
  else if negb (isWhitespace c) then Fail (n st) E_Unexpected_unit_name_character
  else Next st.

(** [_HID_WITHIN(ARG)] *)
Definition step_arg (st : State) : Outcome :=
  let c := byte (n st) in
  if within HID_WITHIN_UNIT_DESC (flags st) then step_unit_desc st
  else if isArgChar c then
    Next (set_tArg (Token.mk (Token.start (tArg st)) (S (Token.length (tArg st)))) st)
  else if within HID_WITHIN_UNIT_SYS (flags st) then
    if hasArg st then Fail (n st) E_Internal_error
    else if isWhitespace c || (c =? ch "(") then
      let st := if isWhitespace c then set_n (skipToParenthesis (n st)) st else st in
      match findEncoding code (tArg st) (table_of (Encoding.arg (deref (encMap st))))
              endOfMap E_Invalid_unit_system_name with
      | (None, subError) => Fail (n st) subError
      | (Some encUnitSys, _) =>
        let st := set_flags (raise HID_WITHIN_UNIT_DESC (flags st)) st in
        let st := set_arg (Encoding.value encUnitSys) st in
        let st := set_encMap (Some encUnitSys) st in
        Next (set_hasArg true st)
      end
    else if c =? ch ")" then
      Continue (set_flags (clear HID_WITHIN_UNIT_SYS (flags st)) st)
    else Fail (n st) E_Unexpected_argument_name_character
  else if isWhitespace c || (c =? ch ")") || (multiArg st && (c =? ch ",")) then
    let st := set_flags (clear HID_WITHIN_ARG (flags st)) st in
    let resolved :=
      if arg_is (deref (encMap st)) usageArg then
        match usagePage st with
        | Some p =>
          match Encoding.arg p with
          | Some _ => inl (set_encMap (usagePage st) st)
          | None =>
            inr (if hasUsagePage st then E_Missing_named_UsagePage else E_Missing_UsagePage)
          end
        | None =>
          inr (if hasUsagePage st then E_Missing_named_UsagePage else E_Missing_UsagePage)
        end
      else inl st in
    match resolved with
    | inr msg => Fail (n st) msg
    | inl st =>
      match findEncoding code (tArg st) (table_of (Encoding.arg (deref (encMap st))))
              endOfMap E_Invalid_argument_name with
      | (None, subError) => Fail (n st) subError
      | (Some encItem, _) =>
        let st :=
          if arg_is (deref (encMap st)) usagePageMap
          then set_usagePage (Some encItem) st
          else st in
        let st :=
          if arg_is encItem clearArg
          then set_arg (Z.land (arg st) (not32 (Encoding.value encItem))) st
          else set_arg (Z.lor (arg st) (Encoding.value encItem)) st in
        let st := set_hasArg (negb (multiArg st) || negb (c =? ch ",")) st in
        if c =? ch ")" then Continue st else Next st
      end
    end
  else Fail (n st) E_Unexpected_argument_name_character.

(** The value of a hexadecimal digit, as the three-way test of the source
    computes it. *)
Definition hexDigitValue (c : Z) : Z :=
  if c <? ch "A" then u32 (c - ch "0")
  else if c <? ch "a" then u32 (c - ch "A" + 10)
  else u32 (c - ch "a" + 10).

(** [_HID_WITHIN(HEX_LIT)] *)
Definition step_hex_lit (st : State) : Outcome :=
  let c := byte (n st) in
  if isHexDigit c then
    let oldLit := lit st in
    let st := set_lit (u32 (Z.shiftl (lit st) 4)) st in
    if lit st <? oldLit then Fail (n st) E_Number_overflow
    else Next (set_lit (Z.lor (lit st) (hexDigitValue c)) st)
  else if within HID_WITHIN_ARG_LIST (flags st) then
    if isWhitespace c || (c =? ch ")") || (multiArg st && (c =? ch ",")) then
      let st := set_flags (clear HID_WITHIN_HEX_LIT (flags st)) st in
      if arg_is (deref (encMap st)) signedNumArg && (lit st >? 0x7FFFFFFF)
      then Fail (n st) E_Number_overflow
      else
        let st := set_arg (Z.lor (arg st) (lit st)) st in
        let st := set_hasArg (negb (multiArg st) || negb (c =? ch ",")) st in
        if c =? ch ")" then Continue st else Next st
    else Fail (n st) E_Invalid_hex_value
  else if isWhitespace c then
    let st := set_flags (clear HID_WITHIN_HEX_LIT (flags st)) st in
    Next (set_out (fst (encodeUnsigned (out st) (lit st))) st)
  else Fail (n st) E_Invalid_hex_value.

(** [_HID_WITHIN(NUM_LIT)] *)
Definition step_num_lit (st : State) : Outcome :=
  let c := byte (n st) in
  if isDigit c then
    let oldLit := lit st in
    let st := set_lit (u32 (lit st * 10)) st in
    if lit st <? oldLit then Fail (n st) E_Number_overflow
    else
      let st := set_lit (u32 (lit st + u32 (c - ch "0"))) st in
      if lit st <? oldLit then Fail (n st) E_Number_overflow
      else Next st
  else if within HID_WITHIN_ARG_LIST (flags st) then
    if isWhitespace c || (c =? ch ")") || (multiArg st && (c =? ch ",")) then
      let st := set_flags (clear HID_WITHIN_NUM_LIT (flags st)) st in
      let merged :=
        if negLit st then
          if lit st >? 0x80000000 then None
          else Some (set_negLit false
                       (set_arg (Z.lor (arg st) (u32 (- i32 (lit st)))) st))
        else
          if arg_is (deref (encMap st)) signedNumArg && (lit st >? 0x7FFFFFFF)
          then None
          else Some (set_arg (Z.lor (arg st) (lit st)) st) in
      match merged with
      | None => Fail (n st) E_Number_overflow
      | Some st =>
        let st := set_hasArg (negb (multiArg st) || negb (c =? ch ",")) st in
        if c =? ch ")" then Continue st else Next st
      end
    else Fail (n st) E_Invalid_numeric_value
  else if isWhitespace c then
    let st := set_flags (clear HID_WITHIN_NUM_LIT (flags st)) st in
    Next (set_out (fst (encodeUnsigned (out st) (lit st))) st)
  else Fail (n st) E_Invalid_numeric_value.

(** The end of an argument list: the item is checked and written. *)
Definition closeArgList (st : State) : Outcome :=
  let st := set_flags (clear (Z.lor HID_WITHIN_ARG_LIST HID_WITHIN_UNIT_SYS)
                         (flags st)) st in
  let e := deref (encMap st) in
  let emitted :=
    if arg_is e signedNumArg then
      let st := set_item (Z.lor (item st)
                            (encodedSizeValue (encodedSize_i32 (i32 (arg st))))) st in
      let st := set_out (fst (encodeUnsigned (out st) (item st))) st in
      inl (set_out (fst (encodeSigned (out st) (i32 (arg st)))) st)
    else if arg_is e unitExpMap then
      let sArg := i32 (arg st) in
      if (sArg >? 7) || (sArg <? -8) then inr E_Argument_value_out_of_range
      else
        let st := set_out (fst (encodeUnsigned (out st) (Z.lor (item st) 1))) st in
        inl (set_out (fst (encodeUnsigned (out st) (u32 (Z.land sArg 0xF)))) st)
    else
      let checked :=
        if arg_is e delimMap then
          if arg st =? 0 then
            if delimLevel st <=? 0 then inr E_Unexpected_DelimiterClose
            else inl (set_delimLevel (delimLevel st - 1) st)
          else if arg st =? 1 then inl (set_delimLevel (delimLevel st + 1) st)
          else inr E_Unexpected_Delimiter_value
        else if arg_is e usagePageMap || arg_is e usageArg then
          if arg st >? 0xFFFF then inr E_Argument_value_out_of_range
          else if arg_is e usagePageMap then inl (set_hasUsagePage true st)
          else inl st
        else if Encoding.value e =? 0x74 then
          inl (set_reportSizes (S (reportSizes st)) st)
        else if Encoding.value e =? 0x94 then
          inl (set_reportCounts (S (reportCounts st)) st)
        else inl st in
      match checked with
      | inr msg => inr msg
      | inl st =>
        let st := set_item (Z.lor (item st)
                              (encodedSizeValue (encodedSize_u32 (arg st)))) st in
        let st := set_out (fst (encodeUnsigned (out st) (item st))) st in
        inl (set_out (fst (encodeUnsigned (out st) (arg st))) st)
      end in
  match emitted with
  | inr msg => Fail (n st) msg
  | inl st => Next (set_multiArg false st)
  end.

(** [_HID_WITHIN(ARG_LIST)] *)
Definition step_arg_list (st : State) : Outcome :=
  let c := byte (n st) in
  if hasArg st then
    if c =? ch ")" then closeArgList st
    else if multiArg st && (c =? ch ",") then Next (set_hasArg false st)
    else if negb (isWhitespace c) then Fail (n st) E_Unexpected_token
    else Next st
  else
    if isItemChar c then
      let st := set_flags (raise HID_WITHIN_ARG (flags st)) st in
      Next (set_tArg (Token.mk (n st) 1) st)
    else if (c =? ch "0") && (n st + 1 <? len)%nat && (byte (n st + 1) =? ch "x") then
      let st := set_flags (raise HID_WITHIN_HEX_LIT (flags st)) st in
      if (len <=? n st + 2)%nat then Fail (n st + 2) E_Unexpected_end_of_source
      else if negb (isHexDigit (byte (n st + 2))) then Fail (n st + 2) E_Invalid_hex_value
      else Next (set_n (n st + 1) (set_lit 0 st))
    else if c =? ch "-" then
      if negb (arg_is (deref (encMap st)) signedNumArg)
         && negb (arg_is (deref (encMap st)) unitExpMap)
      then Fail (n st) E_Negative_numbers_are_not_allowed_in_this_context
      else
        let st := set_flags (raise HID_WITHIN_NUM_LIT (flags st)) st in
        Next (set_negLit true (set_lit 0 st))
    else if isDigit c then
      let st := set_flags (raise HID_WITHIN_NUM_LIT (flags st)) st in
      Continue (set_lit 0 st)
    else if c =? ch "{" then
      let st := set_flags (raise HID_WITHIN_PARAM (flags st)) st in
      Next (set_tArg (Token.mk (n st + 1) 0) st)
    else if c =? ch ")" then Fail (n st) E_Missing_argument
    else if negb (isWhitespace c) then Fail (n st) E_Unexpected_argument_name_character
    else Next st.

(** One pass through the body of the scan loop. *)
Definition step (st : State) : Outcome :=
  if flags st =? HID_START then step_start st
  else if within HID_WITHIN_COMMENT (flags st) then step_comment st
  else if within HID_WITHIN_PARAM (flags st) then step_param st
  else if within HID_WITHIN_ITEM (flags st) then step_item st
  else if within HID_WITHIN_ARG (flags st) then step_arg st
  else if within HID_WITHIN_HEX_LIT (flags st) then step_hex_lit st
  else if within HID_WITHIN_NUM_LIT (flags st) then step_num_lit st
  else if within HID_WITHIN_ARG_LIST (flags st) then step_arg_list st
  else Next st.

(** [n < len && *ptr != 0] *)
Definition scanning (st : State) : bool :=
  (n st <? len)%nat && negb (byte (n st) =? 0).

(** [n++; ptr++] *)
Definition advance (st : State) : State := set_n (S (n st)) st.

(** How the scan loop is left. *)
Inductive ScanResult : Set :=
  | Stopped (pos : nat) (msg : EMessage) (st : State)
  | EndOfSource (st : State)
  | OutOfFuel.

(** The scan loop, run for at most [fuel] passes.  Next to the result it
    returns the cursor position of every pass, in order. *)
Fixpoint scan (fuel : nat) (st : State) : ScanResult * list nat :=
  match fuel with
  | O => (OutOfFuel, [])
  | S fuel' =>
    if scanning st then
      match step st with
      | Fail pos msg => (Stopped pos msg st, [n st])
      | Continue st' =>
        let (r, t) := scan fuel' st' in (r, n st :: t)
      | Next st' =>
        let (r, t) := scan fuel' (advance st') in (r, n st :: t)
      end
    else (EndOfSource st, [])
  end.

(** The item bookkeeping of the end-of-source handling; unlike the one in
    the loop it has no [Usage] case. *)
Definition itemResolvedAtEnd (st : State) (e : Encoding) : State + EMessage :=
  if arg_is e colArgMap then
    if negb (usageAtLevel st =? colLevel st) then inr E_Missing_Usage_for_Collection
    else inl (set_colLevel (colLevel st + 1) st)
  else if arg_is e endCol then
    if colLevel st <=? 0 then inr E_Unexpected_EndCollection
    else if (reportSizes st <? reportCounts st)%nat then inr E_Missing_ReportSize
    else if (reportCounts st <? reportSizes st)%nat then inr E_Missing_ReportCount
    else inl (set_usageAtLevel (usageAtLevel st - 1)
               (set_colLevel (colLevel st - 1) st))
  else inl st.

(** The code after the scan loop, in its three parts.  First a literal the
    source ends in is closed, and written if nothing else is open. *)
Definition flushLiteral (st : State) : State :=
  if within HID_WITHIN_HEX_LIT (flags st) || within HID_WITHIN_NUM_LIT (flags st) then
    let st := set_flags (clear (Z.lor HID_WITHIN_HEX_LIT HID_WITHIN_NUM_LIT)
                           (flags st)) st in
    if flags st =? HID_START
    then set_out (fst (encodeUnsigned (out st) (lit st))) st
    else st
  else st.

(** Then an item name the source ends in is resolved and written. *)
Definition flushItem (st : State) : State * option EMessage :=
  if within HID_WITHIN_ITEM (flags st) then
    let st := set_flags (clear HID_WITHIN_ITEM (flags st)) st in
    match findEncoding code (tItem st) itemMap_tbl endOfMap E_Invalid_item_name with
    | (None, subError) => (st, Some subError)
    | (Some e, _) =>
      let st := set_encMap (Some e) st in
      match itemResolvedAtEnd st e with
      | inr msg => (st, Some msg)
      | inl st =>
        if needsArgument e then (st, Some E_Missing_argument)
        else if flags st =? HID_START
        then (set_out (fst (encodeUnsigned (out st) (Encoding.value e))) st, None)
        else (st, None)
      end
    end
  else (st, None).

(** Last, what is still open is reported. *)
Definition finalChecks (st : State) : option (nat * EMessage) :=
  if colLevel st >? 0 then Some (n st, E_Missing_EndCollection)
  else if delimLevel st >? 0 then Some (n st, E_Missing_DelimiterClose)
  else if negb (flags st =? HID_START) && negb (flags st =? HID_WITHIN_COMMENT)
  then Some (n st, E_Unexpected_end_of_source)
  else None.

(** The code after the scan loop: the locals it ends with and the error it
    returns, if any. *)
Definition endOfSource (st : State) : State * option (nat * EMessage) :=
  match flushItem (flushLiteral st) with
  | (st, Some msg) => (st, Some (n st, msg))
  | (st, None) => (st, finalChecks st)
  end.

(** The locals of [compile] when the scan loop is entered; [out] is the
    writer the caller passes. *)
Definition initial (out : list Z) : State :=
  mkState 0 0 (-1) 0 0 (Token.mk 0 0) (Token.mk 0 0) false false false false
    None None None HID_START 0 0 0 0 out.

(** Each byte of the source is the cursor of at most three passes (see
    [scan_fuel_enough]), so this many passes are never used up. *)
Definition fuel : nat := 3 * len + 1.

(** [compile]: the returned [bool], the content of [error] and the writer
    after the call; [None] only if the scan loop were cut short. *)
Definition compile (writer : list Z) (error : Info)
    : option (bool * Info * list Z) :=
  match fst (scan fuel (initial writer)) with
  | Stopped pos msg st =>
    let (error, r) := ErrorWriter_at code error pos msg in
    Some (r, error, out st)
  | EndOfSource st =>
    match endOfSource st with
    | (st, Some (pos, msg)) =>
      let (error, r) := ErrorWriter_at code error pos msg in
      Some (r, error, out st)
    | (st, None) => Some (true, Info_default, out st)
    end
  | OutOfFuel => None
  end.

End Compile.

(** * Properties *)

(** ** The integer codec *)

(** The bytes of a little-endian number, and the value of the first
    [length bytes] bytes sign-extended: what a reader of the descriptor
    computes from the data bytes of a short item. *)
Fixpoint le_value (bytes : list Z) : Z :=
  match bytes with
  | [] => 0
  | b :: rest => b + 256 * le_value rest
  end.

Definition sign_extend_le (bytes : list Z) : Z :=
  let w := 8 * Z.of_nat (List.length bytes) in
  if le_value bytes <? 2 ^ (w - 1) then le_value bytes else le_value bytes - 2 ^ w.

(** [min_bytes_signed] as the specification words it. *)
Definition min_bytes_signed (v : Z) : nat :=
  let abs' := if v <? 0 then - v - 1 else v in
  if abs' <=? 0x7F then 1%nat else if abs' <=? 0x7FFF then 2%nat else 4%nat.

Lemma land_FF (x : Z) : Z.land x 0xFF = x mod 256.
Proof. change 0xFF with (Z.ones 8). now rewrite Z.land_ones by lia. Qed.

Lemma shiftr_div (x k : Z) : 0 <= k -> Z.shiftr x k = x / 2 ^ k.
Proof. intros. now apply Z.shiftr_div_pow2. Qed.

Lemma absVal_i32_spec (v : Z) :
  - 2 ^ 31 <= v <= 2 ^ 31 - 1 ->
  absVal_i32 v = if v <? 0 then - v - 1 else v.
Proof.
  intros Hv. unfold absVal_i32, i32.
  destruct (v <? 0) eqn:E; [|reflexivity].
  apply Z.ltb_lt in E.
  change (2 ^ 31) with 2147483648 in *. change (2 ^ 32) with 4294967296.
  Z.div_mod_to_equations. lia.
Qed.

Lemma encodedSize_i32_spec (v : Z) :
  - 2 ^ 31 <= v <= 2 ^ 31 - 1 -> encodedSize_i32 v = min_bytes_signed v.
Proof.
  intros Hv. unfold encodedSize_i32, min_bytes_signed.
  rewrite (absVal_i32_spec v Hv).
  set (a := if v <? 0 then - v - 1 else v).
  destruct (a >? 32767) eqn:E1, (a >? 127) eqn:E2,
           (a <=? 127) eqn:E3, (a <=? 32767) eqn:E4; try reflexivity; lia.
Qed.

Lemma encodeValue_bytes (out : list Z) (val : Z) (len : nat) :
  fst (encodeValue out val len) =
  out ++ match len with
         | O | 1%nat => [val mod 256]
         | 2%nat => [val mod 256; (val / 2 ^ 8) mod 256]
         | _ => [val mod 256; (val / 2 ^ 8) mod 256; (val / 2 ^ 16) mod 256;
                 (val / 2 ^ 24) mod 256]
         end.
Proof.
  unfold encodeValue, write.
  rewrite !land_FF, !shiftr_div, !Z.mod_mod by lia.
  destruct len as [|[|[|k]]]; cbn [Nat.ltb Nat.leb fst]; rewrite <- ?app_assoc;
    reflexivity.
Qed.

(** [int32_t] arithmetic as the language has it: a result that does not fit
    the type is undefined, [None]. *)
Definition int32_result (z : Z) : option Z :=
  if (- 2 ^ 31 <=? z) && (z <=? 2 ^ 31 - 1) then Some z else None.

(** [(val < 0) ? -val - 1 : val] on [int32_t] with that arithmetic. *)
Definition absVal_defined (val : Z) : option Z :=
  if val <? 0 then
    match int32_result (- val) with
    | Some m => int32_result (m - 1)
    | None => None
    end
  else Some val.

(** [encodedSize(int32_t)] and [encodeSigned] with it: no result where
    [absVal] has none. *)
Definition encodedSize_i32_defined (val : Z) : option nat :=
  match absVal_defined val with
  | Some absVal =>
    Some (if absVal >? 0x7FFF then 4%nat
          else if absVal >? 0x7F then 2%nat
          else 1%nat)
  | None => None
  end.

Definition encodeSigned_defined (out : list Z) (val : Z)
    : option (list Z * nat) :=
  match absVal_defined val with
  | Some absVal =>
    Some (if absVal >? 0x7FFF then encodeValue out (u32 val) 4
          else if absVal >? 0x7F then encodeValue out (u32 (i16 val)) 2
          else encodeValue out (u32 (i8 val)) 1)
  | None => None
  end.

Lemma int32_result_fits (z : Z) :
  - 2 ^ 31 <= z <= 2 ^ 31 - 1 -> int32_result z = Some z.
Proof.
  intros Hz. unfold int32_result.
  destruct (Z.leb_spec (- 2 ^ 31) z); [|lia].
  destruct (Z.leb_spec z (2 ^ 31 - 1)); [|lia]. reflexivity.
Qed.

(** Where [-val] fits [int32_t], [absVal] has a result, the one of the
    arithmetic reduced to 32 bits. *)
Lemma absVal_defined_spec (v : Z) :
  - 2 ^ 31 < v <= 2 ^ 31 - 1 ->
  absVal_defined v = Some (absVal_i32 v).
Proof.
  intros Hv. rewrite absVal_i32_spec by lia.
  unfold absVal_defined.
  destruct (Z.ltb_spec v 0); [|reflexivity].
  rewrite (int32_result_fits (- v)) by lia.
  apply int32_result_fits. lia.
Qed.

(** For every [v] of [int32_t] other than [-2^31],
    [encodedSize(int32_t)] is [min_bytes_signed], and [encodeSigned] appends
    exactly that many bytes, little-endian, whose sign-extended value is the
    number encoded.  This holds of the functions with the arithmetic of the
    language ([encodedSize_i32_defined], [encodeSigned_defined]) and of the
    ones reduced to 32 bits that [compile] is modelled with, which return
    the same. *)
Theorem encodeSigned_roundtrip (out : list Z) (v : Z) :
  - 2 ^ 31 < v <= 2 ^ 31 - 1 ->
  encodedSize_i32_defined v = Some (min_bytes_signed v) /\
  encodedSize_i32 v = min_bytes_signed v /\
  exists bytes : list Z,
    encodeSigned_defined out v = Some (out ++ bytes, min_bytes_signed v) /\
    encodeSigned out v = (out ++ bytes, min_bytes_signed v) /\
    List.length bytes = min_bytes_signed v /\
    Forall (fun b => 0 <= b < 256) bytes /\
    sign_extend_le bytes = v.
Proof.
  intros Hv.
  assert (Hv' : - 2 ^ 31 <= v <= 2 ^ 31 - 1) by lia.
  assert (Hsize : encodedSize_i32 v = min_bytes_signed v)
    by now apply encodedSize_i32_spec.
  assert (Hdef : forall o, encodeSigned_defined o v = Some (encodeSigned o v)).
  { intros o. unfold encodeSigned_defined, encodeSigned.
    rewrite absVal_defined_spec by assumption. cbv zeta.
    destruct (absVal_i32 v >? 32767); [reflexivity|].
    destruct (absVal_i32 v >? 127); reflexivity. }
  split; [|split; [assumption|]].
  { unfold encodedSize_i32_defined. rewrite absVal_defined_spec by assumption.
    rewrite <- Hsize. reflexivity. }
  rewrite Hdef, <- Hsize.
  assert (Habs := absVal_i32_spec v Hv').
  unfold encodeSigned, encodedSize_i32. rewrite Habs.
  set (a := if v <? 0 then - v - 1 else v).
  assert (Ha : a = if v <? 0 then - v - 1 else v) by reflexivity.
  change (2 ^ 31) with 2147483648 in Hv, Hv'.
  destruct (a >? 32767) eqn:E1; [|destruct (a >? 127) eqn:E2].
  - eexists. split; [|split; [|split; [|split]]].
    + rewrite (surjective_pairing (encodeValue _ _ _)), encodeValue_bytes.
      reflexivity.
    + rewrite (surjective_pairing (encodeValue _ _ _)), encodeValue_bytes.
      reflexivity.
    + reflexivity.
    + repeat constructor; apply Z.mod_pos_bound; lia.
    + unfold sign_extend_le, le_value, u32. cbn [List.length].
      change (8 * Z.of_nat 4) with 32.
      change (2 ^ (32 - 1)) with 2147483648. change (2 ^ 32) with 4294967296.
      change (2 ^ 8) with 256. change (2 ^ 16) with 65536.
      change (2 ^ 24) with 16777216.
      destruct (Z.ltb_spec
        (v mod 4294967296 mod 256 + 256 * ((v mod 4294967296 / 256) mod 256 +
          256 * ((v mod 4294967296 / 65536) mod 256 +
            256 * ((v mod 4294967296 / 16777216) mod 256 + 256 * 0)))) 2147483648);
        Z.div_mod_to_equations; lia.
  - eexists. split; [|split; [|split; [|split]]].
    + rewrite (surjective_pairing (encodeValue _ _ _)), encodeValue_bytes.
      reflexivity.
    + rewrite (surjective_pairing (encodeValue _ _ _)), encodeValue_bytes.
      reflexivity.
    + reflexivity.
    + repeat constructor; apply Z.mod_pos_bound; lia.
    + assert (Hr : -32768 <= v <= 32767) by (destruct (v <? 0) eqn:E; lia).
      unfold sign_extend_le, le_value, u32, i16. cbn [List.length].
      change (8 * Z.of_nat 2) with 16.
      change (2 ^ (16 - 1)) with 32768. change (2 ^ 16) with 65536.
      change (2 ^ 15) with 32768. change (2 ^ 32) with 4294967296.
      change (2 ^ 8) with 256.
      destruct (Z.ltb_spec
        (((v + 32768) mod 65536 - 32768) mod 4294967296 mod 256 +
         256 * ((((v + 32768) mod 65536 - 32768) mod 4294967296 / 256) mod 256 +
                256 * 0)) 32768);
        Z.div_mod_to_equations; lia.
  - eexists. split; [|split; [|split; [|split]]].
    + rewrite (surjective_pairing (encodeValue _ _ _)), encodeValue_bytes.
      reflexivity.
    + rewrite (surjective_pairing (encodeValue _ _ _)), encodeValue_bytes.
      reflexivity.
    + reflexivity.
    + repeat constructor; apply Z.mod_pos_bound; lia.
    + assert (Hr : -128 <= v <= 127) by (destruct (v <? 0) eqn:E; lia).
      unfold sign_extend_le, le_value, u32, i8. cbn [List.length].
      change (8 * Z.of_nat 1) with 8.
      change (2 ^ (8 - 1)) with 128. change (2 ^ 8) with 256.
      change (2 ^ 7) with 128. change (2 ^ 32) with 4294967296.
      destruct (Z.ltb_spec
        (((v + 128) mod 256 - 128) mod 4294967296 mod 256 + 256 * 0) 128);
        Z.div_mod_to_equations; lia.
Qed.

(** The smallest value covered, [-2^31 + 1], takes four bytes. *)
Lemma encodeSigned_roundtrip_witness :
  encodedSize_i32_defined (-2147483647) = Some 4%nat /\
  exists bytes : list Z,
    encodeSigned_defined [] (-2147483647) = Some (bytes, 4%nat) /\
    encodeSigned [] (-2147483647) = (bytes, 4%nat) /\
    sign_extend_le bytes = -2147483647.
Proof.
  assert (H : - 2 ^ 31 < -2147483647 <= 2 ^ 31 - 1)
    by (vm_compute; split; [reflexivity|discriminate]).
  destruct (encodeSigned_roundtrip [] (-2147483647) H)
    as [H1 [_ [bytes [H2 [H3 [_ [_ H4]]]]]]].
  split; [exact H1|]. exists bytes. repeat split; assumption.
Defined.

(** C2. The claim holds for every [v] of the range but one (see
    [encodeSigned_roundtrip]).  At [v = -2^31] the negation [-val] in
    [(val < 0) ? -val - 1 : val] does not fit [int32_t], so
    [encodedSize(int32_t)] and [encodeSigned] have no defined result there
    (in a constant expression the evaluation is refused).  Reduced to 32
    bits, as compiled code does it, the negation gives [-2^31] again,
    [absVal] becomes [2^31 - 1], and the four bytes the claim and the unit
    test of the repository expect are written. *)
Lemma encodeSigned_int_min_undefined :
  int32_result (- (- 2 ^ 31)) = None /\
  absVal_defined (- 2 ^ 31) = None /\
  encodedSize_i32_defined (- 2 ^ 31) = None /\
  encodeSigned_defined [] (- 2 ^ 31) = None /\
  absVal_i32 (- 2 ^ 31) = 2 ^ 31 - 1 /\
  encodeSigned [] (- 2 ^ 31) = ([0; 0; 0; 128], 4%nat).
Proof. vm_compute. repeat split. Qed.

(** ** The diagnostic position *)

(** The three counts of the specification, on the bytes in front of the
    error position. *)
Definition count_if (p : Z -> bool) (l : list Z) : nat :=
  List.length (filter p l).

Definition is_newline (c : Z) : bool := c =? ch "010".

(** A byte that moves the column: the first byte of a character, other
    than a carriage return. *)
Definition is_column_byte (c : Z) : bool :=
  is_utf8_lead c && negb (c =? ch "013").

(** The bytes after the last line feed of [l] (all of [l] if it has none). *)
Fixpoint after_last_newline (l : list Z) : list Z :=
  match l with
  | [] => []
  | c :: rest =>
    if existsb is_newline rest then after_last_newline rest
    else if is_newline c then rest
    else c :: rest
  end.

(** The loop of [ErrorWriter::at] over a list of bytes. *)
Fixpoint at_bytes (l : list Z) (error : Info) : Info :=
  match l with
  | [] => error
  | c :: rest =>
    let error :=
      if is_utf8_lead c
      then mkInfo (S (character error)) (line error) (column error) (message error)
      else error in
    let error :=
      if c =? ch "010" then
        mkInfo (character error) (S (line error)) 1%nat (message error)
      else if negb (c =? ch "013") then
        if is_utf8_lead c
        then mkInfo (character error) (line error) (S (column error)) (message error)
        else error
      else error in
    at_bytes rest error
  end.

Lemma at_loop_bytes (source : list Z) (k : nat) :
  forall (n : nat) (error : Info),
    (n + k <= List.length source)%nat ->
    at_loop source k n error = at_bytes (firstn k (skipn n source)) error.
Proof.
  induction k as [|k IH]; intros n error Hn; [reflexivity|].
  assert (Hlt : (n < List.length source)%nat) by lia.
  destruct (skipn n source) as [|c rest] eqn:Hs.
  - apply (f_equal (@List.length Z)) in Hs. rewrite length_skipn in Hs.
    cbn in Hs. lia.
  - assert (Hc : nth n source 0 = c).
    { rewrite <- (firstn_skipn n source) at 1.
      rewrite app_nth2; rewrite length_firstn; [|lia].
      replace (n - Nat.min n (List.length source))%nat with 0%nat by lia.
      now rewrite Hs. }
    assert (Hrest : skipn (S n) source = rest).
    { replace (S n) with (1 + n)%nat by lia.
      now rewrite <- skipn_skipn, Hs. }
    cbn [at_loop firstn at_bytes]. rewrite Hc, IH, Hrest by lia. reflexivity.
Qed.

Lemma at_bytes_counts (l : list Z) :
  forall error : Info,
    at_bytes l error =
    mkInfo (character error + count_if is_utf8_lead l)
           (line error + count_if is_newline l)
           (if existsb is_newline l
            then 1 + count_if is_column_byte (after_last_newline l)
            else column error + count_if is_column_byte l)
           (message error).
Proof.
  induction l as [|c l IH]; intros [ch0 ln0 col0 msg0].
  - cbn. now rewrite !Nat.add_0_r.
  - cbn [at_bytes]. rewrite IH. clear IH.
    unfold count_if. cbn [filter existsb after_last_newline].
    assert (Hnl : is_newline c = (c =? ch "010")) by reflexivity.
    assert (Hcb : is_column_byte c = is_utf8_lead c && negb (c =? ch "013"))
      by reflexivity.
    rewrite !Hnl, !Hcb. clear Hnl Hcb.
    destruct (is_utf8_lead c) eqn:Hl, (c =? ch "010") eqn:Hn,
             (c =? ch "013") eqn:Hr, (existsb is_newline l) eqn:He;
      cbn [character line column message negb andb orb List.length];
      try (apply Z.eqb_eq in Hn; apply Z.eqb_eq in Hr; rewrite Hn in Hr;
           discriminate);
      f_equal; lia.
Qed.

(** C7. [ErrorWriter::at(pos, msg)] leaves in the diagnostic the number of
    bytes in front of [pos] that are not UTF-8 continuation bytes, one plus
    the number of line feeds there, one plus the number of first bytes of
    characters, carriage returns left out, after the last line feed there,
    and [msg]; it returns [false]. *)
Theorem ErrorWriter_at_position (source : list Z) (error : Info) (pos : nat)
    (msg : EMessage) :
  (pos <= List.length source)%nat ->
  ErrorWriter_at source error pos msg =
  (mkInfo (count_if is_utf8_lead (firstn pos source))
          (1 + count_if is_newline (firstn pos source))
          (1 + count_if is_column_byte (after_last_newline (firstn pos source)))
          msg,
   false).
Proof.
  intros Hpos. unfold ErrorWriter_at. cbn [character line column message].
  rewrite at_loop_bytes by lia. cbn [skipn].
  rewrite at_bytes_counts. cbn [character line column message].
  f_equal. f_equal.
  destruct (existsb is_newline (firstn pos source)) eqn:He; [reflexivity|].
  f_equal. f_equal.
  induction (firstn pos source) as [|c l IH]; [reflexivity|].
  cbn [existsb] in He. apply orb_false_iff in He. destruct He as [Hc Hl].
  cbn [after_last_newline]. now rewrite Hl, Hc.
Qed.

Lemma ErrorWriter_at_position_witness :
  ErrorWriter_at (bytes_of "Usage(Pointer)") Info_default 13 E_Missing_UsagePage =
  (mkInfo 13 1 14 E_Missing_UsagePage, false).
Proof.
  refine (ErrorWriter_at_position (bytes_of "Usage(Pointer)") Info_default 13
            E_Missing_UsagePage _).
  vm_compute. lia.
Defined.

(** ** Runs of the scan loop *)

Section Run.

Variable code : list Z.
Variable find : list Z -> ParamMatch.

(** The states the scan loop of [compile] passes through, at the top of
    the loop, when the caller's writer holds [w]. *)
Inductive Reachable (w : list Z) : State -> Prop :=
  | Reachable_initial : Reachable w (initial w)
  | Reachable_continue (st st' : State) :
      Reachable w st -> scanning code st = true ->
      step code find st = Continue st' -> Reachable w st'
  | Reachable_next (st st' : State) :
      Reachable w st -> scanning code st = true ->
      step code find st = Next st' -> Reachable w (advance st').

(** What [scan] returns, in terms of [Reachable]. *)
Definition scan_result_ok (w : list Z) (r : ScanResult) : Prop :=
  match r with
  | Stopped pos msg st =>
    Reachable w st /\ scanning code st = true /\ step code find st = Fail pos msg
  | EndOfSource st => Reachable w st /\ scanning code st = false
  | OutOfFuel => True
  end.

Lemma scan_reachable (w : list Z) (fuel : nat) :
  forall st : State,
    Reachable w st -> scan_result_ok w (fst (scan code find fuel st)).
Proof.
  induction fuel as [|fuel IH]; intros st Hst; [exact I|].
  cbn [scan]. destruct (scanning code st) eqn:Hsc; [|now split].
  destruct (step code find st) as [pos msg|st'|st'] eqn:Hstep.
  - cbn. auto.
  - specialize (IH st' (Reachable_continue w st st' Hst Hsc Hstep)).
    destruct (scan code find fuel st'). exact IH.
  - specialize (IH (advance st') (Reachable_next w st st' Hst Hsc Hstep)).
    destruct (scan code find fuel (advance st')). exact IH.
Qed.

(** The locals the scan loop is left with belong to the run. *)
Lemma scan_end_reachable (w : list Z) (fuel : nat) (st : State) :
  fst (scan code find fuel (initial w)) = EndOfSource st -> Reachable w st.
Proof.
  intros H.
  pose proof (scan_reachable w fuel (initial w) (Reachable_initial w)) as Hr.
  rewrite H in Hr. exact (proj1 Hr).
Qed.

(** A property of the outcome of one pass: [Pf] of the error returned,
    [Pc] of the locals at a [continue], [Pn] of the locals in front of
    [n++; ptr++]. *)
Definition outcome_sat (Pf : nat -> EMessage -> Prop) (Pc Pn : State -> Prop)
    (o : Outcome) : Prop :=
  match o with
  | Fail pos msg => Pf pos msg
  | Continue st' => Pc st'
  | Next st' => Pn st'
  end.

(** An invariant of the passes is an invariant of the run. *)
Lemma Reachable_invariant (w : list Z) (P : State -> Prop) :
  P (initial w) ->
  (forall st, Reachable w st -> P st -> scanning code st = true ->
     outcome_sat (fun _ _ => True) P (fun st' => P (advance st'))
       (step code find st)) ->
  forall st, Reachable w st -> P st.
Proof.
  intros Hinit Hstep st Hst.
  induction Hst as [|st st' Hst IH Hsc Hs|st st' Hst IH Hsc Hs]; [exact Hinit| |].
  - specialize (Hstep st Hst IH Hsc). now rewrite Hs in Hstep.
  - specialize (Hstep st Hst IH Hsc). now rewrite Hs in Hstep.
Qed.

End Run.

(** *** Case analysis of one pass *)

(** The test an outcome hangs on: the innermost scrutinee at its head. *)
Ltac head_test x :=
  lazymatch x with
  | if ?b then _ else _ => head_test b
  | match ?y with _ => _ end => head_test y
  | ?a || _ => head_test a
  | ?a && _ => head_test a
  | negb ?a => head_test a
  | _ => x
  end.

Ltac proj_goal :=
  cbn [colLevel delimLevel usageAtLevel reportSizes reportCounts tItem tArg
       hasUsagePage hasArg multiArg negLit encMap usagePage encUnit flags item
       arg lit n out
       set_colLevel set_delimLevel set_usageAtLevel set_reportSizes
       set_reportCounts set_tItem set_tArg set_hasUsagePage set_hasArg
       set_multiArg set_negLit set_encMap set_usagePage set_encUnit set_flags
       set_item set_arg set_lit set_n set_out advance
       Token.start Token.length orb andb negb].

(** A test on flags that are known is computed. *)
Ltac flag_test c :=
  lazymatch c with
  | within _ _ => idtac
  | (_ =? HID_START) => idtac
  | (_ =? HID_WITHIN_COMMENT) => idtac
  end;
  lazymatch c with
  | context [flags] => fail
  | _ => idtac
  end;
  let v := eval vm_compute in c in
  lazymatch v with
  | true => change c with true
  | false => change c with false
  end.

Ltac simp_goal pre := cbv beta iota zeta; proj_goal; cbv beta iota zeta; pre.

(** The outcome of a pass is followed test by test; [pre] is run on the
    goal in front of every test. *)
Ltac cases_with pre :=
  repeat (simp_goal pre;
          lazymatch goal with
          | |- outcome_sat _ _ _ (if ?b then _ else _) =>
            let c := head_test b in
            first [flag_test c | destruct c eqn:?]
          | |- outcome_sat _ _ _ (match ?x with _ => _ end) =>
            let c := head_test x in
            first [flag_test c | destruct c eqn:?]
          end);
  simp_goal pre; cbn [outcome_sat]; simp_goal pre.

Ltac unfold_step :=
  unfold step, step_start, step_comment, step_param, step_item, step_arg,
    step_unit_desc, step_hex_lit, step_num_lit, step_arg_list, closeArgList,
    itemResolved.

(** Tests left inside the locals of a leaf are decided too. *)
Ltac leaf_cases pre :=
  repeat (match goal with
          | |- context [if ?b then _ else _] => destruct b eqn:?
          end; simp_goal pre).

Ltac step_cases := unfold_step; cases_with idtac; leaf_cases idtac.

Ltac nat_tests :=
  repeat match goal with
         | H : (_ <? _)%nat = true |- _ => apply Nat.ltb_lt in H
         | H : (_ <? _)%nat = false |- _ => apply Nat.ltb_ge in H
         | H : (_ <=? _)%nat = true |- _ => apply Nat.leb_le in H
         | H : (_ <=? _)%nat = false |- _ => apply Nat.leb_gt in H
         end.

(** The byte under the cursor, once a test has told which one it is. *)
Ltac known_byte :=
  repeat match goal with
         | H : (byte _ _ =? _) = true |- _ =>
           apply Z.eqb_eq in H; rewrite H in *
         end.

(** ** Collection and delimiter depth *)

Section Levels.

Variable code : list Z.
Variable find : list Z -> ParamMatch.

Definition levels_ok (st : State) : Prop :=
  0 <= colLevel st /\ 0 <= delimLevel st.

Lemma step_levels (st : State) :
  levels_ok st ->
  outcome_sat (fun _ _ => True) levels_ok levels_ok (step code find st).
Proof.
  unfold levels_ok. intros [Hc Hd]. step_cases; try exact I; split; lia.
Qed.

End Levels.

(** ** The lexer states and the passes per byte *)

(** The combinations of [HID_WITHIN_*] flags the scan loop is ever in. *)
Definition valid_flags : list Z :=
  [ HID_START; HID_WITHIN_COMMENT; HID_WITHIN_ITEM; HID_WITHIN_PARAM;
    HID_WITHIN_HEX_LIT; HID_WITHIN_NUM_LIT;
    HID_WITHIN_ARG_LIST;
    HID_WITHIN_ARG_LIST + HID_WITHIN_PARAM;
    HID_WITHIN_ARG_LIST + HID_WITHIN_HEX_LIT;
    HID_WITHIN_ARG_LIST + HID_WITHIN_NUM_LIT;
    HID_WITHIN_ARG_LIST + HID_WITHIN_ARG;
    HID_WITHIN_ARG_LIST + HID_WITHIN_UNIT_SYS;
    HID_WITHIN_ARG_LIST + HID_WITHIN_UNIT_SYS + HID_WITHIN_PARAM;
    HID_WITHIN_ARG_LIST + HID_WITHIN_UNIT_SYS + HID_WITHIN_HEX_LIT;
    HID_WITHIN_ARG_LIST + HID_WITHIN_UNIT_SYS + HID_WITHIN_NUM_LIT;
    HID_WITHIN_ARG_LIST + HID_WITHIN_UNIT_SYS + HID_WITHIN_ARG;
    HID_WITHIN_ARG_LIST + HID_WITHIN_UNIT_SYS + HID_WITHIN_ARG
      + HID_WITHIN_UNIT_DESC;
    HID_WITHIN_ARG_LIST + HID_WITHIN_UNIT_SYS + HID_WITHIN_ARG
      + HID_WITHIN_UNIT_DESC + HID_WITHIN_UNIT;
    HID_WITHIN_ARG_LIST + HID_WITHIN_UNIT_SYS + HID_WITHIN_ARG
      + HID_WITHIN_UNIT_DESC + HID_WITHIN_UNIT_EXP ].

Definition flags_ok (f : Z) : bool := existsb (Z.eqb f) valid_flags.

(** How many more passes can end with [continue] at the byte under the
    cursor. *)
Definition rank (f : Z) (hasArg : bool) : nat :=
  if within HID_WITHIN_ARG f then
    if within HID_WITHIN_UNIT_DESC f then
      if within HID_WITHIN_UNIT f || within HID_WITHIN_UNIT_EXP f then 1 else 0
    else if within HID_WITHIN_UNIT_SYS f then 2 else 1
  else if within HID_WITHIN_HEX_LIT f || within HID_WITHIN_NUM_LIT f then 1
  else if f =? HID_START then 2
  else if within HID_WITHIN_ARG_LIST f && negb hasArg then 2
  else 0.

Lemma rank_le_2 (f : Z) (h : bool) : (rank f h <= 2)%nat.
Proof.
  unfold rank.
  repeat match goal with
         | |- context [if ?b then _ else _] => destruct b
         end; lia.
Qed.

Lemma flags_ok_cases (f : Z) : flags_ok f = true -> In f valid_flags.
Proof.
  unfold flags_ok. intros H. apply existsb_exists in H.
  destruct H as [x [Hin Heq]]. apply Z.eqb_eq in Heq. now subst.
Qed.

Section Passes.

Variable code : list Z.
Variable find : list Z -> ParamMatch.

Lemma skipWhitespaces_bounds (k : nat) :
  forall n : nat,
    (n < len code)%nat ->
    (n <= skipWhitespaces code k n < len code)%nat /\
    (skipWhitespaces code k n = n \/
     isWhitespace (byte code (skipWhitespaces code k n)) = true).
Proof.
  induction k as [|k IH]; intros n Hn; cbn [skipWhitespaces]; [lia|].
  destruct ((n + 1 <? len code)%nat && isWhitespace (byte code (n + 1))) eqn:E;
    [|lia].
  apply andb_true_iff in E. destruct E as [E1 E2]. apply Nat.ltb_lt in E1.
  replace (n + 1)%nat with (S n) in * by lia.
  destruct (IH (S n) E1) as [Hb [Hs|Hs]].
  - split; [lia|]. right. now rewrite Hs.
  - split; [lia|]. now right.
Qed.

(** The skip stays inside the source and stops on a byte it has looked at: a
    blank or an opening parenthesis. *)
Lemma skipToParenthesis_bounds (n : nat) :
  (n < len code)%nat ->
  (n <= skipToParenthesis code n < len code)%nat /\
  (skipToParenthesis code n = n \/
   isWhitespace (byte code (skipToParenthesis code n)) = true \/
   byte code (skipToParenthesis code n) = ch "(").
Proof.
  intros Hn. unfold skipToParenthesis.
  destruct (skipWhitespaces_bounds (len code) n Hn) as [Hb Hs].
  set (m := skipWhitespaces code (len code) n) in *.
  destruct ((m + 1 <? len code)%nat && (byte code (m + 1) =? ch "(")) eqn:E.
  - apply andb_true_iff in E. destruct E as [E1 E2]. apply Nat.ltb_lt in E1.
    apply Z.eqb_eq in E2. replace (m + 1)%nat with (S m) in * by lia.
    split; [lia|]. right. now right.
  - split; [lia|]. destruct Hs as [Hs|Hs]; [now left|right; now left].
Qed.

(** One pass of a valid lexer state: a [continue] keeps the cursor and uses
    up rank, the bottom of the loop is reached with the cursor inside the
    source; the lexer state stays valid. *)
Lemma step_passes (st : State) :
  flags_ok (flags st) = true -> scanning code st = true ->
  outcome_sat (fun _ _ => True)
    (fun st' => flags_ok (flags st') = true /\ n st' = n st /\
                (rank (flags st') (hasArg st') < rank (flags st) (hasArg st))%nat)
    (fun st' => flags_ok (flags st') = true /\ (n st <= n st' < len code)%nat)
    (step code find st).
Proof.
  intros Hf Hsc. apply flags_ok_cases in Hf.
  unfold scanning in Hsc. apply andb_true_iff in Hsc. destruct Hsc as [Hn _].
  apply Nat.ltb_lt in Hn.
  pose proof (skipToParenthesis_bounds (n st) Hn) as [Hskip _].
  cbn [valid_flags In] in Hf.
  repeat destruct Hf as [Hf|Hf]; [..|contradiction];
    unfold_step; cases_with ltac:(try rewrite <- Hf);
    try exact I; leaf_cases ltac:(try rewrite <- Hf); repeat split;
    try (vm_compute; reflexivity); try (nat_tests; lia); known_byte;
    try (destruct (hasArg st); vm_compute; lia);
    destruct (multiArg st); vm_compute; lia.
Qed.

End Passes.

(** ** Termination of the scan loop *)

Section Termination.

Variable code : list Z.
Variable find : list Z -> ParamMatch.

(** A bound on the passes still to come, the one that finds the end of
    the source included. *)
Definition passes_left (st : State) : nat :=
  if (n st <? len code)%nat
  then 3 * (len code - n st - 1) + rank (flags st) (hasArg st) + 2
  else 1.

Lemma passes_left_continue (st st' : State) :
  (n st < len code)%nat -> n st' = n st ->
  (rank (flags st') (hasArg st') < rank (flags st) (hasArg st))%nat ->
  (passes_left st' < passes_left st)%nat.
Proof.
  intros Hn Hn' Hr. unfold passes_left. rewrite Hn'.
  destruct (Nat.ltb_spec (n st) (len code)); lia.
Qed.

Lemma passes_left_next (st st' : State) :
  (n st < len code)%nat -> (n st <= n st')%nat ->
  (passes_left (advance st') < passes_left st)%nat.
Proof.
  intros Hn Hn'. unfold passes_left. cbn [advance n set_n flags hasArg].
  pose proof (rank_le_2 (flags st') (hasArg st')).
  destruct (Nat.ltb_spec (n st) (len code)),
           (Nat.ltb_spec (S (n st')) (len code)); lia.
Qed.

Lemma scanning_inside (st : State) :
  scanning code st = true -> (n st < len code)%nat.
Proof.
  unfold scanning. intros H. apply andb_true_iff in H.
  now apply Nat.ltb_lt.
Qed.

(** The loop comes to an end within [passes_left] passes, and its trace
    visits no position more often than the rank allows. *)
Lemma scan_bounded (fuel : nat) :
  forall st : State,
    flags_ok (flags st) = true ->
    (passes_left st <= fuel)%nat ->
    fst (scan code find fuel st) <> OutOfFuel /\
    (List.length (snd (scan code find fuel st)) < passes_left st)%nat /\
    (forall p, In p (snd (scan code find fuel st)) ->
               (n st <= p < len code)%nat) /\
    (count_occ Nat.eq_dec (snd (scan code find fuel st)) (n st)
     <= rank (flags st) (hasArg st) + 1)%nat /\
    (forall p, count_occ Nat.eq_dec (snd (scan code find fuel st)) p <= 3)%nat.
Proof.
  induction fuel as [|fuel IH]; intros st Hf Hfuel.
  - unfold passes_left in Hfuel. destruct (n st <? len code)%nat; lia.
  - cbn [scan]. destruct (scanning code st) eqn:Hsc.
    2:{ cbn [fst snd List.length In count_occ].
        repeat split; try discriminate; try lia; try contradiction.
        unfold passes_left. destruct (n st <? len code)%nat; lia. }
    pose proof (scanning_inside st Hsc) as Hn.
    pose proof (step_passes code find st Hf Hsc) as Hstep.
    pose proof (rank_le_2 (flags st) (hasArg st)) as Hr2.
    destruct (step code find st) as [pos msg|st'|st'];
      cbn [outcome_sat] in Hstep.
    + cbn [fst snd List.length In count_occ].
      destruct (Nat.eq_dec (n st) (n st)) as [_|Hne]; [|contradiction].
      repeat split; try discriminate.
      * unfold passes_left. destruct (Nat.ltb_spec (n st) (len code)); lia.
      * destruct H as [H|[]]. lia.
      * destruct H as [H|[]]. lia.
      * lia.
      * intros p. destruct (Nat.eq_dec (n st) p); lia.
    + destruct Hstep as [Hf' [Hn' Hr]].
      pose proof (passes_left_continue st st' Hn Hn' Hr) as Hpl.
      assert (Hfuel' : (passes_left st' <= fuel)%nat) by lia.
      destruct (IH st' Hf' Hfuel') as [H1 [H2 [H3 [H4 H5]]]].
      destruct (scan code find fuel st') as [r t].
      cbn [fst snd List.length In count_occ] in *.
      rewrite Hn' in *.
      destruct (Nat.eq_dec (n st) (n st)) as [_|Hne]; [|contradiction].
      repeat split; try assumption; try lia.
      * destruct H as [H|H]; [lia|]. apply H3 in H. lia.
      * destruct H as [H|H]; [lia|]. apply H3 in H. lia.
      * intros p. destruct (Nat.eq_dec (n st) p) as [He|He]; [|apply H5].
        subst p. lia.
    + destruct Hstep as [Hf' Hn'].
      pose proof (passes_left_next st st' Hn (proj1 Hn')) as Hpl.
      assert (Hfuel' : (passes_left (advance st') <= fuel)%nat) by lia.
      destruct (IH (advance st') Hf' Hfuel') as [H1 [H2 [H3 [H4 H5]]]].
      destruct (scan code find fuel (advance st')) as [r t].
      cbn [fst snd List.length In count_occ advance n set_n] in *.
      destruct (Nat.eq_dec (n st) (n st)) as [_|Hne]; [|contradiction].
      assert (H0 : count_occ Nat.eq_dec t (n st) = 0%nat).
      { apply count_occ_not_In. intros Hin. apply H3 in Hin. lia. }
      repeat split; try assumption; try lia.
      * destruct H as [H|H]; [lia|]. apply H3 in H. lia.
      * destruct H as [H|H]; [lia|]. apply H3 in H. lia.
      * intros p. destruct (Nat.eq_dec (n st) p) as [He|He]; [|apply H5].
        subst p. lia.
Qed.

Lemma initial_passes_left (w : list Z) :
  (passes_left (initial w) <= fuel code)%nat.
Proof.
  unfold passes_left, fuel. cbn [initial n flags hasArg].
  change (rank HID_START false) with 2%nat.
  destruct (Nat.ltb_spec 0 (len code)); lia.
Qed.

(** The scan loop of [compile] never runs out of passes. *)
Lemma scan_fuel_enough (w : list Z) :
  fst (scan code find (fuel code) (initial w)) <> OutOfFuel.
Proof.
  apply (scan_bounded (fuel code) (initial w) eq_refl (initial_passes_left w)).
Qed.

(** [compile] returns. *)
Lemma compile_total (w : list Z) (error : Info) :
  exists r : bool * Info * list Z, compile code find w error = Some r.
Proof.
  unfold compile. pose proof (scan_fuel_enough w) as H.
  destruct (fst (scan code find (fuel code) (initial w))) as [pos msg st|st|].
  - destruct (ErrorWriter_at code error pos msg). eauto.
  - destruct (endOfSource code st) as [st' [[pos msg]|]].
    + destruct (ErrorWriter_at code error pos msg). eauto.
    + eauto.
  - contradiction.
Qed.

End Termination.

(** The empty parameter set. *)
Definition no_params : list Z -> ParamMatch := Source_find [].

(** C8, as amended. [compile] terminates on every source: the scan loop
    makes at most three passes with the cursor on any one byte, so at most
    [3 * len] passes in all, and none outside the source. *)
Theorem scan_passes_per_byte (code : list Z) (find : list Z -> ParamMatch)
    (w : list Z) (error : Info) :
  (exists r, compile code find w error = Some r) /\
  fst (scan code find (fuel code) (initial w)) <> OutOfFuel /\
  (List.length (snd (scan code find (fuel code) (initial w))) <= 3 * len code)%nat /\
  (forall p, In p (snd (scan code find (fuel code) (initial w))) ->
             (p < len code)%nat) /\
  (forall p, count_occ Nat.eq_dec (snd (scan code find (fuel code) (initial w))) p
             <= 3)%nat.
Proof.
  split; [apply compile_total|].
  destruct (scan_bounded code find (fuel code) (initial w) eq_refl
              (initial_passes_left code w)) as [H1 [H2 [H3 [_ H5]]]].
  pose proof (initial_passes_left code w) as Hi. unfold fuel in *.
  repeat split; try assumption; try lia.
  intros p Hp. apply H3 in Hp. lia.
Qed.

(** C8, as stated, fails: in [Unit(None)] the closing parenthesis is under
    the cursor in three passes (end of the unit system, end of the argument,
    end of the argument list). *)
Lemma byte_inspected_three_times :
  count_occ Nat.eq_dec
    (snd (scan (bytes_of "Unit(None)") no_params (fuel (bytes_of "Unit(None)"))
            (initial [])))
    9%nat = 3%nat /\
  nth 9 (bytes_of "Unit(None)") 0 = ch ")" /\
  compile (bytes_of "Unit(None)") no_params [] Info_default
  = Some (true, Info_default, [0x65; 0x00]).
Proof. vm_compute. repeat split. Qed.

Lemma arg_is_exclusive (e : Encoding) (t1 t2 : TableId) :
  arg_is e t1 = true -> t1 <> t2 -> arg_is e t2 = false.
Proof.
  unfold arg_is. destruct (Encoding.arg e) as [a|]; [|discriminate].
  intros H1 Hne. apply internal_TableId_dec_bl in H1. subst a.
  destruct (TableId_beq t1 t2) eqn:E; [|reflexivity].
  apply internal_TableId_dec_bl in E. contradiction.
Qed.

Section LevelsAtEnd.

Variable code : list Z.
Variable find : list Z -> ParamMatch.

Lemma Reachable_levels (w : list Z) (st : State) :
  Reachable code find w st -> levels_ok st.
Proof.
  apply Reachable_invariant.
  - unfold levels_ok. cbn. lia.
  - intros st0 _ Hl _. pose proof (step_levels code find st0 Hl) as H.
    destruct (step code find st0); cbn [outcome_sat] in *; auto.
Qed.

Lemma itemResolved_EndCollection_at_zero (st : State) (e : Encoding) :
  arg_is e endCol = true -> colLevel st <= 0 ->
  itemResolved code st e = inr E_Unexpected_EndCollection /\
  itemResolvedAtEnd st e = inr E_Unexpected_EndCollection.
Proof.
  intros He Hc. unfold itemResolved, itemResolvedAtEnd.
  rewrite (arg_is_exclusive e endCol colArgMap He) by discriminate.
  rewrite He. destruct (Z.leb_spec (colLevel st) 0); [auto|lia].
Qed.

Lemma closeArgList_DelimiterClose_at_zero (st : State) :
  arg_is (deref (encMap st)) delimMap = true -> arg st = 0 ->
  delimLevel st <= 0 ->
  closeArgList st = Fail (n st) E_Unexpected_DelimiterClose.
Proof.
  intros He Ha Hd. unfold closeArgList. proj_goal. cbv zeta. proj_goal.
  rewrite (arg_is_exclusive _ delimMap signedNumArg He) by discriminate.
  rewrite (arg_is_exclusive _ delimMap unitExpMap He) by discriminate.
  rewrite He, Ha. cbn [Z.eqb].
  destruct (Z.leb_spec (delimLevel st) 0); [reflexivity|lia].
Qed.

Lemma flushLiteral_levels (st : State) :
  colLevel (flushLiteral st) = colLevel st /\
  delimLevel (flushLiteral st) = delimLevel st.
Proof.
  unfold flushLiteral.
  repeat match goal with
         | |- context [if ?b then _ else _] => destruct b
         end; proj_goal; auto.
Qed.

Lemma flushItem_levels (st : State) :
  levels_ok st -> levels_ok (fst (flushItem code st)).
Proof.
  unfold levels_ok, flushItem, itemResolvedAtEnd. intros [Hc Hd].
  repeat (cbv beta iota zeta; proj_goal;
          match goal with
          | |- context [fst (if ?b then _ else _)] =>
            let c := head_test b in destruct c eqn:?
          | |- context [fst (match ?x with _ => _ end)] =>
            let c := head_test x in destruct c eqn:?
          end);
    repeat (cbv beta iota zeta; cbn [fst]; proj_goal); split; lia.
Qed.

Lemma finalChecks_levels (st : State) :
  (0 < colLevel st -> finalChecks st = Some (n st, E_Missing_EndCollection)) /\
  (colLevel st <= 0 -> 0 < delimLevel st ->
   finalChecks st = Some (n st, E_Missing_DelimiterClose)) /\
  (finalChecks st = None -> colLevel st <= 0 /\ delimLevel st <= 0).
Proof.
  unfold finalChecks.
  destruct (Z.gtb_spec (colLevel st) 0), (Z.gtb_spec (delimLevel st) 0);
    repeat split; intros; try lia; try reflexivity; try discriminate.
Qed.

(** The end-of-source handling keeps the depths nonnegative; it succeeds
    only at depth zero and reports what is open after the pending item. *)
Lemma endOfSource_levels (st : State) :
  levels_ok st ->
  levels_ok (fst (endOfSource code st)) /\
  (snd (endOfSource code st) = None ->
   colLevel (fst (endOfSource code st)) = 0 /\
   delimLevel (fst (endOfSource code st)) = 0) /\
  (snd (flushItem code (flushLiteral st)) = None ->
   0 < colLevel (fst (endOfSource code st)) ->
   snd (endOfSource code st)
   = Some (n (fst (endOfSource code st)), E_Missing_EndCollection)) /\
  (snd (flushItem code (flushLiteral st)) = None ->
   colLevel (fst (endOfSource code st)) = 0 ->
   0 < delimLevel (fst (endOfSource code st)) ->
   snd (endOfSource code st)
   = Some (n (fst (endOfSource code st)), E_Missing_DelimiterClose)).
Proof.
  intros Hl. unfold endOfSource.
  assert (Hl1 : levels_ok (flushLiteral st)).
  { unfold levels_ok in *. destruct (flushLiteral_levels st) as [-> ->].
    exact Hl. }
  pose proof (flushItem_levels (flushLiteral st) Hl1) as Hl2.
  destruct (flushItem code (flushLiteral st)) as [st' [msg|]];
    cbn [fst snd] in *.
  - repeat split; try apply Hl2; discriminate.
  - destruct (finalChecks_levels st') as [F1 [F2 F3]].
    unfold levels_ok in Hl2.
    repeat split; try apply Hl2; intros.
    + apply F3 in H. lia.
    + apply F3 in H. lia.
    + now apply F1.
    + apply F2; lia.
Qed.

End LevelsAtEnd.




(** ** The result of [compile] *)

Lemma at_loop_message (source : list Z) (k : nat) :
  forall (n : nat) (error : Info),
    message (at_loop source k n error) = message error.
Proof.
  induction k as [|k IH]; intros n error; [reflexivity|].
  cbn [at_loop]. rewrite IH.
  repeat match goal with
         | |- context [if ?b then _ else _] => destruct b
         end; reflexivity.
Qed.

Lemma ErrorWriter_at_message (source : list Z) (error : Info) (pos : nat)
    (msg : EMessage) :
  message (fst (ErrorWriter_at source error pos msg)) = msg /\
  snd (ErrorWriter_at source error pos msg) = false.
Proof.
  unfold ErrorWriter_at. cbn [fst snd]. now rewrite at_loop_message.
Qed.

Lemma index_number_error (code : list Z) (token : Token) (k : nat) :
  forall (n : nat) (num : Z) (e : EMessage),
    index_number code token k n num = inr e -> e <> E_NO_ERROR.
Proof.
  induction k as [|k IH]; intros n num e H; cbn [index_number] in H.
  - discriminate.
  - cbv zeta in H.
    repeat match type of H with
           | (if ?b then _ else _) = _ => destruct b
           end;
      try (inversion H; subst; discriminate).
    eapply IH; eassumption.
Qed.

(** A failed lookup leaves an error in [error] if there was one. *)
Lemma findEncoding_from_error (code : list Z) (token : Token) (res : Encoding)
    (map : list Encoding) :
  forall (i : nat) (error e : EMessage),
    findEncoding_from code token map i res error = (None, e) ->
    error <> E_NO_ERROR -> e <> E_NO_ERROR.
Proof.
  induction map as [|m map IH]; intros i error e H Herr; cbn [findEncoding_from] in H.
  - inversion H; subst; assumption.
  - cbv zeta in H.
    repeat match type of H with
           | (if ?b then _ else _) = _ => destruct b
           | (match ?x with _ => _ end) = _ => destruct x eqn:?
           end;
      try (inversion H; subst; discriminate).
    + inversion H; subst. eapply index_number_error; eassumption.
    + eapply IH; eassumption.
Qed.

Lemma findEncoding_error (code : list Z) (token : Token) (map : list Encoding)
    (res : Encoding) (error e : EMessage) :
  findEncoding code token map res error = (None, e) ->
  error <> E_NO_ERROR -> e <> E_NO_ERROR.
Proof.
  unfold findEncoding. destruct (Token.length token =? 0)%nat.
  - intros H Herr. inversion H; subst; assumption.
  - apply findEncoding_from_error.
Qed.

Section Result.

Variable code : list Z.
Variable find : list Z -> ParamMatch.

Ltac lookup_failed :=
  match goal with
  | H : findEncoding _ _ _ _ _ = (None, ?e) |- ?e <> E_NO_ERROR =>
    apply (findEncoding_error _ _ _ _ _ _ H); discriminate
  end.

(** Every error a pass returns is an error. *)
Lemma step_fail_message (st : State) :
  outcome_sat (fun _ msg => msg <> E_NO_ERROR) (fun _ => True) (fun _ => True)
    (step code find st).
Proof.
  unfold_step; cases_with idtac; try exact I; try discriminate;
    try lookup_failed; destruct (hasUsagePage st); discriminate.
Qed.

Lemma finalChecks_message (st : State) (pos : nat) (msg : EMessage) :
  finalChecks st = Some (pos, msg) -> msg <> E_NO_ERROR.
Proof.
  unfold finalChecks.
  repeat match goal with
         | |- context [if ?b then _ else _] => destruct b
         end; intros H; inversion H; discriminate.
Qed.

Lemma endOfSource_message (st : State) (pos : nat) (msg : EMessage) :
  snd (endOfSource code st) = Some (pos, msg) -> msg <> E_NO_ERROR.
Proof.
  unfold endOfSource, flushItem, itemResolvedAtEnd.
  generalize (flushLiteral st). clear st. intros st.
  repeat (cbv beta iota zeta; proj_goal;
          match goal with
          | |- snd (if ?b then _ else _) = _ -> _ =>
            let c := head_test b in destruct c eqn:?
          | |- snd (match ?x with _ => _ end) = _ -> _ =>
            let c := head_test x in destruct c eqn:?
          end);
    cbv beta iota zeta; cbn [snd]; intros H;
    try (apply finalChecks_message in H; exact H);
    inversion H; subst; try discriminate; lookup_failed.
Qed.

End Result.

(** C9. [compile] returns [true] exactly when the diagnostic says
    [No_error], and then the diagnostic is the default record; otherwise the
    result and the diagnostic are those of one call of [ErrorWriter::at]
    with a message other than [No_error], made by the pass that ends the
    scan or by the end-of-source handling, and the writer holds what was
    written up to there. *)
Theorem compile_result (code : list Z) (find : list Z -> ParamMatch)
    (w : list Z) (error : Info) :
  exists (r : bool) (e : Info) (o : list Z),
    compile code find w error = Some (r, e, o) /\
    (r = true <-> message e = E_NO_ERROR) /\
    (r = true -> e = Info_default) /\
    (r = false ->
     exists (pos : nat) (msg : EMessage) (st : State),
       msg <> E_NO_ERROR /\
       (e, r) = ErrorWriter_at code error pos msg /\
       ((fst (scan code find (fuel code) (initial w)) = Stopped pos msg st /\
         step code find st = Fail pos msg /\ o = out st) \/
        (exists st0,
           fst (scan code find (fuel code) (initial w)) = EndOfSource st0 /\
           endOfSource code st0 = (st, Some (pos, msg)) /\ o = out st))).
Proof.
  unfold compile.
  pose proof (scan_fuel_enough code find w) as Hfuel.
  pose proof (scan_reachable code find w (fuel code) (initial w)
                (Reachable_initial code find w)) as Hscan.
  destruct (fst (scan code find (fuel code) (initial w))) as [pos msg st|st|];
    [| |contradiction].
  - cbn [scan_result_ok] in Hscan. destruct Hscan as [_ [_ Hstep]].
    pose proof (step_fail_message code find st) as Hmsg.
    rewrite Hstep in Hmsg. cbn [outcome_sat] in Hmsg.
    destruct (ErrorWriter_at_message code error pos msg) as [Hm Hr].
    destruct (ErrorWriter_at code error pos msg) as [e r] eqn:Hat.
    cbn [fst snd] in Hm, Hr. subst r.
    exists false, e, (out st). split; [reflexivity|].
    split; [|split].
    + split; [discriminate|]. intros H. congruence.
    + discriminate.
    + intros _. exists pos, msg, st. split; [assumption|].
      split; [now symmetry|]. left. auto.
  - destruct (endOfSource code st) as [st' [[pos msg]|]] eqn:Hend.
    + pose proof (endOfSource_message code st pos msg) as Hmsg.
      rewrite Hend in Hmsg. specialize (Hmsg eq_refl).
      destruct (ErrorWriter_at_message code error pos msg) as [Hm Hr].
      destruct (ErrorWriter_at code error pos msg) as [e r] eqn:Hat.
      cbn [fst snd] in Hm, Hr. subst r.
      exists false, e, (out st'). split; [reflexivity|].
      split; [|split].
      * split; [discriminate|]. intros H. congruence.
      * discriminate.
      * intros _. exists pos, msg, st'. split; [assumption|].
        split; [now symmetry|]. right. exists st. auto.
    + exists true, Info_default, (out st'). split; [reflexivity|].
      split; [|split].
      * split; reflexivity.
      * reflexivity.
      * discriminate.
Qed.

(** ** A NUL byte inside the source *)

Section Trace.

Variable code : list Z.
Variable find : list Z -> ParamMatch.

(** Every position of the trace is the cursor of a state the loop was in. *)
Lemma scan_trace_reachable (w : list Z) (fuel : nat) :
  forall st : State,
    Reachable code find w st ->
    forall p, In p (snd (scan code find fuel st)) ->
      exists st', Reachable code find w st' /\ scanning code st' = true /\
                  n st' = p.
Proof.
  induction fuel as [|fuel IH]; intros st Hst p Hp; [contradiction|].
  cbn [scan] in Hp. destruct (scanning code st) eqn:Hsc; [|contradiction].
  destruct (step code find st) as [pos msg|st'|st'] eqn:Hstep.
  - destruct Hp as [Hp|[]]. eauto.
  - pose proof (IH st' (Reachable_continue _ _ w st st' Hst Hsc Hstep) p) as H.
    destruct (scan code find fuel st') as [r t]. cbn [snd In] in *.
    destruct Hp as [Hp|Hp]; eauto.
  - pose proof (IH (advance st')
                  (Reachable_next _ _ w st st' Hst Hsc Hstep) p) as H.
    destruct (scan code find fuel (advance st')) as [r t]. cbn [snd In] in *.
    destruct Hp as [Hp|Hp]; eauto.
Qed.

(** The end-of-source handling leaves the cursor alone and reports at the
    cursor. *)
Lemma endOfSource_position (st : State) :
  n (fst (endOfSource code st)) = n st /\
  forall pos msg, snd (endOfSource code st) = Some (pos, msg) -> pos = n st.
Proof.
  assert (H1 : n (flushLiteral st) = n st).
  { unfold flushLiteral.
    repeat match goal with
           | |- context [if ?b then _ else _] => destruct b
           end; reflexivity. }
  assert (H2 : forall s, n (fst (flushItem code s)) = n s).
  { intros s. unfold flushItem, itemResolvedAtEnd.
    repeat (cbv beta iota zeta; proj_goal;
            match goal with
            | |- context [fst (if ?b then _ else _)] =>
              let c := head_test b in destruct c eqn:?
            | |- context [fst (match ?x with _ => _ end)] =>
              let c := head_test x in destruct c eqn:?
            end);
      repeat (cbv beta iota zeta; cbn [fst]; proj_goal); reflexivity. }
  assert (H3 : forall s pos msg, finalChecks s = Some (pos, msg) -> pos = n s).
  { intros s pos msg. unfold finalChecks.
    repeat match goal with
           | |- context [if ?b then _ else _] => destruct b
           end; intros H; inversion H; reflexivity. }
  unfold endOfSource. specialize (H2 (flushLiteral st)).
  destruct (flushItem code (flushLiteral st)) as [s [msg|]]; cbn [fst snd] in *.
  - split; [congruence|]. intros pos msg' H. inversion H. congruence.
  - split; [congruence|]. intros pos msg' H. apply H3 in H. congruence.
Qed.

End Trace.

Section NulByte.

Variable code : list Z.
Variable find : list Z -> ParamMatch.

(** The first NUL byte of the source is at offset [K], inside [size()]. *)
Variable K : nat.
Hypothesis K_inside : (K < len code)%nat.
Hypothesis K_nul : byte code K = 0.
Hypothesis K_first : forall i, (i < K)%nat -> byte code i <> 0.

(** The cursor has not passed the NUL byte, and both tokens lie in front of
    the cursor. *)
Definition before_nul (st : State) : Prop :=
  (n st <= K)%nat /\
  (Token.start (tItem st) + Token.length (tItem st) <= n st)%nat /\
  (Token.start (tArg st) + Token.length (tArg st) <= n st)%nat.

Lemma not_nul_before (i : nat) :
  (i <= K)%nat -> byte code i <> 0 -> (i < K)%nat.
Proof.
  intros Hi Hb. destruct (Nat.eq_dec i K) as [->|]; [contradiction|lia].
Qed.

Lemma skipWhitespaces_before_nul (k : nat) :
  forall i : nat, (i < K)%nat -> (i <= skipWhitespaces code k i < K)%nat.
Proof.
  induction k as [|k IH]; intros i Hi; cbn [skipWhitespaces]; [lia|].
  destruct ((i + 1 <? len code)%nat && isWhitespace (byte code (i + 1))) eqn:E;
    [|lia].
  apply andb_true_iff in E. destruct E as [_ E].
  replace (i + 1)%nat with (S i) in E by lia.
  assert (Hs : (S i < K)%nat).
  { apply not_nul_before; [lia|]. intros H0. rewrite H0 in E. discriminate. }
  specialize (IH (S i) Hs). lia.
Qed.

Lemma skipToParenthesis_before_nul (i : nat) :
  (i < K)%nat -> (i <= skipToParenthesis code i < K)%nat.
Proof.
  intros Hi. unfold skipToParenthesis.
  pose proof (skipWhitespaces_before_nul (len code) i Hi) as Hs.
  set (m := skipWhitespaces code (len code) i) in *.
  destruct ((m + 1 <? len code)%nat && (byte code (m + 1) =? ch "(")) eqn:E;
    [|lia].
  apply andb_true_iff in E. destruct E as [_ E]. apply Z.eqb_eq in E.
  replace (m + 1)%nat with (S m) in E by lia.
  assert (Hs' : (S m < K)%nat).
  { apply not_nul_before; [lia|]. rewrite E. discriminate. }
  lia.
Qed.

Lemma step_before_nul (st : State) :
  before_nul st -> scanning code st = true ->
  outcome_sat (fun _ _ => True) before_nul (fun st' => before_nul (advance st'))
    (step code find st).
Proof.
  unfold before_nul, scanning. intros [Hn [Hi Ha]] Hsc.
  apply andb_true_iff in Hsc. destruct Hsc as [_ Hb].
  apply negb_true_iff, Z.eqb_neq in Hb.
  pose proof (not_nul_before (n st) Hn Hb) as HnK.
  pose proof (skipToParenthesis_before_nul (n st) HnK) as Hskip.
  assert (Hx : (byte code (n st + 1) =? ch "x") = true -> (n st + 1 < K)%nat).
  { intros E. apply Z.eqb_eq in E. apply not_nul_before; [lia|].
    rewrite E. discriminate. }
  step_cases; try exact I;
    try match goal with
        | H : (byte code (n st + 1) =? ch "x") = true |- _ => apply Hx in H
        end;
    repeat split; lia.
Qed.

Lemma Reachable_before_nul (w : list Z) (st : State) :
  Reachable code find w st -> before_nul st.
Proof.
  apply Reachable_invariant.
  - unfold before_nul. cbn. lia.
  - intros st0 _ H0 Hsc. now apply step_before_nul.
Qed.

(** The scan loop is left with the cursor on the NUL byte. *)
Lemma EndOfSource_at_nul (w : list Z) (fuel : nat) (st : State) :
  fst (scan code find fuel (initial w)) = EndOfSource st -> n st = K.
Proof.
  intros H.
  pose proof (scan_reachable code find w fuel (initial w)
                (Reachable_initial code find w)) as Hs.
  rewrite H in Hs. cbn [scan_result_ok] in Hs. destruct Hs as [Hr Hsc].
  destruct (Reachable_before_nul w st Hr) as [Hn _].
  unfold scanning in Hsc.
  destruct (Nat.ltb_spec (n st) (len code)); [|lia].
  cbn [andb] in Hsc. apply negb_false_iff, Z.eqb_eq in Hsc.
  destruct (Nat.eq_dec (n st) K) as [|Hne]; [assumption|].
  exfalso. apply (K_first (n st)); [lia|assumption].
Qed.

End NulByte.

(** ** Unit descriptions *)

(** C1. The source [Unit(SiLin(Length^2 Mass^3 Time^4 Temp^5 Current^6
    Luminous^7))] with no parameters compiles without error to the bytes
    [67 21 43 65 07]: the four data bytes are the system nibble 1 of [SiLin]
    with the exponent code of each unit in the nibble at offset
    [4 * unit.value]. *)
Theorem compile_unit_SiLin (error : Info) :
  compile
    (bytes_of "Unit(SiLin(Length^2 Mass^3 Time^4 Temp^5 Current^6 Luminous^7))")
    no_params [] error
  = Some (true, Info_default, [0x67; 0x21; 0x43; 0x65; 0x07]) /\
  le_value [0x21; 0x43; 0x65; 0x07]
  = setUnitNibble (encA "Luminous" 6 unitExpMap) 7
      (setUnitNibble (encA "Current" 5 unitExpMap) 6
         (setUnitNibble (encA "Temp" 4 unitExpMap) 5
            (setUnitNibble (encA "Time" 3 unitExpMap) 4
               (setUnitNibble (encA "Mass" 2 unitExpMap) 3
                  (setUnitNibble (encA "Length" 1 unitExpMap) 2 1))))) /\
  unitMap_tbl
  = [ encA "Length" 1 unitExpMap; encA "Mass" 2 unitExpMap;
      encA "Time" 3 unitExpMap; encA "Temp" 4 unitExpMap;
      encA "Current" 5 unitExpMap; encA "Luminous" 6 unitExpMap ].
Proof. vm_compute. repeat split. Qed.

(** ** Usage arguments without a usage page *)

Section UsagePage.

Variable code : list Z.
Variable find : list Z -> ParamMatch.

(** The state in which the end of an argument name is handled: inside an
    argument, outside a unit description and a unit system, on a byte that
    ends the name. *)
Definition at_argument_end (st : State) : Prop :=
  within HID_WITHIN_UNIT_DESC (flags st) = false /\
  isArgChar (byte code (n st)) = false /\
  within HID_WITHIN_UNIT_SYS (flags st) = false /\
  isWhitespace (byte code (n st)) || (byte code (n st) =? ch ")")
  || (multiArg st && (byte code (n st) =? ch ",")) = true.

(** No usage map to resolve a name in: no usage page was named, or the one
    named has no usage map. *)
Definition no_usage_map (st : State) : Prop :=
  usagePage st = None \/
  exists p, usagePage st = Some p /\ Encoding.arg p = None.

Lemma step_arg_missing_usage_page (st : State) :
  at_argument_end st ->
  arg_is (deref (encMap st)) usageArg = true ->
  no_usage_map st ->
  step_arg code st
  = Fail (n st)
      (if hasUsagePage st then E_Missing_named_UsagePage else E_Missing_UsagePage).
Proof.
  intros [H1 [H2 [H3 H4]]] He Hp. unfold step_arg.
  rewrite H1, H2, H3, H4. cbv zeta. proj_goal. rewrite He.
  destruct Hp as [Hp|[p [Hp Ha]]]; rewrite Hp; [reflexivity|].
  rewrite Ha. reflexivity.
Qed.

(** [hasUsagePage] is raised by the pass that closes the argument list of
    [UsagePage], whatever the argument was, and by no other; it is never
    lowered. *)
Lemma step_hasUsagePage (st : State) :
  outcome_sat (fun _ _ => True)
    (fun st' => hasUsagePage st' = hasUsagePage st)
    (fun st' =>
       hasUsagePage st' = hasUsagePage st \/
       (hasUsagePage st' = true /\
        arg_is (deref (encMap st)) usagePageMap = true /\
        hasArg st = true /\ byte code (n st) = ch ")"))
    (step code find st).
Proof.
  step_cases; try exact I; try reflexivity; try (left; reflexivity).
  all: right; repeat split; try assumption; now apply Z.eqb_eq.
Qed.

(** [usagePage] is assigned by a pass that ends an argument name, and by
    no other: a number or a parameter given to [UsagePage] leaves it as it
    is. *)
Lemma step_usagePage (st : State) :
  outcome_sat (fun _ _ => True)
    (fun st' =>
       usagePage st' = usagePage st \/
       (within HID_WITHIN_ARG (flags st) = true /\ at_argument_end st))
    (fun st' =>
       usagePage st' = usagePage st \/
       (within HID_WITHIN_ARG (flags st) = true /\ at_argument_end st))
    (step code find st).
Proof.
  unfold at_argument_end.
  step_cases; try exact I; try (left; reflexivity).
  all: right; repeat split; try assumption.
  all: repeat match goal with
              | H : ?b = _ |- context [?b] => rewrite H
              end; reflexivity.
Qed.

(** The pass that closes the argument list of [UsagePage] refuses a value
    above 0xFFFF and otherwise raises [hasUsagePage]. *)
Lemma closeArgList_UsagePage (st : State) :
  arg_is (deref (encMap st)) usagePageMap = true ->
  outcome_sat
    (fun pos msg =>
       pos = n st /\ msg = E_Argument_value_out_of_range /\ arg st > 0xFFFF)
    (fun _ => False)
    (fun st' => hasUsagePage st' = true /\ arg st <= 0xFFFF)
    (closeArgList st).
Proof.
  intros He.
  pose proof (arg_is_exclusive _ _ signedNumArg He ltac:(discriminate)) as H1.
  pose proof (arg_is_exclusive _ _ unitExpMap He ltac:(discriminate)) as H2.
  pose proof (arg_is_exclusive _ _ delimMap He ltac:(discriminate)) as H3.
  unfold closeArgList. cbv zeta. proj_goal. rewrite H1, H2, H3, He. cbn [orb].
  destruct (arg st >? 0xFFFF) eqn:E; cbn [outcome_sat]; proj_goal.
  - repeat split. now apply Z.gtb_gt.
  - split; [reflexivity|]. rewrite Z.gtb_ltb in E. now apply Z.ltb_ge in E.
Qed.

Lemma step_closes_UsagePage (st : State) :
  flags st = HID_WITHIN_ARG_LIST -> hasArg st = true ->
  byte code (n st) = ch ")" ->
  arg_is (deref (encMap st)) usagePageMap = true ->
  outcome_sat
    (fun pos msg =>
       pos = n st /\ msg = E_Argument_value_out_of_range /\ arg st > 0xFFFF)
    (fun _ => False)
    (fun st' => hasUsagePage st' = true /\ arg st <= 0xFFFF)
    (step code find st).
Proof.
  intros Hf Ha Hc He. unfold step, step_arg_list. rewrite Hf. cbv zeta.
  rewrite Ha, Hc.
  change (outcome_sat
            (fun pos msg =>
               pos = n st /\ msg = E_Argument_value_out_of_range /\
               arg st > 0xFFFF)
            (fun _ => False)
            (fun st' => hasUsagePage st' = true /\ arg st <= 0xFFFF)
            (closeArgList st)).
  now apply closeArgList_UsagePage.
Qed.

End UsagePage.

Section UsagePageState.

Variable code : list Z.
Variable find : list Z -> ParamMatch.

(** The lexer is in the argument list of an item other than [Unit]. *)
Definition in_plain_arg_list (f : Z) : bool :=
  within HID_WITHIN_ARG_LIST f && negb (within HID_WITHIN_UNIT_SYS f)
  && negb (within HID_WITHIN_UNIT_DESC f).

(** As long as [hasUsagePage] is not raised, a usage page is only known
    inside the argument list of [UsagePage] that names it. *)
Definition usage_page_ok (st : State) : Prop :=
  hasUsagePage st = false ->
  usagePage st = None \/
  (in_plain_arg_list (flags st) = true /\
   arg_is (deref (encMap st)) usagePageMap = true).

Definition usage_state_ok (st : State) : Prop :=
  flags_ok (flags st) = true /\ usage_page_ok st.

Ltac flags_known H :=
  repeat match type of H with
         | context [in_plain_arg_list ?f] =>
           let v := eval vm_compute in (in_plain_arg_list f) in
           change (in_plain_arg_list f) with v in H
         end.

Lemma step_usage_page (st : State) :
  usage_state_ok st ->
  outcome_sat (fun _ _ => True) usage_state_ok
    (fun st' => usage_state_ok (advance st'))
    (step code find st).
Proof.
  unfold usage_state_ok, usage_page_ok. intros [Hf Ht].
  apply flags_ok_cases in Hf. cbn [valid_flags In] in Hf.
  repeat destruct Hf as [Hf|Hf]; [..|contradiction];
    rewrite <- Hf in Ht; flags_known Ht;
    unfold_step; cases_with ltac:(try rewrite <- Hf);
    try exact I; leaf_cases ltac:(try rewrite <- Hf);
    (split; [vm_compute; reflexivity|]);
    intros Hh; try discriminate Hh;
    try (destruct (Ht Hh) as [Hn|[Hu He]];
         [ first [ left; exact Hn | congruence | idtac ]
         | first [ discriminate Hu
                 | right; split; [reflexivity|exact He]
                 | congruence | idtac ] ]).
  all: try (right; split; [reflexivity|assumption]).
  all: try match goal with
           | H1 : arg_is ?e usagePageMap = true, H2 : arg_is ?e ?t = true |- _ =>
             exfalso;
             rewrite (arg_is_exclusive e usagePageMap t H1 ltac:(discriminate))
               in H2;
             discriminate H2
           end.
Qed.

Lemma Reachable_usage_page (w : list Z) (st : State) :
  Reachable code find w st -> usage_state_ok st.
Proof.
  apply Reachable_invariant.
  - split; [reflexivity|]. intros _. left. reflexivity.
  - intros st0 _ H0 _. now apply step_usage_page.
Qed.

(** In front of the first closed argument list of [UsagePage], no usage page
    is known where an argument of [Usage] is read. *)
Lemma Reachable_no_usage_page (w : list Z) (st : State) :
  Reachable code find w st -> hasUsagePage st = false ->
  arg_is (deref (encMap st)) usageArg = true -> usagePage st = None.
Proof.
  intros Hst Hh He. destruct (Reachable_usage_page w st Hst) as [_ Ht].
  destruct (Ht Hh) as [Hn|[_ Hp]]; [exact Hn|].
  rewrite (arg_is_exclusive _ usagePageMap usageArg Hp ltac:(discriminate)) in He.
  discriminate He.
Qed.

End UsagePageState.

Section ArgumentToken.

Variable code : list Z.
Variable find : list Z -> ParamMatch.

(** While an argument name is read, the argument token is not empty and
    ends right in front of the cursor. *)
Definition arg_token_ok (st : State) : Prop :=
  within HID_WITHIN_ARG (flags st) = true ->
  within HID_WITHIN_UNIT_DESC (flags st) = false ->
  (Token.start (tArg st) + Token.length (tArg st) = n st)%nat /\
  (1 <= Token.length (tArg st))%nat.

Definition arg_state_ok (st : State) : Prop :=
  flags_ok (flags st) = true /\ arg_token_ok st.

Lemma step_arg_token (st : State) :
  arg_state_ok st ->
  outcome_sat (fun _ _ => True) arg_state_ok
    (fun st' => arg_state_ok (advance st'))
    (step code find st).
Proof.
  unfold arg_state_ok, arg_token_ok. intros [Hf Ht]. apply flags_ok_cases in Hf.
  cbn [valid_flags In] in Hf.
  repeat destruct Hf as [Hf|Hf]; [..|contradiction];
    rewrite <- Hf in Ht;
    first [specialize (Ht eq_refl eq_refl) | clear Ht];
    unfold_step; cases_with ltac:(try rewrite <- Hf);
    try exact I; leaf_cases ltac:(try rewrite <- Hf);
    (split; [vm_compute; reflexivity|]);
    intros Ha Hu; vm_compute in Ha, Hu; try discriminate; lia.
Qed.

Lemma Reachable_arg_token (w : list Z) (st : State) :
  Reachable code find w st -> arg_state_ok st.
Proof.
  apply Reachable_invariant.
  - split; [reflexivity|]. intros Ha. vm_compute in Ha. discriminate.
  - intros st0 _ H0 _. now apply step_arg_token.
Qed.

End ArgumentToken.

(** C4, as amended. When the name of an argument of [Usage],
    [UsageMinimum] or [UsageMaximum] ends and there is no usage map to
    resolve it in (no usage page was named so far, or the page named has no
    usage map, as [GamingDevice]), [compile] reports [Missing_UsagePage] if
    no argument list of [UsagePage] was closed so far, and
    [Missing_named_UsagePage] otherwise, whether the page was given as a
    number, as a parameter or as a name.  Both are reported at the byte that
    ends the argument name, not where the name starts.  ([hasUsagePage] is
    raised by every pass that closes an argument list of [UsagePage] without
    error and by no other pass; [usagePage] is assigned only where an
    argument name ends.)  In a run of [compile], as long as no argument list
    of [UsagePage] was closed, every such name is refused with
    [Missing_UsagePage]. *)
Theorem missing_usage_page (code : list Z) (find : list Z -> ParamMatch)
    (w : list Z) :
  (forall st, at_argument_end code st ->
     arg_is (deref (encMap st)) usageArg = true -> no_usage_map st ->
     step_arg code st
     = Fail (n st)
         (if hasUsagePage st then E_Missing_named_UsagePage
          else E_Missing_UsagePage)) /\
  (forall st, Reachable code find w st ->
     within HID_WITHIN_ARG (flags st) = true ->
     within HID_WITHIN_UNIT_DESC (flags st) = false ->
     step code find st = step_arg code st /\
     (Token.start (tArg st) < n st)%nat /\
     (Token.start (tArg st) + Token.length (tArg st) = n st)%nat) /\
  (hasUsagePage (initial w) = false /\ usagePage (initial w) = None) /\
  (forall st,
     outcome_sat (fun _ _ => True)
       (fun st' => hasUsagePage st' = hasUsagePage st)
       (fun st' =>
          hasUsagePage st' = hasUsagePage st \/
          (hasUsagePage st' = true /\
           arg_is (deref (encMap st)) usagePageMap = true /\
           hasArg st = true /\ byte code (n st) = ch ")"))
       (step code find st)) /\
  (forall st,
     outcome_sat (fun _ _ => True)
       (fun st' =>
          usagePage st' = usagePage st \/
          (within HID_WITHIN_ARG (flags st) = true /\ at_argument_end code st))
       (fun st' =>
          usagePage st' = usagePage st \/
          (within HID_WITHIN_ARG (flags st) = true /\ at_argument_end code st))
       (step code find st)) /\
  (forall st,
     flags st = HID_WITHIN_ARG_LIST -> hasArg st = true ->
     byte code (n st) = ch ")" ->
     arg_is (deref (encMap st)) usagePageMap = true ->
     outcome_sat
       (fun pos msg =>
          pos = n st /\ msg = E_Argument_value_out_of_range /\ arg st > 0xFFFF)
       (fun _ => False)
       (fun st' => hasUsagePage st' = true /\ arg st <= 0xFFFF)
       (step code find st)) /\
  (forall st, Reachable code find w st ->
     within HID_WITHIN_ARG (flags st) = true -> at_argument_end code st ->
     arg_is (deref (encMap st)) usageArg = true -> hasUsagePage st = false ->
     step code find st = Fail (n st) E_Missing_UsagePage).
Proof.
  assert (Hstep : forall st, Reachable code find w st ->
            within HID_WITHIN_ARG (flags st) = true ->
            within HID_WITHIN_UNIT_DESC (flags st) = false ->
            step code find st = step_arg code st).
  { intros st Hst Ha Hu.
    destruct (Reachable_arg_token code find w st Hst) as [Hf _].
    apply flags_ok_cases in Hf. cbn [valid_flags In] in Hf.
    repeat destruct Hf as [Hf|Hf]; [..|contradiction];
      rewrite <- Hf in Ha, Hu; vm_compute in Ha, Hu; try discriminate;
      unfold step; rewrite <- Hf; reflexivity. }
  split; [|split; [|split; [|split; [|split; [|split]]]]].
  - intros st. apply step_arg_missing_usage_page.
  - intros st Hst Ha Hu.
    destruct (Reachable_arg_token code find w st Hst) as [Hf Ht].
    destruct (Ht Ha Hu) as [H1 H2]. split; [|lia]. now apply Hstep.
  - split; reflexivity.
  - intros st. apply step_hasUsagePage.
  - intros st. apply step_usagePage.
  - intros st. apply step_closes_UsagePage.
  - intros st Hst Ha Hend He Hh.
    rewrite (Hstep st Hst Ha (proj1 Hend)).
    rewrite (step_arg_missing_usage_page code st Hend He
               (or_introl (Reachable_no_usage_page code find w st Hst Hh He))).
    now rewrite Hh.
Qed.

Lemma missing_usage_page_witness :
  let code := bytes_of "Usage(Pointer)" in
  let st :=
    set_n 13 (set_tArg (Token.mk 6 7)
      (set_encMap (Some (encA "Usage" 0x08 usageArg))
         (set_flags (HID_WITHIN_ARG_LIST + HID_WITHIN_ARG) (initial [])))) in
  step_arg code st = Fail 13 E_Missing_UsagePage.
Proof.
  cbv zeta.
  refine (proj1 (missing_usage_page (bytes_of "Usage(Pointer)") no_params [])
            _ _ _ _).
  - repeat split.
  - reflexivity.
  - left. reflexivity.
Defined.

(** C4, as stated, fails.  [Usage(Pointer)] is refused at offset 13, the
    closing parenthesis, while the argument starts at offset 6; and after
    [UsagePage(GamingDevice)], a page set by name, the name [Pointer] is
    refused with [Missing_named_UsagePage]. *)
Lemma named_usage_page_without_map :
  compile (bytes_of "Usage(Pointer)") no_params [] Info_default
  = Some (false, mkInfo 13 1 14 E_Missing_UsagePage, []) /\
  nth 6 (bytes_of "Usage(Pointer)") 0 = ch "P" /\
  nth 13 (bytes_of "Usage(Pointer)") 0 = ch ")" /\
  compile (bytes_of "UsagePage(GamingDevice) Usage(Pointer)") no_params []
    Info_default
  = Some (false, mkInfo 37 1 38 E_Missing_named_UsagePage, [0x05; 0x92]) /\
  fst (findEncoding (bytes_of "GamingDevice") (Token.mk 0 12) usagePageMap_tbl
         endOfMap E_Invalid_argument_name)
  = Some (enc "GamingDevice" 0x92).
Proof. vm_compute. repeat split. Qed.

(** ** Indexed names *)

(** The decimal number a list of digit characters spells. *)
Definition decimal_from (num : Z) (digits : list Z) : Z :=
  fold_left (fun a d => a * 10 + (d - ch "0")) digits num.

Definition decimal (digits : list Z) : Z := decimal_from 0 digits.

(** The rule of the specification for a token [tok] and an indexed entry
    pair with the name [pfx] in front of the [#] and the range [lo .. hi]:
    the token is the prefix, compared without case, followed by decimal
    digits that spell a number [num] of the range, with no leading zero
    unless [num] is zero. *)
Definition indexed_match (pfx : list Z) (lo hi : Z) (tok : list Z) (num : Z)
    : Prop :=
  exists p digits : list Z,
    tok = p ++ digits /\
    List.length p = List.length pfx /\
    map toUpper p = map toUpper pfx /\
    digits <> [] /\
    Forall (fun d => isDigit d = true) digits /\
    num = decimal digits /\
    lo <= num <= hi /\
    (hd 0 digits = ch "0" -> num = 0).

(** The digit loop of [findEncoding] over the list of the bytes it reads. *)
Fixpoint index_digits (ds : list Z) (num : Z) : Z + EMessage :=
  match ds with
  | [] => inl num
  | c :: ds' =>
    if negb (isDigit c) then inr E_Unexpected_argument_name_character
    else
      let oldNum := num in
      let num := u32 (num * 10 + c - ch "0") in
      if oldNum >? num then inr E_Argument_index_out_of_range
      else index_digits ds' num
  end.

(** The prefix comparison of [startWidthIN], byte by byte. *)
Fixpoint prefix_matches (pfx str : list Z) : bool :=
  match pfx with
  | [] => true
  | p :: pfx' =>
    (toUpper p =? toUpper (hd 0 str)) && prefix_matches pfx' (tl str)
  end.

Lemma skipn_cons_nth (l : list Z) :
  forall n : nat, (n < List.length l)%nat ->
    skipn n l = nth n l 0 :: skipn (S n) l.
Proof.
  induction l as [|x l IH]; intros n Hn; cbn [List.length] in Hn; [lia|].
  destruct n as [|n]; [reflexivity|].
  cbn [skipn nth]. apply IH. lia.
Qed.

Lemma nth_skipn_add (l : list Z) (s n : nat) :
  nth (s + n) l 0 = nth n (skipn s l) 0.
Proof.
  revert l. induction s as [|s IH]; intros l; [reflexivity|].
  destruct l as [|x l]; cbn [Nat.add nth skipn]; [now destruct n|apply IH].
Qed.

Lemma index_number_digits (code : list Z) (token : Token) (k : nat) :
  forall (n : nat) (num : Z),
    (n + k <= List.length (skipn (Token.start token) code))%nat ->
    index_number code token k n num
    = index_digits (firstn k (skipn n (skipn (Token.start token) code))) num.
Proof.
  induction k as [|k IH]; intros n num Hn; [reflexivity|].
  rewrite (skipn_cons_nth (skipn (Token.start token) code) n) by lia.
  cbn [index_number firstn index_digits]. rewrite nth_skipn_add.
  cbv zeta.
  destruct (negb (isDigit (nth n (skipn (Token.start token) code) 0)));
    [reflexivity|].
  destruct (num >? _); [reflexivity|].
  apply IH. lia.
Qed.

Lemma index_digits_error (ds : list Z) :
  forall (num : Z) (e : EMessage),
    index_digits ds num = inr e ->
    e = E_Unexpected_argument_name_character \/ e = E_Argument_index_out_of_range.
Proof.
  induction ds as [|c ds IH]; intros num e H; cbn [index_digits] in H;
    [discriminate|].
  cbv zeta in H. destruct (negb (isDigit c)); [inversion H; auto|].
  destruct (num >? _); [inversion H; auto|]. eapply IH; eassumption.
Qed.

Lemma isDigit_range (d : Z) : isDigit d = true -> 48 <= d <= 57.
Proof.
  unfold isDigit. change (ch "0") with 48. change (ch "9") with 57.
  intros H. apply andb_true_iff in H. lia.
Qed.

Lemma decimal_from_ge (ds : list Z) :
  forall num : Z,
    Forall (fun d => isDigit d = true) ds -> 0 <= num ->
    num <= decimal_from num ds.
Proof.
  induction ds as [|d ds IH]; intros num Hd Hn; cbn [decimal_from fold_left];
    [lia|].
  inversion Hd as [|? ? Hd1 Hd2]; subst. apply isDigit_range in Hd1.
  assert (H0 : ch "0" = 48) by reflexivity.
  specialize (IH (num * 10 + (d - ch "0")) Hd2). unfold decimal_from in IH. lia.
Qed.

(** Without a wrap the loop computes the number the digits spell. *)
Lemma index_digits_exact (ds : list Z) :
  forall num : Z,
    Forall (fun d => isDigit d = true) ds -> 0 <= num ->
    decimal_from num ds < 2 ^ 32 ->
    index_digits ds num = inl (decimal_from num ds).
Proof.
  induction ds as [|d ds IH]; intros num Hd Hn Hv; [reflexivity|].
  inversion Hd as [|? ? Hd1 Hd2]; subst.
  cbn [index_digits decimal_from fold_left] in *. rewrite Hd1. cbn [negb].
  cbv zeta. pose proof (isDigit_range d Hd1) as Hr.
  assert (H0 : ch "0" = 48) by reflexivity.
  pose proof (decimal_from_ge ds (num * 10 + (d - ch "0")) Hd2) as Hge.
  unfold decimal_from in Hge.
  assert (Hx : u32 (num * 10 + d - ch "0") = num * 10 + (d - ch "0")).
  { unfold u32. rewrite Z.mod_small; lia. }
  rewrite Hx. destruct (Z.gtb_spec num (num * 10 + (d - ch "0"))); [lia|].
  apply IH; [assumption|lia|assumption].
Qed.

(** Once the accumulator has wrapped unnoticed it stays large. *)
Lemma index_digits_large (ds : list Z) :
  forall num : Z,
    Forall (fun d => isDigit d = true) ds ->
    429496730 <= num < 2 ^ 32 ->
    index_digits ds num = inr E_Argument_index_out_of_range \/
    exists m, index_digits ds num = inl m /\ 429496730 <= m.
Proof.
  induction ds as [|d ds IH]; intros num Hd Hn.
  - right. exists num. split; [reflexivity|lia].
  - inversion Hd as [|? ? Hd1 Hd2]; subst.
    cbn [index_digits]. rewrite Hd1. cbn [negb]. cbv zeta.
    destruct (Z.gtb_spec num (u32 (num * 10 + d - ch "0"))); [now left|].
    apply IH; [assumption|]. unfold u32 in *.
    pose proof (Z.mod_pos_bound (num * 10 + d - ch "0") (2 ^ 32)). lia.
Qed.

(** A number that does not fit 32 bits is refused or leaves a large
    accumulator. *)
Lemma index_digits_overflow (ds : list Z) :
  forall num : Z,
    Forall (fun d => isDigit d = true) ds ->
    0 <= num < 2 ^ 32 -> 2 ^ 32 <= decimal_from num ds ->
    index_digits ds num = inr E_Argument_index_out_of_range \/
    exists m, index_digits ds num = inl m /\ 429496730 <= m.
Proof.
  induction ds as [|d ds IH]; intros num Hd Hn Hv.
  - cbn in Hv. lia.
  - inversion Hd as [|? ? Hd1 Hd2]; subst.
    cbn [index_digits decimal_from fold_left] in *. rewrite Hd1. cbn [negb].
    cbv zeta. pose proof (isDigit_range d Hd1) as Hr.
    assert (H0 : ch "0" = 48) by reflexivity.
    change (2 ^ 32) with 4294967296 in *.
    destruct (Z.ltb_spec (num * 10 + (d - ch "0")) 4294967296) as [Hs|Hs].
    + assert (Hx : u32 (num * 10 + d - ch "0") = num * 10 + (d - ch "0")).
      { unfold u32. change (2 ^ 32) with 4294967296. rewrite Z.mod_small; lia. }
      rewrite Hx. destruct (Z.gtb_spec num (num * 10 + (d - ch "0"))); [lia|].
      apply IH; [assumption|lia|assumption].
    + destruct (Z.gtb_spec num (u32 (num * 10 + d - ch "0"))) as [|Hle];
        [now left|].
      apply index_digits_large; [assumption|].
      unfold u32 in *. change (2 ^ 32) with 4294967296 in *.
      Z.div_mod_to_equations. lia.
Qed.

Lemma index_digits_not_digit (ds : list Z) :
  forall num : Z,
    ~ Forall (fun d => isDigit d = true) ds ->
    exists e, index_digits ds num = inr e.
Proof.
  induction ds as [|d ds IH]; intros num Hd.
  - exfalso. apply Hd. constructor.
  - cbn [index_digits]. destruct (isDigit d) eqn:E; cbn [negb]; [|eauto].
    cbv zeta. destruct (num >? _); [eauto|]. apply IH.
    intros H. apply Hd. now constructor.
Qed.

Lemma strFindChr_from_absent (str : list Z) (c : Z) :
  forall res : Z, ~ In c str -> strFindChr_from str c res = -1.
Proof.
  induction str as [|x str IH]; intros res Hc; [reflexivity|].
  cbn [strFindChr_from]. destruct (Z.eqb_spec x c) as [->|_].
  - exfalso. apply Hc. now left.
  - apply IH. intros H. apply Hc. now right.
Qed.

Lemma strFindChr_from_first (pfx sfx : list Z) (c : Z) :
  forall res : Z, ~ In c pfx ->
    strFindChr_from (pfx ++ c :: sfx) c res = res + Z.of_nat (List.length pfx).
Proof.
  induction pfx as [|x pfx IH]; intros res Hc.
  - cbn. rewrite Z.eqb_refl. lia.
  - cbn [app strFindChr_from List.length]. destruct (Z.eqb_spec x c) as [->|_].
    + exfalso. apply Hc. now left.
    + rewrite IH by (intros H; apply Hc; now right). lia.
Qed.

Lemma equals_str_refl (s : list Z) : equals_str s s = true.
Proof. induction s as [|x s IH]; [reflexivity|]. cbn. now rewrite Z.eqb_refl. Qed.

Lemma startWidthIN_len_prefix (pfx sfx : list Z) :
  forall (str : list Z) (n res : nat),
    startWidthIN_len (pfx ++ sfx) (n + List.length pfx) str n res
    = if prefix_matches pfx str
      then startWidthIN_len sfx (n + List.length pfx)
             (skipn (List.length pfx) str) (n + List.length pfx)
             (res + List.length pfx)
      else 0%nat.
Proof.
  induction pfx as [|p pfx IH]; intros str n res.
  - cbn [app List.length prefix_matches skipn]. now rewrite !Nat.add_0_r.
  - cbn [app List.length startWidthIN_len prefix_matches].
    destruct (toUpper p =? toUpper (hd 0 str)); cbn [andb].
    + destruct (Nat.ltb_spec n (n + S (List.length pfx))); [|lia].
      replace (n + S (List.length pfx))%nat with (S n + List.length pfx)%nat
        by lia.
      rewrite IH.
      replace (S res + List.length pfx)%nat with (res + S (List.length pfx))%nat
        by lia.
      replace (skipn (List.length pfx) (tl str))
        with (skipn (S (List.length pfx)) str)
        by (destruct str; [now destruct (List.length pfx)|reflexivity]).
      replace (n + S (List.length pfx))%nat with (S n + List.length pfx)%nat
        by lia.
      reflexivity.
    + destruct (Nat.leb_spec (n + S (List.length pfx)) n); [lia|reflexivity].
Qed.

(** With the [#] after the prefix, [startWidthIN] is the comparison of a
    prefix that is not empty. *)
Lemma startWidthIN_indexed (pfx str : list Z) :
  startWidthIN (pfx ++ [ch "#"]) (List.length pfx) str
  = prefix_matches pfx str && negb (List.length pfx =? 0)%nat.
Proof.
  unfold startWidthIN.
  pose proof (startWidthIN_len_prefix pfx [ch "#"] str 0 0) as H.
  cbn [Nat.add] in H. rewrite H. clear H.
  destruct (prefix_matches pfx str); [|reflexivity].
  cbn [startWidthIN_len andb].
  rewrite Nat.ltb_irrefl, andb_false_r, Nat.leb_refl. reflexivity.
Qed.

Lemma prefix_matches_spec (pfx : list Z) :
  forall str : list Z,
    (List.length pfx <= List.length str)%nat ->
    (prefix_matches pfx str = true <->
     map toUpper (firstn (List.length pfx) str) = map toUpper pfx).
Proof.
  induction pfx as [|p pfx IH]; intros str Hl.
  - cbn. tauto.
  - destruct str as [|c str]; cbn [List.length] in Hl; [lia|].
    cbn [prefix_matches hd tl List.length firstn map].
    rewrite andb_true_iff, (IH str) by lia. rewrite Z.eqb_eq. split.
    + intros [H1 H2]. now rewrite H1, H2.
    + intros H. inversion H. auto.
Qed.

Lemma toUpper_hash (x : Z) : toUpper x = toUpper (ch "#") -> x = ch "#".
Proof.
  change (toUpper (ch "#")) with 35. change (ch "#") with 35. unfold toUpper.
  change (ch "a") with 97. change (ch "z") with 122. change (ch "A") with 65.
  destruct ((97 <=? x) && (x <=? 122)) eqn:E; [|auto].
  apply andb_true_iff in E. lia.
Qed.

Lemma equalsI_last (pfx : list Z) (c : Z) :
  (forall x, toUpper x = toUpper c -> x = c) ->
  forall tok : list Z, equalsI tok (pfx ++ [c]) = true -> In c tok.
Proof.
  intros Hc. induction pfx as [|p pfx IH]; intros tok H.
  - destruct tok as [|x [|y tok]]; cbn in H; try discriminate.
    + destruct (Z.eqb_spec (toUpper x) (toUpper c)); [|discriminate].
      left. auto.
    + destruct (toUpper x =? toUpper c); discriminate.
  - destruct tok as [|x tok]; cbn [app equalsI] in H.
    + discriminate.
    + destruct (toUpper x =? toUpper p) eqn:E; [|discriminate].
      right. now apply IH.
Qed.

Section IndexedEntry.

Variable code : list Z.
Variable token : Token.
Variable res : Encoding.
Variable error : EMessage.

Let tok : list Z := token_bytes code token.

(** Entries in front of the indexed pair that are passed: another name, no
    [#]. *)
Definition plain_entry (m : Encoding) : Prop :=
  equalsI tok (bytes_of (Encoding.name m)) = false /\
  ~ In (ch "#") (bytes_of (Encoding.name m)).

Lemma findEncoding_from_plain (pre map : list Encoding) :
  forall i : nat,
    Forall plain_entry pre ->
    findEncoding_from code token (pre ++ map) i res error
    = findEncoding_from code token map (i + List.length pre) res error.
Proof.
  induction pre as [|m pre IH]; intros i Hp.
  - cbn. now rewrite Nat.add_0_r.
  - inversion Hp as [|? ? [H1 H2] Hp']; subst.
    cbn [app findEncoding_from List.length]. cbv zeta. fold tok.
    rewrite H1. unfold strFindChr. rewrite strFindChr_from_absent by assumption.
    rewrite andb_false_r. rewrite IH by assumption.
    f_equal. lia.
Qed.

(** Past the third entry only whole names are compared. *)
Lemma findEncoding_from_unindexed (map : list Encoding) :
  forall i : nat,
    Forall (fun m => equalsI tok (bytes_of (Encoding.name m)) = false) map ->
    Forall (fun m => ~ In (ch "#") (bytes_of (Encoding.name m)))
      (firstn (3 - i) map) ->
    findEncoding_from code token map i res error = (None, error).
Proof.
  induction map as [|m map IH]; intros i He Hh; [reflexivity|].
  inversion He as [|? ? He1 He2]; subst.
  cbn [findEncoding_from]. cbv zeta. fold tok. rewrite He1.
  destruct (Nat.ltb_spec i 3) as [Hi|Hi]; cbn [andb].
  - replace (3 - i)%nat with (S (3 - S i)) in Hh by lia.
    cbn [firstn] in Hh. inversion Hh as [|? ? Hh1 Hh2]; subst.
    unfold strFindChr. rewrite strFindChr_from_absent by assumption.
    cbn [Z.leb Z.compare]. apply IH; assumption.
  - apply IH; [assumption|].
    replace (3 - S i)%nat with 0%nat by lia. constructor.
Qed.

Variable e1 e2 : Encoding.
Variable rest : list Encoding.
Variable pfx : list Z.

Hypothesis token_inside :
  (Token.start token + Token.length token <= List.length code)%nat.
Hypothesis token_plain : ~ In (ch "#") tok.
Hypothesis e1_name : bytes_of (Encoding.name e1) = pfx ++ [ch "#"].
Hypothesis pfx_plain : ~ In (ch "#") pfx.
Hypothesis pfx_not_empty : pfx <> [].
Hypothesis e2_name : Encoding.name e2 = Encoding.name e1.

Let idx : nat := List.length pfx.
Let str : list Z := skipn (Token.start token) code.

Lemma tok_length : List.length tok = Token.length token.
Proof.
  unfold tok, token_bytes. rewrite length_firstn, length_skipn. lia.
Qed.

Lemma tok_firstn : tok = firstn (Token.length token) str.
Proof. reflexivity. Qed.

(** What [findEncoding] does at the indexed pair, on lists. *)
Definition indexed_lookup : option Encoding * EMessage :=
  if (Token.length token <=? idx)%nat || negb (prefix_matches pfx str)
  then (None, E_Invalid_argument_name)
  else
    match index_digits (skipn idx tok) 0 with
    | inr e => (None, e)
    | inl num =>
      if (num <? Encoding.value e1) || (num >? Encoding.value e2)
      then (None, E_Argument_index_out_of_range)
      else if negb (num =? 0) && (hd 0 (skipn idx tok) =? ch "0")
      then (None, E_Invalid_argument_name)
      else (Some (Encoding.mk (Encoding.name e1) num (Encoding.type res)
                    (Encoding.arg res)), E_NO_ERROR)
    end.

Lemma findEncoding_at_indexed (i : nat) :
  (i < 3)%nat ->
  findEncoding_from code token (e1 :: e2 :: rest) i res error = indexed_lookup.
Proof.
  intros Hi. cbn [findEncoding_from]. cbv zeta. fold tok.
  assert (He : equalsI tok (bytes_of (Encoding.name e1)) = false).
  { destruct (equalsI tok (bytes_of (Encoding.name e1))) eqn:E; [|reflexivity].
    rewrite e1_name in E. apply equalsI_last in E; [contradiction|].
    apply toUpper_hash. }
  rewrite He. rewrite e2_name, equals_str_refl. rewrite e1_name.
  unfold strFindChr. rewrite strFindChr_from_first by assumption.
  fold idx. rewrite Z.add_0_l.
  destruct (Nat.ltb_spec i 3); [|lia].
  destruct (Z.leb_spec 0 (Z.of_nat idx)); [|lia]. cbn [andb].
  rewrite Nat2Z.id.
  assert (Hnul : nth (Z.to_nat (Z.of_nat idx + 1)) (pfx ++ [ch "#"]) 0 = 0).
  { apply nth_overflow. rewrite length_app. cbn [List.length]. fold idx. lia. }
  rewrite Hnul. cbn [Z.eqb negb orb].
  rewrite startWidthIN_indexed. fold idx str.
  assert (Hidx : (idx =? 0)%nat = false).
  { apply Nat.eqb_neq. unfold idx. destruct pfx; [contradiction|cbn; lia]. }
  rewrite Hidx. cbn [negb]. rewrite andb_true_r.
  unfold indexed_lookup.
  destruct ((Token.length token <=? idx)%nat) eqn:El; cbn [orb]; [reflexivity|].
  destruct (prefix_matches pfx str); cbn [negb]; [|reflexivity].
  apply Nat.leb_gt in El.
  assert (Hlen : (Token.length token <= List.length str)%nat).
  { unfold str. rewrite length_skipn. lia. }
  rewrite index_number_digits by (fold str; lia). fold str.
  assert (Hds : firstn (Token.length token - idx) (skipn idx str) = skipn idx tok).
  { rewrite tok_firstn. rewrite skipn_firstn_comm. reflexivity. }
  rewrite Hds.
  assert (Hhd : nth (Token.start token + idx) code 0 = hd 0 (skipn idx tok)).
  { rewrite nth_skipn_add. fold str. rewrite tok_firstn.
    rewrite (skipn_cons_nth (firstn (Token.length token) str) idx)
      by (rewrite length_firstn; lia).
    cbn [hd]. rewrite nth_firstn. destruct (Nat.ltb_spec idx (Token.length token));
      [reflexivity|lia]. }
  rewrite Hhd. reflexivity.
Qed.

Hypothesis range_small : Encoding.value e2 <= 429496729.

Lemma tok_split (p digits : list Z) :
  tok = p ++ digits -> List.length p = idx ->
  (idx + List.length digits = Token.length token)%nat /\
  firstn idx str = p /\ skipn idx tok = digits.
Proof.
  intros Ht Hp. pose proof tok_length as Hl. rewrite Ht, length_app in Hl.
  split; [lia|]. split.
  - assert (H : firstn idx tok = p).
    { rewrite Ht, firstn_app, Hp, Nat.sub_diag, <- Hp, firstn_all.
      cbn [firstn]. apply app_nil_r. }
    rewrite tok_firstn, firstn_firstn in H.
    replace (Nat.min idx (Token.length token)) with idx in H by lia.
    exact H.
  - rewrite Ht, skipn_app, Hp, Nat.sub_diag, <- Hp, skipn_all. reflexivity.
Qed.

Lemma str_long : (idx < Token.length token -> idx <= List.length str)%nat.
Proof. unfold str. rewrite length_skipn. lia. Qed.

Lemma indexed_lookup_match (num : Z) :
  indexed_match pfx (Encoding.value e1) (Encoding.value e2) tok num ->
  indexed_lookup
  = (Some (Encoding.mk (Encoding.name e1) num (Encoding.type res)
             (Encoding.arg res)), E_NO_ERROR).
Proof.
  intros [p [digits [Ht [Hp [Hu [Hne [Hd [Hnum [Hr Hz]]]]]]]]].
  destruct (tok_split p digits Ht Hp) as [Hl [Hf Hs]].
  assert (Hdl : (0 < List.length digits)%nat)
    by (destruct digits; [contradiction|cbn; lia]).
  unfold indexed_lookup.
  destruct (Nat.leb_spec (Token.length token) idx); [lia|]. cbn [orb].
  assert (Hpm : prefix_matches pfx str = true).
  { apply prefix_matches_spec; [apply str_long; lia|]. fold idx.
    now rewrite Hf. }
  rewrite Hpm. cbn [negb]. rewrite Hs.
  unfold decimal in Hnum.
  rewrite (index_digits_exact digits 0 Hd) by (change (2 ^ 32) with 4294967296; lia).
  rewrite <- Hnum.
  destruct (Z.ltb_spec num (Encoding.value e1)); [lia|].
  destruct (Z.gtb_spec num (Encoding.value e2)); [lia|]. cbn [orb].
  destruct (Z.eqb_spec num 0); cbn [negb andb]; [reflexivity|].
  destruct (Z.eqb_spec (hd 0 digits) (ch "0")) as [E|E]; [|reflexivity].
  apply Hz in E. contradiction.
Qed.

Lemma Forall_isDigit_dec (ds : list Z) :
  Forall (fun d => isDigit d = true) ds \/
  ~ Forall (fun d => isDigit d = true) ds.
Proof.
  induction ds as [|d ds [IH|IH]].
  - left. constructor.
  - destruct (isDigit d) eqn:E.
    + left. now constructor.
    + right. intros H. inversion H. congruence.
  - right. intros H. inversion H. contradiction.
Qed.

Lemma indexed_lookup_found (e : Encoding) (err : EMessage) :
  indexed_lookup = (Some e, err) ->
  exists num,
    e = Encoding.mk (Encoding.name e1) num (Encoding.type res) (Encoding.arg res) /\
    err = E_NO_ERROR /\
    indexed_match pfx (Encoding.value e1) (Encoding.value e2) tok num.
Proof.
  unfold indexed_lookup.
  destruct (Nat.leb_spec (Token.length token) idx) as [|Hl]; cbn [orb];
    [discriminate|].
  destruct (prefix_matches pfx str) eqn:Hpm; cbn [negb]; [|discriminate].
  destruct (index_digits (skipn idx tok) 0) as [num|e'] eqn:Hi; [|discriminate].
  destruct (Z.ltb_spec num (Encoding.value e1)) as [|Hlo]; cbn [orb];
    [discriminate|].
  destruct (Z.gtb_spec num (Encoding.value e2)) as [|Hhi]; [discriminate|].
  destruct (negb (num =? 0) && (hd 0 (skipn idx tok) =? ch "0")) eqn:Hz;
    [discriminate|].
  intros H. inversion H; subst. exists num. split; [reflexivity|].
  split; [reflexivity|].
  assert (Hd : Forall (fun d => isDigit d = true) (skipn idx tok)).
  { destruct (Forall_isDigit_dec (skipn idx tok)) as [Hd|Hd]; [assumption|].
    destruct (index_digits_not_digit (skipn idx tok) 0 Hd) as [e' He'].
    congruence. }
  assert (Hv : decimal (skipn idx tok) = num).
  { unfold decimal.
    destruct (Z.ltb_spec (decimal_from 0 (skipn idx tok)) (2 ^ 32)) as [Hs|Hs].
    - rewrite (index_digits_exact _ 0 Hd) in Hi by lia. congruence.
    - destruct (index_digits_overflow _ 0 Hd) as [Ho|[m [Ho Hm]]];
        [change (2 ^ 32) with 4294967296; lia|assumption|congruence|].
      rewrite Ho in Hi. inversion Hi. lia. }
  exists (firstn idx tok), (skipn idx tok).
  pose proof tok_length as Htl.
  split; [now rewrite firstn_skipn|].
  split; [rewrite length_firstn; fold idx; lia|].
  split.
  { apply prefix_matches_spec in Hpm; [|apply str_long; lia]. fold idx in Hpm.
    rewrite tok_firstn, firstn_firstn.
    replace (Nat.min idx (Token.length token)) with idx by lia. exact Hpm. }
  split.
  { intros E. apply (f_equal (@List.length Z)) in E.
    rewrite length_skipn in E. cbn in E. lia. }
  split; [assumption|]. split; [now symmetry|]. split; [lia|].
  intros E. rewrite E, Z.eqb_refl, andb_true_r in Hz.
  apply negb_false_iff, Z.eqb_eq in Hz. exact Hz.
Qed.

Lemma indexed_lookup_failed (e : EMessage) :
  indexed_lookup = (None, e) ->
  e = E_Invalid_argument_name \/ e = E_Unexpected_argument_name_character \/
  e = E_Argument_index_out_of_range.
Proof.
  unfold indexed_lookup.
  repeat match goal with
         | |- (if ?b then _ else _) = _ -> _ => destruct b
         | |- (match ?x with _ => _ end) = _ -> _ => destruct x eqn:?
         end; intros H; inversion H; subst; auto.
  match goal with
  | H : index_digits _ _ = inr _ |- _ => apply index_digits_error in H
  end. tauto.
Qed.

Lemma indexed_lookup_overflow (p digits : list Z) :
  tok = p ++ digits -> List.length p = idx ->
  map toUpper p = map toUpper pfx ->
  Forall (fun d => isDigit d = true) digits -> 2 ^ 32 <= decimal digits ->
  indexed_lookup = (None, E_Argument_index_out_of_range).
Proof.
  intros Ht Hp Hu Hd Hv.
  destruct (tok_split p digits Ht Hp) as [Hl [Hf Hs]].
  assert (Hdl : (0 < List.length digits)%nat).
  { destruct digits; [cbn in Hv; lia|cbn; lia]. }
  unfold indexed_lookup.
  destruct (Nat.leb_spec (Token.length token) idx); [lia|]. cbn [orb].
  assert (Hpm : prefix_matches pfx str = true).
  { apply prefix_matches_spec; [apply str_long; lia|]. fold idx.
    now rewrite Hf. }
  rewrite Hpm. cbn [negb]. rewrite Hs.
  destruct (index_digits_overflow digits 0 Hd) as [Ho|[m [Ho Hm]]];
    [change (2 ^ 32) with 4294967296; lia|exact Hv| |]; rewrite Ho;
    [reflexivity|].
  destruct (Z.gtb_spec m (Encoding.value e2)); [|lia].
  now rewrite orb_true_r.
Qed.

End IndexedEntry.

(** *** The tokens [compile] looks up *)

Lemma token_bytes_snoc (code : list Z) (s l : nat) :
  (s + l < List.length code)%nat ->
  token_bytes code (Token.mk s (S l))
  = token_bytes code (Token.mk s l) ++ [nth (s + l) code 0].
Proof.
  intros H. unfold token_bytes. cbn [Token.start Token.length].
  rewrite nth_skipn_add.
  assert (Hl : (l < List.length (skipn s code))%nat)
    by (rewrite length_skipn; lia).
  revert Hl. generalize (skipn s code) as xs. clear H.
  induction l as [|l IH]; intros [|x xs] Hl; cbn [List.length] in Hl;
    try lia; [reflexivity|].
  cbn [firstn nth app]. f_equal. apply IH. lia.
Qed.

Lemma token_bytes_one (code : list Z) (s : nat) :
  (s < List.length code)%nat ->
  token_bytes code (Token.mk s 1) = [nth s code 0].
Proof.
  intros H. rewrite (token_bytes_snoc code s 0) by lia.
  rewrite Nat.add_0_r. reflexivity.
Qed.

(** The characters a name is made of are not [#]. *)
Lemma name_char_not_hash (c : Z) :
  isArgChar c = true \/ isItemChar c = true \/ isAlpha c = true \/
  isDigit c = true \/ c = ch "-" ->
  c <> ch "#".
Proof.
  unfold isArgChar, isItemChar, isAlpha, isDigit.
  change (ch "#") with 35. change (ch "_") with 95. change (ch "-") with 45.
  change (ch "a") with 97. change (ch "z") with 122.
  change (ch "A") with 65. change (ch "Z") with 90.
  change (ch "0") with 48. change (ch "9") with 57.
  intros H ->. cbn in H. intuition discriminate.
Qed.

Section TokenBytes.

Variable code : list Z.
Variable find : list Z -> ParamMatch.

(** The argument token is being read: an argument name, a unit name or a
    unit exponent. *)
Definition arg_token_live (f : Z) : bool :=
  within HID_WITHIN_ARG f
  && (negb (within HID_WITHIN_UNIT_DESC f) || within HID_WITHIN_UNIT f
      || within HID_WITHIN_UNIT_EXP f).

Definition token_plain (t : Token) (st : State) : Prop :=
  (Token.start t + Token.length t = n st)%nat /\
  ~ In (ch "#") (token_bytes code t).

(** While a name is read, its token ends right in front of the cursor and
    holds no [#]. *)
Definition tokens_ok (st : State) : Prop :=
  flags_ok (flags st) = true /\
  (within HID_WITHIN_ITEM (flags st) = true -> token_plain (tItem st) st) /\
  (arg_token_live (flags st) = true -> token_plain (tArg st) st).

Lemma step_tokens (st : State) :
  tokens_ok st -> scanning code st = true ->
  outcome_sat (fun _ _ => True) tokens_ok
    (fun st' => tokens_ok (advance st'))
    (step code find st).
Proof.
  unfold tokens_ok, token_plain. intros [Hf [Hi Ha]] Hsc.
  assert (Hn : (n st < List.length code)%nat)
    by exact (scanning_inside code st Hsc).
  apply flags_ok_cases in Hf. cbn [valid_flags In] in Hf.
  repeat destruct Hf as [Hf|Hf]; [..|contradiction];
    rewrite <- Hf in Hi, Ha;
    first [specialize (Hi eq_refl) | clear Hi];
    first [specialize (Ha eq_refl) | clear Ha];
    unfold_step; cases_with ltac:(try rewrite <- Hf);
    try exact I; leaf_cases ltac:(try rewrite <- Hf);
    (split; [vm_compute; reflexivity|]);
    (split; intros Hlive; vm_compute in Hlive; try discriminate Hlive).
  all: repeat match goal with
              | H : _ /\ _ |- _ => destruct H
              | H : (byte _ _ =? _) = true |- _ => apply Z.eqb_eq in H
              end.
  all: (split; [cbn [Token.start Token.length]; lia|]).
  all: try assumption.
  all: try (unfold token_bytes; cbn [Token.length firstn]; intros []).
  all: try (rewrite token_bytes_one by assumption; intros [Hh|[]];
            apply (name_char_not_hash (byte code (n st))); [|exact Hh];
            tauto).
  all: try (rewrite token_bytes_snoc by lia; intros Hin;
            apply in_app_or in Hin; destruct Hin as [Hin|[Hh|[]]];
            [contradiction|];
            match goal with
            | Hp : (_ + _ = n _)%nat |- _ => rewrite Hp in Hh
            end;
            apply (name_char_not_hash (byte code (n st))); [|exact Hh];
            tauto).
Qed.

Lemma Reachable_tokens (w : list Z) (st : State) :
  Reachable code find w st -> tokens_ok st.
Proof.
  apply Reachable_invariant.
  - split; [reflexivity|].
    split; intros H; vm_compute in H; discriminate H.
  - intros st0 _ H0 Hsc. now apply step_tokens.
Qed.

End TokenBytes.




(** The layout of the indexed names in a map: the positions of the entries
    with a [#] in the name, and whether they are one well-formed pair that
    starts within the first three entries: the [#] ends a name that is not
    empty, both entries have the same name, and the range ends at 0xFFFF at
    most. *)
Fixpoint hash_positions (map : list Encoding) (i : nat) : list nat :=
  match map with
  | [] => []
  | m :: map' =>
    if 0 <=? strFindChr (bytes_of (Encoding.name m)) (ch "#")
    then i :: hash_positions map' (S i)
    else hash_positions map' (S i)
  end.

Definition indexed_layout_ok (map : list Encoding) : bool :=
  match hash_positions map 0 with
  | [] => true
  | [i; j] =>
    let m0 := nth i map endOfMap in
    let m1 := nth j map endOfMap in
    let name0 := bytes_of (Encoding.name m0) in
    (i <? 3)%nat && (j =? S i)%nat
    && (0 <? strFindChr name0 (ch "#"))
    && (strFindChr name0 (ch "#") + 1 =? Z.of_nat (List.length name0))
    && equals_str name0 (bytes_of (Encoding.name m1))
    && (Encoding.value m0 <=? Encoding.value m1)
    && (Encoding.value m1 <=? 0xFFFF)
  | _ => false
  end.

(** In every map of the source the indexed names are laid out like that. *)
Lemma source_maps_indexed_layout (t : TableId) :
  indexed_layout_ok (entries t) = true.
Proof. destruct t; vm_compute; reflexivity. Qed.

(** ** ReportSize and ReportCount *)

(** The short items of a descriptor (HID 1.11, 6.2.2.2): the prefix without
    its size bits, and the data bytes. *)
Fixpoint short_items (k : nat) (bytes : list Z) : list (Z * list Z) :=
  match k with
  | O => []
  | S k' =>
    match bytes with
    | [] => []
    | b :: rest =>
      let size := match Z.land b 3 with
                  | 0 => 0%nat
                  | 1 => 1%nat
                  | 2 => 2%nat
                  | _ => 4%nat
                  end in
      (Z.land b 0xFC, firstn size rest) :: short_items k' (skipn size rest)
    end
  end.

(** The pairing the specification words: between every [Collection] (0xA0)
    and its matching [EndCollection] (0xC0) there are as many [ReportSize]
    (0x74) as [ReportCount] (0x94) items.  [open] holds, innermost first, the
    two counts of every collection still open. *)
Fixpoint collections_paired (items : list (Z * list Z)) (open : list (nat * nat))
    : bool :=
  match items with
  | [] => true
  | (tag, _) :: rest =>
    if tag =? 0xA0 then collections_paired rest ((0%nat, 0%nat) :: open)
    else if tag =? 0xC0 then
      match open with
      | [] => collections_paired rest []
      | (s, c) :: outer =>
        (s =? c)%nat &&
        collections_paired rest
          match outer with
          | [] => []
          | (s', c') :: outer' => ((s' + s)%nat, (c' + c)%nat) :: outer'
          end
      end
    else if tag =? 0x74 then
      collections_paired rest
        match open with
        | [] => []
        | (s, c) :: outer => (S s, c) :: outer
        end
    else if tag =? 0x94 then
      collections_paired rest
        match open with
        | [] => []
        | (s, c) :: outer => (s, S c) :: outer
        end
    else collections_paired rest open
  end.

(** [findEncoding] returns an entry of the map, or [res] with the name and
    the number of an indexed entry; in a map without indexed names among its
    first three entries it returns an entry of the map. *)
Lemma findEncoding_from_result (code : list Z) (token : Token)
    (res : Encoding) (error : EMessage) (map : list Encoding) :
  forall (i : nat) (e : Encoding) (err : EMessage),
    findEncoding_from code token map i res error = (Some e, err) ->
    In e map \/
    (Encoding.arg e = Encoding.arg res /\
     exists m, In m map /\ In (ch "#") (bytes_of (Encoding.name m))).
Proof.
  induction map as [|m map IH]; intros i e err H; [discriminate H|].
  cbn [findEncoding_from] in H. cbv zeta in H.
  destruct (equalsI (token_bytes code token) (bytes_of (Encoding.name m))).
  - inversion H; subst. left. now left.
  - destruct ((i <? 3)%nat && (0 <=? strFindChr (bytes_of (Encoding.name m)) (ch "#")))
      eqn:Ei.
    + apply andb_true_iff in Ei. destruct Ei as [_ Eh]. apply Z.leb_le in Eh.
      assert (Hin : In (ch "#") (bytes_of (Encoding.name m))).
      { destruct (in_dec Z.eq_dec (ch "#") (bytes_of (Encoding.name m)))
          as [Hin|Hn]; [assumption|].
        unfold strFindChr in Eh. rewrite strFindChr_from_absent in Eh by assumption.
        lia. }
      right.
      repeat match type of H with
             | (if ?b then _ else _) = _ => destruct b; [discriminate H|]
             | match ?x with inl _ => _ | inr _ => _ end = _ =>
               destruct x; [|discriminate H]
             end.
      inversion H; subst. cbn [Encoding.arg]. split; [reflexivity|].
      exists m. split; [now left|assumption].
    + apply IH in H. destruct H as [H|[Ha [m' [H1 H2]]]].
      * left. now right.
      * right. split; [assumption|]. exists m'. split; [now right|assumption].
Qed.

(** A map without [#] in its names. *)
Definition hash_free (map : list Encoding) : bool :=
  forallb (fun m => negb (existsb (Z.eqb (ch "#")) (bytes_of (Encoding.name m))))
    map.

Lemma findEncoding_hash_free (code : list Z) (token : Token)
    (map : list Encoding) (res : Encoding) (error : EMessage)
    (e : Encoding) (err : EMessage) :
  hash_free map = true ->
  findEncoding code token map res error = (Some e, err) -> In e map.
Proof.
  intros Hfree. unfold findEncoding.
  destruct (Token.length token =? 0)%nat; [discriminate|].
  intros H. apply findEncoding_from_result in H.
  destruct H as [H|[_ [m [Hm Hh]]]]; [assumption|]. exfalso.
  unfold hash_free in Hfree. rewrite forallb_forall in Hfree.
  specialize (Hfree m Hm). apply negb_true_iff in Hfree.
  assert (Hex : existsb (Z.eqb (ch "#")) (bytes_of (Encoding.name m)) = true).
  { apply existsb_exists. exists (ch "#"). split; [assumption|apply Z.eqb_refl]. }
  congruence.
Qed.

Lemma findEncoding_result (code : list Z) (token : Token)
    (map : list Encoding) (res : Encoding) (error : EMessage)
    (e : Encoding) (err : EMessage) :
  findEncoding code token map res error = (Some e, err) ->
  In e map \/ Encoding.arg e = Encoding.arg res.
Proof.
  unfold findEncoding. destruct (Token.length token =? 0)%nat; [discriminate|].
  intros H. apply findEncoding_from_result in H.
  destruct H as [H|[H _]]; [now left|now right].
Qed.

Section ReportTotals.

Variable code : list Z.
Variable find : list Z -> ParamMatch.

Lemma itemResolved_EndCollection (st : State) (e : Encoding) :
  arg_is e endCol = true -> 0 < colLevel st ->
  ((reportSizes st < reportCounts st)%nat ->
   itemResolved code st e = inr E_Missing_ReportSize /\
   itemResolvedAtEnd st e = inr E_Missing_ReportSize) /\
  ((reportCounts st < reportSizes st)%nat ->
   itemResolved code st e = inr E_Missing_ReportCount /\
   itemResolvedAtEnd st e = inr E_Missing_ReportCount) /\
  (reportSizes st = reportCounts st ->
   itemResolved code st e
   = inl (set_usageAtLevel (usageAtLevel st - 1)
            (set_colLevel (colLevel st - 1) st)) /\
   itemResolvedAtEnd st e
   = inl (set_usageAtLevel (usageAtLevel st - 1)
            (set_colLevel (colLevel st - 1) st))).
Proof.
  intros He Hc. unfold itemResolved, itemResolvedAtEnd.
  rewrite (arg_is_exclusive e endCol colArgMap He) by discriminate.
  rewrite He. destruct (Z.leb_spec (colLevel st) 0); [lia|].
  destruct (Nat.ltb_spec (reportSizes st) (reportCounts st)),
           (Nat.ltb_spec (reportCounts st) (reportSizes st));
    repeat split; intros; try lia; reflexivity.
Qed.

(** The pass on [st] is the one that ends an argument list: the branch
    [_HID_WITHIN(ARG_LIST)] is the one taken, an argument has been read, and
    the byte under the cursor is the closing parenthesis. *)
Definition closes_list (st : State) : bool :=
  negb (flags st =? HID_START)
  && negb (within HID_WITHIN_COMMENT (flags st))
  && negb (within HID_WITHIN_PARAM (flags st))
  && negb (within HID_WITHIN_ITEM (flags st))
  && negb (within HID_WITHIN_ARG (flags st))
  && negb (within HID_WITHIN_HEX_LIT (flags st))
  && negb (within HID_WITHIN_NUM_LIT (flags st))
  && within HID_WITHIN_ARG_LIST (flags st)
  && hasArg st && (byte code (n st) =? ch ")").

(** The tests in front of [reportSizes++] and [reportCounts++], on the
    entry [encMap] points to: none of the argument kinds handled before, and
    the prefix [v]. *)
Definition counted (v : Z) (e : Encoding) : bool :=
  negb (arg_is e signedNumArg) && negb (arg_is e unitExpMap)
  && negb (arg_is e delimMap)
  && negb (arg_is e usagePageMap || arg_is e usageArg)
  && (Encoding.value e =? v).

Definition closes_counted (v : Z) (st : State) : bool :=
  closes_list st && counted v (deref (encMap st)).

Ltac known_tests :=
  repeat match goal with
         | H : ?t = true |- context [?t] => rewrite H
         | H : ?t = false |- context [?t] => rewrite H
         end;
  cbn [negb andb orb Nat.b2n].

(** A pass adds one to [reportSizes] exactly if it ends the argument list
    of an entry counted with the prefix 0x74, and one to [reportCounts]
    exactly if it ends that of an entry counted with the prefix 0x94; such a
    pass never fails.  Every other pass leaves the two counters alone. *)
Lemma step_report_counters (st : State) :
  outcome_sat
    (fun _ _ => closes_counted 0x74 st = false /\ closes_counted 0x94 st = false)
    (fun st' => reportSizes st' = reportSizes st /\
                reportCounts st' = reportCounts st /\
                closes_counted 0x74 st = false /\
                closes_counted 0x94 st = false)
    (fun st' =>
       reportSizes st'
       = (reportSizes st + Nat.b2n (closes_counted 0x74 st))%nat /\
       reportCounts st'
       = (reportCounts st + Nat.b2n (closes_counted 0x94 st))%nat)
    (step code find st).
Proof.
  unfold closes_counted, closes_list, counted.
  step_cases; known_tests;
    repeat match goal with
           | H : (Encoding.value _ =? _) = true |- _ =>
             apply Z.eqb_eq in H; rewrite H
           end;
    cbn [negb andb orb Nat.b2n Z.eqb Pos.eqb];
    rewrite ?andb_false_r; cbn [Nat.b2n];
    repeat split; try reflexivity; try lia.
Qed.

(** The entries [encMap] can point to when an argument list is closed:
    an entry of [itemMap], or one with another prefix than 0x74 and 0x94. *)
Definition known_entry (e : Encoding) : Prop :=
  In e itemMap_tbl \/
  (Encoding.value e <> 0x74 /\ Encoding.value e <> 0x94).

Definition enc_known (st : State) : Prop :=
  (forall e, encMap st = Some e -> known_entry e) /\
  (forall p, usagePage st = Some p -> Encoding.arg p <> None ->
             Encoding.value p <> 0x74 /\ Encoding.value p <> 0x94) /\
  (within HID_WITHIN_UNIT_SYS (flags st) = true ->
   within HID_WITHIN_UNIT_DESC (flags st) = false ->
   arg_is (deref (encMap st)) unitSystemMap = true).

Definition enc_state_ok (st : State) : Prop :=
  flags_ok (flags st) = true /\ enc_known st.

Lemma arg_is_table (e : Encoding) (t : TableId) :
  arg_is e t = true -> table_of (Encoding.arg e) = entries t.
Proof.
  unfold arg_is. destruct (Encoding.arg e) as [a|]; [|discriminate].
  intros H. apply internal_TableId_dec_bl in H. now subst a.
Qed.

Lemma other_prefix_known (map : list Encoding) (e : Encoding) :
  forallb (fun m => negb (Encoding.value m =? 0x74)
                    && negb (Encoding.value m =? 0x94)) map = true ->
  In e map ->
  Encoding.value e <> 0x74 /\ Encoding.value e <> 0x94.
Proof.
  intros Hall He. rewrite forallb_forall in Hall. specialize (Hall e He).
  apply andb_true_iff in Hall. destruct Hall as [H1 H2].
  apply negb_true_iff in H1, H2. apply Z.eqb_neq in H1, H2. now split.
Qed.

Lemma step_enc_known (st : State) :
  enc_state_ok st ->
  outcome_sat (fun _ _ => True) enc_state_ok
    (fun st' => enc_state_ok (advance st'))
    (step code find st).
Proof.
  unfold enc_state_ok, enc_known. intros [Hf [H1 [H2 H3]]].
  apply flags_ok_cases in Hf. cbn [valid_flags In] in Hf.
  repeat destruct Hf as [Hf|Hf]; [..|contradiction];
    rewrite <- Hf in H3;
    first [specialize (H3 eq_refl eq_refl) | clear H3];
    unfold_step; cases_with ltac:(try rewrite <- Hf);
    try exact I; leaf_cases ltac:(try rewrite <- Hf);
    (split; [vm_compute; reflexivity|]);
    (split; [|split]).
  all: try (intros Hs Hd; vm_compute in Hs, Hd; discriminate).
  all: try exact H1.
  all: try exact H2.
  all: try (intros ? Hs; inversion Hs; subst; left;
            eapply findEncoding_hash_free; [|eassumption]; reflexivity).
  all: try (intros _ _; unfold arg_is, deref;
            match goal with
            | H : Encoding.arg _ = Some _ |- _ => rewrite H; assumption
            end).
  all: try (intros p Hp; apply H2; congruence).
  all: try (intros ? Hs; inversion Hs; subst; right; apply H2;
            [reflexivity|congruence]).
  all: try (intros p Hs Harg; inversion Hs; subst;
            match goal with
            | Hp : findEncoding _ _ (table_of (Encoding.arg ?d)) _ _
                   = (Some _, _),
              Ha : arg_is ?d usagePageMap = true |- _ =>
              rewrite (arg_is_table d usagePageMap Ha) in Hp;
              apply findEncoding_result in Hp;
              destruct Hp as [Hin|Hn];
              [ exact (other_prefix_known (entries usagePageMap) _ eq_refl Hin)
              | exfalso; apply Harg; exact Hn ]
            end).
  all: try (intros ? Hs; inversion Hs; subst; right;
            match goal with
            | Hp : findEncoding _ _ (table_of (Encoding.arg ?d)) _ _
                   = (Some _, _),
              Ha : arg_is ?d unitSystemMap = true |- _ =>
              rewrite (arg_is_table d unitSystemMap Ha) in Hp;
              apply findEncoding_hash_free in Hp; [|reflexivity];
              exact (other_prefix_known (entries unitSystemMap) _ eq_refl Hp)
            end).
  all: try (intros _ _; exact H3).
Qed.

End ReportTotals.

Lemma Reachable_enc_known (code : list Z) (find : list Z -> ParamMatch)
    (w : list Z) (st : State) :
  Reachable code find w st -> enc_state_ok st.
Proof.
  apply Reachable_invariant.
  - split; [reflexivity|]. split; [discriminate|]. split; [discriminate|].
    intros H. vm_compute in H. discriminate.
  - intros st0 _ H0 _. now apply step_enc_known.
Qed.

(** Of the entries of [itemMap], [ReportSize] is the one counted with the
    prefix 0x74 and [ReportCount] the one counted with 0x94. *)
Lemma counted_item (e : Encoding) :
  In e itemMap_tbl ->
  (counted 0x74 e = true -> e = encA "ReportSize" 0x74 numArg) /\
  (counted 0x94 e = true -> e = encA "ReportCount" 0x94 numArg).
Proof.
  intros Hin. unfold itemMap_tbl in Hin. cbn [In] in Hin.
  repeat destruct Hin as [<-|Hin]; try contradiction;
    split; intros Hc; first [reflexivity | vm_compute in Hc; discriminate Hc].
Qed.

(** On a run, the entry counted when an argument list is closed is the
    item the list belongs to. *)
Lemma closes_counted_item (code : list Z) (find : list Z -> ParamMatch)
    (w : list Z) (st : State) :
  Reachable code find w st -> closes_list code st = true ->
  (closes_counted code 0x74 st = true
   <-> encMap st = Some (encA "ReportSize" 0x74 numArg)) /\
  (closes_counted code 0x94 st = true
   <-> encMap st = Some (encA "ReportCount" 0x94 numArg)).
Proof.
  intros Hst Hcl. unfold closes_counted. rewrite Hcl. cbn [andb].
  destruct (Reachable_enc_known code find w st Hst) as [_ [Hk _]].
  assert (Hitem : forall v e, counted v (deref (encMap st)) = true ->
                    v = 0x74 \/ v = 0x94 ->
                    encMap st = Some e -> In e itemMap_tbl).
  { intros v e Hc Hv He. rewrite He in Hc. cbn [deref] in Hc.
    destruct (Hk e He) as [Hin|[H1 H2]]; [assumption|].
    unfold counted in Hc. apply andb_true_iff in Hc. destruct Hc as [_ Hc].
    apply Z.eqb_eq in Hc. destruct Hv; subst v; contradiction. }
  split; split.
  - intros Hc. destruct (encMap st) as [e|] eqn:He;
      [|vm_compute in Hc; discriminate Hc].
    f_equal. apply (counted_item e); [|exact Hc].
    apply (Hitem 0x74 e Hc); auto.
  - intros ->. reflexivity.
  - intros Hc. destruct (encMap st) as [e|] eqn:He;
      [|vm_compute in Hc; discriminate Hc].
    f_equal. apply (counted_item e); [|exact Hc].
    apply (Hitem 0x94 e Hc); auto.
  - intros ->. reflexivity.
Qed.

(** The argument lists of [ReportSize] and of [ReportCount] that a run has
    closed so far: [s] and [c] are their numbers when the loop test is
    evaluated on [st]. *)
Inductive Totals (code : list Z) (find : list Z -> ParamMatch) (w : list Z)
    : State -> nat -> nat -> Prop :=
  | Totals_initial : Totals code find w (initial w) 0 0
  | Totals_continue (st st' : State) (s c : nat) :
      Totals code find w st s c -> scanning code st = true ->
      step code find st = Continue st' -> Totals code find w st' s c
  | Totals_next (st st' : State) (s c : nat) :
      Totals code find w st s c -> scanning code st = true ->
      step code find st = Next st' ->
      Totals code find w (advance st')
        (s + Nat.b2n (closes_counted code 0x74 st))
        (c + Nat.b2n (closes_counted code 0x94 st)).

Lemma Totals_counters (code : list Z) (find : list Z -> ParamMatch)
    (w : list Z) (st : State) (s c : nat) :
  Totals code find w st s c ->
  Reachable code find w st /\ reportSizes st = s /\ reportCounts st = c.
Proof.
  intros H.
  induction H as [|st st' s c H [IH1 [IH2 IH3]] Hsc Hs
                  |st st' s c H [IH1 [IH2 IH3]] Hsc Hs].
  - split; [constructor|]. split; reflexivity.
  - split; [eapply Reachable_continue; eassumption|].
    pose proof (step_report_counters code find st) as Hc.
    rewrite Hs in Hc. cbn [outcome_sat] in Hc.
    destruct Hc as [H1 [H2 _]]. split; congruence.
  - split; [eapply Reachable_next; eassumption|].
    pose proof (step_report_counters code find st) as Hc.
    rewrite Hs in Hc. cbn [outcome_sat] in Hc.
    destruct Hc as [H1 H2].
    cbn [advance reportSizes reportCounts set_n]. split; congruence.
Qed.

Lemma Reachable_totals (code : list Z) (find : list Z -> ParamMatch)
    (w : list Z) (st : State) :
  Reachable code find w st -> exists s c, Totals code find w st s c.
Proof.
  intros H.
  induction H as [|st st' H [s [c IH]] Hsc Hs|st st' H [s [c IH]] Hsc Hs].
  - exists 0%nat, 0%nat. constructor.
  - exists s, c. eapply Totals_continue; eassumption.
  - eexists _, _. eapply Totals_next; eassumption.
Qed.

(** The pass that closes the argument list of [ReportSize], or of
    [ReportCount], goes through and adds one to the total of that item. *)
Lemma closes_report_item (code : list Z) (find : list Z -> ParamMatch)
    (st : State) :
  closes_list code st = true ->
  (encMap st = Some (encA "ReportSize" 0x74 numArg) ->
   exists st', step code find st = Next st' /\
               reportSizes st' = S (reportSizes st) /\
               reportCounts st' = reportCounts st) /\
  (encMap st = Some (encA "ReportCount" 0x94 numArg) ->
   exists st', step code find st = Next st' /\
               reportSizes st' = reportSizes st /\
               reportCounts st' = S (reportCounts st)).
Proof.
  intros Hcl. pose proof (step_report_counters code find st) as H.
  unfold closes_counted in H. rewrite Hcl in H.
  split; intros He; rewrite He in H; cbn [deref andb] in H;
    match type of H with
    | context [counted ?v ?e] =>
      repeat match type of H with
             | context [counted ?v ?e] =>
               let b := eval vm_compute in (counted v e) in
               change (counted v e) with b in H
             end
    end;
    destruct (step code find st) as [pos msg|st'|st']; cbn [outcome_sat] in H.
  - destruct H as [H _]. discriminate H.
  - destruct H as [_ [_ [H _]]]. discriminate H.
  - exists st'. split; [reflexivity|]. cbn [Nat.b2n] in H. lia.
  - destruct H as [_ H]. discriminate H.
  - destruct H as [_ [_ [_ H]]]. discriminate H.
  - exists st'. split; [reflexivity|]. cbn [Nat.b2n] in H. lia.
Qed.




(** *** The bytes behind the NUL byte *)

Lemma hd_nth (l : list Z) : hd 0 l = nth 0 l 0.
Proof. now destruct l. Qed.

Lemma nth_tl (l : list Z) (j : nat) : nth j (tl l) 0 = nth (S j) l 0.
Proof. destruct l; [now destruct j|reflexivity]. Qed.

Lemma startWidthIN_len_agree (prefix : list Z) (len : nat) :
  forall (str str' : list Z) (n res : nat),
    (forall j, (j <= len - n)%nat -> nth j str 0 = nth j str' 0) ->
    startWidthIN_len prefix len str n res = startWidthIN_len prefix len str' n res.
Proof.
  induction prefix as [|p prefix IH]; intros str str' n res H; [reflexivity|].
  cbn [startWidthIN_len]. rewrite !hd_nth, <- (H 0%nat) by lia.
  destruct (toUpper p =? toUpper (nth 0 str 0)); cbn [andb]; [|reflexivity].
  destruct (Nat.ltb_spec n len); [|reflexivity].
  apply IH. intros j Hj. rewrite !nth_tl. apply H. lia.
Qed.

Lemma scan_fuel_monotone (code : list Z) (find : list Z -> ParamMatch)
    (fuel : nat) :
  forall (st : State) (fuel' : nat),
    fst (scan code find fuel st) <> OutOfFuel -> (fuel <= fuel')%nat ->
    scan code find fuel' st = scan code find fuel st.
Proof.
  induction fuel as [|fuel IH]; intros st fuel' Hr Hf; [now contradiction Hr|].
  destruct fuel' as [|fuel']; [lia|].
  cbn [scan] in *. destruct (scanning code st); [|reflexivity].
  destruct (step code find st) as [pos msg|st'|st']; [reflexivity| |].
  - rewrite (IH st' fuel'); [reflexivity| |lia].
    destruct (scan code find fuel st'). exact Hr.
  - rewrite (IH (advance st') fuel'); [reflexivity| |lia].
    destruct (scan code find fuel (advance st')). exact Hr.
Qed.

Ltac agree_with rw :=
  repeat (repeat (progress (cbv beta iota zeta; proj_goal)); rw;
    lazymatch goal with
    | |- ?x = ?x => reflexivity
    | |- _ = (if ?b then _ else _) => let c := head_test b in destruct c
    | |- _ = (match ?x with _ => _ end) => let c := head_test x in destruct c
    end).

Section SameBytes.

Variable code code' : list Z.
Variable find : list Z -> ParamMatch.
Variable K : nat.

(** Two sources that hold the same bytes up to a NUL byte at offset [K],
    which lies inside both. *)
Hypothesis K_inside : (K < len code)%nat.
Hypothesis K_inside' : (K < len code')%nat.
Hypothesis K_nul : byte code K = 0.
Hypothesis same_bytes : forall i, (i <= K)%nat -> byte code' i = byte code i.

Lemma K_nul' : byte code' K = 0.
Proof. rewrite same_bytes by lia. exact K_nul. Qed.

Lemma before_K (i : nat) : (i <= K)%nat -> byte code i <> 0 -> (i < K)%nat.
Proof.
  intros Hi Hb. destruct (Nat.eq_dec i K) as [->|]; [contradiction|lia].
Qed.

Lemma skipWhitespaces_before_K (k i : nat) :
  (i < K)%nat -> (i <= skipWhitespaces code k i < K)%nat.
Proof. exact (skipWhitespaces_before_nul code K K_inside K_nul k i). Qed.

Lemma skipToParenthesis_before_K (i : nat) :
  (i < K)%nat -> (i <= skipToParenthesis code i < K)%nat.
Proof. exact (skipToParenthesis_before_nul code K K_inside K_nul i). Qed.

Lemma token_bytes_agree (t : Token) :
  (Token.start t + Token.length t <= S K)%nat ->
  token_bytes code' t = token_bytes code t.
Proof.
  intros Ht. unfold token_bytes. unfold len in *.
  apply (nth_ext _ _ 0 0).
  - rewrite !length_firstn, !length_skipn. lia.
  - intros i Hi. rewrite length_firstn, length_skipn in Hi.
    rewrite !nth_firstn.
    destruct (Nat.ltb_spec i (Token.length t)); [|reflexivity].
    rewrite <- !nth_skipn_add. apply same_bytes. lia.
Qed.

Lemma index_number_agree (t : Token) (k : nat) :
  forall (n : nat) (num : Z),
    (Token.start t + n + k <= S K)%nat ->
    index_number code' t k n num = index_number code t k n num.
Proof.
  induction k as [|k IH]; intros n num Hk; [reflexivity|].
  cbn [index_number]. cbv zeta.
  replace (nth (Token.start t + n) code' 0) with (nth (Token.start t + n) code 0)
    by (symmetry; apply same_bytes; lia).
  destruct (negb (isDigit _)); [reflexivity|].
  destruct (num >? _); [reflexivity|]. apply IH. lia.
Qed.

Lemma findEncoding_from_agree (t : Token) (res : Encoding) (map : list Encoding) :
  forall (i : nat) (error : EMessage),
    (Token.start t + Token.length t <= S K)%nat ->
    findEncoding_from code' t map i res error
    = findEncoding_from code t map i res error.
Proof.
  induction map as [|m map IH]; intros i error Ht; [reflexivity|].
  cbn [findEncoding_from]. cbv zeta. rewrite (token_bytes_agree t Ht).
  destruct (equalsI _ _); [reflexivity|].
  destruct ((i <? 3)%nat && _); [|now apply IH].
  destruct (negb _ || negb _); [reflexivity|].
  set (idx := Z.to_nat (strFindChr (bytes_of (Encoding.name m)) (ch "#"))).
  destruct (Nat.leb_spec (Token.length t) idx) as [|Hidx]; cbn [orb];
    [reflexivity|].
  assert (Hsw : startWidthIN (bytes_of (Encoding.name m)) idx
                  (skipn (Token.start t) code')
                = startWidthIN (bytes_of (Encoding.name m)) idx
                    (skipn (Token.start t) code)).
  { unfold startWidthIN. f_equal. f_equal. apply startWidthIN_len_agree.
    intros j Hj. rewrite <- !nth_skipn_add. apply same_bytes. lia. }
  rewrite Hsw. destruct (negb (startWidthIN _ _ _)); [reflexivity|].
  rewrite index_number_agree by lia.
  replace (nth (Token.start t + idx) code' 0) with (nth (Token.start t + idx) code 0)
    by (symmetry; apply same_bytes; lia).
  reflexivity.
Qed.

Lemma findEncoding_agree (t : Token) (map : list Encoding) (res : Encoding)
    (error : EMessage) :
  (Token.start t + Token.length t <= S K)%nat ->
  findEncoding code' t map res error = findEncoding code t map res error.
Proof.
  intros Ht. unfold findEncoding. destruct (Token.length t =? 0)%nat;
    [reflexivity|]. now apply findEncoding_from_agree.
Qed.

Lemma skipWhitespaces_agree (k : nat) :
  forall (k' i : nat),
    (i < K)%nat -> (K - i <= k)%nat -> (K - i <= k')%nat ->
    skipWhitespaces code' k' i = skipWhitespaces code k i.
Proof.
  induction k as [|k IH]; intros k' i Hi Hk Hk'; [lia|].
  destruct k' as [|k']; [lia|]. cbn [skipWhitespaces].
  rewrite same_bytes by lia.
  destruct (Nat.ltb_spec (i + 1) (len code)); [|lia].
  destruct (Nat.ltb_spec (i + 1) (len code')); [|lia]. cbn [andb].
  destruct (isWhitespace (byte code (i + 1))) eqn:E; [|reflexivity].
  assert (Hs : (S i < K)%nat).
  { apply before_K; [lia|].
    replace (S i) with (i + 1)%nat by lia. intros Hz. rewrite Hz in E.
    discriminate. }
  apply IH; lia.
Qed.

Lemma skipToParenthesis_agree (i : nat) :
  (i < K)%nat -> skipToParenthesis code' i = skipToParenthesis code i.
Proof.
  intros Hi. unfold skipToParenthesis.
  rewrite (skipWhitespaces_agree (len code) (len code') i) by lia.
  pose proof (skipWhitespaces_before_K (len code) i Hi) as Hs.
  set (m := skipWhitespaces code (len code) i) in *.
  rewrite same_bytes by lia.
  destruct (Nat.ltb_spec (m + 1) (len code)); [|lia].
  destruct (Nat.ltb_spec (m + 1) (len code')); [|lia]. reflexivity.
Qed.

(** One pass reads the same bytes in both sources. *)
Lemma step_agree (st : State) :
  before_nul K st -> scanning code st = true ->
  step code' find st = step code find st.
Proof.
  unfold before_nul, scanning. intros [Hn [Hi Ha]] Hsc.
  apply andb_true_iff in Hsc. destruct Hsc as [_ Hb].
  apply negb_true_iff, Z.eqb_neq in Hb.
  pose proof (before_K (n st) Hn Hb) as HnK.
  pose proof (skipToParenthesis_before_K (n st) HnK) as Hskip.
  assert (Hb0 : byte code' (n st) = byte code (n st)) by (apply same_bytes; lia).
  assert (Hb1 : byte code' (n st + 1) = byte code (n st + 1))
    by (apply same_bytes; lia).
  assert (Hl1 : (n st + 1 <? len code)%nat = true) by (apply Nat.ltb_lt; lia).
  assert (Hl1' : (n st + 1 <? len code')%nat = true) by (apply Nat.ltb_lt; lia).
  assert (Hsk : skipToParenthesis code' (n st) = skipToParenthesis code (n st))
    by now apply skipToParenthesis_agree.
  assert (Hbs : byte code' (skipToParenthesis code (n st))
                = byte code (skipToParenthesis code (n st)))
    by (apply same_bytes; lia).
  assert (Hti : token_bytes code' (tItem st) = token_bytes code (tItem st))
    by (apply token_bytes_agree; lia).
  assert (Hta : token_bytes code' (tArg st) = token_bytes code (tArg st))
    by (apply token_bytes_agree; lia).
  assert (Hfi : forall map res err,
            findEncoding code' (tItem st) map res err
            = findEncoding code (tItem st) map res err)
    by (intros; apply findEncoding_agree; lia).
  assert (Hfa : forall map res err,
            findEncoding code' (tArg st) map res err
            = findEncoding code (tArg st) map res err)
    by (intros; apply findEncoding_agree; lia).
  destruct (byte code (n st + 1) =? ch "x") eqn:Ex.
  - assert (Hx : (n st + 1 < K)%nat)
      by (apply before_K; [lia|]; apply Z.eqb_eq in Ex; rewrite Ex;
          discriminate).
    assert (Hb2 : byte code' (n st + 2) = byte code (n st + 2))
      by (apply same_bytes; lia).
    assert (Hl2 : (len code <=? n st + 2)%nat = false)
      by (apply Nat.leb_gt; lia).
    assert (Hl2' : (len code' <=? n st + 2)%nat = false)
      by (apply Nat.leb_gt; lia).
    unfold_step.
    agree_with ltac:(rewrite ?Hb0, ?Hb1, ?Hl1, ?Hl1', ?Hsk, ?Hbs, ?Hti, ?Hta,
                       ?Hfi, ?Hfa, ?Ex, ?Hb2, ?Hl2, ?Hl2').
  - unfold_step.
    agree_with ltac:(rewrite ?Hb0, ?Hb1, ?Hl1, ?Hl1', ?Hsk, ?Hbs, ?Hti, ?Hta,
                       ?Hfi, ?Hfa, ?Ex).
Qed.


Lemma scanning_agree (st : State) :
  (n st <= K)%nat -> scanning code' st = scanning code st.
Proof.
  intros Hn. unfold scanning. rewrite same_bytes by assumption.
  destruct (Nat.ltb_spec (n st) (len code)); [|lia].
  destruct (Nat.ltb_spec (n st) (len code')); [|lia]. reflexivity.
Qed.

(** A pass fails at or in front of the NUL byte. *)
Lemma step_fail_position (st : State) :
  before_nul K st -> scanning code st = true ->
  outcome_sat (fun pos _ => (pos <= K)%nat) (fun _ => True) (fun _ => True)
    (step code find st).
Proof.
  unfold before_nul, scanning. intros [Hn [Hi Ha]] Hsc.
  apply andb_true_iff in Hsc. destruct Hsc as [_ Hb].
  apply negb_true_iff, Z.eqb_neq in Hb.
  pose proof (before_K (n st) Hn Hb) as HnK.
  pose proof (skipToParenthesis_before_K (n st) HnK) as Hskip.
  assert (Hx : (byte code (n st + 1) =? ch "x") = true -> (n st + 1 < K)%nat).
  { intros E. apply Z.eqb_eq in E. apply before_K; [lia|].
    rewrite E. discriminate. }
  step_cases; try exact I;
    try match goal with
        | H : (byte code (n st + 1) =? ch "x") = true |- _ => apply Hx in H
        end;
    lia.
Qed.

Lemma scan_agree (fuel : nat) :
  forall st : State,
    before_nul K st -> scan code' find fuel st = scan code find fuel st.
Proof.
  induction fuel as [|fuel IH]; intros st Hst; [reflexivity|].
  cbn [scan]. rewrite scanning_agree by apply Hst.
  destruct (scanning code st) eqn:Hsc; [|reflexivity].
  rewrite (step_agree st Hst Hsc).
  assert (Hnext : outcome_sat (fun _ _ => True) (before_nul K)
                    (fun st' => before_nul K (advance st'))
                    (step code find st))
    by exact (step_before_nul code find K K_inside K_nul st Hst Hsc).
  destruct (step code find st) as [pos msg|st'|st']; cbn [outcome_sat] in Hnext;
    [reflexivity| |]; now rewrite IH.
Qed.

Lemma at_loop_agree (k : nat) :
  forall (i : nat) (error : Info),
    (i + k <= K)%nat -> at_loop code' k i error = at_loop code k i error.
Proof.
  induction k as [|k IH]; intros i error Hk; [reflexivity|].
  cbn [at_loop].
  replace (nth i code' 0) with (nth i code 0)
    by (symmetry; apply same_bytes; lia).
  apply IH. lia.
Qed.

Lemma ErrorWriter_at_agree (error : Info) (pos : nat) (msg : EMessage) :
  (pos <= K)%nat ->
  ErrorWriter_at code' error pos msg = ErrorWriter_at code error pos msg.
Proof.
  intros Hpos. unfold ErrorWriter_at. cbv zeta. now rewrite at_loop_agree.
Qed.

Lemma flushLiteral_tItem (st : State) : tItem (flushLiteral st) = tItem st.
Proof.
  unfold flushLiteral.
  repeat match goal with
         | |- context [if ?b then _ else _] => destruct b
         end; reflexivity.
Qed.

Lemma endOfSource_agree (st : State) :
  before_nul K st -> endOfSource code' st = endOfSource code st.
Proof.
  intros [Hn [Hi _]]. unfold endOfSource, flushItem. cbv zeta. proj_goal.
  rewrite flushLiteral_tItem, findEncoding_agree by lia. reflexivity.
Qed.

(** [compile] gives the same result for both sources. *)
Lemma compile_agree (w : list Z) (error : Info) :
  compile code' find w error = compile code find w error.
Proof.
  assert (Hinit : before_nul K (initial w)) by (unfold before_nul; cbn; lia).
  pose proof (scan_fuel_enough code find w) as Hf.
  pose proof (scan_fuel_enough code' find w) as Hf'.
  pose proof (scan_fuel_monotone code find (fuel code) (initial w)
                (Nat.max (fuel code) (fuel code')) Hf (Nat.le_max_l _ _)) as H.
  pose proof (scan_fuel_monotone code' find (fuel code') (initial w)
                (Nat.max (fuel code) (fuel code')) Hf' (Nat.le_max_r _ _)) as H'.
  rewrite scan_agree in H' by assumption.
  unfold compile. rewrite <- H', H.
  pose proof (scan_reachable code find w (fuel code) (initial w)
                (Reachable_initial code find w)) as Hr.
  destruct (fst (scan code find (fuel code) (initial w))) as [pos msg st|st|];
    cbn [scan_result_ok] in Hr; [| |reflexivity].
  - destruct Hr as [Hst [Hsc Hstep]].
    pose proof (Reachable_before_nul code find K K_inside K_nul w st Hst) as Hb.
    pose proof (step_fail_position st Hb Hsc) as Hp. rewrite Hstep in Hp.
    cbn [outcome_sat] in Hp. now rewrite ErrorWriter_at_agree.
  - destruct Hr as [Hst _].
    pose proof (Reachable_before_nul code find K K_inside K_nul w st Hst) as Hb.
    rewrite (endOfSource_agree st Hb).
    destruct (endOfSource_position code st) as [_ Hp].
    destruct (endOfSource code st) as [st' [[pos msg]|]]; [|reflexivity].
    cbn [snd] in Hp. rewrite ErrorWriter_at_agree; [reflexivity|].
    rewrite (Hp pos msg eq_refl). apply Hb.
Qed.

End SameBytes.

(** *** The end-of-source handling at the NUL byte *)

(** Tests on known flags are computed. *)
Ltac ground t :=
  lazymatch t with
  | ?f ?x => ground f; ground x
  | _ => first [is_const t | is_constructor t]
  end.

Ltac const_tests :=
  repeat match goal with
         | |- context [within ?a ?b] =>
           ground a; ground b;
           let v := eval vm_compute in (within a b) in
           change (within a b) with v
         | |- context [Z.eqb ?a ?b] =>
           ground a; ground b;
           let v := eval vm_compute in (Z.eqb a b) in
           change (Z.eqb a b) with v
         | |- context [clear ?a ?b] =>
           ground a; ground b;
           let v := eval vm_compute in (clear a b) in
           change (clear a b) with v
         end.

Ltac end_cases H :=
  repeat (cbv beta iota zeta; proj_goal; rewrite ?H; const_tests).

Lemma arg_is_some (e : Encoding) (t : TableId) :
  arg_is e t = true -> Encoding.arg e = Some t.
Proof.
  unfold arg_is. destruct (Encoding.arg e) as [a|]; [|discriminate].
  intros H. apply internal_TableId_dec_bl in H. now subst a.
Qed.

Section EndOfSourceEffect.

Variable code : list Z.

(** The three checks that end [compile]: a collection left open, a
    delimiter set left open, and, with [rest] the message, anything else
    left open. *)
Definition open_levels (st : State) (rest : option EMessage)
    : option (nat * EMessage) :=
  if colLevel st >? 0 then Some (n st, E_Missing_EndCollection)
  else if delimLevel st >? 0 then Some (n st, E_Missing_DelimiterClose)
  else match rest with
       | Some msg => Some (n st, msg)
       | None => None
       end.

(** Nothing is pending: the checks alone. *)
Lemma endOfSource_idle_state (st : State) :
  flags st = HID_START \/ flags st = HID_WITHIN_COMMENT ->
  endOfSource code st = (st, open_levels st None).
Proof.
  intros [Hf|Hf]; unfold endOfSource, flushLiteral, flushItem, finalChecks,
    open_levels; end_cases Hf;
    destruct (colLevel st >? 0); [reflexivity| |reflexivity|];
    destruct (delimLevel st >? 0); reflexivity.
Qed.

(** A literal the source ends in is written, then the checks. *)
Lemma endOfSource_literal (st : State) :
  flags st = HID_WITHIN_NUM_LIT \/ flags st = HID_WITHIN_HEX_LIT ->
  endOfSource code st
  = (set_out (fst (encodeUnsigned (out st) (lit st))) (set_flags HID_START st),
     open_levels st None).
Proof.
  intros [Hf|Hf]; unfold endOfSource, flushLiteral, flushItem, finalChecks,
    open_levels; end_cases Hf;
    destruct (colLevel st >? 0); [reflexivity| |reflexivity|];
    destruct (delimLevel st >? 0); reflexivity.
Qed.

(** An item name the source ends in is resolved as in the loop; an item
    that takes no argument is written, then the checks. *)
Lemma endOfSource_item (st : State) :
  flags st = HID_WITHIN_ITEM ->
  (forall err,
     findEncoding code (tItem st) itemMap_tbl endOfMap E_Invalid_item_name
     = (None, err) ->
     snd (endOfSource code st) = Some (n st, err) /\
     out (fst (endOfSource code st)) = out st) /\
  (forall e err,
     findEncoding code (tItem st) itemMap_tbl endOfMap E_Invalid_item_name
     = (Some e, err) ->
     (Encoding.arg e = None ->
      out (fst (endOfSource code st))
      = fst (encodeUnsigned (out st) (Encoding.value e)) /\
      snd (endOfSource code st) = open_levels st None) /\
     (arg_is e colArgMap = true ->
      snd (endOfSource code st)
      = Some (n st, if usageAtLevel st =? colLevel st then E_Missing_argument
                    else E_Missing_Usage_for_Collection) /\
      out (fst (endOfSource code st)) = out st) /\
     (arg_is e endCol = true ->
      (colLevel st <= 0 ->
       snd (endOfSource code st) = Some (n st, E_Unexpected_EndCollection)) /\
      (0 < colLevel st -> reportSizes st = reportCounts st ->
       out (fst (endOfSource code st))
       = fst (encodeUnsigned (out st) (Encoding.value e)) /\
       snd (endOfSource code st)
       = open_levels (set_colLevel (colLevel st - 1) st) None)) /\
     (needsArgument e = true -> arg_is e colArgMap = false ->
      snd (endOfSource code st) = Some (n st, E_Missing_argument) /\
      out (fst (endOfSource code st)) = out st)).
Proof.
  intros Hf.
  assert (Hl : flushLiteral st = st) by (unfold flushLiteral; now rewrite Hf).
  unfold endOfSource. rewrite Hl. unfold flushItem. end_cases Hf.
  split.
  - intros err He. rewrite He. split; reflexivity.
  - intros e err He. rewrite He. unfold itemResolvedAtEnd. proj_goal.
    split; [|split; [|split]].
    + intros Ha.
      assert (H1 : forall t, arg_is e t = false)
        by (intros t; unfold arg_is; now rewrite Ha).
      assert (H2 : needsArgument e = false)
        by (unfold needsArgument; now rewrite Ha).
      rewrite !H1, H2. end_cases Hf. split; [reflexivity|].
      unfold finalChecks, open_levels. end_cases Hf.
      destruct (colLevel st >? 0); [reflexivity|].
      destruct (delimLevel st >? 0); reflexivity.
    + intros Hc. rewrite Hc.
      assert (H2 : needsArgument e = true).
      { unfold needsArgument. rewrite (arg_is_some e colArgMap Hc).
        reflexivity. }
      rewrite H2.
      destruct (usageAtLevel st =? colLevel st); split; reflexivity.
    + intros Hc.
      rewrite (arg_is_exclusive e endCol colArgMap Hc) by discriminate.
      rewrite Hc.
      assert (H2 : needsArgument e = false).
      { unfold needsArgument. rewrite (arg_is_some e endCol Hc). reflexivity. }
      rewrite H2. split.
      * intros Hle. destruct (Z.leb_spec (colLevel st) 0); [reflexivity|lia].
      * intros Hlt Heq. destruct (Z.leb_spec (colLevel st) 0); [lia|].
        rewrite Heq, Nat.ltb_irrefl. end_cases Hf. split; [reflexivity|].
        unfold finalChecks, open_levels. end_cases Hf.
        destruct (colLevel st - 1 >? 0); [reflexivity|].
        destruct (delimLevel st >? 0); reflexivity.
    + intros Hn Hc. rewrite Hc.
      assert (He' : arg_is e endCol = false).
      { destruct (arg_is e endCol) eqn:E; [|reflexivity].
        unfold needsArgument in Hn. rewrite (arg_is_some e endCol E) in Hn.
        discriminate Hn. }
      rewrite He', Hn. split; reflexivity.
Qed.

(** Anything else that is open, an argument list or a parameter, is what the
    last check reports; nothing is written. *)
Lemma endOfSource_open (st : State) :
  flags_ok (flags st) = true ->
  flags st <> HID_START -> flags st <> HID_WITHIN_COMMENT ->
  flags st <> HID_WITHIN_ITEM ->
  flags st <> HID_WITHIN_NUM_LIT -> flags st <> HID_WITHIN_HEX_LIT ->
  out (fst (endOfSource code st)) = out st /\
  snd (endOfSource code st)
  = open_levels st (Some E_Unexpected_end_of_source).
Proof.
  intros Hf H1 H2 H3 H4 H5. apply flags_ok_cases in Hf.
  cbn [valid_flags In] in Hf.
  repeat destruct Hf as [Hf|Hf]; [..|contradiction];
    try (symmetry in Hf; contradiction); symmetry in Hf;
    unfold endOfSource, flushLiteral, flushItem, finalChecks, open_levels;
    end_cases Hf;
    (destruct (colLevel st >? 0); [split; reflexivity|]);
    destruct (delimLevel st >? 0); split; reflexivity.
Qed.

End EndOfSourceEffect.

(** C10. If the source holds a NUL byte in front of [size()], the first one
    at offset [K], then the cursor never passes [K] and the tokens lie in
    front of the cursor, every pass of the scan loop has its cursor in front
    of [K], the loop is left at [K], and the end-of-source handling runs
    there and gives [compile] its result: a literal the text in front of
    the NUL ends in is written, an item name it ends in is resolved and the
    item written or refused, and then the collection depth, the delimiter
    depth and what else is open are checked, in this order, each reported
    at [K].  The bytes behind [K] and the length of the source have no part
    in the result: [compile] returns the same, with the same error
    information and the same output, for every source that holds the same
    bytes up to [K]. *)
Theorem scan_stops_at_nul (code : list Z) (find : list Z -> ParamMatch)
    (w : list Z) (K : nat) :
  (K < len code)%nat -> byte code K = 0 ->
  (forall i, (i < K)%nat -> byte code i <> 0) ->
  (forall st, Reachable code find w st ->
     (n st <= K)%nat /\
     (Token.start (tItem st) + Token.length (tItem st) <= n st)%nat /\
     (Token.start (tArg st) + Token.length (tArg st) <= n st)%nat) /\
  (forall p, In p (snd (scan code find (fuel code) (initial w))) -> (p < K)%nat) /\
  (forall st, fst (scan code find (fuel code) (initial w)) = EndOfSource st ->
     n st = K /\
     n (fst (endOfSource code st)) = K /\
     (forall pos msg, snd (endOfSource code st) = Some (pos, msg) -> pos = K) /\
     (forall error,
        compile code find w error
        = match snd (endOfSource code st) with
          | Some (_, msg) =>
            Some (false, fst (ErrorWriter_at code error K msg),
                  out (fst (endOfSource code st)))
          | None => Some (true, Info_default, out (fst (endOfSource code st)))
          end) /\
     (flags st = HID_START \/ flags st = HID_WITHIN_COMMENT ->
      endOfSource code st = (st, open_levels st None)) /\
     (flags st = HID_WITHIN_NUM_LIT \/ flags st = HID_WITHIN_HEX_LIT ->
      endOfSource code st
      = (set_out (fst (encodeUnsigned (out st) (lit st)))
           (set_flags HID_START st),
         open_levels st None)) /\
     (flags st = HID_WITHIN_ITEM ->
      (forall err,
         findEncoding code (tItem st) itemMap_tbl endOfMap E_Invalid_item_name
         = (None, err) ->
         snd (endOfSource code st) = Some (K, err) /\
         out (fst (endOfSource code st)) = out st) /\
      (forall e err,
         findEncoding code (tItem st) itemMap_tbl endOfMap E_Invalid_item_name
         = (Some e, err) ->
         (Encoding.arg e = None ->
          out (fst (endOfSource code st))
          = fst (encodeUnsigned (out st) (Encoding.value e)) /\
          snd (endOfSource code st) = open_levels st None) /\
         (arg_is e colArgMap = true ->
          snd (endOfSource code st)
          = Some (K, if usageAtLevel st =? colLevel st then E_Missing_argument
                     else E_Missing_Usage_for_Collection) /\
          out (fst (endOfSource code st)) = out st) /\
         (arg_is e endCol = true ->
          (colLevel st <= 0 ->
           snd (endOfSource code st) = Some (K, E_Unexpected_EndCollection)) /\
          (0 < colLevel st -> reportSizes st = reportCounts st ->
           out (fst (endOfSource code st))
           = fst (encodeUnsigned (out st) (Encoding.value e)) /\
           snd (endOfSource code st)
           = open_levels (set_colLevel (colLevel st - 1) st) None)) /\
         (needsArgument e = true -> arg_is e colArgMap = false ->
          snd (endOfSource code st) = Some (K, E_Missing_argument) /\
          out (fst (endOfSource code st)) = out st))) /\
     (flags st <> HID_START -> flags st <> HID_WITHIN_COMMENT ->
      flags st <> HID_WITHIN_ITEM ->
      flags st <> HID_WITHIN_NUM_LIT -> flags st <> HID_WITHIN_HEX_LIT ->
      out (fst (endOfSource code st)) = out st /\
      snd (endOfSource code st)
      = open_levels st (Some E_Unexpected_end_of_source))) /\
  (forall (code' : list Z) (error : Info),
     (K < len code')%nat ->
     (forall i, (i <= K)%nat -> byte code' i = byte code i) ->
     compile code' find w error = compile code find w error).
Proof.
  intros HK Hnul Hfirst.
  assert (Hinv : forall st, Reachable code find w st -> before_nul K st).
  { intros st Hst. eapply Reachable_before_nul; eassumption. }
  split; [|split; [|split]].
  - intros st Hst. exact (Hinv st Hst).
  - intros p Hp.
    destruct (scan_trace_reachable code find w (fuel code) (initial w)
                (Reachable_initial code find w) p Hp) as [st [Hst [Hsc Hn]]].
    destruct (Hinv st Hst) as [HnK _].
    unfold scanning in Hsc. apply andb_true_iff in Hsc. destruct Hsc as [_ Hb].
    apply negb_true_iff, Z.eqb_neq in Hb. subst p.
    eapply not_nul_before; eassumption.
  - intros st H.
    assert (Hn : n st = K) by (eapply EndOfSource_at_nul; eassumption).
    pose proof (scan_end_reachable code find w (fuel code) st H) as Hst.
    destruct (endOfSource_position code st) as [H1 H2].
    split; [assumption|]. split; [congruence|].
    split; [intros pos msg Hs; apply H2 in Hs; congruence|].
    split; [|split; [|split; [|split]]].
    + intros error. unfold compile. rewrite H.
      destruct (endOfSource code st) as [st' [[pos msg]|]] eqn:He;
        [|reflexivity].
      cbn [fst snd]. rewrite (H2 pos msg eq_refl), Hn. reflexivity.
    + apply endOfSource_idle_state.
    + apply endOfSource_literal.
    + intros Hf. rewrite <- Hn. now apply endOfSource_item.
    + apply endOfSource_open.
      exact (proj1 (Reachable_usage_page code find w st Hst)).
  - intros code' error HK' Hsame.
    exact (compile_agree code code' find K HK HK' Hnul Hsame w error).
Qed.

(** The text [Pop] in front of a NUL: the loop is left on the NUL with the
    name read, and the end-of-source handling writes the item. *)
Lemma scan_stops_at_nul_witness :
  let code := [ch "P"; ch "o"; ch "p"; 0; ch "$"] in
  let st :=
    mkState 0 0 (-1) 0 0 (Token.mk 0 3) (Token.mk 0 0) false false false false
      None None None HID_WITHIN_ITEM 0 0 0 3 [] in
  fst (scan code no_params (fuel code) (initial [])) = EndOfSource st /\
  out (fst (endOfSource code st)) = [0xB4] /\
  snd (endOfSource code st) = None /\
  compile code no_params [] Info_default = Some (true, Info_default, [0xB4]).
Proof.
  cbv zeta.
  assert (Hscan :
    fst (scan [ch "P"; ch "o"; ch "p"; 0; ch "$"] no_params
           (fuel [ch "P"; ch "o"; ch "p"; 0; ch "$"]) (initial []))
    = EndOfSource
        (mkState 0 0 (-1) 0 0 (Token.mk 0 3) (Token.mk 0 0) false false false
           false None None None HID_WITHIN_ITEM 0 0 0 3 []))
    by (vm_compute; reflexivity).
  destruct (scan_stops_at_nul [ch "P"; ch "o"; ch "p"; 0; ch "$"]
              no_params [] 3) as [_ [_ [Hend _]]].
  - vm_compute. lia.
  - reflexivity.
  - intros i Hi.
    destruct i as [|[|[|i]]]; [discriminate|discriminate|discriminate|lia].
  - destruct (Hend _ Hscan) as [_ [_ [_ [Hc [_ [_ [Hitem _]]]]]]].
    destruct (Hitem eq_refl) as [_ Hfound].
    destruct (Hfound (enc "Pop" 0xB4) E_NO_ERROR) as [Hw _];
      [vm_compute; reflexivity|].
    destruct (Hw eq_refl) as [Hout Hr].
    split; [exact Hscan|]. split; [exact Hout|]. split; [exact Hr|].
    rewrite (Hc Info_default), Hr, Hout. reflexivity.
Defined.

(** * Further properties of the code *)

(** ** String helpers *)

(** A C string argument is the list of its bytes in front of the NUL; memory
    that is read through a pointer is a list that reads as 0 behind its
    end. *)

(** [strLen], on the memory [str] points to. *)
Fixpoint strLen (str : list Z) : nat :=
  match str with
  | [] => 0
  | c :: str' => if c =? 0 then 0 else S (strLen str')
  end.

(** [startWidth] *)
Fixpoint startWidth_from (prefix str : list Z) (res : nat) : nat :=
  match prefix with
  | [] => res
  | p :: prefix' =>
    if p =? hd 0 str then startWidth_from prefix' (tl str) (S res) else 0%nat
  end.

Definition startWidth (prefix str : list Z) : nat := startWidth_from prefix str 0.

(** [startWidthN]: as [startWidthIN], the match length is returned as a
    [bool]. *)
Fixpoint startWidthN_len (prefix : list Z) (len : nat) (str : list Z)
    (n res : nat) : nat :=
  match prefix with
  | [] => res
  | p :: prefix' =>
    if (p =? hd 0 str) && (n <? len)%nat
    then startWidthN_len prefix' len (tl str) (S n) (S res)
    else if (len <=? n)%nat then res else 0%nat
  end.

Definition startWidthN (prefix : list Z) (len : nat) (str : list Z) : bool :=
  negb (startWidthN_len prefix len str 0 0 =? 0)%nat.

(** The first [k] bytes of two strings are the same after [f]. *)
Fixpoint agree_upto (f : Z -> Z) (k : nat) (s1 s2 : list Z) : bool :=
  match k with
  | O => true
  | S k' => (f (hd 0 s1) =? f (hd 0 s2)) && agree_upto f k' (tl s1) (tl s2)
  end.

(** The index of the first NUL of [str], if there is one. *)
Lemma strLen_first_nul (str : list Z) :
  (strLen str <= List.length str)%nat /\
  nth (strLen str) str 0 = 0 /\
  forall i, (i < strLen str)%nat -> nth i str 0 <> 0.
Proof.
  induction str as [|c str [IH1 [IH2 IH3]]].
  - cbn. repeat split; [lia|]. intros i Hi. lia.
  - cbn [strLen]. destruct (Z.eqb_spec c 0) as [->|Hc].
    + cbn. repeat split; [lia|]. intros i Hi. lia.
    + cbn [List.length nth]. repeat split; [lia|assumption|].
      intros [|i] Hi; [exact Hc|]. cbn [nth]. apply IH3. lia.
Qed.

(** [strLen] is the number of bytes in front of the first NUL, whatever
    follows it. *)
Lemma strLen_app (s rest : list Z) :
  ~ In 0 s -> strLen (s ++ 0 :: rest) = List.length s /\ strLen s = List.length s.
Proof.
  induction s as [|c s IH]; intros Hs; [split; reflexivity|].
  cbn [app strLen List.length].
  destruct (Z.eqb_spec c 0) as [->|_]; [exfalso; apply Hs; now left|].
  destruct IH as [IH1 IH2]; [intros H; apply Hs; now right|].
  now rewrite IH1, IH2.
Qed.

(** X1. [strLen] returns the offset of the first NUL: it is inside the memory
    read or at its end, the byte there is a NUL (memory reads as 0 behind
    its end), no byte in front of it is one, and what follows it has no
    part in the result. *)
Lemma strLen_spec (str : list Z) :
  (strLen str <= List.length str)%nat /\
  nth (strLen str) str 0 = 0 /\
  (forall i, (i < strLen str)%nat -> nth i str 0 <> 0) /\
  (forall s rest, str = s ++ 0 :: rest -> ~ In 0 s ->
     strLen str = List.length s) /\
  (~ In 0 str -> strLen str = List.length str).
Proof.
  destruct (strLen_first_nul str) as [H1 [H2 H3]].
  split; [assumption|]. split; [assumption|]. split; [assumption|]. split.
  - intros s rest -> Hs. now apply strLen_app.
  - intros Hs. now apply (strLen_app str []).
Qed.

Lemma equals_iff (left right : list Z) :
  equals left right = true <-> left = right.
Proof.
  revert right. induction left as [|l left IH]; intros [|r right]; cbn [equals];
    try (split; [discriminate|discriminate]); [split; reflexivity|].
  destruct (Z.eqb_spec l r) as [->|Hne].
  - rewrite IH. split; [now intros ->|now intros [= ->]].
  - split; [discriminate|]. intros [= H _]. contradiction.
Qed.

Lemma equals_str_iff (str1 str2 : list Z) :
  equals_str str1 str2 = true <-> str1 = str2.
Proof.
  revert str2. induction str1 as [|x str1 IH]; intros [|y str2];
    cbn [equals_str];
    try (split; [discriminate|discriminate]); [split; reflexivity|].
  destruct (Z.eqb_spec x y) as [->|Hne].
  - rewrite IH. split; [now intros ->|now intros [= ->]].
  - split; [discriminate|]. intros [= H _]. contradiction.
Qed.

(** X2. Both [equals], the one on two strings and the one on a token and a
    string, hold exactly if the two have the same bytes: the same length and
    the same letter case. *)
Lemma equals_exact (left right : list Z) :
  (equals left right = true <-> left = right) /\
  (equals_str left right = true <-> left = right) /\
  equals left right = equals_str left right /\
  (equals left right = true -> List.length left = List.length right).
Proof.
  split; [apply equals_iff|]. split; [apply equals_str_iff|]. split.
  - destruct (equals left right) eqn:E1, (equals_str left right) eqn:E2;
      try reflexivity.
    + apply equals_iff, equals_str_iff in E1. congruence.
    + apply equals_str_iff, equals_iff in E2. congruence.
  - intros H. apply equals_iff in H. now subst.
Qed.

Lemma equalsI_iff (left right : list Z) :
  equalsI left right = true <-> map toUpper left = map toUpper right.
Proof.
  revert right. induction left as [|l left IH]; intros [|r right];
    cbn [equalsI map];
    try (split; [discriminate|discriminate]); [split; reflexivity|].
  destruct (Z.eqb_spec (toUpper l) (toUpper r)) as [He|Hne].
  - rewrite IH, He. split; [now intros ->|now intros [= ->]].
  - split; [discriminate|]. intros [= H _]. contradiction.
Qed.

(** X3. [equalsI] holds exactly if the two have the same bytes after [toUpper]:
    it is [equals] with the letter case ignored, and a reflexive, symmetric
    and transitive comparison. *)
Lemma equalsI_ignores_case (left right : list Z) :
  (equalsI left right = true
   <-> List.map toUpper left = List.map toUpper right) /\
  (equals left right = true -> equalsI left right = true) /\
  equalsI left left = true /\
  equalsI left right = equalsI right left /\
  (forall other, equalsI left right = true -> equalsI right other = true ->
                 equalsI left other = true) /\
  (equalsI left right = true -> List.length left = List.length right).
Proof.
  split; [apply equalsI_iff|]. split; [|split; [|split; [|split]]].
  - intros H. apply equals_iff in H. subst. now apply equalsI_iff.
  - now apply equalsI_iff.
  - destruct (equalsI left right) eqn:E1, (equalsI right left) eqn:E2;
      try reflexivity.
    + apply equalsI_iff in E1. symmetry in E1. apply equalsI_iff in E1.
      congruence.
    + apply equalsI_iff in E2. symmetry in E2. apply equalsI_iff in E2.
      congruence.
  - intros other H1 H2. apply equalsI_iff in H1, H2. apply equalsI_iff.
    congruence.
  - intros H. apply equalsI_iff in H.
    apply (f_equal (@List.length Z)) in H. now rewrite !length_map in H.
Qed.

(** X4. For a character [c] of 0..127, where comparing a [char] with an
    [int] does not depend on the signedness of [char], and a string [str],
    given by the bytes in front of its terminating NUL: [strFindChr] answers
    [-1] exactly if the character is not in the string, and otherwise with
    the index of its first occurrence. *)
Lemma strFindChr_spec (str : list Z) (c : Z) :
  0 <= c <= 127 -> ~ In 0 str ->
  (strFindChr str c = -1 <-> ~ In c str) /\
  (forall pre post, str = pre ++ c :: post -> ~ In c pre ->
     strFindChr str c = Z.of_nat (List.length pre)).
Proof.
  intros _ _. split.
  - split.
    + intros H Hin. apply in_split in Hin. destruct Hin as [pre [post ->]].
      assert (Hex : exists p q, pre ++ c :: post = p ++ c :: q /\ ~ In c p).
      { clear H. induction pre as [|x pre IH].
        - exists [], post. split; [reflexivity|intros []].
        - destruct (Z.eq_dec x c) as [->|Hx].
          + exists [], (pre ++ c :: post). split; [reflexivity|intros []].
          + destruct IH as [p [q [E Hp]]]. exists (x :: p), q. split.
            * cbn. now rewrite E.
            * intros [H|H]; [contradiction|now apply Hp]. }
      destruct Hex as [p [q [E Hp]]]. rewrite E in H. unfold strFindChr in H.
      rewrite strFindChr_from_first in H by assumption. lia.
    + intros H. now apply strFindChr_from_absent.
  - intros pre post -> Hpre. unfold strFindChr.
    now rewrite strFindChr_from_first.
Qed.

(** The [#] of [Button#], the call [findEncoding] makes. *)
Lemma strFindChr_spec_witness :
  strFindChr (bytes_of "Button#") (ch "#") = 6.
Proof.
  refine (proj2 (strFindChr_spec (bytes_of "Button#") (ch "#") _ _)
            (bytes_of "Button") [] _ _).
  - vm_compute. split; discriminate.
  - vm_compute. intuition discriminate.
  - reflexivity.
  - vm_compute. intuition discriminate.
Defined.

Lemma startWidth_from_spec (prefix : list Z) :
  forall (str : list Z) (res : nat),
    startWidth_from prefix str res
    = if agree_upto (fun c => c) (List.length prefix) prefix str
      then (res + List.length prefix)%nat else 0%nat.
Proof.
  induction prefix as [|p prefix IH]; intros str res.
  - cbn. now rewrite Nat.add_0_r.
  - cbn [startWidth_from List.length agree_upto hd tl].
    destruct (p =? hd 0 str); cbn [andb]; [|reflexivity].
    rewrite IH. now rewrite Nat.add_succ_r.
Qed.

(** X5. [startWidth] returns the length of the prefix if the string starts with
    it and 0 otherwise, so that the empty prefix, which every string starts
    with, is answered like a mismatch. *)
Lemma startWidth_spec (prefix str : list Z) :
  startWidth prefix str
  = (if agree_upto (fun c => c) (List.length prefix) prefix str
     then List.length prefix else 0%nat) /\
  startWidth [] str = 0%nat.
Proof.
  split; [|reflexivity]. unfold startWidth. now rewrite startWidth_from_spec.
Qed.

Lemma startWidthN_len_spec (prefix : list Z) (len : nat) :
  forall (str : list Z) (n res : nat),
    startWidthN_len prefix len str n res
    = if agree_upto (fun c => c) (Nat.min (len - n) (List.length prefix))
           prefix str
      then (res + Nat.min (len - n) (List.length prefix))%nat else 0%nat.
Proof.
  induction prefix as [|p prefix IH]; intros str n res.
  - cbn [startWidthN_len List.length]. rewrite Nat.min_0_r. cbn.
    now rewrite Nat.add_0_r.
  - cbn [startWidthN_len List.length].
    destruct (Nat.ltb_spec n len) as [Hn|Hn].
    + replace (Nat.min (len - n) (S (List.length prefix)))
        with (S (Nat.min (len - S n) (List.length prefix))) by lia.
      cbn [agree_upto hd tl].
      destruct (p =? hd 0 str); cbn [andb].
      * rewrite IH. now rewrite Nat.add_succ_r.
      * destruct (Nat.leb_spec len n); [lia|reflexivity].
    + rewrite andb_false_r. destruct (Nat.leb_spec len n); [|lia].
      replace (len - n)%nat with 0%nat by lia. cbn. now rewrite Nat.add_0_r.
Qed.

(** X6. [startWidthN] holds exactly if the first [min len (strlen prefix)]
    bytes are the same and there is at least one of them: with [len] 0 or the
    empty prefix the answer is [false]. *)
Lemma startWidthN_spec (prefix : list Z) (len : nat) (str : list Z) :
  startWidthN prefix len str
  = (0 <? Nat.min len (List.length prefix))%nat
    && agree_upto (fun c => c) (Nat.min len (List.length prefix)) prefix str.
Proof.
  unfold startWidthN. rewrite startWidthN_len_spec, Nat.sub_0_r.
  destruct (agree_upto _ _ _ _); [|now rewrite andb_false_r].
  rewrite andb_true_r. cbn [Nat.add].
  now destruct (Nat.min len (List.length prefix)).
Qed.

Lemma startWidthIN_len_spec (prefix : list Z) (len : nat) :
  forall (str : list Z) (n res : nat),
    startWidthIN_len prefix len str n res
    = if agree_upto toUpper (Nat.min (len - n) (List.length prefix)) prefix str
      then (res + Nat.min (len - n) (List.length prefix))%nat else 0%nat.
Proof.
  induction prefix as [|p prefix IH]; intros str n res.
  - cbn [startWidthIN_len List.length]. rewrite Nat.min_0_r. cbn.
    now rewrite Nat.add_0_r.
  - cbn [startWidthIN_len List.length].
    destruct (Nat.ltb_spec n len) as [Hn|Hn].
    + replace (Nat.min (len - n) (S (List.length prefix)))
        with (S (Nat.min (len - S n) (List.length prefix))) by lia.
      cbn [agree_upto hd tl].
      destruct (toUpper p =? toUpper (hd 0 str)); cbn [andb].
      * rewrite IH. now rewrite Nat.add_succ_r.
      * destruct (Nat.leb_spec len n); [lia|reflexivity].
    + rewrite andb_false_r. destruct (Nat.leb_spec len n); [|lia].
      replace (len - n)%nat with 0%nat by lia. cbn. now rewrite Nat.add_0_r.
Qed.

(** X7. [startWidthIN] holds exactly if the first [min len (strlen prefix)]
    bytes are the same after [toUpper] and there is at least one of them. *)
Lemma startWidthIN_spec (prefix : list Z) (len : nat) (str : list Z) :
  startWidthIN prefix len str
  = (0 <? Nat.min len (List.length prefix))%nat
    && agree_upto toUpper (Nat.min len (List.length prefix)) prefix str.
Proof.
  unfold startWidthIN. rewrite startWidthIN_len_spec, Nat.sub_0_r.
  destruct (agree_upto _ _ _ _); [|now rewrite andb_false_r].
  rewrite andb_true_r. cbn [Nat.add].
  now destruct (Nat.min len (List.length prefix)).
Qed.

(** Comparisons of integers that linear arithmetic decides are computed. *)
Ltac decide_tests :=
  repeat match goal with
         | |- context [?a <=? ?b] =>
           first [ replace (a <=? b) with true by (symmetry; apply Z.leb_le; lia)
                 | replace (a <=? b) with false
                     by (symmetry; apply Z.leb_gt; lia) ]
         | |- context [?a =? ?b] =>
           first [ replace (a =? b) with true by (symmetry; apply Z.eqb_eq; lia)
                 | replace (a =? b) with false
                     by (symmetry; apply Z.eqb_neq; lia) ]
         end;
  cbn [andb orb negb]; cbv iota.

Ltac char_codes :=
  repeat match goal with
         | |- context [ch ?a] =>
           let v := eval vm_compute in (ch a) in change (ch a) with v
         end.

(** X8. [toUpper] and [toLower] exchange the two cases of a letter and leave
    every other value alone. *)
Lemma toUpper_toLower (c : Z) :
  toUpper (toLower c) = toUpper c /\ toLower (toUpper c) = toLower c /\
  toUpper (toUpper c) = toUpper c /\ toLower (toLower c) = toLower c /\
  (isAlpha c = false -> toUpper c = c /\ toLower c = c) /\
  (isAlpha c = true ->
     isAlpha (toUpper c) = true /\ isAlpha (toLower c) = true /\
     toUpper c = (if c <=? 90 then c else c - 32) /\
     toLower c = (if c <=? 90 then c + 32 else c)).
Proof.
  unfold toUpper, toLower, isAlpha. char_codes.
  assert (Hc : c < 65 \/ 65 <= c <= 90 \/ 91 <= c <= 96 \/ 97 <= c <= 122 \/
               122 < c) by lia.
  destruct Hc as [Hc|[Hc|[Hc|[Hc|Hc]]]]; decide_tests; decide_tests;
    repeat split; intros; try discriminate; lia.
Qed.

(** X9. The character classes of the lexer: an item character is an argument
    character, a digit is a hexadecimal digit, a hexadecimal digit is an
    argument character; blanks, comment characters, the NUL and the
    punctuation of the language are no argument characters. *)
Lemma character_classes (c : Z) :
  (isItemChar c = true -> isArgChar c = true) /\
  (isDigit c = true -> isHexDigit c = true) /\
  (isHexDigit c = true -> isArgChar c = true) /\
  (isArgChar c = true ->
     isWhitespace c = false /\ isComment c = false /\ c <> 0 /\
     c <> ch "(" /\ c <> ch ")" /\ c <> ch "," /\ c <> ch "{" /\ c <> ch "}" /\
     c <> ch "-" /\ c <> ch "^") /\
  (isWhitespace c = true -> isComment c = false /\ c <> 0).
Proof.
  unfold isItemChar, isArgChar, isHexDigit, isDigit, isAlpha, isWhitespace,
    isComment. char_codes.
  assert (Hc : c < 9 \/ 9 <= c <= 13 \/ 14 <= c <= 31 \/ c = 32 \/
               33 <= c <= 34 \/ c = 35 \/ 36 <= c <= 47 \/ 48 <= c <= 57 \/
               c = 58 \/ c = 59 \/ 60 <= c <= 64 \/ 65 <= c <= 70 \/
               71 <= c <= 90 \/ 91 <= c <= 94 \/ c = 95 \/ c = 96 \/
               97 <= c <= 102 \/ 103 <= c <= 122 \/ 122 < c) by lia.
  repeat destruct Hc as [Hc|Hc]; decide_tests;
    repeat split; intros; try discriminate; try lia.
  all: repeat match goal with
              | |- context [?a =? ?b] => destruct (Z.eqb_spec a b)
              end; cbn [orb] in *; try discriminate; try reflexivity; lia.
Qed.

Lemma isWhitespace_not_digit (c : Z) :
  isWhitespace c = true -> isDigit c = false.
Proof.
  intros H. destruct (isDigit c) eqn:E; [|reflexivity].
  unfold isWhitespace in H. unfold isDigit in E. revert H E. char_codes.
  repeat match goal with
         | |- context [?a =? ?b] => destruct (Z.eqb_spec a b)
         end; cbn [orb]; intros; try discriminate; lia.
Qed.

(** ** [Source] and [fromSource] *)

(** [struct Source<S, P>]: [S] bytes of code and [P] parameters. *)
Record Source : Set := mkSource {
  Source_code : list Z;
  Source_params : list Param
}.

Definition Source_data (s : Source) : list Z := Source_code s.
Definition Source_size (s : Source) : nat := List.length (Source_code s).
Definition Source_count (s : Source) : nat := List.length (Source_params s).

(** [Source::operator()]: the code and the parameters are copied and the new
    parameter is put behind them. *)
Definition Source_add (s : Source) (name : string) (value : Z) : Source :=
  mkSource (Source_code s) (Source_params s ++ [mkParam name value]).

(** [fromSource]: the [N] bytes of the array and a NUL behind them. *)
Definition fromSource (source : list Z) : Source :=
  mkSource (source ++ [0]) [].

Lemma find_from_last_some (token : list Z) (rparams : list Param) :
  valid (find_from_last token rparams) = true <->
  exists p, In p rparams /\ bytes_of (param_name p) = token.
Proof.
  induction rparams as [|p rest IH]; cbn [find_from_last].
  - split; [discriminate|intros [p [[] _]]].
  - destruct (equals token (bytes_of (param_name p))) eqn:E.
    + apply equals_iff in E. cbn [valid]. split; [|reflexivity].
      intros _. exists p. split; [now left|now symmetry].
    + rewrite IH. split.
      * intros [q [Hq Hn]]. exists q. split; [now right|assumption].
      * intros [q [[<-|Hq] Hn]]; [|now exists q].
        rewrite <- Hn in E.
        assert (Ht : equals (bytes_of (param_name p)) (bytes_of (param_name p))
                     = true) by now apply equals_iff.
        congruence.
Qed.

(** X10. [Source::find] looks a parameter up by the exact bytes of its name and
    answers with the value given last under that name; a name that was never
    given is answered with [valid] unset and the value 0.  A parameter added
    with [operator()] is found under its name and hides the earlier ones of
    that name, the other names and the code are left as they were. *)
Lemma Source_find_last (s : Source) (token : list Z) :
  (forall name value,
     Source_code (Source_add s name value) = Source_code s /\
     Source_count (Source_add s name value) = S (Source_count s) /\
     Source_find (Source_params (Source_add s name value)) token
     = if equals token (bytes_of name) then mkParamMatch value true
       else Source_find (Source_params s) token) /\
  (valid (Source_find (Source_params s) token) = true <->
   exists p, In p (Source_params s) /\ bytes_of (param_name p) = token) /\
  (valid (Source_find (Source_params s) token) = false ->
   Source_find (Source_params s) token = mkParamMatch 0 false) /\
  (forall before p after,
     Source_params s = before ++ p :: after ->
     bytes_of (param_name p) = token ->
     (forall q, In q after -> bytes_of (param_name q) <> token) ->
     Source_find (Source_params s) token = mkParamMatch (param_value p) true).
Proof.
  split; [|split; [|split]].
  - intros name value. split; [reflexivity|]. split.
    + unfold Source_count, Source_add. cbn [Source_params].
      rewrite length_app. cbn. lia.
    + unfold Source_find, Source_add. cbn [Source_params].
      rewrite rev_app_distr. reflexivity.
  - unfold Source_find. rewrite find_from_last_some. split.
    + intros [p [Hp Hn]]. exists p. split; [now apply in_rev|assumption].
    + intros [p [Hp Hn]]. exists p. split; [now apply in_rev in Hp|assumption].
  - unfold Source_find. induction (rev (Source_params s)) as [|p rest IH];
      [reflexivity|].
    cbn [find_from_last]. destruct (equals token (bytes_of (param_name p)));
      [discriminate|assumption].
  - intros before p after Hs Hname Hafter. unfold Source_find. rewrite Hs.
    rewrite rev_app_distr. cbn [rev]. rewrite <- app_assoc. cbn [app].
    assert (Hrev : forall q, In q (rev after) ->
                             bytes_of (param_name q) <> token).
    { intros q Hq. apply Hafter. now apply in_rev. }
    induction (rev after) as [|q rest IH].
    + cbn [app find_from_last].
      replace (equals token (bytes_of (param_name p))) with true
        by (symmetry; now apply equals_iff). reflexivity.
    + cbn [app find_from_last].
      destruct (equals token (bytes_of (param_name q))) eqn:E.
      * apply equals_iff in E. exfalso. apply (Hrev q); [now left|now symmetry].
      * apply IH. intros r Hr. apply Hrev. now right.
Qed.

(** ** The writer of [compile] *)

(** [compile] is a template over the writer and uses [out] only to call
    [write], through [encodeValue], which drops the result of the call.  The
    list writer of the model records the bytes that are passed to [write]. *)

(** The bytes [w] in front of what a state has written. *)
Definition prepend (w : list Z) (st : State) : State :=
  set_out (w ++ out st) st.

Definition Outcome_map (f : State -> State) (o : Outcome) : Outcome :=
  match o with
  | Fail pos msg => Fail pos msg
  | Continue st => Continue (f st)
  | Next st => Next (f st)
  end.

Lemma encodeValue_app (w o : list Z) (val : Z) (len : nat) :
  fst (encodeValue (w ++ o) val len) = w ++ fst (encodeValue o val len).
Proof.
  unfold encodeValue, write. cbv zeta.
  destruct (1 <? len)%nat; [destruct (2 <? len)%nat|]; cbn [fst];
    now rewrite <- ?app_assoc.
Qed.

Lemma encodeUnsigned_app (w o : list Z) (val : Z) :
  fst (encodeUnsigned (w ++ o) val) = w ++ fst (encodeUnsigned o val).
Proof. apply encodeValue_app. Qed.

Lemma encodeSigned_app (w o : list Z) (val : Z) :
  fst (encodeSigned (w ++ o) val) = w ++ fst (encodeSigned o val).
Proof.
  unfold encodeSigned. cbv zeta.
  destruct (absVal_i32 val >? 32767); [apply encodeValue_app|].
  destruct (absVal_i32 val >? 127); apply encodeValue_app.
Qed.

Ltac prepend_cases :=
  repeat (repeat (progress (cbv beta iota zeta; proj_goal));
          rewrite ?encodeUnsigned_app, ?encodeSigned_app;
          lazymatch goal with
          | |- ?x = ?x => reflexivity
          | |- _ = Outcome_map _ (if ?b then _ else _) =>
            let c := head_test b in destruct c
          | |- _ = Outcome_map _ (match ?x with _ => _ end) =>
            let c := head_test x in destruct c
          | |- _ = Outcome_map _ (Fail _ _) => reflexivity
          | |- _ = Outcome_map _ (Continue _) => cbn [Outcome_map]
          | |- _ = Outcome_map _ (Next _) => cbn [Outcome_map]
          | |- Continue _ = Continue _ => unfold prepend; proj_goal
          | |- Next _ = Next _ => unfold prepend; proj_goal
          end);
  rewrite ?encodeUnsigned_app, ?encodeSigned_app; try reflexivity;
  repeat (match goal with
          | |- context [if ?b then _ else _] => destruct b
          end; proj_goal; rewrite ?encodeUnsigned_app, ?encodeSigned_app);
  try reflexivity.

Section Prepend.

Variable code : list Z.
Variable find : list Z -> ParamMatch.
Variable w : list Z.

(** A pass does the same with [w] in front of the writer. *)
Lemma step_prepend (st : State) :
  step code find (prepend w st) = Outcome_map (prepend w) (step code find st).
Proof.
  unfold prepend at 1. unfold_step. prepend_cases.

Qed.

Definition ScanResult_map (f : State -> State) (r : ScanResult) : ScanResult :=
  match r with
  | Stopped pos msg st => Stopped pos msg (f st)
  | EndOfSource st => EndOfSource (f st)
  | OutOfFuel => OutOfFuel
  end.

Lemma scan_prepend (fuel : nat) :
  forall st : State,
    scan code find fuel (prepend w st)
    = (ScanResult_map (prepend w) (fst (scan code find fuel st)),
       snd (scan code find fuel st)).
Proof.
  induction fuel as [|fuel IH]; intros st; [reflexivity|].
  cbn [scan]. change (scanning code (prepend w st)) with (scanning code st).
  destruct (scanning code st); [|reflexivity].
  rewrite step_prepend. change (n (prepend w st)) with (n st).
  destruct (step code find st) as [pos msg|st'|st']; cbn [Outcome_map].
  - reflexivity.
  - rewrite IH. now destruct (scan code find fuel st').
  - change (advance (prepend w st')) with (prepend w (advance st')).
    rewrite IH. now destruct (scan code find fuel (advance st')).
Qed.

Lemma flushLiteral_prepend (st : State) :
  flushLiteral (prepend w st) = prepend w (flushLiteral st).
Proof.
  unfold flushLiteral, prepend. cbv zeta. proj_goal.
  destruct (within HID_WITHIN_HEX_LIT (flags st)
            || within HID_WITHIN_NUM_LIT (flags st)); [|reflexivity].
  destruct (clear (Z.lor HID_WITHIN_HEX_LIT HID_WITHIN_NUM_LIT) (flags st)
            =? HID_START); proj_goal; rewrite ?encodeUnsigned_app; reflexivity.
Qed.

Lemma flushItem_prepend (st : State) :
  flushItem code (prepend w st)
  = (prepend w (fst (flushItem code st)), snd (flushItem code st)).
Proof.
  unfold flushItem, itemResolvedAtEnd, prepend. cbv zeta. proj_goal.
  destruct (within HID_WITHIN_ITEM (flags st)); [|reflexivity].
  destruct (findEncoding code (tItem st) itemMap_tbl endOfMap
              E_Invalid_item_name) as [[e|] subError]; [|reflexivity].
  destruct (arg_is e colArgMap).
  - destruct (negb (usageAtLevel st =? colLevel st)); [reflexivity|].
    destruct (needsArgument e); [reflexivity|]. proj_goal.
    destruct (clear HID_WITHIN_ITEM (flags st) =? HID_START); cbn [fst snd];
      proj_goal; rewrite ?encodeUnsigned_app; reflexivity.
  - destruct (arg_is e endCol).
    + destruct (colLevel st <=? 0); [reflexivity|].
      destruct (reportSizes st <? reportCounts st)%nat; [reflexivity|].
      destruct (reportCounts st <? reportSizes st)%nat; [reflexivity|].
      destruct (needsArgument e); [reflexivity|]. proj_goal.
      destruct (clear HID_WITHIN_ITEM (flags st) =? HID_START); cbn [fst snd];
        proj_goal; rewrite ?encodeUnsigned_app; reflexivity.
    + destruct (needsArgument e); [reflexivity|]. proj_goal.
      destruct (clear HID_WITHIN_ITEM (flags st) =? HID_START); cbn [fst snd];
        proj_goal; rewrite ?encodeUnsigned_app; reflexivity.
Qed.

Lemma endOfSource_prepend (st : State) :
  endOfSource code (prepend w st)
  = (prepend w (fst (endOfSource code st)), snd (endOfSource code st)).
Proof.
  unfold endOfSource. rewrite flushLiteral_prepend, flushItem_prepend.
  destruct (flushItem code (flushLiteral st)) as [st' [msg|]]; reflexivity.
Qed.

End Prepend.

Lemma ErrorWriter_at_fresh (code : list Z) (error error' : Info) (pos : nat)
    (msg : EMessage) :
  ErrorWriter_at code error pos msg = ErrorWriter_at code error' pos msg.
Proof. reflexivity. Qed.

Lemma compile_prepend (code : list Z) (find : list Z -> ParamMatch)
    (w : list Z) (error error' : Info) :
  compile code find w error
  = match compile code find [] error' with
    | Some (r, info, bytes) => Some (r, info, w ++ bytes)
    | None => None
    end.
Proof.
  unfold compile.
  replace (initial w) with (prepend w (initial []))
    by (unfold prepend, initial; cbn; now rewrite app_nil_r).
  rewrite scan_prepend. cbn [fst].
  destruct (fst (scan code find (fuel code) (initial [])))
    as [pos msg st|st|]; cbn [ScanResult_map]; [| |reflexivity].
  - rewrite (ErrorWriter_at_fresh code error error').
    now destruct (ErrorWriter_at code error' pos msg).
  - rewrite endOfSource_prepend.
    destruct (endOfSource code st) as [st' [[pos msg]|]]; cbn [fst snd].
    + rewrite (ErrorWriter_at_fresh code error error').
      now destruct (ErrorWriter_at code error' pos msg).
    + reflexivity.
Qed.

(** ** What every run of [compile] keeps *)

Definition is_byte (b : Z) : Prop := 0 <= b < 256.

Lemma encodeValue_is_byte (o : list Z) (val : Z) (len : nat) :
  Forall is_byte o -> Forall is_byte (fst (encodeValue o val len)).
Proof.
  intros Ho. rewrite encodeValue_bytes. apply Forall_app. split; [assumption|].
  destruct len as [|[|[|k]]]; repeat constructor; apply Z.mod_pos_bound; lia.
Qed.

Lemma encodeUnsigned_is_byte (o : list Z) (val : Z) :
  Forall is_byte o -> Forall is_byte (fst (encodeUnsigned o val)).
Proof. apply encodeValue_is_byte. Qed.

Lemma encodeSigned_is_byte (o : list Z) (val : Z) :
  Forall is_byte o -> Forall is_byte (fst (encodeSigned o val)).
Proof.
  intros Ho. unfold encodeSigned. cbv zeta.
  destruct (absVal_i32 val >? 32767); [now apply encodeValue_is_byte|].
  destruct (absVal_i32 val >? 127); now apply encodeValue_is_byte.
Qed.

Section RunFacts.

Variable code : list Z.
Variable find : list Z -> ParamMatch.

(** No NUL in front of offset [k]. *)
Definition nul_free (k : nat) : Prop :=
  forall i, (i < k)%nat -> byte code i <> 0.

Lemma nul_free_le (k k' : nat) : (k <= k')%nat -> nul_free k' -> nul_free k.
Proof. intros Hk H i Hi. apply H. lia. Qed.

Lemma skipWhitespaces_nul_free (k : nat) :
  forall i : nat,
    nul_free (S i) -> nul_free (S (skipWhitespaces code k i)).
Proof.
  induction k as [|k IH]; intros i Hi; cbn [skipWhitespaces]; [assumption|].
  destruct ((i + 1 <? len code)%nat && isWhitespace (byte code (i + 1))) eqn:E;
    [|assumption].
  apply andb_true_iff in E. destruct E as [_ E].
  replace (i + 1)%nat with (S i) in E by lia.
  apply IH. intros j Hj. destruct (Nat.eq_dec j (S i)) as [->|Hne].
  - intros H0. rewrite H0 in E. discriminate.
  - apply Hi. lia.
Qed.

Lemma skipToParenthesis_nul_free (i : nat) :
  nul_free (S i) -> nul_free (S (skipToParenthesis code i)).
Proof.
  intros Hi. unfold skipToParenthesis.
  pose proof (skipWhitespaces_nul_free (len code) i Hi) as Hs.
  set (m := skipWhitespaces code (len code) i) in *.
  destruct ((m + 1 <? len code)%nat && (byte code (m + 1) =? ch "(")) eqn:E;
    [|assumption].
  apply andb_true_iff in E. destruct E as [_ E]. apply Z.eqb_eq in E.
  replace (m + 1)%nat with (S m) in E by lia.
  intros j Hj. destruct (Nat.eq_dec j (S m)) as [->|Hne].
  - rewrite E. discriminate.
  - apply Hs. lia.
Qed.

Lemma step_cursor (st : State) :
  nul_free (n st) -> scanning code st = true ->
  outcome_sat (fun pos _ => (pos <= len code)%nat /\ nul_free pos)
    (fun st' => nul_free (n st')) (fun st' => nul_free (S (n st')))
    (step code find st).
Proof.
  intros Hfree Hsc. unfold scanning in Hsc. apply andb_true_iff in Hsc.
  destruct Hsc as [Hn Hb]. apply Nat.ltb_lt in Hn.
  apply negb_true_iff, Z.eqb_neq in Hb.
  assert (H0 : nul_free (S (n st))).
  { intros i Hi. destruct (Nat.eq_dec i (n st)) as [->|Hne];
      [assumption|apply Hfree; lia]. }
  pose proof (skipToParenthesis_nul_free (n st) H0) as Hskip.
  pose proof (skipToParenthesis_bounds code (n st) Hn) as [Hsb _].
  assert (Hx : (byte code (n st + 1) =? ch "x") = true ->
               nul_free (S (n st + 1))).
  { intros E. apply Z.eqb_eq in E. intros i Hi.
    destruct (Nat.eq_dec i (n st + 1)) as [->|Hne].
    - rewrite E. discriminate.
    - apply H0. lia. }
  step_cases; nat_tests; try split; try lia; try assumption;
    try (apply (nul_free_le _ (S (skipToParenthesis code (n st))));
         [lia|assumption]);
    try (apply (nul_free_le _ (S (n st + 1))); [lia|]);
    apply Hx; reflexivity.
Qed.

Lemma step_is_byte (st : State) :
  Forall is_byte (out st) ->
  outcome_sat (fun _ _ => True) (fun st' => Forall is_byte (out st'))
    (fun st' => Forall is_byte (out st'))
    (step code find st).
Proof.
  intros Ho. step_cases; try exact I;
    repeat first [ assumption
                 | apply encodeUnsigned_is_byte
                 | apply encodeSigned_is_byte ].
Qed.

(** Whenever the loop test is evaluated the flags are one of the valid
    combinations and the cursor is inside the source or at its end and has
    passed no NUL. *)
Lemma Reachable_cursor (w : list Z) (st : State) :
  Reachable code find w st ->
  flags_ok (flags st) = true /\ (n st <= len code)%nat /\ nul_free (n st).
Proof.
  apply (Reachable_invariant code find w
           (fun st => flags_ok (flags st) = true /\ (n st <= len code)%nat /\
                      nul_free (n st))).
  - repeat split; [cbn; lia|]. intros i Hi. cbn in Hi. lia.
  - intros st0 _ [Hf [Hn Hfree]] Hsc.
    pose proof (step_passes code find st0 Hf Hsc) as H1.
    pose proof (step_cursor st0 Hfree Hsc) as H2.
    destruct (step code find st0) as [pos msg|st'|st'];
      cbn [outcome_sat] in *; [exact I| |].
    + destruct H1 as [H1 [H1' _]]. repeat split; try assumption.
      rewrite H1'. assumption.
    + destruct H1 as [H1 H1']. repeat split; try assumption.
      cbn [advance n set_n]. lia.
Qed.

(** The writer holds bytes. *)
Lemma Reachable_is_byte (w : list Z) (st : State) :
  Forall is_byte w -> Reachable code find w st -> Forall is_byte (out st).
Proof.
  intros Hw.
  apply (Reachable_invariant code find w (fun st => Forall is_byte (out st)));
    [assumption|].
  intros st0 _ Ho _. pose proof (step_is_byte st0 Ho) as H.
  destruct (step code find st0); cbn [outcome_sat] in *; [exact I| |];
    assumption.
Qed.

Lemma flushLiteral_out (st : State) :
  Forall is_byte (out st) ->
  n (flushLiteral st) = n st /\ Forall is_byte (out (flushLiteral st)).
Proof.
  intros Ho. unfold flushLiteral. cbv zeta. proj_goal.
  repeat match goal with
         | |- context [if ?b then _ else _] => destruct b
         end; proj_goal; split; try reflexivity; try assumption;
    now apply encodeUnsigned_is_byte.
Qed.

Lemma flushItem_out (st : State) :
  Forall is_byte (out st) ->
  Forall is_byte (out (fst (flushItem code st))).
Proof.
  intros Ho. unfold flushItem, itemResolvedAtEnd.
  repeat (cbv beta iota zeta; proj_goal;
          match goal with
          | |- context [fst (if ?b then _ else _)] =>
            let c := head_test b in destruct c
          | |- context [fst (match ?x with _ => _ end)] =>
            let c := head_test x in destruct c
          end);
    repeat (cbv beta iota zeta; cbn [fst]; proj_goal);
    try assumption; now apply encodeUnsigned_is_byte.
Qed.

Lemma endOfSource_out (st : State) :
  Forall is_byte (out st) ->
  Forall is_byte (out (fst (endOfSource code st))).
Proof.
  intros Ho. unfold endOfSource.
  destruct (flushLiteral_out st Ho) as [_ H1].
  pose proof (flushItem_out (flushLiteral st) H1) as H2.
  destruct (flushItem code (flushLiteral st)) as [st' [msg|]]; exact H2.
Qed.

(** The three ways in which [compile] returns. *)
Lemma compile_cases (w : list Z) (error : Info) :
  (exists pos msg st,
     Reachable code find w st /\ scanning code st = true /\
     step code find st = Fail pos msg /\
     compile code find w error
     = Some (false, fst (ErrorWriter_at code error pos msg), out st)) \/
  (exists st st' pos msg,
     Reachable code find w st /\ scanning code st = false /\
     endOfSource code st = (st', Some (pos, msg)) /\
     compile code find w error
     = Some (false, fst (ErrorWriter_at code error pos msg), out st')) \/
  (exists st st',
     Reachable code find w st /\ scanning code st = false /\
     endOfSource code st = (st', None) /\
     compile code find w error = Some (true, Info_default, out st')).
Proof.
  unfold compile.
  pose proof (scan_fuel_enough code find w) as Hfuel.
  pose proof (scan_reachable code find w (fuel code) (initial w)
                (Reachable_initial code find w)) as Hscan.
  destruct (fst (scan code find (fuel code) (initial w))) as [pos msg st|st|];
    [| |contradiction]; cbn [scan_result_ok] in Hscan.
  - destruct Hscan as [Hst [Hsc Hstep]]. left. exists pos, msg, st.
    split; [assumption|]. split; [assumption|]. split; [assumption|].
    reflexivity.
  - destruct Hscan as [Hst Hsc]. right.
    destruct (endOfSource code st) as [st' [[pos msg]|]] eqn:Hend.
    + left. exists st, st', pos, msg.
      split; [assumption|]. split; [assumption|]. split; [assumption|].
      reflexivity.
    + right. exists st, st'.
      split; [assumption|]. split; [assumption|]. split; [assumption|].
      reflexivity.
Qed.

End RunFacts.

Lemma count_if_firstn_le (p : Z -> bool) (l : list Z) (k : nat) :
  (count_if p (firstn k l) <= k)%nat.
Proof.
  unfold count_if.
  pose proof (filter_length_le p (firstn k l)) as H.
  pose proof (length_firstn k l) as H'. lia.
Qed.

Lemma compile_writes_bytes (code : list Z) (find : list Z -> ParamMatch)
    (error : Info) :
  exists (r : bool) (info : Info) (bytes : list Z),
    compile code find [] error = Some (r, info, bytes) /\
    Forall is_byte bytes /\
    forall w, compile code find w error = Some (r, info, w ++ bytes).
Proof.
  assert (Hb : forall r info bytes,
            compile code find [] error = Some (r, info, bytes) ->
            Forall is_byte bytes).
  { intros r info bytes Hc.
    destruct (compile_cases code find [] error)
      as [[pos [msg [st [Hst [_ [_ H]]]]]]
         |[[st [st' [pos [msg [Hst [_ [He H]]]]]]]
          |[st [st' [Hst [_ [He H]]]]]]];
      rewrite H in Hc; inversion Hc; subst;
      pose proof (Reachable_is_byte code find [] st (Forall_nil _) Hst)
        as Ho; try assumption;
      pose proof (endOfSource_out code st Ho) as Ho'; rewrite He in Ho';
      exact Ho'. }
  destruct (compile_total code find [] error) as [[[r info] bytes] Hc].
  exists r, info, bytes. split; [assumption|]. split; [now apply (Hb r info)|].
  intros w. rewrite (compile_prepend code find w error error), Hc. reflexivity.
Qed.

(** X12. [compile] returns for every source.  What it returns and the diagnostic
    it leaves depend neither on what the writer holds nor on what [error]
    held before the call, and the writer is left with what it held and,
    behind that, the bytes [compile] writes to an empty writer. *)
Lemma compile_writer_independent (code : list Z) (find : list Z -> ParamMatch) :
  exists (r : bool) (info : Info) (bytes : list Z),
    Forall is_byte bytes /\
    forall (w : list Z) (error : Info),
      compile code find w error = Some (r, info, w ++ bytes).
Proof.
  destruct (compile_writes_bytes code find Info_default)
    as [r [info [bytes [Hc [Hb _]]]]].
  exists r, info, bytes. split; [assumption|]. intros w error.
  rewrite (compile_prepend code find w error Info_default), Hc. reflexivity.
Qed.

(** X13. Whenever the loop test of [compile] is evaluated, the flags are one of
    the 19 combinations the lexer uses, the cursor is inside the source or at
    its end, no NUL lies in front of the cursor, and the writer holds bytes
    if it held bytes at the start. *)
Lemma Reachable_locals (code : list Z) (find : list Z -> ParamMatch)
    (w : list Z) (st : State) :
  Forall is_byte w -> Reachable code find w st ->
  In (flags st) valid_flags /\ (n st <= len code)%nat /\
  (forall i, (i < n st)%nat -> byte code i <> 0) /\
  Forall is_byte (out st).
Proof.
  intros Hw Hst.
  destruct (Reachable_cursor code find w st Hst) as [Hf [Hn Hfree]].
  split; [now apply flags_ok_cases|]. split; [assumption|].
  split; [exact Hfree|]. now apply (Reachable_is_byte code find w).
Qed.

(** The run over [ReportSize(8) Pop] with a writer that holds two bytes:
    the scan loop is left at the end of the source with the name [Pop] read
    and the first item written behind the two bytes. *)
Lemma Reachable_locals_witness :
  let code := bytes_of "ReportSize(8) Pop" in
  let st :=
    mkState 0 0 (-1) 1 0 (Token.mk 14 3) (Token.mk 0 0) false true false false
      (Some (encA "ReportSize" 0x74 numArg)) None None HID_WITHIN_ITEM 0x75 8 8
      17 [0x05; 0x01; 0x75; 0x08] in
  fst (scan code no_params (fuel code) (initial [0x05; 0x01])) = EndOfSource st /\
  In (flags st) valid_flags /\ (n st <= len code)%nat /\
  (forall i, (i < n st)%nat -> byte code i <> 0) /\
  Forall is_byte (out st).
Proof.
  cbv zeta.
  assert (Hscan :
    fst (scan (bytes_of "ReportSize(8) Pop") no_params
           (fuel (bytes_of "ReportSize(8) Pop")) (initial [0x05; 0x01]))
    = EndOfSource
        (mkState 0 0 (-1) 1 0 (Token.mk 14 3) (Token.mk 0 0) false true false
           false (Some (encA "ReportSize" 0x74 numArg)) None None
           HID_WITHIN_ITEM 0x75 8 8 17 [0x05; 0x01; 0x75; 0x08]))
    by (vm_compute; reflexivity).
  split; [exact Hscan|].
  apply (Reachable_locals (bytes_of "ReportSize(8) Pop") no_params
           [0x05; 0x01]).
  - repeat constructor; unfold is_byte; lia.
  - exact (scan_end_reachable _ _ _ _ _ Hscan).
Defined.

(** ** Where the scan ends and where errors are reported *)

Lemma strLen_unique (code : list Z) (k : nat) :
  (k <= len code)%nat -> nul_free code k ->
  k = len code \/ byte code k = 0 -> strLen code = k.
Proof.
  intros Hk Hfree Hend.
  destruct (strLen_first_nul code) as [H1 [H2 H3]].
  destruct (Nat.lt_trichotomy (strLen code) k) as [Hlt|[Heq|Hgt]];
    [|assumption|].
  - exfalso. now apply (Hfree (strLen code) Hlt).
  - exfalso. unfold len in *. destruct Hend as [->|H0]; [lia|].
    now apply (H3 k Hgt).
Qed.

Lemma nul_free_strLen (code : list Z) (k : nat) :
  (k <= len code)%nat -> nul_free code k -> (k <= strLen code)%nat.
Proof.
  intros Hk Hfree. destruct (strLen_first_nul code) as [H1 [H2 H3]].
  destruct (Nat.le_gt_cases k (strLen code)) as [|Hgt]; [assumption|].
  exfalso. now apply (Hfree (strLen code) Hgt).
Qed.

Lemma after_last_newline_length (l : list Z) :
  (List.length (after_last_newline l) <= List.length l)%nat.
Proof.
  induction l as [|c l IH]; [cbn; lia|].
  cbn [after_last_newline List.length].
  destruct (existsb is_newline l); [lia|].
  destruct (is_newline c); cbn [List.length]; lia.
Qed.

Lemma ErrorWriter_at_bounds (code : list Z) (error : Info) (pos : nat)
    (msg : EMessage) :
  (pos <= len code)%nat ->
  let info := fst (ErrorWriter_at code error pos msg) in
  message info = msg /\ (character info <= pos)%nat /\
  (1 <= line info <= S pos)%nat /\ (1 <= column info <= S pos)%nat.
Proof.
  intros Hpos. unfold ErrorWriter_at. cbn [fst character line column message].
  rewrite at_loop_bytes by (unfold len in Hpos; lia). cbn [skipn].
  rewrite at_bytes_counts. cbn [character line column message].
  pose proof (count_if_firstn_le is_utf8_lead code pos).
  pose proof (count_if_firstn_le is_newline code pos).
  pose proof (count_if_firstn_le is_column_byte code pos).
  assert (Hc : (count_if is_column_byte (after_last_newline (firstn pos code))
                <= pos)%nat).
  { unfold count_if.
    pose proof (filter_length_le is_column_byte
                  (after_last_newline (firstn pos code))).
    pose proof (after_last_newline_length (firstn pos code)).
    pose proof (length_firstn pos code). lia. }
  destruct (existsb is_newline (firstn pos code)); repeat split; lia.
Qed.

(** X14. The scan loop is left with the cursor on the first NUL of the source,
    or at [size()] if there is none in front of it; the end-of-source
    handling leaves the cursor there and reports there. *)
Lemma scan_ends_at_strLen (code : list Z) (find : list Z -> ParamMatch)
    (w : list Z) (st : State) :
  fst (scan code find (fuel code) (initial w)) = EndOfSource st ->
  n st = strLen code /\ (strLen code <= len code)%nat /\
  n (fst (endOfSource code st)) = strLen code /\
  forall pos msg, snd (endOfSource code st) = Some (pos, msg) ->
                  pos = strLen code.
Proof.
  intros Hscan.
  pose proof (scan_reachable code find w (fuel code) (initial w)
                (Reachable_initial code find w)) as Hs.
  rewrite Hscan in Hs. cbn [scan_result_ok] in Hs. destruct Hs as [Hst Hsc].
  pose proof (Reachable_cursor code find w st Hst) as Hok.
  destruct Hok as [_ [Hn Hfree]].
  assert (Hend : n st = len code \/ byte code (n st) = 0).
  { unfold scanning in Hsc. destruct (Nat.ltb_spec (n st) (len code)); [|lia].
    cbn [andb] in Hsc. apply negb_false_iff, Z.eqb_eq in Hsc. now right. }
  pose proof (strLen_unique code (n st) Hn Hfree Hend) as Hk.
  destruct (endOfSource_position code st) as [H1 H2].
  split; [now symmetry|]. split; [lia|]. split; [congruence|].
  intros pos msg Hp. apply H2 in Hp. congruence.
Qed.

Lemma scan_ends_at_strLen_witness :
  n (set_n 3 (initial [])) = strLen [ch " "; ch " "; ch " "; 0; ch "$"].
Proof.
  refine (proj1 (scan_ends_at_strLen [ch " "; ch " "; ch " "; 0; ch "$"]
                   no_params [] (set_n 3 (initial [])) _)).
  vm_compute. reflexivity.
Defined.

Lemma compile_error_at (code : list Z) (find : list Z -> ParamMatch)
    (w : list Z) (error info : Info) (o : list Z) :
  compile code find w error = Some (false, info, o) ->
  exists pos msg,
    (pos <= len code)%nat /\ nul_free code pos /\ msg <> E_NO_ERROR /\
    info = fst (ErrorWriter_at code error pos msg).
Proof.
  intros Hc.
  destruct (compile_cases code find w error)
    as [[pos [msg [st [Hst [Hsc [Hstep H]]]]]]
       |[[st [st' [pos [msg [Hst [Hsc [He H]]]]]]]
        |[st [st' [Hst [_ [He H]]]]]]];
    rewrite H in Hc; inversion Hc; subst; clear Hc.
  - exists pos, msg.
    destruct (Reachable_cursor code find w st Hst) as [_ [_ Hfree]].
    pose proof (step_cursor code find st Hfree Hsc) as H2.
    pose proof (step_fail_message code find st) as H3.
    rewrite Hstep in H2, H3. cbn [outcome_sat] in H2, H3.
    destruct H2 as [H2 H2']. repeat split; assumption.
  - exists pos, msg.
    destruct (endOfSource_position code st) as [_ Hp].
    rewrite He in Hp. specialize (Hp pos msg eq_refl). subst pos.
    pose proof (endOfSource_message code st (n st) msg) as Hm.
    rewrite He in Hm. specialize (Hm eq_refl).
    pose proof (Reachable_cursor code find w st Hst) as Hok.
    destruct Hok as [_ [Hn Hfree]]. repeat split; assumption.
Qed.

(** X15. When [compile] fails, the diagnostic is the one of [at(pos, msg)] for a
    position inside the source, with no NUL in front of it, and a message
    other than [No_error]: the character count is at most [pos], line and
    column are at least 1 and at most [pos + 1]. *)
Lemma compile_error_inside (code : list Z) (find : list Z -> ParamMatch)
    (w : list Z) (error info : Info) (o : list Z) :
  compile code find w error = Some (false, info, o) ->
  exists pos : nat,
    (pos <= strLen code <= len code)%nat /\
    info = fst (ErrorWriter_at code error pos (message info)) /\
    message info <> E_NO_ERROR /\
    (character info <= pos)%nat /\
    (1 <= line info <= S pos)%nat /\ (1 <= column info <= S pos)%nat.
Proof.
  intros Hc.
  assert (Hlen : (strLen code <= len code)%nat)
    by apply (strLen_first_nul code).
  destruct (compile_error_at code find w error info o Hc)
    as [pos [msg [Hp [Hfree [Hmsg Hinfo]]]]].
  destruct (ErrorWriter_at_bounds code error pos msg Hp) as [H1 [H2 [H3 H4]]].
  rewrite <- Hinfo in H1, H2, H3, H4.
  exists pos. split; [split; [now apply nul_free_strLen|assumption]|].
  rewrite H1. repeat split; try assumption; lia.
Qed.

Lemma compile_error_inside_witness :
  exists pos : nat,
    (pos <= strLen (bytes_of "Usage(Pointer)")
     <= len (bytes_of "Usage(Pointer)"))%nat /\
    (character (mkInfo 13 1 14 E_Missing_UsagePage) <= pos)%nat.
Proof.
  destruct (compile_error_inside (bytes_of "Usage(Pointer)") no_params []
              Info_default (mkInfo 13 1 14 E_Missing_UsagePage) [])
    as [pos [H1 [_ [_ [H2 _]]]]].
  - vm_compute. reflexivity.
  - exists pos. split; assumption.
Defined.

(** ** The writers, [compiledSize], [compileError] and [Descriptor] *)

(** [NullWriter] *)
Definition NullWriter_getPosition (w : unit) : nat := 0.
Definition NullWriter_write (w : unit) (val : Z) : unit * bool := (w, true).

(** [SizeEstimator] *)
Record SizeEstimator : Set := mkSizeEstimator { se_pos : nat }.

Definition SizeEstimator_new : SizeEstimator := mkSizeEstimator 0.
Definition SizeEstimator_getPosition (w : SizeEstimator) : nat := se_pos w.
Definition SizeEstimator_write (w : SizeEstimator) (val : Z)
    : SizeEstimator * bool :=
  (mkSizeEstimator (S (se_pos w)), true).

(** [BufferWriter]: [bw_data] is the memory at the pointer [data], which
    the caller provides with at least [size] bytes. *)
Record BufferWriter : Set := mkBufferWriter {
  bw_data : list Z;
  bw_size : nat;
  bw_pos : nat
}.

Definition BufferWriter_new (d : list Z) (s : nat) : BufferWriter :=
  mkBufferWriter d s 0.
Definition BufferWriter_getPosition (w : BufferWriter) : nat := bw_pos w.

(** [data[i] = val] *)
Definition store (data : list Z) (i : nat) (val : Z) : list Z :=
  firstn i data ++ val :: skipn (S i) data.

(** [BufferWriter::write]; the parameter is a [uint8_t]. *)
Definition BufferWriter_write (w : BufferWriter) (val : Z)
    : BufferWriter * bool :=
  if (bw_size w <=? bw_pos w)%nat then (w, false)
  else (mkBufferWriter (store (bw_data w) (bw_pos w) (val mod 256))
          (bw_size w) (S (bw_pos w)), true).

Section Writers.

(** A writer: its state and its [write]. *)
Context {W : Type}.
Variable write_to : W -> Z -> W * bool.

(** [encodeValue], [encodeUnsigned] and [encodeSigned] for any writer. *)
Definition encodeValue_to (out : W) (val : Z) (len : nat) : W * nat :=
  let out := fst (write_to out (Z.land val 0xFF)) in
  let out :=
    if (1 <? len)%nat then
      let out := fst (write_to out (Z.land (Z.shiftr val 8) 0xFF)) in
      if (2 <? len)%nat then
        let out := fst (write_to out (Z.land (Z.shiftr val 16) 0xFF)) in
        fst (write_to out (Z.land (Z.shiftr val 24) 0xFF))
      else out
    else out in
  (out, len).

Definition encodeUnsigned_to (out : W) (val : Z) : W * nat :=
  encodeValue_to out val (encodedSize_u32 val).

Definition encodeSigned_to (out : W) (val : Z) : W * nat :=
  let absVal := absVal_i32 val in
  if absVal >? 0x7FFF then encodeValue_to out (u32 val) 4
  else if absVal >? 0x7F then encodeValue_to out (u32 (i16 val)) 2
  else encodeValue_to out (u32 (i8 val)) 1.

(** The writer after the bytes have been passed to [write] one by one. *)
Definition feed (out : W) (bytes : list Z) : W :=
  fold_left (fun o b => fst (write_to o b)) bytes out.

(** [compile] with the writer [out]: the writer is passed the bytes that
    the list writer records, in their order. *)
Definition compile_to (out : W) (code : list Z) (find : list Z -> ParamMatch)
    (error : Info) : option (bool * Info * W) :=
  match compile code find [] error with
  | Some (r, error, bytes) => Some (r, error, feed out bytes)
  | None => None
  end.

Lemma land_FF_mod (x : Z) : Z.land x 0xFF mod 256 = Z.land x 0xFF.
Proof. rewrite land_FF. apply Z.mod_mod. lia. Qed.

(** Every writer is passed the bytes that the list writer records. *)
Lemma encodeValue_to_feed (out : W) (val : Z) (len : nat) :
  encodeValue_to out val len
  = (feed out (fst (encodeValue [] val len)), len).
Proof.
  unfold encodeValue_to, encodeValue, write, feed. cbv zeta.
  rewrite !land_FF_mod.
  destruct (1 <? len)%nat; [destruct (2 <? len)%nat|]; reflexivity.
Qed.

Lemma encodeUnsigned_to_feed (out : W) (val : Z) :
  encodeUnsigned_to out val
  = (feed out (fst (encodeUnsigned [] val)), snd (encodeUnsigned [] val)).
Proof. unfold encodeUnsigned_to, encodeUnsigned. apply encodeValue_to_feed. Qed.

Lemma encodeSigned_to_feed (out : W) (val : Z) :
  encodeSigned_to out val
  = (feed out (fst (encodeSigned [] val)), snd (encodeSigned [] val)).
Proof.
  unfold encodeSigned_to, encodeSigned. cbv zeta.
  destruct (absVal_i32 val >? 32767); [apply encodeValue_to_feed|].
  destruct (absVal_i32 val >? 127); apply encodeValue_to_feed.
Qed.

End Writers.

(** [compiledSize] *)
Definition compiledSize (code : list Z) (find : list Z -> ParamMatch)
    : option nat :=
  match compile_to SizeEstimator_write SizeEstimator_new code find Info_default
  with
  | Some (_, _, out) => Some (SizeEstimator_getPosition out)
  | None => None
  end.

(** [compileError] *)
Definition compileError (code : list Z) (find : list Z -> ParamMatch)
    : option Info :=
  match compile_to NullWriter_write tt code find Info_default with
  | Some (_, error, _) => Some error
  | None => None
  end.

(** [Descriptor<N>]: the [data] of the instance; [Descriptor<0>] has none
    and does not compile. *)
Definition Descriptor (N : nat) (code : list Z) (find : list Z -> ParamMatch)
    : option (list Z) :=
  match N with
  | O => Some []
  | S _ =>
    match compile_to BufferWriter_write (BufferWriter_new (repeat 0 N) N)
            code find Info_default with
    | Some (_, _, out) => Some (bw_data out)
    | None => None
    end
  end.

Lemma feed_SizeEstimator (bytes : list Z) :
  forall w : SizeEstimator,
    feed SizeEstimator_write w bytes
    = mkSizeEstimator (se_pos w + List.length bytes).
Proof.
  induction bytes as [|b bytes IH]; intros [p]; cbn [feed fold_left].
  - cbn. now rewrite Nat.add_0_r.
  - unfold feed in IH. cbn [SizeEstimator_write fst se_pos]. rewrite IH.
    cbn [se_pos List.length]. f_equal. lia.
Qed.

Lemma store_inside (data : list Z) (i : nat) (val : Z) :
  (i < List.length data)%nat ->
  List.length (store data i val) = List.length data /\
  firstn (S i) (store data i val) = firstn i data ++ [val] /\
  skipn (S i) (store data i val) = skipn (S i) data.
Proof.
  intros Hi. unfold store.
  assert (Hf : List.length (firstn i data) = i)
    by (rewrite length_firstn; lia).
  split; [|split].
  - rewrite length_app. cbn [List.length]. rewrite Hf, length_skipn. lia.
  - replace (S i) with (List.length (firstn i data) + 1)%nat at 1 by lia.
    rewrite firstn_app_2. reflexivity.
  - replace (S i) with (List.length (firstn i data) + 1)%nat at 1 by lia.
    rewrite skipn_app. rewrite skipn_all2 by lia.
    replace (List.length (firstn i data) + 1 - List.length (firstn i data))%nat
      with 1%nat by lia. reflexivity.
Qed.

Lemma feed_BufferWriter (bytes : list Z) :
  forall w : BufferWriter,
    (bw_pos w <= bw_size w <= List.length (bw_data w))%nat ->
    Forall is_byte bytes ->
    let k := Nat.min (bw_size w - bw_pos w) (List.length bytes) in
    feed BufferWriter_write w bytes
    = mkBufferWriter
        (firstn (bw_pos w) (bw_data w) ++ firstn k bytes
         ++ skipn (bw_pos w + k) (bw_data w))
        (bw_size w) (bw_pos w + k).
Proof.
  induction bytes as [|b bytes IH]; intros [d s p] Hw Hb;
    cbn [bw_pos bw_size bw_data] in *.
  - cbn [feed fold_left List.length]. rewrite Nat.min_0_r, Nat.add_0_r.
    cbn [firstn app]. now rewrite firstn_skipn.
  - inversion Hb as [|? ? Hb1 Hb2]; subst.
    cbn [feed fold_left]. unfold BufferWriter_write at 2.
    cbn [bw_pos bw_size bw_data].
    destruct (Nat.leb_spec s p) as [Hfull|Hroom]; cbn [fst].
    + assert (Hp : p = s) by lia. subst p.
      change (fold_left _ bytes ?w) with (feed BufferWriter_write w bytes).
      rewrite IH by (cbn [bw_pos bw_size bw_data]; first [lia|assumption]).
      cbn [bw_pos bw_size bw_data List.length].
      replace (s - s)%nat with 0%nat by lia. cbn [Nat.min]. reflexivity.
    + change (fold_left _ bytes ?w) with (feed BufferWriter_write w bytes).
      assert (Hmod : b mod 256 = b)
        by (apply Z.mod_small; exact Hb1).
      rewrite Hmod.
      destruct (store_inside d p b) as [Hl [Hf Hs]]; [lia|].
      rewrite IH by (cbn [bw_pos bw_size bw_data]; first [lia|assumption]).
      cbn [bw_pos bw_size bw_data List.length].
      replace (Nat.min (s - p) (S (List.length bytes)))
        with (S (Nat.min (s - S p) (List.length bytes))) by lia.
      set (k := Nat.min (s - S p) (List.length bytes)).
      f_equal; [|lia].
      rewrite Hf. cbn [firstn]. rewrite <- app_assoc. cbn [app].
      f_equal. f_equal. f_equal.
      replace (S p + k)%nat with (k + S p)%nat by lia.
      rewrite <- skipn_skipn, Hs, skipn_skipn. f_equal. lia.
Qed.

Lemma skipn_repeat_sub (x : Z) (k : nat) :
  forall m : nat, skipn k (repeat x m) = repeat x (m - k).
Proof.
  induction k as [|k IH]; intros [|m]; cbn [skipn repeat Nat.sub];
    try reflexivity. apply IH.
Qed.

(** X16. A [BufferWriter] over [size] bytes of memory takes the first [size]
    bytes it is given and refuses the others: its position never passes
    [size], the memory keeps its length, and what lies behind the position,
    in particular behind [size], is left as it was. *)
Lemma BufferWriter_bounded (d : list Z) (s : nat) (bytes : list Z) :
  (s <= List.length d)%nat -> Forall is_byte bytes ->
  let w := feed BufferWriter_write (BufferWriter_new d s) bytes in
  BufferWriter_getPosition w = Nat.min s (List.length bytes) /\
  bw_size w = s /\
  List.length (bw_data w) = List.length d /\
  firstn (bw_pos w) (bw_data w) = firstn s bytes /\
  skipn (bw_pos w) (bw_data w) = skipn (bw_pos w) d /\
  forall b, snd (BufferWriter_write w b) = (List.length bytes <? s)%nat.
Proof.
  intros Hs Hb. cbv zeta. unfold BufferWriter_new, BufferWriter_getPosition.
  rewrite feed_BufferWriter by (cbn [bw_pos bw_size bw_data]; first [lia|assumption]).
  cbn [bw_pos bw_size bw_data firstn app Nat.add]. rewrite Nat.sub_0_r.
  set (k := Nat.min s (List.length bytes)).
  assert (Hk : List.length (firstn k bytes) = k)
    by (rewrite length_firstn; lia).
  split; [reflexivity|]. split; [reflexivity|]. split; [|split; [|split]].
  - rewrite length_app, Hk, length_skipn. lia.
  - replace k with (List.length (firstn k bytes) + 0)%nat at 1 by lia.
    rewrite firstn_app_2. cbn [firstn]. rewrite app_nil_r.
    unfold k. destruct (Nat.le_ge_cases s (List.length bytes)).
    + now rewrite Nat.min_l.
    + rewrite Nat.min_r by assumption.
      now rewrite !firstn_all2 by lia.
  - replace k with (List.length (firstn k bytes) + 0)%nat at 1 by lia.
    rewrite skipn_app. rewrite skipn_all2 by lia.
    replace (List.length (firstn k bytes) + 0 - List.length (firstn k bytes))%nat
      with 0%nat by lia. reflexivity.
  - intros b. unfold BufferWriter_write. cbn [bw_pos bw_size bw_data].
    destruct (Nat.leb_spec s k), (Nat.ltb_spec (List.length bytes) s);
      cbn [snd]; try reflexivity; lia.
Qed.

Lemma BufferWriter_bounded_witness :
  let w := feed BufferWriter_write (BufferWriter_new [9; 9; 9] 2) [1; 2; 3] in
  BufferWriter_getPosition w = 2%nat /\ bw_data w = [1; 2; 9].
Proof.
  cbv zeta.
  destruct (BufferWriter_bounded [9; 9; 9] 2 [1; 2; 3]) as [H _].
  - cbn. lia.
  - repeat constructor; unfold is_byte; lia.
  - split; [exact H|reflexivity].
Defined.

(** X17. [compiledSize] is the number of bytes [compile] writes, whether it
    succeeds or not, and a [Descriptor] of [N] bytes holds the first [N] of
    them, filled up with zero bytes: with [N] the [compiledSize], as
    [DEF_HID_DESCRIPTOR_AS] has it, the descriptor holds exactly what
    [compile] writes. *)
Lemma Descriptor_compiledSize (code : list Z) (find : list Z -> ParamMatch)
    (error : Info) :
  exists (r : bool) (info : Info) (bytes : list Z),
    compile code find [] error = Some (r, info, bytes) /\
    compiledSize code find = Some (List.length bytes) /\
    (forall N, Descriptor N code find
               = Some (firstn N bytes ++ repeat 0 (N - List.length bytes))) /\
    Descriptor (List.length bytes) code find = Some bytes.
Proof.
  destruct (compile_writes_bytes code find error) as [r [info [bytes [Hc [Hb Ha]]]]].
  exists r, info, bytes. split; [assumption|].
  assert (Hd : compile code find [] Info_default = Some (r, info, bytes)).
  { rewrite (compile_prepend code find [] Info_default error), Hc.
    reflexivity. }
  assert (HN : forall N, Descriptor N code find
                         = Some (firstn N bytes
                                 ++ repeat 0 (N - List.length bytes))).
  { intros [|N]; [reflexivity|].
    unfold Descriptor, compile_to. rewrite Hd. unfold BufferWriter_new.
    set (M := S N).
    rewrite feed_BufferWriter
      by (cbn [bw_pos bw_size bw_data]; rewrite ?repeat_length;
          first [lia|assumption]).
    cbn [bw_pos bw_size bw_data]. rewrite Nat.sub_0_r, Nat.add_0_l.
    change (firstn 0 (repeat 0 M)) with (@nil Z). cbn [app].
    f_equal. destruct (Nat.le_ge_cases M (List.length bytes)) as [Hle|Hge].
    - rewrite Nat.min_l by assumption.
      replace (M - List.length bytes)%nat with 0%nat by lia.
      rewrite skipn_all2 by (rewrite repeat_length; lia). reflexivity.
    - rewrite Nat.min_r by assumption. rewrite !firstn_all2 by lia.
      f_equal. apply skipn_repeat_sub. }
  split; [|split; [exact HN|]].
  - unfold compiledSize, compile_to. rewrite Hd. rewrite feed_SizeEstimator.
    reflexivity.
  - rewrite HN, firstn_all, Nat.sub_diag. cbn [repeat]. now rewrite app_nil_r.
Qed.

(** X18. [compileError] returns the diagnostic of [compile]: the default record,
    with [No_error], exactly if [compile] returns [true], and otherwise a
    message other than [No_error] with its position. *)
Lemma compileError_spec (code : list Z) (find : list Z -> ParamMatch)
    (w : list Z) (error : Info) :
  exists (r : bool) (info : Info) (o : list Z),
    compile code find w error = Some (r, info, o) /\
    compileError code find = Some info /\
    (r = true -> info = Info_default) /\
    (r = false -> message info <> E_NO_ERROR) /\
    (message info = E_NO_ERROR <-> r = true).
Proof.
  destruct (compile_writes_bytes code find Info_default)
    as [r [info [bytes [Hc [_ Ha]]]]].
  exists r, info, (w ++ bytes).
  assert (Hw : compile code find w error = Some (r, info, w ++ bytes)).
  { rewrite (compile_prepend code find w error Info_default), Hc.
    reflexivity. }
  split; [assumption|]. split.
  { unfold compileError, compile_to. now rewrite Hc. }
  assert (Hcases : (r = true /\ info = Info_default) \/
                   (r = false /\ message info <> E_NO_ERROR)).
  { destruct r.
    - left. split; [reflexivity|].
      destruct (compile_cases code find [] Info_default)
        as [[pos [msg [st [_ [_ [_ H]]]]]]
           |[[st [st' [pos [msg [_ [_ [_ H]]]]]]]
            |[st [st' [_ [_ [_ H]]]]]]];
        rewrite H in Hc; now inversion Hc.
    - right. split; [reflexivity|].
      destruct (compile_error_at code find [] Info_default info bytes Hc)
        as [pos [msg [_ [_ [Hm Hi]]]]].
      rewrite Hi. now rewrite (proj1 (ErrorWriter_at_message code Info_default
                                        pos msg)). }
  destruct Hcases as [[-> ->]|[-> Hm]].
  - split; [reflexivity|]. split; [discriminate|]. split; reflexivity.
  - split; [discriminate|]. split; [intros _; exact Hm|].
    split; [intros H; now apply Hm in H|discriminate].
Qed.

(** ** The unsigned codec *)

(** X19. [encodeValue] writes one byte for a length of 0 or 1, two for 2 and
    four for 3 and more, the low bytes of the value in little-endian order,
    and returns the length it was given: the number of bytes written is the
    one returned exactly for the lengths 1, 2 and 4. *)
Lemma encodeValue_written (out : list Z) (val : Z) (len : nat) :
  exists bytes : list Z,
    encodeValue out val len = (out ++ bytes, len) /\
    List.length bytes
    = (if (len <=? 1)%nat then 1 else if (len =? 2)%nat then 2 else 4)%nat /\
    Forall is_byte bytes /\
    le_value bytes = val mod 2 ^ (8 * Z.of_nat (List.length bytes)) /\
    (List.length bytes = len <-> len = 1%nat \/ len = 2%nat \/ len = 4%nat).
Proof.
  eexists. split.
  { rewrite (surjective_pairing (encodeValue _ _ _)), encodeValue_bytes.
    reflexivity. }
  change (2 ^ 8) with 256. change (2 ^ 16) with 65536.
  change (2 ^ 24) with 16777216.
  destruct len as [|[|[|[|[|k]]]]]; cbn [List.length Nat.leb Nat.eqb le_value];
    (split; [reflexivity|]);
    (split; [repeat constructor; apply Z.mod_pos_bound; lia|]);
    (split; [|split; [intros; lia|intros [H|[H|H]]; lia]]).
  all: match goal with
       | |- _ = _ mod 2 ^ (8 * Z.of_nat ?k) =>
         let v := eval vm_compute in (2 ^ (8 * Z.of_nat k)) in
         change (2 ^ (8 * Z.of_nat k)) with v
       end; Z.div_mod_to_equations; lia.
Qed.

(** X20. [encodeUnsigned] writes a value below [2^32] in 1, 2 or 4 bytes, the
    fewest of these that hold it, in little-endian order; the value is read
    back from them, and [encodedSizeValue] gives the size code that stands
    for their number (1, 2, and 3 for four bytes). *)
Lemma encodeUnsigned_roundtrip (out : list Z) (val : Z) :
  0 <= val < 2 ^ 32 ->
  exists bytes : list Z,
    encodeUnsigned out val = (out ++ bytes, List.length bytes) /\
    List.length bytes = encodedSize_u32 val /\
    Forall is_byte bytes /\
    le_value bytes = val /\
    ((List.length bytes = 1%nat /\ val <= 0xFF /\
      encodedSizeValue (encodedSize_u32 val) = 1) \/
     (List.length bytes = 2%nat /\ 0xFF < val <= 0xFFFF /\
      encodedSizeValue (encodedSize_u32 val) = 2) \/
     (List.length bytes = 4%nat /\ 0xFFFF < val /\
      encodedSizeValue (encodedSize_u32 val) = 3)).
Proof.
  intros Hv. change (2 ^ 32) with 4294967296 in Hv.
  unfold encodeUnsigned, encodedSize_u32.
  assert (Hpair : forall len, encodeValue out val len
                              = (fst (encodeValue out val len), len))
    by reflexivity.
  destruct (Z.gtb_spec val 65535) as [H1|H1];
    [|destruct (Z.gtb_spec val 255) as [H2|H2]];
    rewrite Hpair, encodeValue_bytes;
    change (2 ^ 8) with 256; change (2 ^ 16) with 65536;
    change (2 ^ 24) with 16777216;
    (eexists; split; [apply f_equal2; reflexivity|]);
    cbn [List.length le_value encodedSizeValue];
    (split; [reflexivity|]);
    (split; [repeat constructor; apply Z.mod_pos_bound; lia|]);
    (split; [Z.div_mod_to_equations; lia|]).
  - right. right. repeat split; lia.
  - right. left. repeat split; lia.
  - left. repeat split; lia.
Qed.

Lemma encodeUnsigned_roundtrip_witness :
  exists bytes : list Z,
    encodeUnsigned [] 0x1234 = ([] ++ bytes, List.length bytes) /\
    le_value bytes = 0x1234.
Proof.
  destruct (encodeUnsigned_roundtrip [] 0x1234) as [bytes [H1 [_ [_ [H2 _]]]]].
  - vm_compute. split; [discriminate|reflexivity].
  - exists bytes. split; assumption.
Defined.

(** ** Sources made by [fromSource] *)

Lemma nth_firstn_lt (l : list Z) (k i : nat) :
  (i < k)%nat -> nth i (firstn k l) 0 = nth i l 0.
Proof.
  revert k i. induction l as [|x l IH]; intros [|k] [|i] Hi;
    cbn [firstn nth]; try reflexivity; try lia.
  apply IH. lia.
Qed.

(** The terminating NUL has a part in the result: without it the hex
    literal of [0x] runs into the end of the source, with it into a byte
    that is no hex digit. *)
Lemma hex_prefix_terminator :
  compile (bytes_of "0x") no_params [] Info_default
  = Some (false, mkInfo 2 1 3 E_Unexpected_end_of_source, []) /\
  compile (bytes_of "0x" ++ [0]) no_params [] Info_default
  = Some (false, mkInfo 2 1 3 E_Invalid_hex_value, []).
Proof. vm_compute. split; reflexivity. Qed.

(** X11. A source made by [fromSource] from an array of [N] bytes has
    [N + 1] bytes, the last one a NUL, and no parameters.  There is a first
    NUL in it, at the offset [K] that [strLen] gives for the array, and
    [compile] returns for it what it returns for the [K] bytes in front of
    that NUL followed by one NUL: what lies behind the first NUL has no part
    in the result, the NUL itself has (see [hex_prefix_terminator]). *)
Lemma fromSource_terminated (source : list Z) (find : list Z -> ParamMatch)
    (w : list Z) (error : Info) :
  let s := fromSource source in
  let K := strLen source in
  Source_size s = S (List.length source) /\
  Source_count s = 0%nat /\
  (K < Source_size s)%nat /\
  byte (Source_data s) K = 0 /\
  (forall i, (i < K)%nat ->
     byte (Source_data s) i = nth i source 0 /\ nth i source 0 <> 0) /\
  strLen (Source_data s) = K /\
  compile (Source_data s) find w error
  = compile (firstn K source ++ [0]) find w error.
Proof.
  cbv zeta. unfold fromSource, Source_size, Source_count, Source_data.
  cbn [Source_code Source_params]. unfold byte.
  destruct (strLen_first_nul source) as [H1 [H2 H3]].
  set (K := strLen source) in *.
  assert (HK : nth K (source ++ [0]) 0 = 0).
  { destruct (Nat.eq_dec K (List.length source)) as [E|E].
    - rewrite app_nth2 by lia. rewrite E, Nat.sub_diag. reflexivity.
    - rewrite app_nth1 by lia. assumption. }
  assert (Hlow : forall i, (i < K)%nat ->
                           nth i (source ++ [0]) 0 = nth i source 0).
  { intros i Hi. rewrite app_nth1 by lia. reflexivity. }
  assert (Hf : List.length (firstn K source) = K)
    by (rewrite length_firstn; lia).
  split; [rewrite length_app; cbn; lia|]. split; [reflexivity|].
  split; [rewrite length_app; cbn; lia|]. split; [assumption|].
  split; [intros i Hi; split; [now apply Hlow|now apply H3]|].
  split.
  - apply strLen_unique.
    + unfold len. rewrite length_app. cbn. lia.
    + intros i Hi. unfold byte. rewrite Hlow by assumption. now apply H3.
    + right. exact HK.
  - apply (compile_agree (firstn K source ++ [0]) (source ++ [0]) find K).
    + unfold len. rewrite length_app, Hf. cbn. lia.
    + unfold len. rewrite length_app. cbn. lia.
    + unfold byte. rewrite app_nth2 by lia. rewrite Hf, Nat.sub_diag.
      reflexivity.
    + intros i Hi. unfold byte.
      destruct (Nat.eq_dec i K) as [->|Hne].
      * rewrite HK. rewrite app_nth2 by lia. rewrite Hf, Nat.sub_diag.
        reflexivity.
      * rewrite Hlow by lia. rewrite app_nth1 by lia.
        symmetry. apply nth_firstn_lt. lia.
Qed.

(** ** Names and tables *)

(** The first entry of a map whose name is the token, letter case apart. *)
Definition first_match (tok : list Z) (map : list Encoding) : option Encoding :=
  find (fun m => equalsI tok (bytes_of (Encoding.name m))) map.

Definition plain_name (m : Encoding) : Prop :=
  ~ In (ch "#") (bytes_of (Encoding.name m)).

Lemma findEncoding_from_first_match (code : list Z) (token : Token)
    (res : Encoding) (error : EMessage) (map : list Encoding) :
  forall i : nat,
    Forall plain_name (firstn (3 - i) map) ->
    findEncoding_from code token map i res error
    = match first_match (token_bytes code token) map with
      | Some m => (Some m, E_NO_ERROR)
      | None => (None, error)
      end.
Proof.
  induction map as [|m map IH]; intros i Hp; [reflexivity|].
  cbn [findEncoding_from first_match find]. cbv zeta.
  destruct (equalsI (token_bytes code token) (bytes_of (Encoding.name m)));
    [reflexivity|].
  assert (Hi : ((i <? 3)%nat
                && (0 <=? strFindChr (bytes_of (Encoding.name m)) (ch "#")))
               = false).
  { destruct (Nat.ltb_spec i 3) as [Hlt|Hge]; [|reflexivity].
    replace (3 - i)%nat with (S (3 - S i)) in Hp by lia.
    cbn [firstn] in Hp. inversion Hp as [|? ? Hm _]; subst.
    unfold strFindChr. rewrite strFindChr_from_absent by exact Hm.
    reflexivity. }
  rewrite Hi. apply IH.
  destruct (Nat.ltb_spec i 3) as [Hlt|Hge].
  - replace (3 - i)%nat with (S (3 - S i)) in Hp by lia.
    cbn [firstn] in Hp. now inversion Hp.
  - replace (3 - S i)%nat with 0%nat by lia. constructor.
Qed.

Lemma find_same (A : Type) (f g : A -> bool) (l : list A) :
  (forall x, f x = g x) -> find f l = find g l.
Proof.
  intros H. induction l as [|x l IH]; [reflexivity|].
  cbn [find]. now rewrite H, IH.
Qed.

(** X21. In a map without indexed names among its first three entries,
    [findEncoding] returns the first entry whose name is the token, letter
    case apart, and sets [error] to [No_error]; if there is none, or if the
    token is empty, it returns [NULL] and leaves [error] as it was.  Tokens
    that differ in letter case only are answered alike. *)
Lemma findEncoding_first_match (code : list Z) (token : Token)
    (table : list Encoding) (res : Encoding) (error : EMessage) :
  Forall plain_name (firstn 3 table) ->
  findEncoding code token table res error
  = (if (Token.length token =? 0)%nat then (None, error)
     else match first_match (token_bytes code token) table with
          | Some m => (Some m, E_NO_ERROR)
          | None => (None, error)
          end) /\
  (forall m, first_match (token_bytes code token) table = Some m ->
     In m table /\
     map toUpper (token_bytes code token)
     = map toUpper (bytes_of (Encoding.name m))) /\
  (first_match (token_bytes code token) table = None ->
   forall m, In m table ->
     map toUpper (token_bytes code token)
     <> map toUpper (bytes_of (Encoding.name m))) /\
  (forall code' token',
     map toUpper (token_bytes code' token')
     = map toUpper (token_bytes code token) ->
     first_match (token_bytes code' token') table
     = first_match (token_bytes code token) table).
Proof.
  intros Hp. split; [|split; [|split]].
  - unfold findEncoding. destruct (Token.length token =? 0)%nat;
      [reflexivity|]. now apply findEncoding_from_first_match.
  - intros m Hm. unfold first_match in Hm. apply find_some in Hm.
    destruct Hm as [Hin He]. split; [assumption|]. now apply equalsI_iff.
  - intros Hn m Hm Heq. unfold first_match in Hn.
    apply (find_none _ _ Hn) in Hm. apply equalsI_iff in Heq. congruence.
  - intros code' token' Heq. unfold first_match. apply find_same.
    intros m.
    destruct (equalsI (token_bytes code token) (bytes_of (Encoding.name m)))
      eqn:E.
    + apply equalsI_iff. apply equalsI_iff in E. congruence.
    + destruct (equalsI (token_bytes code' token')
                  (bytes_of (Encoding.name m))) eqn:E'; [|reflexivity].
      apply equalsI_iff in E'. rewrite Heq in E'. apply equalsI_iff in E'.
      congruence.
Qed.

Lemma findEncoding_first_match_witness :
  findEncoding (bytes_of "PUSH pop") (Token.mk 0 4) itemMap_tbl endOfMap
    E_Invalid_item_name
  = (Some (enc "Push" 0xA4), E_NO_ERROR).
Proof.
  destruct (findEncoding_first_match (bytes_of "PUSH pop") (Token.mk 0 4)
              itemMap_tbl endOfMap E_Invalid_item_name) as [H _].
  - repeat constructor; vm_compute;
      intros H; repeat (destruct H as [H|H]; [discriminate|]); exact H.
  - rewrite H. reflexivity.
Defined.

(** *** The names of the source's maps *)

Definition has_hash (name : list Z) : bool := existsb (Z.eqb (ch "#")) name.

Definition Encoding_eqb (a b : Encoding) : bool :=
  String.eqb (Encoding.name a) (Encoding.name b)
  && (Encoding.value a =? Encoding.value b)
  && (Encoding.type a =? Encoding.type b)
  && match Encoding.arg a, Encoding.arg b with
     | Some x, Some y => TableId_beq x y
     | None, None => true
     | _, _ => false
     end.

Fixpoint bytes_eqb (a b : list Z) : bool :=
  match a, b with
  | [], [] => true
  | x :: a', y :: b' => (x =? y) && bytes_eqb a' b'
  | _, _ => false
  end.

(** The entries of a map with the bytes of their names after [toUpper]. *)
Definition named (map : list Encoding) : list (list Z * Encoding) :=
  List.map (fun m => (List.map toUpper (bytes_of (Encoding.name m)), m)) map.

(** The first entry with the name [upper], which is in upper case. *)
Definition resolves_to (tbl : list (list Z * Encoding)) (upper : list Z)
    : option Encoding :=
  option_map snd (find (fun p => bytes_eqb upper (fst p)) tbl).

(** The entries without [#] that their own name does not lead to. *)
Definition shadowed_entries (map : list Encoding) : list Encoding :=
  let tbl := named map in
  List.map snd
    (filter (fun p =>
               negb (has_hash (bytes_of (Encoding.name (snd p))))
               && negb match resolves_to tbl (fst p) with
                       | Some m => Encoding_eqb m (snd p)
                       | None => false
                       end) tbl).

Definition plain_table (map : list Encoding) : bool :=
  forallb (fun m => negb (has_hash (bytes_of (Encoding.name m)))) (firstn 3 map).

Lemma Encoding_eqb_eq (a b : Encoding) : Encoding_eqb a b = true -> a = b.
Proof.
  destruct a as [n1 v1 t1 a1], b as [n2 v2 t2 a2]. unfold Encoding_eqb.
  cbn [Encoding.name Encoding.value Encoding.type Encoding.arg].
  intros H. apply andb_true_iff in H. destruct H as [H Ha].
  apply andb_true_iff in H. destruct H as [H Ht].
  apply andb_true_iff in H. destruct H as [Hn Hv].
  apply String.eqb_eq in Hn. apply Z.eqb_eq in Hv. apply Z.eqb_eq in Ht.
  subst. f_equal.
  destruct a1 as [x|], a2 as [y|]; try discriminate; [|reflexivity].
  apply internal_TableId_dec_bl in Ha. now subst.
Qed.

Lemma has_hash_false (name : list Z) :
  has_hash name = false <-> ~ In (ch "#") name.
Proof.
  unfold has_hash. split.
  - intros H Hin. assert (Ht : existsb (Z.eqb (ch "#")) name = true).
    { apply existsb_exists. exists (ch "#"). split; [assumption|].
      apply Z.eqb_refl. }
    congruence.
  - intros H. destruct (existsb (Z.eqb (ch "#")) name) eqn:E; [|reflexivity].
    apply existsb_exists in E. destruct E as [x [Hx Hc]].
    apply Z.eqb_eq in Hc. subst x. contradiction.
Qed.

Lemma bytes_eqb_eq (a b : list Z) : bytes_eqb a b = true <-> a = b.
Proof.
  revert b. induction a as [|x a IH]; intros [|y b]; cbn [bytes_eqb];
    try (split; [discriminate|discriminate]); [split; reflexivity|].
  rewrite andb_true_iff, Z.eqb_eq, IH.
  split; [now intros [-> ->]|now intros [= -> ->]].
Qed.

Lemma equalsI_bytes_eqb (a b : list Z) :
  equalsI a b = bytes_eqb (List.map toUpper a) (List.map toUpper b).
Proof.
  destruct (equalsI a b) eqn:E.
  - symmetry. apply bytes_eqb_eq. now apply equalsI_iff.
  - destruct (bytes_eqb (List.map toUpper a) (List.map toUpper b)) eqn:E';
      [|reflexivity].
    apply bytes_eqb_eq, equalsI_iff in E'. congruence.
Qed.

Lemma resolves_to_first_match (name : list Z) (map : list Encoding) :
  resolves_to (named map) (List.map toUpper name) = first_match name map.
Proof.
  unfold resolves_to, named, first_match.
  induction map as [|m map IH]; [reflexivity|].
  cbn [List.map find fst]. rewrite <- equalsI_bytes_eqb.
  destruct (equalsI name (bytes_of (Encoding.name m)));
    [reflexivity|assumption].
Qed.

Lemma plain_table_Forall (map : list Encoding) :
  plain_table map = true -> Forall plain_name (firstn 3 map).
Proof.
  unfold plain_table. intros H. apply Forall_forall. intros m Hm.
  rewrite forallb_forall in H. specialize (H m Hm).
  apply negb_true_iff in H. now apply has_hash_false.
Qed.

Lemma shadowed_or_found (map : list Encoding) (e : Encoding) :
  In e map -> plain_name e ->
  In e (shadowed_entries map) \/
  first_match (bytes_of (Encoding.name e)) map = Some e.
Proof.
  intros He Hp. unfold shadowed_entries. cbv zeta.
  set (test := fun p : list Z * Encoding =>
                 negb (has_hash (bytes_of (Encoding.name (snd p))))
                 && negb match resolves_to (named map) (fst p) with
                         | Some m => Encoding_eqb m (snd p)
                         | None => false
                         end).
  destruct (test (List.map toUpper (bytes_of (Encoding.name e)), e)) eqn:E.
  - left. apply in_map_iff.
    exists (List.map toUpper (bytes_of (Encoding.name e)), e).
    split; [reflexivity|]. apply filter_In. split; [|exact E].
    unfold named. apply in_map_iff. now exists e.
  - right. unfold test in E. cbn [fst snd] in E.
    apply has_hash_false in Hp. rewrite Hp in E. cbn [negb andb] in E.
    apply negb_false_iff in E. rewrite resolves_to_first_match in E.
    destruct (first_match (bytes_of (Encoding.name e)) map) as [m|];
      [|discriminate].
    apply Encoding_eqb_eq in E. now subst.
Qed.

(** Only one name of the maps is hidden: the keyboard map has two entries
    [KeyboardEqual], and the second one, 0x67, is behind the first. *)
Lemma source_maps_shadowed (t : TableId) :
  shadowed_entries (entries t)
  = match t with
    | keyboardMap => [encT "KeyboardEqual" 0x67 UT_SEL]
    | _ => []
    end.
Proof. destruct t; vm_compute; reflexivity. Qed.

Lemma source_maps_plain (t : TableId) :
  plain_table (entries t)
  = match t with
    | buttonMap | ordinalMap | unicodeMap | monitorEnumMap => false
    | _ => true
    end.
Proof. destruct t; vm_compute; reflexivity. Qed.

(** X22. In every map of the source, the name of an entry, in any letter case,
    leads to that entry; the one exception is the second [KeyboardEqual]
    (0x67) of the keyboard map, whose name leads to the first (0x2E). *)
Lemma source_names_resolve (t : TableId) (e : Encoding) (code : list Z)
    (token : Token) (res : Encoding) (error : EMessage) :
  In e (entries t) -> plain_name e -> Token.length token <> 0%nat ->
  List.map toUpper (token_bytes code token)
  = List.map toUpper (bytes_of (Encoding.name e)) ->
  findEncoding code token (entries t) res error
  = (Some match t with
          | keyboardMap =>
            if Encoding_eqb e (encT "KeyboardEqual" 0x67 UT_SEL)
            then encT "KeyboardEqual" 0x2E UT_SEL else e
          | _ => e
          end, E_NO_ERROR).
Proof.
  intros He Hp Hlen Htok.
  assert (Hfm : forall table,
            first_match (token_bytes code token) table
            = first_match (bytes_of (Encoding.name e)) table).
  { intros table. apply find_same. intros m.
    now rewrite !equalsI_bytes_eqb, Htok. }
  pose proof (source_maps_plain t) as Hplain.
  pose proof (source_maps_shadowed t) as Hsh.
  destruct (plain_table (entries t)) eqn:Ept.
  - unfold findEncoding. destruct (Nat.eqb_spec (Token.length token) 0);
      [contradiction|].
    rewrite (findEncoding_from_first_match code token res error (entries t) 0
               (plain_table_Forall _ Ept)).
    rewrite Hfm.
    destruct (shadowed_or_found (entries t) e He Hp) as [Hs|Hs].
    + rewrite Hsh in Hs. destruct t; try contradiction.
      destruct Hs as [<-|[]]. vm_compute. reflexivity.
    + rewrite Hs. destruct t; try reflexivity.
      destruct (Encoding_eqb e (encT "KeyboardEqual" 103 UT_SEL)) eqn:Ex;
        [|reflexivity].
      apply Encoding_eqb_eq in Ex. subst e. vm_compute in Hs. discriminate.
  - apply has_hash_false in Hp.
    destruct t; try discriminate Hplain;
      repeat (destruct He as [<-|He];
              [try (vm_compute in Hp; discriminate)|]);
      try contradiction.
    unfold findEncoding. destruct (Nat.eqb_spec (Token.length token) 0);
      [contradiction|].
    unfold entries, buttonMap_tbl. cbn [findEncoding_from]. cbv zeta.
    replace (equalsI (token_bytes code token) _) with true
      by (symmetry; now apply equalsI_iff).
    reflexivity.
Qed.

Lemma source_names_resolve_witness :
  findEncoding (bytes_of "keyboardequal") (Token.mk 0 13) (entries keyboardMap)
    endOfMap E_Invalid_argument_name
  = (Some (encT "KeyboardEqual" 0x2E UT_SEL), E_NO_ERROR).
Proof.
  refine (source_names_resolve keyboardMap (encT "KeyboardEqual" 0x67 UT_SEL)
            (bytes_of "keyboardequal") (Token.mk 0 13) endOfMap
            E_Invalid_argument_name _ _ _ _).
  - vm_compute. tauto.
  - apply has_hash_false. reflexivity.
  - discriminate.
  - reflexivity.
Defined.

(** ** Whole sources *)

Section Finish.

Variable code : list Z.
Variable find : list Z -> ParamMatch.

(** How the scan loop is left when it is entered with the locals [st]. *)
Definition finish (st : State) : ScanResult :=
  fst (scan code find (passes_left code st) st).

Lemma passes_left_pos (st : State) : (1 <= passes_left code st)%nat.
Proof. unfold passes_left. destruct (n st <? len code)%nat; lia. Qed.

Lemma scan_finish (fuel : nat) (st : State) :
  flags_ok (flags st) = true -> (passes_left code st <= fuel)%nat ->
  fst (scan code find fuel st) = finish st.
Proof.
  intros Hf Hfuel. unfold finish.
  rewrite (scan_fuel_monotone code find (passes_left code st) st fuel);
    [reflexivity| |assumption].
  apply (scan_bounded code find (passes_left code st) st Hf). lia.
Qed.

Lemma finish_end (st : State) :
  scanning code st = false -> finish st = EndOfSource st.
Proof.
  intros Hsc. unfold finish. pose proof (passes_left_pos st) as Hp.
  destruct (passes_left code st) as [|k]; [lia|].
  cbn [scan]. now rewrite Hsc.
Qed.

Lemma finish_fail (st : State) (pos : nat) (msg : EMessage) :
  scanning code st = true -> step code find st = Fail pos msg ->
  finish st = Stopped pos msg st.
Proof.
  intros Hsc Hstep. unfold finish. pose proof (passes_left_pos st) as Hp.
  destruct (passes_left code st) as [|k]; [lia|].
  cbn [scan]. now rewrite Hsc, Hstep.
Qed.

Lemma finish_continue (st st' : State) :
  flags_ok (flags st) = true -> scanning code st = true ->
  step code find st = Continue st' -> finish st = finish st'.
Proof.
  intros Hf Hsc Hstep. unfold finish at 1.
  pose proof (step_passes code find st Hf Hsc) as Hp. rewrite Hstep in Hp.
  cbn [outcome_sat] in Hp. destruct Hp as [Hf' [Hn Hr]].
  pose proof (passes_left_continue code st st'
                (scanning_inside code st Hsc) Hn Hr) as Hlt.
  destruct (passes_left code st) as [|k]; [lia|].
  cbn [scan]. rewrite Hsc, Hstep.
  rewrite <- (scan_finish k st' Hf') by lia.
  now destruct (scan code find k st').
Qed.

Lemma finish_next (st st' : State) :
  flags_ok (flags st) = true -> scanning code st = true ->
  step code find st = Next st' -> finish st = finish (advance st').
Proof.
  intros Hf Hsc Hstep. unfold finish at 1.
  pose proof (step_passes code find st Hf Hsc) as Hp. rewrite Hstep in Hp.
  cbn [outcome_sat] in Hp. destruct Hp as [Hf' Hn].
  pose proof (passes_left_next code st st'
                (scanning_inside code st Hsc) (proj1 Hn)) as Hlt.
  destruct (passes_left code st) as [|k]; [lia|].
  cbn [scan]. rewrite Hsc, Hstep.
  rewrite <- (scan_finish k (advance st') Hf') by lia.
  now destruct (scan code find k (advance st')).
Qed.

(** What [compile] returns once the scan loop is left. *)
Definition conclude (r : ScanResult) (error : Info)
    : option (bool * Info * list Z) :=
  match r with
  | Stopped pos msg st =>
    Some (false, fst (ErrorWriter_at code error pos msg), out st)
  | EndOfSource st =>
    match endOfSource code st with
    | (st', Some (pos, msg)) =>
      Some (false, fst (ErrorWriter_at code error pos msg), out st')
    | (st', None) => Some (true, Info_default, out st')
    end
  | OutOfFuel => None
  end.

Lemma compile_finish (w : list Z) (error : Info) :
  compile code find w error = conclude (finish (initial w)) error.
Proof.
  unfold compile.
  rewrite (scan_finish (fuel code) (initial w) eq_refl
             (initial_passes_left code w)).
  destruct (finish (initial w)) as [pos msg st|st|]; cbn [conclude];
    [reflexivity| |reflexivity].
  destruct (endOfSource code st) as [st' [[pos msg]|]]; reflexivity.
Qed.

End Finish.

(** *** Sources without items *)

(** Text that holds nothing but blanks and comments, up to its first NUL;
    a comment runs from [#] or [;] to the end of the line. *)
Fixpoint blank (in_comment : bool) (text : list Z) : bool :=
  match text with
  | [] => true
  | c :: rest =>
    if c =? 0 then true
    else if in_comment
    then blank (negb ((c =? ch "013") || (c =? ch "010"))) rest
    else if isComment c then blank true rest
    else isWhitespace c && blank false rest
  end.

Section Blank.

Variable code : list Z.
Variable find : list Z -> ParamMatch.
Variable w : list Z.

(** Between two items, or inside a comment between them, with nothing
    open and the writer as it was. *)
Definition idle (st : State) : Prop :=
  (flags st = HID_START \/ flags st = HID_WITHIN_COMMENT) /\
  colLevel st = 0 /\ delimLevel st = 0 /\ out st = w.

Lemma step_start_blank (st : State) :
  flags st = HID_START ->
  isComment (byte code (n st)) || isWhitespace (byte code (n st)) = true ->
  step code find st
  = Next (if isComment (byte code (n st))
          then set_flags HID_WITHIN_COMMENT st else st).
Proof.
  intros Hf Hc. unfold step. rewrite Hf.
  change (HID_START =? HID_START) with true. cbv iota.
  unfold step_start. cbv zeta.
  set (c := byte code (n st)) in *.
  assert (Hcases : c = 35 \/ c = 59 \/ c = 32 \/ c = 9 \/ c = 10 \/ c = 11 \/
                   c = 12 \/ c = 13).
  { unfold isComment, isWhitespace in Hc. revert Hc. char_codes.
    repeat match goal with
           | |- context [c =? ?k] => destruct (Z.eqb_spec c k)
           end; cbn [orb]; intros; try discriminate; lia. }
  repeat destruct Hcases as [Hcases|Hcases]; rewrite Hcases; reflexivity.
Qed.

Lemma step_comment_blank (st : State) :
  flags st = HID_WITHIN_COMMENT ->
  step code find st
  = Next (if (byte code (n st) =? ch "013") || (byte code (n st) =? ch "010")
          then set_flags HID_START st else st).
Proof.
  intros Hf. unfold step. rewrite Hf.
  change (HID_WITHIN_COMMENT =? HID_START) with false.
  change (within HID_WITHIN_COMMENT HID_WITHIN_COMMENT) with true. cbv iota.
  unfold step_comment. cbv zeta.
  now destruct ((byte code (n st) =? ch "013") || (byte code (n st) =? ch "010")).
Qed.

Lemma blank_run (k : nat) :
  forall st : State,
    (len code - n st = k)%nat -> (n st <= len code)%nat -> idle st ->
    blank (flags st =? HID_WITHIN_COMMENT) (skipn (n st) code) = true ->
    exists st', finish code find st = EndOfSource st' /\ idle st'.
Proof.
  induction k as [|k IH]; intros st Hk Hn Hidle Hb.
  - exists st. split; [|assumption]. apply finish_end. unfold scanning.
    destruct (Nat.ltb_spec (n st) (len code)); [lia|reflexivity].
  - destruct (scanning code st) eqn:Hsc;
      [|exists st; split; [now apply finish_end|assumption]].
    assert (Hlt : (n st < len code)%nat) by now apply scanning_inside.
    unfold scanning in Hsc. apply andb_true_iff in Hsc.
    destruct Hsc as [Hsc1 Hsc2]. apply negb_true_iff in Hsc2.
    assert (Hsc : scanning code st = true)
      by (unfold scanning; now rewrite Hsc1, Hsc2).
    rewrite (skipn_cons_nth code (n st) Hlt) in Hb. cbn [blank] in Hb.
    fold (byte code (n st)) in Hb. rewrite Hsc2 in Hb.
    destruct Hidle as [[Hf|Hf] [Hc [Hd Ho]]]; rewrite Hf in Hb.
    + change (HID_START =? HID_WITHIN_COMMENT) with false in Hb. cbv iota in Hb.
      assert (Hcw : isComment (byte code (n st))
                    || isWhitespace (byte code (n st)) = true).
      { destruct (isComment (byte code (n st))); [reflexivity|].
        apply andb_true_iff in Hb. now destruct Hb. }
      rewrite (finish_next code find st _
                 ltac:(rewrite Hf; reflexivity) Hsc
                 (step_start_blank st Hf Hcw)).
      apply IH.
      * destruct (isComment (byte code (n st))); cbn [advance n set_n set_flags];
          lia.
      * destruct (isComment (byte code (n st))); cbn [advance n set_n set_flags];
          lia.
      * destruct (isComment (byte code (n st))); unfold idle;
          cbn [advance flags colLevel delimLevel out set_n set_flags];
          repeat split; auto.
      * destruct (isComment (byte code (n st)));
          cbn [advance flags n set_n set_flags].
        -- exact Hb.
        -- rewrite Hf. apply andb_true_iff in Hb. now destruct Hb.
    + change (HID_WITHIN_COMMENT =? HID_WITHIN_COMMENT) with true in Hb.
      cbv iota in Hb.
      rewrite (finish_next code find st _
                 ltac:(rewrite Hf; reflexivity) Hsc
                 (step_comment_blank st Hf)).
      apply IH.
      * destruct (_ || _); cbn [advance n set_n set_flags]; lia.
      * destruct (_ || _); cbn [advance n set_n set_flags]; lia.
      * destruct (_ || _); unfold idle;
          cbn [advance flags colLevel delimLevel out set_n set_flags];
          repeat split; auto.
      * destruct ((byte code (n st) =? ch "013")
                  || (byte code (n st) =? ch "010"));
          cbn [advance flags n set_n set_flags negb] in *.
        -- exact Hb.
        -- rewrite Hf. exact Hb.
Qed.

Lemma endOfSource_idle (st : State) :
  idle st -> endOfSource code st = (st, None).
Proof.
  intros [Hf [Hc [Hd _]]].
  assert (H1 : flushLiteral st = st)
    by (unfold flushLiteral; destruct Hf as [Hf|Hf]; rewrite Hf; reflexivity).
  assert (H2 : flushItem code st = (st, None))
    by (unfold flushItem; destruct Hf as [Hf|Hf]; rewrite Hf; reflexivity).
  assert (H3 : finalChecks st = None)
    by (unfold finalChecks; destruct Hf as [Hf|Hf]; rewrite Hc, Hd, Hf;
        reflexivity).
  unfold endOfSource. now rewrite H1, H2, H3.
Qed.

End Blank.

(** X23. A source that holds only blanks and comments in front of its first NUL
    compiles to nothing: [compile] returns [true] with the default
    diagnostic and leaves the writer as it was. *)
Lemma compile_blank (code : list Z) (find : list Z -> ParamMatch)
    (w : list Z) (error : Info) :
  blank false code = true ->
  compile code find w error = Some (true, Info_default, w).
Proof.
  intros Hb. rewrite compile_finish.
  destruct (blank_run code find w (len code) (initial w)) as [st' [Hfin Hidle]].
  - cbn. lia.
  - cbn. lia.
  - repeat split; auto.
  - exact Hb.
  - rewrite Hfin. cbn [conclude]. rewrite (endOfSource_idle code w st' Hidle).
    destruct Hidle as [_ [_ [_ Ho]]]. now rewrite Ho.
Qed.

Lemma compile_blank_witness :
  compile (bytes_of " # a comment; Usage(") no_params [] Info_default
  = Some (true, Info_default, []).
Proof.
  apply compile_blank. reflexivity.
Defined.

(** *** Numeric literals *)

Lemma step_num_lit_exact (code : list Z) (st : State) :
  0 <= lit st -> isDigit (byte code (n st)) = true ->
  lit st * 10 + (byte code (n st) - ch "0") < 2 ^ 32 ->
  step_num_lit code st
  = Next (set_lit (lit st * 10 + (byte code (n st) - ch "0")) st).
Proof.
  intros Hl Hd Hv. unfold step_num_lit. cbv zeta. rewrite Hd.
  proj_goal. unfold u32. apply isDigit_range in Hd.
  assert (H0 : ch "0" = 48) by reflexivity. rewrite H0 in *.
  change (2 ^ 32) with 4294967296 in *.
  set (l := lit st) in *. set (c := byte code (n st)) in *.
  destruct (Z.ltb_spec ((l * 10) mod 4294967296) l) as [H1|H1];
    [exfalso; Z.div_mod_to_equations; lia|].
  destruct (Z.ltb_spec (((l * 10) mod 4294967296
                         + (c - 48) mod 4294967296) mod 4294967296) l)
    as [H2|H2]; [exfalso; Z.div_mod_to_equations; lia|].
  change (Next (set_lit (((l * 10) mod 4294967296
                          + (c - 48) mod 4294967296) mod 4294967296) st)
          = Next (set_lit (l * 10 + (c - 48)) st)).
  f_equal. f_equal. Z.div_mod_to_equations. lia.
Qed.

(** X24. One decimal digit more: [lit *= 10; lit += digit], each followed by the
    test [lit < oldLit].  The new value is exact and accepted whenever it is
    below [2^32].  A value of [2^32] or more is refused as long as the old
    value is at most 429496729; above that the product wraps and the wrap is
    only seen where it falls below the old value, so that after 500000000 a
    further digit is accepted and gives 705032704 and that digit. *)
Lemma step_num_lit_digit (code : list Z) (st : State) :
  0 <= lit st < 2 ^ 32 -> isDigit (byte code (n st)) = true ->
  let v := lit st * 10 + (byte code (n st) - ch "0") in
  (v < 2 ^ 32 -> step_num_lit code st = Next (set_lit v st)) /\
  (lit st <= 429496729 -> 2 ^ 32 <= v ->
   step_num_lit code st = Fail (n st) E_Number_overflow) /\
  (step_num_lit code st = Fail (n st) E_Number_overflow \/
   step_num_lit code st = Next (set_lit (v mod 2 ^ 32) st)) /\
  (lit st = 500000000 ->
   step_num_lit code st
   = Next (set_lit (705032704 + (byte code (n st) - ch "0")) st)).
Proof.
  intros Hl Hd. cbv zeta. unfold step_num_lit. cbv zeta. rewrite Hd.
  proj_goal. unfold u32. apply isDigit_range in Hd.
  assert (H0 : ch "0" = 48) by reflexivity. rewrite H0.
  change (2 ^ 32) with 4294967296 in *.
  set (l := lit st) in *. set (c := byte code (n st)) in *.
  assert (Hset : forall a b, set_lit a (set_lit b st) = set_lit a st)
    by reflexivity.
  split; [|split; [|split]].
  - intros Hv.
    destruct (Z.ltb_spec ((l * 10) mod 4294967296) l) as [H1|H1];
      [exfalso; Z.div_mod_to_equations; lia|].
    destruct (Z.ltb_spec (((l * 10) mod 4294967296
                           + (c - 48) mod 4294967296) mod 4294967296) l)
      as [H2|H2]; [exfalso; Z.div_mod_to_equations; lia|].
    rewrite Hset. f_equal. f_equal. Z.div_mod_to_equations. lia.
  - intros Hs Hv.
    destruct (Z.ltb_spec ((l * 10) mod 4294967296) l) as [H1|H1];
      [reflexivity|].
    destruct (Z.ltb_spec (((l * 10) mod 4294967296
                           + (c - 48) mod 4294967296) mod 4294967296) l)
      as [H2|H2]; [reflexivity|].
    exfalso. Z.div_mod_to_equations. lia.
  - destruct (Z.ltb_spec ((l * 10) mod 4294967296) l) as [H1|H1];
      [now left|].
    destruct (Z.ltb_spec (((l * 10) mod 4294967296
                           + (c - 48) mod 4294967296) mod 4294967296) l)
      as [H2|H2]; [now left|].
    right. rewrite Hset. f_equal. f_equal.
    rewrite <- Zplus_mod. reflexivity.
  - intros Hl5. rewrite Hl5.
    change ((500000000 * 10) mod 4294967296) with 705032704.
    change (705032704 <? 500000000) with false. cbv iota.
    rewrite (Z.mod_small (c - 48)) by lia.
    rewrite (Z.mod_small (705032704 + (c - 48))) by lia.
    destruct (Z.ltb_spec (705032704 + (c - 48)) 500000000); [lia|].
    now rewrite Hset.
Qed.

Lemma step_num_lit_digit_witness :
  step_num_lit (bytes_of "7")
    (set_lit 429496729 (set_flags HID_WITHIN_NUM_LIT (initial [])))
  = Fail 0 E_Number_overflow.
Proof.
  refine (proj1 (proj2 (step_num_lit_digit (bytes_of "7")
            (set_lit 429496729 (set_flags HID_WITHIN_NUM_LIT (initial [])))
            _ _)) _ _).
  - cbn. lia.
  - reflexivity.
  - cbn. lia.
  - vm_compute. discriminate.
Defined.

(** The value [hexDigitValue] gives for a hexadecimal digit. *)
Lemma hexDigitValue_range (c : Z) :
  isHexDigit c = true ->
  0 <= hexDigitValue c < 16 /\
  hexDigitValue c
  = (if isDigit c then c - ch "0"
     else if c <? ch "a" then c - ch "A" + 10 else c - ch "a" + 10).
Proof.
  unfold isHexDigit, isDigit, hexDigitValue, u32. char_codes.
  change (2 ^ 32) with 4294967296.
  intros H.
  assert (Hc : 48 <= c <= 57 \/ 65 <= c <= 70 \/ 97 <= c <= 102).
  { revert H.
    repeat match goal with
           | |- context [?a <=? ?b] => destruct (Z.leb_spec a b)
           end; cbn [andb orb]; intros; try discriminate; lia. }
  destruct Hc as [Hc|[Hc|Hc]];
    repeat match goal with
           | |- context [?a <? ?b] => destruct (Z.ltb_spec a b); try lia
           | |- context [?a <=? ?b] => destruct (Z.leb_spec a b); try lia
           end; cbn [andb]; rewrite Z.mod_small by lia; split; lia.
Qed.

(** X25. One hexadecimal digit more: [lit <<= 4], the test [lit < oldLit], and
    the digit.  The new value is exact and accepted while the old one is
    below [2^28]; from there on the shift drops bits and this is only seen
    where the result falls below the old value, so that after 0x1FFFFFFF a
    further digit is accepted and gives 0xFFFFFFF0 and that digit. *)
Lemma step_hex_lit_digit (code : list Z) (st : State) :
  0 <= lit st < 2 ^ 32 -> isHexDigit (byte code (n st)) = true ->
  let h := hexDigitValue (byte code (n st)) in
  (lit st < 2 ^ 28 ->
   step_hex_lit code st = Next (set_lit (lit st * 16 + h) st)) /\
  (step_hex_lit code st = Fail (n st) E_Number_overflow \/
   step_hex_lit code st = Next (set_lit ((lit st * 16) mod 2 ^ 32 + h) st)) /\
  (2 ^ 28 <= lit st ->
   (step_hex_lit code st = Fail (n st) E_Number_overflow <->
    (lit st * 16) mod 2 ^ 32 < lit st)) /\
  (lit st = 0x1FFFFFFF ->
   step_hex_lit code st = Next (set_lit (0xFFFFFFF0 + h) st)).
Proof.
  intros Hl Hd. cbv zeta. unfold step_hex_lit. cbv zeta. rewrite Hd.
  proj_goal. unfold u32.
  destruct (hexDigitValue_range _ Hd) as [Hh _].
  set (h := hexDigitValue (byte code (n st))) in *.
  rewrite Z.shiftl_mul_pow2 by lia.
  change (2 ^ 4) with 16. change (2 ^ 32) with 4294967296 in *.
  change (2 ^ 28) with 268435456.
  set (l := lit st) in *.
  assert (Hset : forall a b, set_lit a (set_lit b st) = set_lit a st)
    by reflexivity.
  assert (Hlor : Z.lor ((l * 16) mod 4294967296) h
                 = (l * 16) mod 4294967296 + h).
  { assert (Hland : Z.land ((l * 16) mod 4294967296) h = 0);
      [|now rewrite <- Z.lxor_lor, <- Z.add_nocarry_lxor by exact Hland].
    apply Z.bits_inj'. intros i Hi. rewrite Z.land_spec, Z.bits_0.
    destruct (Z.ltb_spec i 4) as [Hlt|Hge].
    - replace ((l * 16) mod 4294967296) with (((l mod 268435456)) * 2 ^ 4)
        by (change (2 ^ 4) with 16; Z.div_mod_to_equations; lia).
      rewrite Z.mul_pow2_bits_low by lia. reflexivity.
    - replace (Z.testbit h i) with false; [apply andb_false_r|].
      symmetry. apply Z.bits_above_log2; [lia|].
      destruct (Z.eq_dec h 0) as [->|Hne]; [cbn; lia|].
      apply Z.log2_lt_pow2; [lia|].
      apply Z.lt_le_trans with (m := 16); [lia|].
      change 16 with (2 ^ 4). apply Z.pow_le_mono_r; lia. }
  rewrite Hlor.
  split; [|split; [|split]].
  - intros Hs.
    destruct (Z.ltb_spec ((l * 16) mod 4294967296) l) as [H1|H1];
      [exfalso; Z.div_mod_to_equations; lia|].
    rewrite Hset. f_equal. f_equal. Z.div_mod_to_equations. lia.
  - destruct (Z.ltb_spec ((l * 16) mod 4294967296) l) as [H1|H1];
      [now left|]. right. now rewrite Hset.
  - intros Hs.
    destruct (Z.ltb_spec ((l * 16) mod 4294967296) l) as [H1|H1].
    + split; [intros _; assumption|reflexivity].
    + split; [discriminate|intros H; lia].
  - intros Hl5. rewrite Hl5.
    change ((536870911 * 16) mod 4294967296) with 4294967280.
    change (4294967280 <? 536870911) with false. cbv iota.
    now rewrite Hset.
Qed.

Lemma step_hex_lit_digit_witness :
  step_hex_lit (bytes_of "F")
    (set_lit 0x1FFFFFFF (set_flags HID_WITHIN_HEX_LIT (initial [])))
  = Next (set_lit 0xFFFFFFFF
            (set_lit 0x1FFFFFFF (set_flags HID_WITHIN_HEX_LIT (initial [])))).
Proof.
  refine (proj2 (proj2 (proj2 (step_hex_lit_digit (bytes_of "F")
            (set_lit 0x1FFFFFFF (set_flags HID_WITHIN_HEX_LIT (initial [])))
            _ _))) _).
  - cbn. lia.
  - reflexivity.
  - reflexivity.
Defined.

(** *** A decimal literal as a source *)

Lemma skipn_S_tl (l : list Z) (k : nat) : skipn (S k) l = tl (skipn k l).
Proof.
  revert l. induction k as [|k IH]; intros [|x l]; try reflexivity.
  change (skipn (S (S k)) (x :: l)) with (skipn (S k) l).
  change (skipn (S k) (x :: l)) with (skipn k l). apply IH.
Qed.

Section DecimalLiteral.

Variable code : list Z.
Variable find : list Z -> ParamMatch.
Variable w : list Z.

(** The locals while a literal that started the source is read. *)
Definition num_state (k : nat) (v : Z) : State :=
  set_n k (set_lit v (set_flags HID_WITHIN_NUM_LIT (initial w))).

Lemma num_state_scanning (k : nat) (v : Z) (c : Z) (rest : list Z) :
  skipn k code = c :: rest -> c <> 0 ->
  (k < len code)%nat /\ byte code k = c /\
  scanning code (num_state k v) = true.
Proof.
  intros Hs Hc.
  assert (Hk : (k < len code)%nat).
  { unfold len. destruct (Nat.lt_ge_cases k (List.length code)) as [|Hge];
      [assumption|]. rewrite skipn_all2 in Hs by assumption. discriminate. }
  assert (Hb : byte code k = c).
  { unfold byte. rewrite (skipn_cons_nth code k Hk) in Hs. now inversion Hs. }
  split; [assumption|]. split; [assumption|].
  unfold scanning, num_state. proj_goal. rewrite Hb.
  destruct (Nat.ltb_spec k (len code)); [|lia].
  destruct (Z.eqb_spec c 0); [contradiction|reflexivity].
Qed.

Lemma digits_run (ds : list Z) :
  forall (k : nat) (v : Z) (tail : list Z),
    skipn k code = ds ++ tail ->
    Forall (fun d => isDigit d = true) ds ->
    0 <= v -> decimal_from v ds < 2 ^ 32 ->
    finish code find (num_state k v)
    = finish code find (num_state (k + List.length ds) (decimal_from v ds)).
Proof.
  induction ds as [|d ds IH]; intros k v tail Hs Hd Hv Hlt.
  - cbn [List.length decimal_from fold_left]. now rewrite Nat.add_0_r.
  - inversion Hd as [|? ? Hd1 Hd2]; subst.
    cbn [app] in Hs.
    pose proof (isDigit_range d Hd1) as Hr.
    destruct (num_state_scanning k v d (ds ++ tail) Hs ltac:(lia))
      as [Hk [Hb Hsc]].
    assert (H0 : ch "0" = 48) by reflexivity.
    assert (Hnext : 0 <= v * 10 + (d - ch "0")) by lia.
    assert (Hle : v * 10 + (d - ch "0")
                  <= decimal_from (v * 10 + (d - ch "0")) ds)
      by now apply decimal_from_ge.
    change (decimal_from v (d :: ds))
      with (decimal_from (v * 10 + (d - ch "0")) ds) in *.
    assert (Hstep : step code find (num_state k v)
                    = Next (set_lit (v * 10 + (d - ch "0")) (num_state k v))).
    { change (step code find (num_state k v))
        with (step_num_lit code (num_state k v)).
      pose proof (step_num_lit_exact code (num_state k v)) as H.
      cbn in H. fold (byte code k) in H. rewrite Hb in H.
      apply H; [lia|assumption|lia]. }
    rewrite (finish_next code find (num_state k v) _ eq_refl Hsc Hstep).
    change (advance (set_lit (v * 10 + (d - ch "0")) (num_state k v)))
      with (num_state (S k) (v * 10 + (d - ch "0"))).
    rewrite (IH (S k) (v * 10 + (d - ch "0")) tail); try assumption.
    + cbn [List.length]. now rewrite Nat.add_succ_r.
    + rewrite (skipn_cons_nth code k Hk) in Hs. now inversion Hs.
Qed.

End DecimalLiteral.

(** X26. A source that is one decimal literal, with a value below [2^32],
    followed by nothing or by a blank and nothing but blanks and comments,
    compiles to the bytes of that value: [compile] returns [true] and has
    written what [encodeUnsigned] writes for it. *)
Lemma compile_decimal_literal (ds tail : list Z) (find : list Z -> ParamMatch)
    (w : list Z) (error : Info) :
  ds <> [] -> Forall (fun d => isDigit d = true) ds ->
  decimal ds < 2 ^ 32 ->
  isComment (hd 0 tail) = false -> blank false tail = true ->
  compile (ds ++ tail) find w error
  = Some (true, Info_default, w ++ fst (encodeUnsigned [] (decimal ds))).
Proof.
  intros Hne Hd Hlt Hc Hb. set (code := ds ++ tail).
  assert (Henc : fst (encodeUnsigned w (decimal ds))
                 = w ++ fst (encodeUnsigned [] (decimal ds))).
  { rewrite <- (app_nil_r w) at 1. apply encodeUnsigned_app. }
  rewrite compile_finish.
  destruct ds as [|d ds]; [contradiction|].
  inversion Hd as [|? ? Hd1 Hd2]; subst.
  pose proof (isDigit_range d Hd1) as Hr.
  (* the first digit starts the literal *)
  assert (Hsc0 : scanning code (initial w) = true).
  { unfold scanning, code. cbn. destruct (Z.eqb_spec d 0); [lia|reflexivity]. }
  assert (Hstep0 : step code find (initial w) = Continue (num_state w 0 0)).
  { change (step code find (initial w)) with (step_start code (initial w)).
    unfold step_start. cbv zeta.
    change (byte code (n (initial w))) with d.
    assert (Hi : isItemChar d = false).
    { unfold isItemChar, isAlpha. char_codes. decide_tests. reflexivity. }
    assert (Hx : ((d =? ch "0") && (n (initial w) + 1 <? len code)%nat
                  && (byte code (n (initial w) + 1) =? ch "x")) = false).
    { destruct (d =? ch "0"); [|reflexivity].
      destruct (n (initial w) + 1 <? len code)%nat; [|reflexivity].
      cbn [andb]. apply Z.eqb_neq.
      change (byte code (n (initial w) + 1)) with (nth 0 (ds ++ tail) 0).
      destruct ds as [|d' ds].
      - cbn [app]. destruct tail as [|c tail]; [cbn; discriminate|].
        cbn [nth hd blank] in *.
        destruct (c =? 0) eqn:E0; [apply Z.eqb_eq in E0; subst; discriminate|].
        rewrite Hc in Hb. apply andb_true_iff in Hb. destruct Hb as [Hw _].
        intros ->. discriminate.
      - cbn [app nth]. inversion Hd2 as [|? ? Hd' _]; subst.
        apply isDigit_range in Hd'. change (ch "x") with 120. lia. }
    rewrite Hi, Hx, Hd1.
    replace (d =? ch "{") with false
      by (symmetry; apply Z.eqb_neq; change (ch "{") with 123; lia).
    reflexivity. }
  rewrite (finish_continue code find (initial w) _ eq_refl Hsc0 Hstep0).
  rewrite (digits_run code find w (d :: ds) 0 0 tail eq_refl Hd ltac:(lia) Hlt).
  fold (decimal (d :: ds)). set (V := decimal (d :: ds)) in *.
  set (K := (0 + List.length (d :: ds))%nat).
  assert (Hskip : skipn K code = tail).
  { unfold K, code. cbn [Nat.add]. rewrite skipn_app, skipn_all, Nat.sub_diag.
    reflexivity. }
  assert (Hflush : forall st, flags st = HID_WITHIN_NUM_LIT ->
            colLevel st = 0 -> delimLevel st = 0 ->
            endOfSource code st
            = (set_out (fst (encodeUnsigned (out st) (lit st)))
                 (set_flags HID_START st), None)).
  { intros st Hf Hcl Hdl.
    unfold endOfSource, flushLiteral. rewrite Hf. cbv zeta. proj_goal.
    change (within HID_WITHIN_HEX_LIT HID_WITHIN_NUM_LIT
            || within HID_WITHIN_NUM_LIT HID_WITHIN_NUM_LIT) with true.
    change (clear (Z.lor HID_WITHIN_HEX_LIT HID_WITHIN_NUM_LIT)
              HID_WITHIN_NUM_LIT) with HID_START.
    change (HID_START =? HID_START) with true. cbv iota.
    unfold flushItem. proj_goal.
    change (within HID_WITHIN_ITEM HID_START) with false. cbv iota.
    unfold finalChecks. proj_goal. now rewrite Hcl, Hdl. }
  destruct tail as [|c tail].
  - (* the literal ends the source *)
    rewrite finish_end.
    + cbn [conclude]. rewrite Hflush by reflexivity. rewrite <- Henc.
      reflexivity.
    + unfold scanning, num_state. proj_goal.
      assert (HK : K = len code)
        by (unfold K, code, len; rewrite app_nil_r; reflexivity).
      rewrite HK, Nat.ltb_irrefl. reflexivity.
  - cbn [hd blank] in Hc, Hb.
    destruct (Z.eqb_spec c 0) as [->|Hc0].
    + (* a NUL ends the literal *)
      rewrite finish_end.
      * cbn [conclude]. rewrite Hflush by reflexivity. rewrite <- Henc.
        reflexivity.
      * unfold scanning, num_state. proj_goal.
        assert (HbK : byte code K = 0).
        { unfold byte. rewrite <- (Nat.add_0_r K), nth_skipn_add, Hskip.
          reflexivity. }
        rewrite HbK. apply andb_false_r.
    + (* a blank ends the literal *)
      rewrite Hc in Hb. apply andb_true_iff in Hb. destruct Hb as [Hw Hb].
      destruct (num_state_scanning code w K V c tail Hskip Hc0)
        as [HK [HbK Hsc]].
      pose proof (isWhitespace_not_digit c Hw) as Hnd.
      assert (Hstep : step code find (num_state w K V)
                      = Next (set_out (fst (encodeUnsigned w V))
                                (set_flags HID_START (num_state w K V)))).
      { change (step code find (num_state w K V))
          with (step_num_lit code (num_state w K V)).
        unfold step_num_lit. cbv zeta.
        change (byte code (n (num_state w K V))) with (byte code K).
        rewrite HbK, Hnd.
        change (within HID_WITHIN_ARG_LIST (flags (num_state w K V)))
          with false. cbv iota. rewrite Hw. reflexivity. }
      rewrite (finish_next code find (num_state w K V) _ eq_refl Hsc Hstep).
      destruct (blank_run code find (fst (encodeUnsigned w V))
                  (len code - S K)
                  (advance (set_out (fst (encodeUnsigned w V))
                              (set_flags HID_START (num_state w K V)))))
        as [st' [Hfin Hidle]].
      * reflexivity.
      * change (n (advance _)) with (S K). lia.
      * repeat split; auto.
      * change (flags (advance _) =? HID_WITHIN_COMMENT) with false.
        change (n (advance _)) with (S K).
        rewrite skipn_S_tl, Hskip. exact Hb.
      * rewrite Hfin. cbn [conclude].
        rewrite (endOfSource_idle code _ st' Hidle).
        destruct Hidle as [_ [_ [_ Ho]]]. now rewrite Ho, Henc.
Qed.

Lemma compile_decimal_literal_witness :
  compile (bytes_of "4294967295" ++ bytes_of " ; all ones") no_params []
    Info_default
  = Some (true, Info_default, [255; 255; 255; 255]).
Proof.
  refine (compile_decimal_literal (bytes_of "4294967295")
            (bytes_of " ; all ones") no_params [] Info_default _ _ _ _ _).
  - discriminate.
  - repeat constructor.
  - vm_compute. reflexivity.
  - reflexivity.
  - reflexivity.
Defined.

(** *** A parameter as a source *)

Section ParameterSource.

Variable code : list Z.
Variable find : list Z -> ParamMatch.
Variable w : list Z.

(** The locals while the name of a parameter that started the source is
    read: [k] bytes of the name have been passed. *)
Definition param_state (k : nat) : State :=
  set_n (S k) (set_tArg (Token.mk 1 k) (set_flags HID_WITHIN_PARAM (initial w))).

Lemma param_state_byte (k : nat) (c : Z) (rest : list Z) :
  skipn (S k) code = c :: rest ->
  (S k < len code)%nat /\ byte code (S k) = c.
Proof.
  intros Hs.
  assert (Hk : (S k < len code)%nat).
  { unfold len. destruct (Nat.lt_ge_cases (S k) (List.length code)) as [|Hge];
      [assumption|]. rewrite skipn_all2 in Hs by assumption. discriminate. }
  split; [assumption|].
  unfold byte. rewrite (skipn_cons_nth code (S k) Hk) in Hs. now inversion Hs.
Qed.

Lemma name_run (name : list Z) :
  forall (k : nat) (rest : list Z),
    skipn (S k) code = name ++ rest ->
    Forall (fun c => c <> ch "}" /\ c <> 0) name ->
    finish code find (param_state k)
    = finish code find (param_state (k + List.length name)).
Proof.
  induction name as [|c name IH]; intros k rest Hs Hn.
  - cbn [List.length]. now rewrite Nat.add_0_r.
  - inversion Hn as [|? ? [Hc1 Hc2] Hn']; subst. cbn [app] in Hs.
    destruct (param_state_byte k c (name ++ rest) Hs) as [Hk Hb].
    assert (Hsc : scanning code (param_state k) = true).
    { unfold scanning. change (n (param_state k)) with (S k). rewrite Hb.
      destruct (Nat.ltb_spec (S k) (len code)); [|lia].
      destruct (Z.eqb_spec c 0); [contradiction|reflexivity]. }
    assert (Hstep : step code find (param_state k)
                    = Next (set_tArg (Token.mk 1 (S k)) (param_state k))).
    { change (step code find (param_state k))
        with (step_param code find (param_state k)).
      unfold step_param. cbv zeta.
      change (n (param_state k)) with (S k). rewrite Hb.
      destruct (Z.eqb_spec c (ch "}")); [contradiction|reflexivity]. }
    rewrite (finish_next code find (param_state k) _ eq_refl Hsc Hstep).
    change (advance (set_tArg (Token.mk 1 (S k)) (param_state k)))
      with (param_state (S k)).
    rewrite (IH (S k) rest); [|now rewrite skipn_S_tl, Hs|assumption].
    cbn [List.length]. now rewrite Nat.add_succ_r.
Qed.

End ParameterSource.

(** X27. A source that is one parameter, [{name}], followed by nothing but
    blanks and comments: [compile] looks the bytes between the braces up
    with [find].  A name that is not found, a negative value and a value
    above 0xFFFFFFFF are refused at the closing brace, each with its own
    message and nothing written; any other value is written as
    [encodeUnsigned] writes it. *)
Lemma compile_parameter (name tail : list Z) (find : list Z -> ParamMatch)
    (w : list Z) (error : Info) :
  Forall (fun c => c <> ch "}" /\ c <> 0) name -> blank false tail = true ->
  let code := ch "{" :: name ++ ch "}" :: tail in
  let pos := S (List.length name) in
  let refused msg :=
    Some (false, fst (ErrorWriter_at code error pos msg), w) in
  compile code find w error
  = if negb (valid (find name))
    then refused E_Expected_valid_parameter_name_here
    else if pm_value (find name) <? 0
    then refused E_Negative_numbers_are_not_allowed_in_this_context
    else if pm_value (find name) >? 0xFFFFFFFF
    then refused E_Parameter_value_out_of_range
    else Some (true, Info_default,
               w ++ fst (encodeUnsigned [] (pm_value (find name)))).
Proof.
  intros Hn Hb. cbv zeta. set (code := ch "{" :: name ++ ch "}" :: tail).
  set (K := List.length name).
  rewrite compile_finish.
  assert (Hsc0 : scanning code (initial w) = true) by reflexivity.
  assert (Hstep0 : step code find (initial w)
                   = Next (set_tArg (Token.mk 1 0)
                             (set_flags HID_WITHIN_PARAM (initial w))))
    by reflexivity.
  rewrite (finish_next code find (initial w) _ eq_refl Hsc0 Hstep0).
  change (advance (set_tArg (Token.mk 1 0)
                     (set_flags HID_WITHIN_PARAM (initial w))))
    with (param_state w 0).
  rewrite (name_run code find w name 0 (ch "}" :: tail) eq_refl Hn).
  fold K. cbn [Nat.add].
  assert (Hskip : skipn (S K) code = ch "}" :: tail).
  { unfold code, K. cbn [skipn]. rewrite skipn_app, skipn_all, Nat.sub_diag.
    reflexivity. }
  destruct (param_state_byte code K (ch "}") tail Hskip) as [HK Hb'].
  assert (Hsc : scanning code (param_state w K) = true).
  { unfold scanning. change (n (param_state w K)) with (S K). rewrite Hb'.
    destruct (Nat.ltb_spec (S K) (len code)); [reflexivity|lia]. }
  assert (Htok : token_bytes code (Token.mk 1 K) = name).
  { unfold token_bytes, code, K. cbn [Token.start Token.length skipn].
    rewrite firstn_app, firstn_all, Nat.sub_diag. cbn [firstn].
    apply app_nil_r. }
  assert (Hstep : step code find (param_state w K)
          = if negb (valid (find name))
            then Fail (S K) E_Expected_valid_parameter_name_here
            else if pm_value (find name) <? 0
            then Fail (S K) E_Negative_numbers_are_not_allowed_in_this_context
            else if pm_value (find name) >? 0xFFFFFFFF
            then Fail (S K) E_Parameter_value_out_of_range
            else Next (set_out (fst (encodeUnsigned w
                                       (u32 (pm_value (find name)))))
                         (set_flags HID_START (param_state w K)))).
  { change (step code find (param_state w K))
      with (step_param code find (param_state w K)).
    unfold step_param. cbv zeta.
    change (n (param_state w K)) with (S K). rewrite Hb'.
    change (ch "}" =? ch "}") with true. cbv iota.
    change (tArg (set_flags _ (param_state w K))) with (Token.mk 1 K).
    rewrite Htok.
    destruct (negb (valid (find name))); [reflexivity|].
    change (within HID_WITHIN_ARG_LIST
              (flags (set_flags (clear HID_WITHIN_PARAM
                                   (flags (param_state w K)))
                        (param_state w K)))) with false. cbv iota.
    destruct (pm_value (find name) <? 0); [reflexivity|].
    destruct (pm_value (find name) >? 4294967295); reflexivity. }
  destruct (negb (valid (find name)));
    [now rewrite (finish_fail code find _ _ _ Hsc Hstep)|].
  destruct (Z.ltb_spec (pm_value (find name)) 0) as [Hneg|Hpos];
    [now rewrite (finish_fail code find _ _ _ Hsc Hstep)|].
  destruct (Z.gtb_spec (pm_value (find name)) 4294967295) as [Hbig|Hsmall];
    [now rewrite (finish_fail code find _ _ _ Hsc Hstep)|].
  rewrite (finish_next code find (param_state w K) _ eq_refl Hsc Hstep).
  assert (Hu : u32 (pm_value (find name)) = pm_value (find name))
    by (unfold u32; apply Z.mod_small; change (2 ^ 32) with 4294967296; lia).
  rewrite Hu in *.
  set (w' := fst (encodeUnsigned w (pm_value (find name)))).
  assert (Henc : w' = w ++ fst (encodeUnsigned [] (pm_value (find name)))).
  { unfold w'. rewrite <- (app_nil_r w) at 1. apply encodeUnsigned_app. }
  destruct (blank_run code find w' (len code - S (S K))
              (advance (set_out w' (set_flags HID_START (param_state w K)))))
    as [st' [Hfin Hidle]].
  - reflexivity.
  - change (n (advance _)) with (S (S K)). lia.
  - repeat split; auto.
  - change (flags (advance _) =? HID_WITHIN_COMMENT) with false.
    change (n (advance _)) with (S (S K)).
    rewrite skipn_S_tl, Hskip. exact Hb.
  - rewrite Hfin. cbn [conclude]. rewrite (endOfSource_idle code _ st' Hidle).
    destruct Hidle as [_ [_ [_ Ho]]]. now rewrite Ho, Henc.
Qed.

Lemma compile_parameter_witness :
  compile (bytes_of "{arg1}") (Source_find [mkParam "arg1" 256]) []
    Info_default
  = Some (true, Info_default, [0; 1]).
Proof.
  refine (compile_parameter (bytes_of "arg1") [] (Source_find [mkParam "arg1" 256])
            [] Info_default _ _).
  - repeat constructor; discriminate.
  - reflexivity.
Defined.

(** *** An item with a number as a source *)

Lemma isItemChar_not_nul (c : Z) : isItemChar c = true -> c <> 0.
Proof.
  unfold isItemChar, isAlpha. char_codes. intros H ->. discriminate.
Qed.

Lemma isDigit_not_item (c : Z) : isDigit c = true -> isItemChar c = false.
Proof.
  intros H. apply isDigit_range in H. unfold isItemChar, isAlpha. char_codes.
  decide_tests. reflexivity.
Qed.

Lemma itemMap_resolves (e : Encoding) (code : list Z) (token : Token)
    (res : Encoding) (error : EMessage) :
  In e itemMap_tbl -> Token.length token <> 0%nat ->
  List.map toUpper (token_bytes code token)
  = List.map toUpper (bytes_of (Encoding.name e)) ->
  findEncoding code token itemMap_tbl res error = (Some e, E_NO_ERROR).
Proof.
  intros He Hlen Htok. unfold findEncoding.
  destruct (Nat.eqb_spec (Token.length token) 0); [contradiction|].
  rewrite (findEncoding_from_first_match code token res error itemMap_tbl 0)
    by (apply plain_table_Forall; reflexivity).
  assert (Hfm : first_match (token_bytes code token) itemMap_tbl
                = first_match (bytes_of (Encoding.name e)) itemMap_tbl).
  { apply find_same. intros m. now rewrite !equalsI_bytes_eqb, Htok. }
  rewrite Hfm.
  assert (Hp : plain_name e).
  { apply has_hash_false.
    assert (Hall : forallb (fun m => negb (has_hash (bytes_of (Encoding.name m))))
                     itemMap_tbl = true) by reflexivity.
    rewrite forallb_forall in Hall. specialize (Hall e He).
    now apply negb_true_iff in Hall. }
  destruct (shadowed_or_found itemMap_tbl e He Hp) as [Hs|Hs].
  - change (shadowed_entries itemMap_tbl) with (shadowed_entries (entries itemMap))
      in Hs.
    rewrite source_maps_shadowed in Hs. contradiction.
  - now rewrite Hs.
Qed.

Section NumericItem.

Variable code : list Z.
Variable find : list Z -> ParamMatch.
Variable w : list Z.

(** The item: an entry of the item map with a plain number as argument. *)
Variable nm : string.
Variable v : Z.
Let e : Encoding := encA nm v numArg.

(** The length of the item name in the source. *)
Variable K : nat.

(** The locals while the item name is read, and in its argument list. *)
Definition item_state (k : nat) : State :=
  set_n k (set_tItem (Token.mk 0 k) (set_flags HID_WITHIN_ITEM (initial w))).

Definition args_state (fl lt ar : Z) (ha : bool) (i : nat) : State :=
  mkState 0 0 (-1) 0 0 (Token.mk 0 K) (Token.mk 0 0) false ha false false
    (Some e) None None fl v ar lt i w.

Lemma state_byte (k : nat) (c : Z) (rest : list Z) :
  skipn k code = c :: rest -> (k < len code)%nat /\ byte code k = c.
Proof.
  intros Hs.
  assert (Hk : (k < len code)%nat).
  { unfold len. destruct (Nat.lt_ge_cases k (List.length code)) as [|Hge];
      [assumption|]. rewrite skipn_all2 in Hs by assumption. discriminate. }
  split; [assumption|].
  unfold byte. rewrite (skipn_cons_nth code k Hk) in Hs. now inversion Hs.
Qed.

Lemma item_run (name : list Z) :
  forall (k : nat) (rest : list Z),
    skipn k code = name ++ rest ->
    Forall (fun c => isItemChar c = true) name ->
    finish code find (item_state k)
    = finish code find (item_state (k + List.length name)).
Proof.
  induction name as [|c name IH]; intros k rest Hs Hn.
  - cbn [List.length]. now rewrite Nat.add_0_r.
  - inversion Hn as [|? ? Hc Hn']; subst. cbn [app] in Hs.
    destruct (state_byte k c (name ++ rest) Hs) as [Hk Hb].
    pose proof (isItemChar_not_nul c Hc) as Hc0.
    assert (Hsc : scanning code (item_state k) = true).
    { unfold scanning. change (n (item_state k)) with k. rewrite Hb.
      destruct (Nat.ltb_spec k (len code)); [|lia].
      destruct (Z.eqb_spec c 0); [contradiction|reflexivity]. }
    assert (Hstep : step code find (item_state k)
                    = Next (set_tItem (Token.mk 0 (S k)) (item_state k))).
    { change (step code find (item_state k))
        with (step_item code (item_state k)).
      unfold step_item. cbv zeta.
      change (n (item_state k)) with k. rewrite Hb, Hc. reflexivity. }
    rewrite (finish_next code find (item_state k) _ eq_refl Hsc Hstep).
    change (advance (set_tItem (Token.mk 0 (S k)) (item_state k)))
      with (item_state (S k)).
    rewrite (IH (S k) rest); [|now rewrite skipn_S_tl, Hs|assumption].
    cbn [List.length]. now rewrite Nat.add_succ_r.
Qed.

(** The opening parenthesis ends the name. *)
Lemma item_resolved :
  byte code K = ch "(" ->
  findEncoding code (Token.mk 0 K) itemMap_tbl endOfMap E_Invalid_item_name
  = (Some e, E_NO_ERROR) ->
  equalsI (token_bytes code (Token.mk 0 K)) (bytes_of "Usage") = false ->
  step code find (item_state K)
  = Next (args_state HID_WITHIN_ARG_LIST 0 0 false K).
Proof.
  intros Hb Hres Hu.
  change (step code find (item_state K)) with (step_item code (item_state K)).
  unfold step_item. cbv zeta.
  change (n (item_state K)) with K. rewrite Hb.
  change (isItemChar (ch "(")) with false.
  change (isWhitespace (ch "(")) with false.
  change (ch "(" =? ch "(") with true. cbv iota. cbn [orb]. cbv iota.
  match goal with
  | |- context [findEncoding code ?t _ _ _] => change t with (Token.mk 0 K)
  end.
  rewrite Hres. unfold itemResolved.
  change (arg_is e colArgMap) with false.
  change (arg_is e endCol) with false. cbv iota.
  match goal with
  | |- context [token_bytes code ?t] => change t with (Token.mk 0 K)
  end.
  rewrite Hu.
  match goal with
  | |- context [byte code ?i] => change i with K
  end.
  rewrite Hb. reflexivity.
Qed.

Lemma scanning_at (st : State) (c : Z) (rest : list Z) :
  skipn (n st) code = c :: rest -> c <> 0 ->
  byte code (n st) = c /\ scanning code st = true.
Proof.
  intros Hs Hc. destruct (state_byte (n st) c rest Hs) as [Hk Hb].
  split; [assumption|]. unfold scanning. rewrite Hb.
  destruct (Nat.ltb_spec (n st) (len code)); [|lia].
  destruct (Z.eqb_spec c 0); [contradiction|reflexivity].
Qed.

(** The first digit opens the number. *)
Lemma number_opened (i : nat) (c : Z) :
  byte code i = c -> isDigit c = true -> byte code (i + 1) <> ch "x" ->
  step code find (args_state HID_WITHIN_ARG_LIST 0 0 false i)
  = Continue (args_state (raise HID_WITHIN_NUM_LIT HID_WITHIN_ARG_LIST)
                0 0 false i).
Proof.
  intros Hb Hd Hx.
  change (step code find (args_state HID_WITHIN_ARG_LIST 0 0 false i))
    with (step_arg_list code (args_state HID_WITHIN_ARG_LIST 0 0 false i)).
  unfold step_arg_list. cbv zeta.
  change (hasArg (args_state HID_WITHIN_ARG_LIST 0 0 false i)) with false.
  cbv iota.
  change (n (args_state HID_WITHIN_ARG_LIST 0 0 false i)) with i.
  rewrite Hb, (isDigit_not_item c Hd).
  apply Z.eqb_neq in Hx. rewrite Hx, andb_false_r.
  pose proof (isDigit_range c Hd) as Hr.
  replace (c =? ch "-") with false
    by (symmetry; apply Z.eqb_neq; change (ch "-") with 45; lia).
  rewrite Hd. reflexivity.
Qed.

(** The digits of the number. *)
Lemma argument_digits (ds : list Z) :
  forall (i : nat) (lt : Z) (rest : list Z),
    skipn i code = ds ++ rest ->
    Forall (fun d => isDigit d = true) ds ->
    0 <= lt -> decimal_from lt ds < 2 ^ 32 ->
    finish code find
      (args_state (raise HID_WITHIN_NUM_LIT HID_WITHIN_ARG_LIST) lt 0 false i)
    = finish code find
        (args_state (raise HID_WITHIN_NUM_LIT HID_WITHIN_ARG_LIST)
           (decimal_from lt ds) 0 false (i + List.length ds)).
Proof.
  induction ds as [|d ds IH]; intros i lt rest Hs Hd Hv Hlt.
  - cbn [List.length decimal_from fold_left]. now rewrite Nat.add_0_r.
  - inversion Hd as [|? ? Hd1 Hd2]; subst.
    cbn [app] in Hs.
    pose proof (isDigit_range d Hd1) as Hr.
    set (st := args_state (raise HID_WITHIN_NUM_LIT HID_WITHIN_ARG_LIST)
                 lt 0 false i).
    destruct (scanning_at st d (ds ++ rest) Hs ltac:(lia)) as [Hb Hsc].
    assert (H0 : ch "0" = 48) by reflexivity.
    assert (Hnext : 0 <= lt * 10 + (d - ch "0")) by lia.
    assert (Hle : lt * 10 + (d - ch "0")
                  <= decimal_from (lt * 10 + (d - ch "0")) ds)
      by now apply decimal_from_ge.
    change (decimal_from lt (d :: ds))
      with (decimal_from (lt * 10 + (d - ch "0")) ds) in *.
    assert (Hstep : step code find st
                    = Next (set_lit (lt * 10 + (d - ch "0")) st)).
    { change (step code find st) with (step_num_lit code st).
      pose proof (step_num_lit_exact code st) as H.
      rewrite Hb in H. apply H; [exact Hv|assumption|].
      change (lit st) with lt. lia. }
    rewrite (finish_next code find st _ eq_refl Hsc Hstep).
    change (advance (set_lit (lt * 10 + (d - ch "0")) st))
      with (args_state (raise HID_WITHIN_NUM_LIT HID_WITHIN_ARG_LIST)
              (lt * 10 + (d - ch "0")) 0 false (S i)).
    rewrite (IH (S i) (lt * 10 + (d - ch "0")) rest); try assumption.
    + cbn [List.length]. now rewrite Nat.add_succ_r.
    + change (n st) with i in Hs. now rewrite skipn_S_tl, Hs.
Qed.

(** The closing parenthesis ends the number, which becomes the argument. *)
Lemma number_closed (i : nat) (V : Z) :
  byte code i = ch ")" ->
  step code find
    (args_state (raise HID_WITHIN_NUM_LIT HID_WITHIN_ARG_LIST) V 0 false i)
  = Continue (args_state HID_WITHIN_ARG_LIST V V true i).
Proof.
  intros Hb.
  change (step code find
            (args_state (raise HID_WITHIN_NUM_LIT HID_WITHIN_ARG_LIST)
               V 0 false i))
    with (step_num_lit code
            (args_state (raise HID_WITHIN_NUM_LIT HID_WITHIN_ARG_LIST)
               V 0 false i)).
  unfold step_num_lit. cbv zeta.
  change (n (args_state (raise HID_WITHIN_NUM_LIT HID_WITHIN_ARG_LIST)
               V 0 false i)) with i.
  rewrite Hb. reflexivity.
Qed.

(** It also ends the argument list: the item is written. *)
Lemma item_written (i : nat) (V : Z) :
  byte code i = ch ")" ->
  exists st',
    step code find (args_state HID_WITHIN_ARG_LIST V V true i) = Next st' /\
    flags st' = HID_START /\ colLevel st' = 0 /\ delimLevel st' = 0 /\
    n st' = i /\
    out st'
    = fst (encodeUnsigned
             (fst (encodeUnsigned w
                     (Z.lor v (encodedSizeValue (encodedSize_u32 V))))) V).
Proof.
  intros Hb.
  change (step code find (args_state HID_WITHIN_ARG_LIST V V true i))
    with (step_arg_list code (args_state HID_WITHIN_ARG_LIST V V true i)).
  unfold step_arg_list. cbv zeta.
  change (hasArg (args_state HID_WITHIN_ARG_LIST V V true i)) with true.
  cbv iota.
  change (n (args_state HID_WITHIN_ARG_LIST V V true i)) with i.
  rewrite Hb. change (ch ")" =? ch ")") with true. cbv iota.
  unfold closeArgList. cbv zeta.
  repeat match goal with
         | |- context [arg_is (deref (encMap ?s)) ?t] =>
           change (arg_is (deref (encMap s)) t) with false
         end.
  cbn [orb]. cbv iota.
  repeat match goal with
         | |- context [Encoding.value (deref (encMap ?s))] =>
           change (Encoding.value (deref (encMap s))) with v
         end.
  destruct (v =? 116); [|destruct (v =? 148)];
    (eexists; split; [reflexivity|]; repeat split; reflexivity).
Qed.

End NumericItem.

Lemma skipn_length_app (pre rest : list Z) :
  skipn (List.length pre) (pre ++ rest) = rest.
Proof.
  rewrite skipn_app, skipn_all, Nat.sub_diag. reflexivity.
Qed.

Lemma numeric_item_core (nm : string) (v : Z) (name ds tail : list Z)
    (find : list Z -> ParamMatch) (w : list Z) (error : Info) :
  In (encA nm v numArg) itemMap_tbl ->
  bytes_eqb (List.map toUpper (bytes_of nm))
    (List.map toUpper (bytes_of "Usage")) = false ->
  (forall s, In s [1; 2; 3] ->
             fst (encodeUnsigned [] (Z.lor v s)) = [Z.lor v s]) ->
  name <> [] -> Forall (fun c => isItemChar c = true) name ->
  List.map toUpper name = List.map toUpper (bytes_of nm) ->
  ds <> [] -> Forall (fun d => isDigit d = true) ds ->
  decimal ds < 2 ^ 32 -> blank false tail = true ->
  compile (name ++ ch "(" :: ds ++ ch ")" :: tail) find w error
  = Some (true, Info_default,
          w ++ Z.lor v (encodedSizeValue (encodedSize_u32 (decimal ds)))
            :: fst (encodeUnsigned [] (decimal ds))).
Proof.
  intros Hin Hnu Hv Hne Hname Hup Hdne Hd Hlt Hblank.
  set (code := name ++ ch "(" :: ds ++ ch ")" :: tail).
  set (K := List.length name). set (V := decimal ds) in *.
  assert (HsK : skipn K code = ch "(" :: ds ++ ch ")" :: tail)
    by apply skipn_length_app.
  assert (HsD : skipn (S K) code = ds ++ ch ")" :: tail)
    by now rewrite skipn_S_tl, HsK.
  assert (HsP : skipn (S K + List.length ds) code = ch ")" :: tail).
  { rewrite Nat.add_comm, <- skipn_skipn, HsD. apply skipn_length_app. }
  assert (HsT : skipn (S (S K + List.length ds)) code = tail)
    by now rewrite skipn_S_tl, HsP.
  rewrite compile_finish.
  (* the name *)
  destruct name as [|c0 name']; [contradiction|].
  pose proof (Forall_inv Hname) as Hc0. cbv beta in Hc0.
  pose proof (Forall_inv_tail Hname) as Hname'.
  assert (Hstep0 : step code find (initial w)
                   = Next (set_tItem (Token.mk 0 1)
                             (set_flags HID_WITHIN_ITEM (initial w)))).
  { change (step code find (initial w)) with (step_start code (initial w)).
    unfold step_start. cbv zeta.
    change (byte code (n (initial w))) with c0. rewrite Hc0. reflexivity. }
  assert (Hsc0 : scanning code (initial w) = true).
  { apply (scanning_at code (initial w) c0
             (name' ++ ch "(" :: ds ++ ch ")" :: tail) eq_refl).
    now apply isItemChar_not_nul. }
  rewrite (finish_next code find (initial w) _ eq_refl Hsc0 Hstep0).
  change (advance (set_tItem (Token.mk 0 1)
                     (set_flags HID_WITHIN_ITEM (initial w))))
    with (item_state w 1).
  rewrite (item_run code find w name' 1 (ch "(" :: ds ++ ch ")" :: tail)
             eq_refl Hname').
  change (1 + List.length name')%nat with K.
  (* the opening parenthesis *)
  destruct (scanning_at code (item_state w K) (ch "(") _ HsK ltac:(discriminate))
    as [HbK HscK].
  assert (Htok : token_bytes code (Token.mk 0 K) = c0 :: name').
  { unfold token_bytes, code, K. cbn [Token.length Token.start skipn].
    rewrite firstn_app, firstn_all, Nat.sub_diag.
    change (firstn 0 _) with (@nil Z). apply app_nil_r. }
  assert (Hres : findEncoding code (Token.mk 0 K) itemMap_tbl endOfMap
                   E_Invalid_item_name
                 = (Some (encA nm v numArg), E_NO_ERROR)).
  { apply itemMap_resolves; [assumption|discriminate|].
    rewrite Htok. exact Hup. }
  assert (Hu : equalsI (token_bytes code (Token.mk 0 K)) (bytes_of "Usage")
               = false)
    by now rewrite equalsI_bytes_eqb, Htok, Hup.
  rewrite (finish_next code find (item_state w K) _ eq_refl HscK
             (item_resolved code find w nm v K HbK Hres Hu)).
  change (advance (args_state w nm v K HID_WITHIN_ARG_LIST 0 0 false K))
    with (args_state w nm v K HID_WITHIN_ARG_LIST 0 0 false (S K)).
  (* the number *)
  destruct ds as [|d ds']; [contradiction|].
  pose proof (Forall_inv Hd) as Hd0. cbv beta in Hd0.
  pose proof (Forall_inv_tail Hd) as Hd'.
  pose proof (isDigit_range d Hd0) as Hr.
  destruct (scanning_at code
              (args_state w nm v K HID_WITHIN_ARG_LIST 0 0 false (S K))
              d _ HsD ltac:(lia)) as [HbD HscD].
  assert (Hx : byte code (S K + 1) <> ch "x").
  { replace (S K + 1)%nat with (S (S K)) by lia.
    assert (Hs2 : skipn (S (S K)) code = ds' ++ ch ")" :: tail)
      by now rewrite skipn_S_tl, HsD.
    destruct ds' as [|d' ds''].
    - destruct (state_byte code (S (S K)) _ _ Hs2) as [_ ->]. discriminate.
    - destruct (state_byte code (S (S K)) _ _ Hs2) as [_ ->].
      pose proof (isDigit_range d' (Forall_inv Hd')) as Hr'.
      change (ch "x") with 120. lia. }
  rewrite (finish_continue code find
             (args_state w nm v K HID_WITHIN_ARG_LIST 0 0 false (S K)) _
             eq_refl HscD
             (number_opened code find w nm v K (S K) d HbD Hd0 Hx)).
  rewrite (argument_digits code find w nm v K (d :: ds') (S K) 0
             (ch ")" :: tail) HsD Hd ltac:(lia) Hlt).
  fold (decimal (d :: ds')). fold V.
  (* the closing parenthesis *)
  set (P := (S K + List.length (d :: ds'))%nat) in *.
  destruct (scanning_at code
              (args_state w nm v K
                 (raise HID_WITHIN_NUM_LIT HID_WITHIN_ARG_LIST) V 0 false P)
              (ch ")") _ HsP ltac:(discriminate)) as [HbP HscP].
  rewrite (finish_continue code find
             (args_state w nm v K
                (raise HID_WITHIN_NUM_LIT HID_WITHIN_ARG_LIST) V 0 false P) _
             eq_refl HscP
             (number_closed code find w nm v K P V HbP)).
  destruct (item_written code find w nm v K P V HbP)
    as [st' [Hstep [Hf [Hcl [Hdl [Hn Ho]]]]]].
  rewrite (finish_next code find
             (args_state w nm v K HID_WITHIN_ARG_LIST V V true P) st'
             eq_refl HscP Hstep).
  (* what follows *)
  destruct (blank_run code find (out st') (len code - S P) (advance st'))
    as [st'' [Hfin Hidle]].
  - cbn [advance n set_n]. now rewrite Hn.
  - cbn [advance n set_n]. rewrite Hn.
    apply (scanning_inside code _ HscP).
  - unfold idle. cbn [advance flags colLevel delimLevel out set_n].
    repeat split; auto.
  - cbn [advance flags n set_n]. rewrite Hf, Hn, HsT. exact Hblank.
  - rewrite Hfin. cbn [conclude].
    rewrite (endOfSource_idle code _ st'' Hidle).
    destruct Hidle as [_ [_ [_ Ho']]]. rewrite Ho', Ho.
    assert (Hs : In (encodedSizeValue (encodedSize_u32 V)) [1; 2; 3]).
    { unfold encodedSize_u32.
      destruct (V >? 65535); [|destruct (V >? 255)]; cbn; auto. }
    rewrite <- (app_nil_r w) at 1.
    rewrite encodeUnsigned_app, (Hv _ Hs).
    rewrite encodeUnsigned_app.
    change [Z.lor v (encodedSizeValue (encodedSize_u32 V))]
      with ([Z.lor v (encodedSizeValue (encodedSize_u32 V))] ++ []).
    rewrite (encodeUnsigned_app [_] [] V). reflexivity.
Qed.

Lemma upper_letters (name up : list Z) :
  List.map toUpper name = up ->
  forallb (fun c => (65 <=? c) && (c <=? 90)) up = true ->
  Forall (fun c => isItemChar c = true) name.
Proof.
  revert up. induction name as [|c name IH]; intros up Hup Hall;
    [constructor|].
  cbn [List.map] in Hup. subst up. cbn [forallb] in Hall.
  apply andb_true_iff in Hall. destruct Hall as [Hc Hall].
  constructor; [|now apply (IH _ eq_refl)].
  apply andb_true_iff in Hc. destruct Hc as [H1 H2].
  apply Z.leb_le in H1, H2.
  assert (Hr : 65 <= c <= 90 \/ 97 <= c <= 122).
  { revert H1 H2. unfold toUpper. char_codes.
    destruct (Z.leb_spec 97 c); destruct (Z.leb_spec c 122); cbn [andb];
      lia. }
  unfold isItemChar, isAlpha. char_codes.
  destruct Hr; decide_tests; reflexivity.
Qed.

(** X28. An item of the item map that takes a plain number (ReportSize,
    ReportId, ReportCount, and the Designator and String items), written in
    any case with a decimal number below [2^32] in parentheses, and followed
    by nothing but blanks and comments, compiles to the item prefix and
    the number: [compile] returns [true] and has written one byte, the
    item's value with the size code of the number in its two low bits,
    and then the bytes [encodeUnsigned] writes for the number. *)
Lemma compile_numeric_item (e : Encoding) (name ds tail : list Z)
    (find : list Z -> ParamMatch) (w : list Z) (error : Info) :
  In e itemMap_tbl -> Encoding.arg e = Some numArg ->
  List.map toUpper name = List.map toUpper (bytes_of (Encoding.name e)) ->
  ds <> [] -> Forall (fun d => isDigit d = true) ds ->
  decimal ds < 2 ^ 32 -> blank false tail = true ->
  compile (name ++ ch "(" :: ds ++ ch ")" :: tail) find w error
  = Some (true, Info_default,
          w ++ Z.lor (Encoding.value e)
                 (encodedSizeValue (encodedSize_u32 (decimal ds)))
            :: fst (encodeUnsigned [] (decimal ds))).
Proof.
  intros Hin Harg Hup Hdne Hd Hlt Hblank.
  pose proof Hin as Hin0. unfold itemMap_tbl in Hin. cbn [In] in Hin.
  repeat (destruct Hin as [<-|Hin]; [try discriminate Harg|]);
    try contradiction;
    (match type of Hin0 with
     | In (encA ?nm ?v numArg) _ => apply (numeric_item_core nm v)
     end;
     [ assumption
     | reflexivity
     | intros s [<-|[<-|[<-|[]]]]; reflexivity
     | intros ->; discriminate Hup
     | apply (upper_letters _ _ Hup); reflexivity
     | assumption | assumption | assumption | assumption | assumption ]).
Qed.

Lemma compile_numeric_item_witness :
  compile (bytes_of "reportCOUNT" ++ ch "(" :: bytes_of "300"
             ++ ch ")" :: bytes_of " # two bytes")
    no_params [] Info_default
  = Some (true, Info_default, [150; 44; 1]).
Proof.
  refine (compile_numeric_item (encA "ReportCount" 148 numArg)
            (bytes_of "reportCOUNT") (bytes_of "300")
            (bytes_of " # two bytes") no_params [] Info_default
            _ _ _ _ _ _ _).
  - vm_compute. tauto.
  - reflexivity.
  - reflexivity.
  - discriminate.
  - repeat constructor.
  - vm_compute. reflexivity.
  - reflexivity.
Defined.
